(** * Slot allocation, pricing and promo-code ledger of the cricket court
      booking backend: a shallow embedding and its verified properties.

    The embedding follows the TypeScript sources:
    - [src/services/booking.service.ts]   (module [BookingService])
    - [src/services/pricing.service.ts]   (module [PricingService])
    - [src/services/promoCode.service.ts] (module [PromoCodeService], and the
      older copy of the pricing service kept at the end of that file, module
      [LegacyPricing])
    - [src/controllers/booking.controller.ts] (module [BookingController])

    Modelling conventions.
    - A JavaScript [Date] is its time value: an integer number of
      milliseconds since the epoch (UTC).  Local-time accessors use a fixed
      offset [tzOffset] (no daylight saving).
    - A JavaScript [number] holding an amount of money or a duration is the
      rational it denotes ([Q]); the arithmetic on amounts is that of
      binary64 ([JsNumber]: every operator rounds its exact result to the
      nearest binary64 number, a tie going to the even significand), and a
      rational that is not a binary64 number stands for the nearest one, as
      a decimal literal does.  Infinity and NaN are outside the model: the
      properties that depend on magnitudes bound them.  Minute and
      millisecond counts are integers ([Z]); their quotients by 60 and by
      3600000 are multiples of 1/2 wherever a result is returned, hence
      exact.
    - A Mongo collection is the list of its documents in natural order; an
      in-memory [Map] or object used as a dictionary is a [gmap].
    - A document id is the string that [toString()] gives for its
      [ObjectId]: 24 hexadecimal digits, the letters in lower case.  A query
      compares ids as [ObjectId]s, which on ids in that form is the equality
      of the strings; the lookups by id ([findBookingById], [findById],
      [findCourtById], [singleQuery], [batchQuery]) are written for ids in
      that form, and the properties of the endpoints that take an id from
      the request either assume it in that form or assume a document found.
      The controller's [checkBatchAvailability] casts the ids it is sent.
    - The setters of a schema ([trim], [uppercase], [lowercase]) apply to
      the values stored and to the values of a query filter; a path that the
      schema does not declare is not stored.  Strings are strings of ASCII
      characters.
    - A thrown [ApiError] is the [Throw] outcome of [Result]. *)

From Stdlib Require Import ZArith QArith Qround Qminmax Qabs Qpower Lia Lqa List Bool
  Ascii String.
From stdpp Require Import base option list gmap strings pretty.

Local Open Scope string_scope.
Local Open Scope list_scope.
Local Open Scope Z_scope.

(** ** Errors and outcomes *)

(** [ApiError] of [utils/ApiError.ts]: a status code and a message. *)
Record ApiError := mkApiError { statusCode : Z; message : string }.

Definition NotFoundError (resource : string) : ApiError :=
  mkApiError 404 (resource +:+ " not found").
Definition BadRequestError (msg : string) : ApiError := mkApiError 400 msg.
Definition ConflictError (msg : string) : ApiError := mkApiError 409 msg.

(** Outcome of a call: a value, a thrown error, or a loop that ran out of
    the fuel it was given (shown below never to happen). *)
Inductive Result (A : Type) : Type :=
| Ok (a : A)
| Throw (e : ApiError)
| OutOfFuel.
Arguments Ok {A} a.
Arguments Throw {A} e.
Arguments OutOfFuel {A}.

Definition isOk {A} (r : Result A) : bool :=
  match r with Ok _ => true | _ => false end.

(** ** JavaScript dates *)

Module JsDate.

Definition msPerSecond : Z := 1000.
Definition msPerMinute : Z := 60000.
Definition msPerHour : Z := 3600000.
Definition msPerDay : Z := 86400000.

(** Day of the month of the civil (proleptic Gregorian) date that is
    [days] days after 1970-01-01, from the position of the day in its
    400-year era. *)
Definition dayOfEra (days : Z) : Z := (days + 719468) mod 146097.

Definition dayOfMonthOfEraDay (doe : Z) : Z :=
  let yoe := (doe - doe / 1460 + doe / 36524 - doe / 146096) / 365 in
  let doy := doe - (365 * yoe + yoe / 4 - yoe / 100) in
  let mp := (5 * doy + 2) / 153 in
  doy - (153 * mp + 2) / 5 + 1.

Definition dayOfMonth (days : Z) : Z := dayOfMonthOfEraDay (dayOfEra days).

(** Days from 1970-01-01 to the civil date [y]-[m]-[d] (the inverse
    direction, used to write dates down). *)
Definition daysFromCivil (y m d : Z) : Z :=
  let y' := if m <=? 2 then y - 1 else y in
  let era := y' / 400 in
  let yoe := y' - era * 400 in
  let doy := (153 * (if 2 <? m then m - 3 else m + 9) + 2) / 5 + d - 1 in
  let doe := yoe * 365 + yoe / 4 - yoe / 100 + doy in
  era * 146097 + doe - 719468.

Section Local.
(** Offset of local time from UTC, in milliseconds. *)
Variable tzOffset : Z.

Definition localTime (t : Z) : Z := t + tzOffset.
Definition localDay (t : Z) : Z := localTime t / msPerDay.

(** [date.getHours()], [date.getMinutes()], [date.getDate()],
    [date.getDay()] (0 = Sunday; 1970-01-01 was a Thursday). *)
Definition getHours (t : Z) : Z := (localTime t mod msPerDay) / msPerHour.
Definition getMinutes (t : Z) : Z := (localTime t mod msPerHour) / msPerMinute.
Definition getDate (t : Z) : Z := dayOfMonth (localDay t).
Definition getDay (t : Z) : Z := (localDay t + 4) mod 7.

(** [date.setHours(h, m, s, ms)]. *)
Definition setHours (t h m s ms : Z) : Z :=
  localDay t * msPerDay + h * msPerHour + m * msPerMinute
  + s * msPerSecond + ms - tzOffset.

(** [date.setHours(h)]: minutes, seconds and milliseconds are kept. *)
Definition setHours1 (t h : Z) : Z :=
  localDay t * msPerDay + h * msPerHour + localTime t mod msPerHour
  - tzOffset.

(** [date.setDate(d)]: the day of the month is replaced, with overflow
    into the neighbouring months. *)
Definition setDate (t d : Z) : Z := t + (d - getDate t) * msPerDay.
End Local.

(** [date.setUTCHours(0, 0, 0, 0)]. *)
Definition setUTCMidnight (t : Z) : Z := t / msPerDay * msPerDay.

(** The instant of local midnight opening the civil date [y]-[m]-[d]. *)
Definition localMidnight (tzOffset y m d : Z) : Z :=
  daysFromCivil y m d * msPerDay - tzOffset.

End JsDate.

(** The environment of a request: the server's time zone and the clock. *)
Record Env := mkEnv {
  tzOffset : Z;   (* local time minus UTC, milliseconds *)
  now : Z         (* [new Date()] *)
}.

(** ** Strings *)

Module JsString.

(** [s.split(sep)] for a one-character separator. *)
Fixpoint splitAux (sep : ascii) (s : string) (cur : string) : list string :=
  match s with
  | EmptyString => [cur]
  | String c rest =>
      if Ascii.eqb c sep then cur :: splitAux sep rest ""
      else splitAux sep rest (cur +:+ String c "")
  end.
Definition split (sep : ascii) (s : string) : list string := splitAux sep s "".

Definition digitValue (c : ascii) : Z := Z.of_nat (nat_of_ascii c) - 48.

Definition inRange (c lo hi : ascii) : bool :=
  (nat_of_ascii lo <=? nat_of_ascii c)%nat && (nat_of_ascii c <=? nat_of_ascii hi)%nat.

(** [Number(s)] on a string of decimal digits.  Other strings (which give
    [NaN] or need the full numeric grammar) are outside the model; every
    caller below checks the format before it relies on the value. *)
Fixpoint NumberAux (s : string) (acc : Z) : Z :=
  match s with
  | EmptyString => acc
  | String c rest => NumberAux rest (10 * acc + digitValue c)
  end.
Definition Number (s : string) : Z := NumberAux s 0.

(** [c.toUpperCase()] on ASCII. *)
Definition upperChar (c : ascii) : ascii :=
  if inRange c "a" "z" then ascii_of_nat (nat_of_ascii c - 32) else c.
Fixpoint toUpperCase (s : string) : string :=
  match s with
  | EmptyString => EmptyString
  | String c rest => String (upperChar c) (toUpperCase rest)
  end.

Definition digitChar (n : Z) : ascii := ascii_of_nat (Z.to_nat (n + 48)).

(** [String(n).padStart(2, "0")] for [0 <= n < 100]. *)
Definition pad2 (n : Z) : string :=
  String (digitChar (n / 10)) (String (digitChar (n mod 10)) "").

(** A value used as a condition: the empty string is falsy. *)
Definition truthy (s : string) : bool :=
  match s with EmptyString => false | _ => true end.

(** [s.trim()], on the ASCII white space: space, tab, line feed, vertical
    tab, form feed and carriage return. *)
Definition isSpace (c : ascii) : bool :=
  Ascii.eqb c " " || Ascii.eqb c "009" || Ascii.eqb c "010" || Ascii.eqb c "011"
  || Ascii.eqb c "012" || Ascii.eqb c "013".
Fixpoint trimStart (s : string) : string :=
  match s with
  | String c rest => if isSpace c then trimStart rest else s
  | EmptyString => EmptyString
  end.
Definition trim (s : string) : string :=
  String.rev (trimStart (String.rev (trimStart s))).

(** A string that casts to an [ObjectId]: 24 hexadecimal digits.  The
    canonical form, which [toString()] gives, has the letters in lower
    case. *)
Definition isHexDigit (c : ascii) : bool :=
  inRange c "0" "9" || inRange c "a" "f" || inRange c "A" "F".
Definition isLowerHexDigit (c : ascii) : bool :=
  inRange c "0" "9" || inRange c "a" "f".
Definition isObjectIdString (s : string) : bool :=
  (String.length s =? 24)%nat && forallb isHexDigit (list_ascii_of_string s).
Definition isCanonicalObjectId (s : string) : bool :=
  (String.length s =? 24)%nat && forallb isLowerHexDigit (list_ascii_of_string s).

End JsString.

(** ** Numbers *)

(** Binary64 arithmetic on the rationals. *)
Module JsNumber.

(** The binary exponent of a non-zero rational [x]: the [e] with
    [2^e <= |x| < 2^(e+1)]. *)
Definition exponent (x : Q) : Z :=
  let k := Z.log2 (Z.abs (Qnum x)) - Z.log2 (Zpos (Qden x)) in
  if Qle_bool (2 ^ k) (Qabs x) then k else k - 1.

(** The nearest integer, a tie going to the even one. *)
Definition nearestEven (y : Q) : Z :=
  let f := Qfloor y in
  match (y - inject_Z f ?= 1 # 2)%Q with
  | Lt => f
  | Gt => f + 1
  | Eq => if Z.even f then f else f + 1
  end.

(** The spacing of the binary64 numbers around [x]: 53 significant bits,
    and [2^-1074] in the subnormal range. *)
Definition ulp (x : Q) : Q := (2 ^ Z.max (exponent x - 52) (-1074))%Q.

(** The binary64 number nearest to [x], a tie going to the even
    significand, in lowest terms. *)
Definition round (x : Q) : Q :=
  if Qeq_bool x 0 then 0%Q
  else Qred (inject_Z (nearestEven (x / ulp x)) * ulp x).

(** [x + y], [x - y], [x * y] and [x / y]. *)
Definition add (x y : Q) : Q := round (round x + round y).
Definition sub (x y : Q) : Q := round (round x - round y).
Definition mul (x y : Q) : Q := round (round x * round y).
Definition div (x y : Q) : Q := round (round x / round y).

(** [Math.round]: the nearest integer, halves rounded up. *)
Definition Math_round (x : Q) : Q := inject_Z (Qfloor (round x + (1 # 2))%Q).

(** [Math.min] on two numbers. *)
Definition Math_min (x y : Q) : Q :=
  if Qle_bool (round x) (round y) then round x else round y.

End JsNumber.

(** The [Result] monad, with stdpp's [x ← m; k] notation. *)
Global Instance Result_ret : MRet Result := fun _ a => Ok a.
Global Instance Result_bind : MBind Result := fun _ _ f m =>
  match m with
  | Ok a => f a
  | Throw e => Throw e
  | OutOfFuel => OutOfFuel
  end.

(** ** Documents of the store (types/booking.types.ts, models/) *)

Inductive BookingStatus :=
| Pending | Confirmed | Completed | Cancelled | NoShow | Blocked.
Inductive PaymentStatus := PayPending | PayPartial | PayPaid | PayRefunded.
Inductive CreatedBy := ByCustomer | ByAdmin.
Inductive Days := SunWed | Thu | Fri | Sat.
Inductive TimeSlot := Day | Night.
Inductive Category := WeekdayDay | WeekdayNight | WeekendDay | WeekendNight.
Inductive DiscountType := Percentage | Fixed.

Global Instance BookingStatus_eq_dec : EqDecision BookingStatus.
Proof. solve_decision. Defined.
Global Instance PaymentStatus_eq_dec : EqDecision PaymentStatus.
Proof. solve_decision. Defined.
Global Instance Days_eq_dec : EqDecision Days.
Proof. solve_decision. Defined.
Global Instance TimeSlot_eq_dec : EqDecision TimeSlot.
Proof. solve_decision. Defined.

(** One entry of a booking's pricing breakdown. *)
Module BreakdownItem.
Record t := mk {
  hour : string;          (* "18:00-19:00" *)
  rate : Q;
  days : Days;
  category : Category;
  timeSlot : TimeSlot
}.
End BreakdownItem.

(** [IBooking] with its [_id].  The time value of [bookingDate] is kept in
    full: the availability queries compare it as an instant. *)
Module Booking.
Record t := mk {
  _id : string;
  customer : option string;
  court : string;
  bookingDate : Z;
  startTime : string;
  endTime : string;
  durationHours : Q;
  totalPrice : Q;
  pricingBreakdown : list BreakdownItem.t;
  promoCode : option string;
  discountAmount : Q;
  finalPrice : Q;
  paymentStatus : PaymentStatus;
  amountPaid : Q;
  paymentId : option string;
  status : BookingStatus;
  notes : option string;
  createdBy : CreatedBy
}.
End Booking.

(** ** booking.service.ts *)

Module BookingService.
Import JsString.

Module CheckAvailabilityDTO.
Record t := mk {
  courtId : string;
  bookingDate : Z;
  startTime : string;
  endTime : string;
  excludeBookingId : option string
}.
End CheckAvailabilityDTO.

Module Conflict.
Record t := mk {
  bookingId : string;
  startTime : string;
  endTime : string;
  status : BookingStatus
}.
End Conflict.

Module AvailabilityResult.
Record t := mk {
  available : bool;
  conflicts : option (list Conflict.t)
}.
End AvailabilityResult.

Module TimeSlotDTO.
Record t := mk { startTime : string; endTime : string }.
End TimeSlotDTO.

Module BatchAvailabilityDTO.
Record t := mk {
  bookingDate : Z;
  timeSlots : list TimeSlotDTO.t;
  courtIds : option (list string)
}.
End BatchAvailabilityDTO.

Module SlotAvailability.
Record t := mk {
  available : bool;
  startTime : string;
  endTime : string
}.
End SlotAvailability.

(** The regular expression [/^([0-1]?[0-9]|2[0-3]):[0-5][0-9]$/]. *)
Definition timeRegex (time : string) : bool :=
  match time with
  | String h (String c (String m1 (String m2 EmptyString))) =>
      inRange h "0" "9" && Ascii.eqb c ":"
      && inRange m1 "0" "5" && inRange m2 "0" "9"
  | String h1 (String h2 (String c (String m1 (String m2 EmptyString)))) =>
      ((inRange h1 "0" "1" && inRange h2 "0" "9")
       || (Ascii.eqb h1 "2" && inRange h2 "0" "3"))
      && Ascii.eqb c ":"
      && inRange m1 "0" "5" && inRange m2 "0" "9"
  | _ => false
  end.

(** Validate time format (HH:MM). *)
Definition validateTimeFormat (time : string) : Result unit :=
  if negb (timeRegex time)
  then Throw (mkApiError 400
                ("Invalid time format: " +:+ time +:+ ". Expected HH:MM"))
  else Ok tt.

(** [time.split(":").map(Number)], destructured into its first two
    components.  A string without ":" leaves [minutes] undefined in
    JavaScript; no string of the time format is such a string. *)
Definition parseTime (time : string) : Z * Z :=
  match map Number (split ":" time) with
  | hours :: minutes :: _ => (hours, minutes)
  | hours :: [] => (hours, 0)
  | [] => (0, 0)
  end.

(** Convert time string (HH:MM) to minutes since midnight. *)
Definition timeToMinutes (time : string) : Z :=
  let '(hours, minutes) := parseTime time in
  hours * 60 + minutes.

(** The second branch of [timeSlotsOverlap]: slot 1 crosses midnight,
    slot 2 does not. *)
Definition overlapCrossingFirst (start1 end1 start2 end2 : Z) : bool :=
  if start1 <=? start2 then true
  else if end2 <=? end1 then true
  else false.

(** Check if two time slots overlap.  The recursive call of the third
    branch swaps the slots and so lands in the second branch; it is
    written here as that branch's body. *)
Definition timeSlotsOverlap
    (start1 end1 : Z) (crosses1 : bool)
    (start2 end2 : Z) (crosses2 : bool) : bool :=
  if negb crosses1 && negb crosses2 then
    (start1 <? end2) && (start2 <? end1)
  else if crosses1 && negb crosses2 then
    overlapCrossingFirst start1 end1 start2 end2
  else if negb crosses1 && crosses2 then
    overlapCrossingFirst start2 end2 start1 end1
  else true.

(** Does a stored booking conflict with the requested minutes? *)
Definition conflictsWith (requestStartMinutes requestEndMinutes : Z)
    (crossesMidnight : bool) (booking : Booking.t) : bool :=
  let bookingStartMinutes := timeToMinutes (Booking.startTime booking) in
  let bookingEndMinutes := timeToMinutes (Booking.endTime booking) in
  let bookingCrossesMidnight := bookingEndMinutes <? bookingStartMinutes in
  timeSlotsOverlap requestStartMinutes requestEndMinutes crossesMidnight
    bookingStartMinutes bookingEndMinutes bookingCrossesMidnight.

Definition optTruthy (o : option string) : bool :=
  match o with Some s => truthy s | None => false end.

(** The query of [checkAvailability]:
    [{court, bookingDate: dateObj, status: {$nin: ["cancelled"]},
      _id: {$ne: excludeBookingId}}], for ids in canonical form. *)
Definition singleQuery (courtId : string) (dateObj : Z)
    (excludeBookingId : option string) (b : Booking.t) : bool :=
  bool_decide (Booking.court b = courtId)
  && (Booking.bookingDate b =? dateObj)
  && negb (bool_decide (Booking.status b = Cancelled))
  && (if optTruthy excludeBookingId
      then negb (bool_decide (Some (Booking._id b) = excludeBookingId))
      else true).

(** Check if a time slot is available for booking. *)
Definition checkAvailability (env : Env) (bookings : list Booking.t)
    (data : CheckAvailabilityDTO.t) : Result AvailabilityResult.t :=
  let courtId := CheckAvailabilityDTO.courtId data in
  let bookingDate := CheckAvailabilityDTO.bookingDate data in
  let startTime := CheckAvailabilityDTO.startTime data in
  let endTime := CheckAvailabilityDTO.endTime data in
  let excludeBookingId := CheckAvailabilityDTO.excludeBookingId data in
  _ ← validateTimeFormat startTime;
  _ ← validateTimeFormat endTime;
  let requestStartMinutes := timeToMinutes startTime in
  let requestEndMinutes := timeToMinutes endTime in
  let crossesMidnight := requestEndMinutes <? requestStartMinutes in
  let dateObj := JsDate.setHours (tzOffset env) bookingDate 0 0 0 0 in
  let existingBookings :=
    List.filter (singleQuery courtId dateObj excludeBookingId) bookings in
  let conflicts :=
    foldl (fun conflicts booking =>
             if conflictsWith requestStartMinutes requestEndMinutes
                  crossesMidnight booking
             then conflicts ++ [Conflict.mk (Booking._id booking)
                                  (Booking.startTime booking)
                                  (Booking.endTime booking)
                                  (Booking.status booking)]
             else conflicts)
          [] existingBookings in
  Ok (AvailabilityResult.mk
        (length conflicts =? 0)%nat
        (if (0 <? length conflicts)%nat then Some conflicts else None)).

(** A JavaScript [Map] with string keys: the entries, and the keys in
    insertion order. *)
Module JsMap.
Record t (V : Type) := mk { entries : gmap string V; keys : list string }.
Arguments mk {V}.
Arguments entries {V}.
Arguments keys {V}.
Definition empty {V} : t V := mk ∅ [].
Definition has {V} (m : t V) (k : string) : bool :=
  bool_decide (is_Some (entries m !! k)).
Definition get {V} (m : t V) (k : string) : option V := entries m !! k.
Definition set {V} (m : t V) (k : string) (v : V) : t V :=
  mk (<[k := v]> (entries m))
     (if has m k then keys m else keys m ++ [k]).
End JsMap.

(** The query of [checkBatchAvailability]:
    [{bookingDate: {$gte: dateObj, $lte: endOfDay},
      status: {$nin: ["cancelled"]}, court: {$in: courtIds}}],
    the last part only for a non-empty [courtIds]. *)
Definition batchQuery (dateObj endOfDay : Z)
    (courtIds : option (list string)) (b : Booking.t) : bool :=
  (dateObj <=? Booking.bookingDate b)
  && (Booking.bookingDate b <=? endOfDay)
  && negb (bool_decide (Booking.status b = Cancelled))
  && match courtIds with
     | Some (c :: cs) => bool_decide (Booking.court b ∈ c :: cs)
     | _ => true
     end.

(** The map court -> bookings, built by one pass over the fetched
    bookings. *)
Definition groupByCourt (existingBookings : list Booking.t)
    : JsMap.t (list Booking.t) :=
  foldl (fun m booking =>
           let courtId := Booking.court booking in
           let m1 := if negb (JsMap.has m courtId)
                     then JsMap.set m courtId [] else m in
           JsMap.set m1 courtId (default [] (JsMap.get m1 courtId) ++ [booking]))
        JsMap.empty existingBookings.

Definition timeSlotKey (slot : TimeSlotDTO.t) : string :=
  TimeSlotDTO.startTime slot +:+ "-" +:+ TimeSlotDTO.endTime slot.

(** The availability of one slot against one court's bookings. *)
Definition slotAvailability (courtBookings : list Booking.t)
    (slot : TimeSlotDTO.t) : SlotAvailability.t :=
  let requestStartMinutes := timeToMinutes (TimeSlotDTO.startTime slot) in
  let requestEndMinutes := timeToMinutes (TimeSlotDTO.endTime slot) in
  let crossesMidnight := requestEndMinutes <? requestStartMinutes in
  let hasConflict :=
    existsb (conflictsWith requestStartMinutes requestEndMinutes
               crossesMidnight) courtBookings in
  SlotAvailability.mk (negb hasConflict)
    (TimeSlotDTO.startTime slot) (TimeSlotDTO.endTime slot).

(** Check availability for multiple courts and time slots in a single
    call. *)
Definition checkBatchAvailability (env : Env) (bookings : list Booking.t)
    (data : BatchAvailabilityDTO.t)
    : Result (gmap string (gmap string SlotAvailability.t)) :=
  let bookingDate := BatchAvailabilityDTO.bookingDate data in
  let timeSlots := BatchAvailabilityDTO.timeSlots data in
  let courtIds := BatchAvailabilityDTO.courtIds data in
  _ ← foldl (fun acc slot =>
               _ ← acc;
               _ ← validateTimeFormat (TimeSlotDTO.startTime slot);
               validateTimeFormat (TimeSlotDTO.endTime slot))
            (Ok tt) timeSlots;
  let dateObj := JsDate.setHours (tzOffset env) bookingDate 0 0 0 0 in
  let endOfDay := JsDate.setHours (tzOffset env) dateObj 23 59 59 999 in
  let existingBookings :=
    List.filter (batchQuery dateObj endOfDay courtIds) bookings in
  let courtBookingsMap := groupByCourt existingBookings in
  let courtsToCheck :=
    match courtIds with
    | Some ids => ids
    | None => JsMap.keys courtBookingsMap
    end in
  Ok (foldl (fun (result : gmap string (gmap string SlotAvailability.t)) courtId =>
               let courtBookings :=
                 default [] (JsMap.get courtBookingsMap courtId) in
               <[courtId :=
                   foldl (fun (inner : gmap string SlotAvailability.t) slot =>
                            <[timeSlotKey slot :=
                                slotAvailability courtBookings slot]> inner)
                         ∅ timeSlots]> result)
            ∅ courtsToCheck).

(** Validate booking time constraints. *)
Definition validateBookingTime (env : Env) (startTime endTime : string)
    (bookingDate : Z) : Result unit :=
  _ ← validateTimeFormat startTime;
  _ ← validateTimeFormat endTime;
  let startMinutes := timeToMinutes startTime in
  let endMinutes := timeToMinutes endTime in
  let crossesMidnight := endMinutes <? startMinutes in
  let durationMinutes :=
    if crossesMidnight then 24 * 60 - startMinutes + endMinutes
    else endMinutes - startMinutes in
  if durationMinutes <? 60 then
    Throw (mkApiError 400 "Booking duration must be at least 1 hour")
  else if negb (Z.rem durationMinutes 30 =? 0) then
    Throw (mkApiError 400 "Booking duration must be in 30-minute increments")
  else
    let operatingStart := 9 * 60 in
    let operatingEnd := 4 * 60 in
    if negb ((operatingStart <=? startMinutes) || (startMinutes <? operatingEnd)) then
      Throw (mkApiError 400 "Booking start time must be between 9:00 AM and 4:00 AM")
    else if crossesMidnight && (operatingEnd <? endMinutes) then
      Throw (mkApiError 400 "Booking cannot end after 4:00 AM")
    else if negb crossesMidnight
            && ((operatingStart <=? startMinutes) && (endMinutes <=? operatingStart)) then
      Throw (mkApiError 400 "Invalid booking time")
    else
      let today := JsDate.setHours (tzOffset env) (now env) 0 0 0 0 in
      let bookingDateObj := JsDate.setHours (tzOffset env) bookingDate 0 0 0 0 in
      if bookingDateObj <? today then
        Throw (mkApiError 400 "Cannot book in the past")
      else Ok tt.

(** Calculate duration in hours from start and end time. *)
Definition calculateDuration (startTime endTime : string) : Q :=
  let startMinutes := timeToMinutes startTime in
  let endMinutes := timeToMinutes endTime in
  let durationMinutes :=
    if endMinutes <? startMinutes then 24 * 60 - startMinutes + endMinutes
    else endMinutes - startMinutes in
  inject_Z durationMinutes / 60.

End BookingService.

(** ** pricing.service.ts *)

Module PricingRule.
Record t := mk {
  days : Days;
  timeSlot : TimeSlot;
  category : Category;
  pricePerHour : Q;
  isActive : bool
}.
End PricingRule.

Definition Qltb (x y : Q) : bool := negb (Qle_bool y x).

Module PricingService.
Import JsString.

Module PriceInfo.
Record t := mk {
  price : Q;
  days : Days;
  category : Category;
  timeSlot : TimeSlot
}.
End PriceInfo.

Module PriceResult.
Record t := mk {
  totalHours : Q;
  breakdown : list BreakdownItem.t;
  finalPrice : Q
}.
End PriceResult.

Section WithZone.
Variable tz : Z.

(** Get day of week (0 = Sunday, 6 = Saturday). *)
Definition getDayOfWeek (date : Z) : Z := JsDate.getDay tz date.

(** Get days specification for a date (sun-wed, thu, fri, sat). *)
Definition getDays (date : Z) : Days :=
  let day := getDayOfWeek date in
  if (day =? 0) || (day =? 1) || (day =? 2) || (day =? 3) then SunWed
  else if day =? 4 then Thu
  else if day =? 5 then Fri
  else Sat.

(** Handle midnight boundary (12 AM - 4 AM). *)
Definition getEffectiveDate (date : Z) (bookingDate : option Z) : Z :=
  let hour := JsDate.getHours tz date in
  if (0 <=? hour) && (hour <? 4) then
    let effectiveDate := JsDate.setDate tz date (JsDate.getDate tz date - 1) in
    match bookingDate with
    | Some bookingDate =>
        let bookingDay := JsDate.getDate tz bookingDate in
        let slotDay := JsDate.getDate tz date in
        if slotDay =? bookingDay then bookingDate else effectiveDate
    | None => effectiveDate
    end
  else date.
End WithZone.

(** Get category for pricing. *)
Definition getCategory (days : Days) (timeSlot : TimeSlot) : Category :=
  match days, timeSlot with
  | SunWed, Day => WeekdayDay
  | SunWed, Night => WeekdayNight
  | Thu, Day => WeekdayDay
  | Thu, Night => WeekendNight
  | Fri, Day => WeekendDay
  | Fri, Night => WeekendNight
  | Sat, Day => WeekendDay
  | Sat, Night => WeekdayNight
  end.

(** Check if time is night slot (7 PM to 9 AM). *)
Definition isNightTime (hour : Z) : bool := (19 <=? hour) || (hour <? 9).

(** Get time slot for a specific hour. *)
Definition getTimeSlot (hour : Z) : TimeSlot :=
  if isNightTime hour then Night else Day.

(** [PricingRule.findOne({days, timeSlot, isActive: true})]. *)
Definition findRule (rules : list PricingRule.t) (days : Days)
    (timeSlot : TimeSlot) : option PricingRule.t :=
  List.find (fun r => bool_decide (PricingRule.days r = days)
                      && bool_decide (PricingRule.timeSlot r = timeSlot)
                      && PricingRule.isActive r) rules.

Definition daysName (d : Days) : string :=
  match d with SunWed => "sun-wed" | Thu => "thu" | Fri => "fri" | Sat => "sat" end.
Definition timeSlotName (s : TimeSlot) : string :=
  match s with Day => "day" | Night => "night" end.

(** Get price for a specific time slot. *)
Definition getPrice (tz : Z) (rules : list PricingRule.t) (date hour : Z)
    (bookingDate : option Z) : Result PriceInfo.t :=
  let effectiveDate := getEffectiveDate tz date bookingDate in
  let days := getDays tz effectiveDate in
  let timeSlot := getTimeSlot hour in
  let category := getCategory days timeSlot in
  match findRule rules days timeSlot with
  | None =>
      Throw (BadRequestError ("Pricing rule not found for " +:+ daysName days
                              +:+ " " +:+ timeSlotName timeSlot))
  | Some pricingRule =>
      Ok (PriceInfo.mk (PricingRule.pricePerHour pricingRule) days category timeSlot)
  end.

Definition hourLabel (tz : Z) (t : Z) : string :=
  pad2 (JsDate.getHours tz t) +:+ ":" +:+ pad2 (JsDate.getMinutes tz t).

(** The [while (currentTime < endDateTime)] loop of
    [calculateBookingPrice]; each iteration uses one unit of fuel. *)
Fixpoint priceLoop (fuel : nat) (tz : Z) (rules : list PricingRule.t)
    (dateObj endDateTime currentTime : Z)
    (breakdown : list BreakdownItem.t) (totalPrice : Q)
    : Result (list BreakdownItem.t * Q) :=
  if currentTime <? endDateTime then
    match fuel with
    | O => OutOfFuel
    | S fuel' =>
        let nextHour :=
          JsDate.setHours1 tz currentTime (JsDate.getHours tz currentTime + 1) in
        let slotEnd := if endDateTime <? nextHour then endDateTime else nextHour in
        let slotDuration :=
          (inject_Z (slotEnd - currentTime)%Z / inject_Z (1000 * 60 * 60)%Z)%Q in
        p ← getPrice tz rules currentTime (JsDate.getHours tz currentTime)
              (Some dateObj);
        let slotPrice := JsNumber.mul (PriceInfo.price p) slotDuration in
        let item :=
          BreakdownItem.mk
            (hourLabel tz currentTime +:+ "-" +:+ hourLabel tz slotEnd)
            (PriceInfo.price p) (PriceInfo.days p) (PriceInfo.category p)
            (PriceInfo.timeSlot p) in
        priceLoop fuel' tz rules dateObj endDateTime slotEnd
          (breakdown ++ [item]) (JsNumber.add totalPrice slotPrice)
    end
  else Ok (breakdown, totalPrice).

(** Calculate booking price with detailed breakdown.  [bookingDate] is
    the time value of the date the caller passes (a [Date], or a string
    already parsed by [new Date]). *)
Definition calculateBookingPrice (tz : Z) (rules : list PricingRule.t)
    (bookingDate : Z) (startTime endTime : string) : Result PriceResult.t :=
  let dateObj := JsDate.setHours tz bookingDate 0 0 0 0 in
  let '(startHour, startMinute) := BookingService.parseTime startTime in
  let '(endHour, endMinute) := BookingService.parseTime endTime in
  let startDateTime := JsDate.setHours tz dateObj startHour startMinute 0 0 in
  let endDateTime0 := JsDate.setHours tz dateObj endHour endMinute 0 0 in
  let endDateTime :=
    if endDateTime0 <=? startDateTime
    then JsDate.setDate tz endDateTime0 (JsDate.getDate tz endDateTime0 + 1)
    else endDateTime0 in
  let totalMilliseconds := endDateTime - startDateTime in
  let totalHours := (inject_Z totalMilliseconds / inject_Z (1000 * 60 * 60)%Z)%Q in
  if Qltb totalHours 1 then
    Throw (BadRequestError "Minimum booking duration is 1 hour")
  else
    let minutes := Z.rem (totalMilliseconds / (1000 * 60)) 60 in
    if negb (minutes =? 0) && negb (minutes =? 30) then
      Throw (BadRequestError
               "Bookings must be in 30-minute increments (e.g., 1.0h, 1.5h, 2.0h)")
    else
      '(breakdown, totalPrice) ←
         priceLoop (Z.to_nat (totalMilliseconds / (1000 * 60 * 60) + 1))
           tz rules dateObj endDateTime startDateTime [] 0%Q;
      Ok (PriceResult.mk totalHours breakdown totalPrice).

End PricingService.

(** The older copy of the pricing service that closes
    [services/promoCode.service.ts]: its midnight rule rewinds every slot
    between 00:00 and 04:00 by one day, whatever the booking date. *)
Module LegacyPricing.

Definition getEffectiveDate (tz : Z) (date : Z) : Z :=
  let hour := JsDate.getHours tz date in
  if (0 <=? hour) && (hour <? 4) then
    JsDate.setDate tz date (JsDate.getDate tz date - 1)
  else date.

End LegacyPricing.

(** ** The store *)

Module PromoCode.
Record t := mk {
  _id : string;
  code : string;
  discountType : DiscountType;
  discountValue : Q;
  maxTotalUses : option Z;          (* null = unlimited *)
  usedByCustomers : list string;    (* customer ids *)
  isActive : bool;
  expiresAt : Z
}.
Definition withUsedByCustomers (p : t) (l : list string) : t :=
  mk (_id p) (code p) (discountType p) (discountValue p) (maxTotalUses p)
     l (isActive p) (expiresAt p).
End PromoCode.

Module Customer.
Record t := mk {
  _id : string;
  name : string;
  phone : string;
  email : option string;
  totalBookings : Z
}.
End Customer.

Inductive CourtStatus := CourtActive | CourtInactive | CourtMaintenance.

Module Court.
Record t := mk { _id : string; name : string; status : CourtStatus }.
End Court.

(** The collections, and the counter from which new [_id]s are drawn. *)
Module Store.
Record t := mk {
  bookings : list Booking.t;
  customers : list Customer.t;
  promoCodes : list PromoCode.t;
  courts : list Court.t;
  pricingRules : list PricingRule.t;
  nextId : N
}.
Definition withBookings (s : t) (l : list Booking.t) : t :=
  mk l (customers s) (promoCodes s) (courts s) (pricingRules s) (nextId s).
Definition withCustomers (s : t) (l : list Customer.t) : t :=
  mk (bookings s) l (promoCodes s) (courts s) (pricingRules s) (nextId s).
Definition withPromoCodes (s : t) (l : list PromoCode.t) : t :=
  mk (bookings s) (customers s) l (courts s) (pricingRules s) (nextId s).
Definition withNextId (s : t) (n : N) : t :=
  mk (bookings s) (customers s) (promoCodes s) (courts s) (pricingRules s) n.
End Store.

(** A computation on the store that may throw: the store it leaves behind
    is returned in either case (writes made before a throw persist). *)
Definition M (A : Type) : Type := Store.t -> Result A * Store.t.

Definition retM {A} (a : A) : M A := fun s => (Ok a, s).
Definition throwM {A} (e : ApiError) : M A := fun s => (Throw e, s).
Definition bindM {A B} (m : M A) (f : A -> M B) : M B := fun s =>
  match m s with
  | (Ok a, s') => f a s'
  | (Throw e, s') => (Throw e, s')
  | (OutOfFuel, s') => (OutOfFuel, s')
  end.
Definition getM : M Store.t := fun s => (Ok s, s).
Definition putM (s : Store.t) : M unit := fun _ => (Ok tt, s).
Definition liftM {A} (r : Result A) : M A := fun s => (r, s).
(** [try { m } catch { }]: a thrown error is swallowed. *)
Definition tryM (m : M unit) : M unit := fun s =>
  match m s with
  | (Throw _, s') => (Ok tt, s')
  | r => r
  end.

Notation "x <- m ;; k" := (bindM m (fun x => k))
  (at level 100, m at next level, right associativity).
Notation "m ;;; k" := (bindM m (fun _ => k))
  (at level 100, right associativity).

(** ** promoCode.service.ts *)

Module PromoCodeService.
Import JsString.

(** The texts of [PromoCodeValidationResult.message]:
    "Invalid promo code", "This promo code is no longer active",
    "This promo code has expired", "You have already used this promo
    code", "This promo code usage limit has been reached", and
    "Promo code applied! You saved <discount> SAR". *)
Inductive Message :=
| MsgInvalid | MsgInactive | MsgExpired | MsgAlreadyUsed | MsgLimitReached
| MsgApplied (discount : Q).

Module ValidationResult.
Record t := mk {
  valid : bool;
  discount : option Q;
  finalAmount : option Q;
  promoCodeId : option string;
  message : Message
}.
Definition invalid (m : Message) : t := mk false None None None m.
End ValidationResult.

Module Discount.
Record t := mk { discount : Q; finalAmount : Q }.
End Discount.

(** Calculate discount amount. *)
Definition calculateDiscount (amount : Q) (discountType : DiscountType)
    (discountValue : Q) : Discount.t :=
  let discount :=
    match discountType with
    | Percentage =>
        JsNumber.Math_round (JsNumber.div (JsNumber.mul amount discountValue) 100)
    | Fixed => discountValue
    end in
  let discount := JsNumber.Math_min discount amount in
  let finalAmount := JsNumber.sub amount discount in
  Discount.mk discount finalAmount.

(** [PromoCode.findOne({ code })]: the filter goes through the setters of
    the schema's [code] path ([uppercase], [trim]) before it is matched. *)
Definition findByCode (promoCodes : list PromoCode.t) (code : string)
    : option PromoCode.t :=
  let code := trim (toUpperCase code) in
  List.find (fun p => bool_decide (PromoCode.code p = code)) promoCodes.

(** [Customer.find({ phone })]: the filter goes through the setter of the
    schema's [phone] path ([trim]). *)
Definition findCustomersByPhone (customers : list Customer.t) (phone : string)
    : list Customer.t :=
  let phone := trim phone in
  List.filter (fun c => bool_decide (Customer.phone c = phone)) customers.

Definition findById (promoCodes : list PromoCode.t) (id : string)
    : option PromoCode.t :=
  List.find (fun p => bool_decide (PromoCode._id p = id)) promoCodes.

(** [array.includes(x)] on strings. *)
Definition includes (l : list string) (x : string) : bool :=
  existsb (fun y => bool_decide (y = x)) l.

(** Validate promo code for a booking using customer phone. *)
Definition validatePromoCode (env : Env) (promoCodes : list PromoCode.t)
    (customers : list Customer.t)
    (code customerPhone : string) (bookingAmount : Q) : ValidationResult.t :=
  match findByCode promoCodes (toUpperCase code) with
  | None => ValidationResult.invalid MsgInvalid
  | Some promoCode =>
      if negb (PromoCode.isActive promoCode) then
        ValidationResult.invalid MsgInactive
      else if PromoCode.expiresAt promoCode <? now env then
        ValidationResult.invalid MsgExpired
      else
        let existingCustomers := findCustomersByPhone customers customerPhone in
        let customerIds := map Customer._id existingCustomers in
        let hasUsedPromo :=
          existsb (fun id => includes (PromoCode.usedByCustomers promoCode) id)
            customerIds in
        if (0 <? length existingCustomers)%nat && hasUsedPromo then
          ValidationResult.invalid MsgAlreadyUsed
        else if match PromoCode.maxTotalUses promoCode with
                | Some maxTotalUses =>
                    maxTotalUses <=? Z.of_nat (length (PromoCode.usedByCustomers promoCode))
                | None => false
                end then
          ValidationResult.invalid MsgLimitReached
        else
          let d := calculateDiscount bookingAmount
                     (PromoCode.discountType promoCode)
                     (PromoCode.discountValue promoCode) in
          ValidationResult.mk true (Some (Discount.discount d))
            (Some (Discount.finalAmount d))
            (Some (PromoCode._id promoCode))
            (MsgApplied (Discount.discount d))
  end.

(** [promoCode.save()]: the stored document with this [_id] is replaced. *)
Definition save (p : PromoCode.t) (promoCodes : list PromoCode.t)
    : list PromoCode.t :=
  map (fun q => if bool_decide (PromoCode._id q = PromoCode._id p) then p else q)
      promoCodes.

(** Mark promo code as used by a customer. *)
Definition markAsUsed (promoCodeId customerId : string) : M unit :=
  st <- getM ;;
  match findById (Store.promoCodes st) promoCodeId with
  | None => throwM (NotFoundError "Promo code")
  | Some promoCode =>
      if includes (PromoCode.usedByCustomers promoCode) customerId then
        throwM (BadRequestError "Promo code already used by this customer")
      else
        let promoCode' :=
          PromoCode.withUsedByCustomers promoCode
            (PromoCode.usedByCustomers promoCode ++ [customerId]) in
        putM (Store.withPromoCodes st (save promoCode' (Store.promoCodes st)))
  end.

(** Remove customer from promo code usage (for cancelled bookings). *)
Definition removeUsage (promoCodeId customerId : string) : M unit :=
  st <- getM ;;
  match findById (Store.promoCodes st) promoCodeId with
  | None => retM tt
  | Some promoCode =>
      let promoCode' :=
        PromoCode.withUsedByCustomers promoCode
          (List.filter (fun id => negb (bool_decide (id = customerId)))
             (PromoCode.usedByCustomers promoCode)) in
      putM (Store.withPromoCodes st (save promoCode' (Store.promoCodes st)))
  end.

End PromoCodeService.

(** ** booking.controller.ts *)

Module BookingController.
Import JsString.

Module CreateBookingDTO.
Record t := mk {
  courtId : string;
  bookingDate : option Z;         (* time value of the date sent *)
  startTime : string;
  endTime : string;
  customerPhone : string;
  customerName : string;
  customerEmail : option string;
  notes : option string;
  promoCode : option string;
  paymentId : option string;
  paymentStatus : option string;
  amountPaid : option Q
}.
End CreateBookingDTO.

(** The JSON body sent back; [data] is the booking document (the
    populated references are a read-side join and are not modelled). *)
Module Response.
Record t := mk {
  status : Z;
  success : bool;
  data : option Booking.t;
  message : string
}.
End Response.

(** What the error middleware answers for errors that are not
    [ApiError]s: a mongoose validation error, any other [Error]. *)
Definition ValidationFailure : ApiError := mkApiError 400 "Validation error".
Definition InternalError : ApiError := mkApiError 500 "Internal server error".

(** What it answers for the [CastError] of a query whose id does not cast
    to an [ObjectId]. *)
Definition CastFailure : ApiError := mkApiError 400 "Invalid ID format".

Definition objectId (n : N) : string := "oid" +:+ pretty n.

Definition newObjectId : M string := fun st =>
  (Ok (objectId (Store.nextId st)),
   Store.withNextId st (N.succ (Store.nextId st))).

Definition lowerChar (c : ascii) : ascii :=
  if inRange c "A" "Z" then ascii_of_nat (nat_of_ascii c + 32) else c.
Fixpoint toLowerCase (s : string) : string :=
  match s with
  | EmptyString => EmptyString
  | String c rest => String (lowerChar c) (toLowerCase rest)
  end.

(** [Booking.findById(id)], for an id in canonical form. *)
Definition findBookingById (bookings : list Booking.t) (id : string)
    : option Booking.t :=
  List.find (fun b => bool_decide (Booking._id b = id)) bookings.

(** [Booking.findOne({ paymentId })]. *)
Definition findBookingByPaymentId (bookings : list Booking.t)
    (paymentId : string) : option Booking.t :=
  List.find (fun b => bool_decide (Booking.paymentId b = Some paymentId)) bookings.

Definition findCourtById (courts : list Court.t) (id : string)
    : option Court.t :=
  List.find (fun c => bool_decide (Court._id c = id)) courts.

(** [Customer.create({name, phone, email})] with the schema's setters
    ([trim], [lowercase]) and its required fields. *)
Definition createCustomer (name phone : string) (email : option string)
    : M Customer.t :=
  let name := trim name in
  let phone := trim phone in
  let email := option_map (fun e => toLowerCase (trim e)) email in
  if negb (truthy name) || negb (truthy phone) then throwM ValidationFailure
  else
    id <- newObjectId ;;
    st <- getM ;;
    let customer := Customer.mk id name phone email 0 in
    putM (Store.withCustomers st (Store.customers st ++ [customer])) ;;;
    retM customer.

(** [PaymentStatus] of the schema's enum. *)
Definition parsePaymentStatus (s : string) : option PaymentStatus :=
  if bool_decide (s = "pending") then Some PayPending
  else if bool_decide (s = "partial") then Some PayPartial
  else if bool_decide (s = "paid") then Some PayPaid
  else if bool_decide (s = "refunded") then Some PayRefunded
  else None.

(** The pre-save hook of the booking schema. *)
Definition preSave (b : Booking.t) : Result unit :=
  if bool_decide (Booking.status b = Blocked) && negb (bool_decide (is_Some (Booking.customer b)))
  then Ok tt
  else if negb (bool_decide (Booking.status b = Blocked))
          && negb (bool_decide (is_Some (Booking.customer b)))
  then Throw InternalError
  else Ok tt.

(** The validators of the booking schema. *)
Definition schemaValid (b : Booking.t) : bool :=
  BookingService.timeRegex (Booking.startTime b)
  && BookingService.timeRegex (Booking.endTime b)
  && Qle_bool 1 (Booking.durationHours b)
  && Qle_bool 0 (Booking.totalPrice b)
  && Qle_bool 0 (Booking.discountAmount b)
  && Qle_bool 0 (Booking.finalPrice b)
  && Qle_bool 0 (Booking.amountPaid b).

(** [Booking.create(doc)]. *)
Definition createBookingDoc (mkDoc : string -> Booking.t) : M Booking.t :=
  id <- newObjectId ;;
  let b := mkDoc id in
  if negb (schemaValid b) then throwM ValidationFailure
  else
    liftM (preSave b) ;;;
    st <- getM ;;
    putM (Store.withBookings st (Store.bookings st ++ [b])) ;;;
    retM b.

(** [booking.save()] for an existing document whose [status] and
    [notes] were assigned: the hook runs, and the validators only see the
    modified paths, which are valid by their types. *)
Definition saveBooking (b : Booking.t) : M unit :=
  liftM (preSave b) ;;;
  st <- getM ;;
  putM (Store.withBookings st
          (map (fun q => if bool_decide (Booking._id q = Booking._id b)
                         then b else q) (Store.bookings st))).

(** [Customer.findByIdAndUpdate(id, {$inc: {totalBookings: 1}})]. *)
Definition incTotalBookings (id : string) : M unit :=
  st <- getM ;;
  putM (Store.withCustomers st
          (let fix go (l : list Customer.t) : list Customer.t :=
             match l with
             | [] => []
             | c :: rest =>
                 if bool_decide (Customer._id c = id)
                 then Customer.mk (Customer._id c) (Customer.name c)
                        (Customer.phone c) (Customer.email c)
                        (Customer.totalBookings c + 1) :: rest
                 else c :: go rest
             end in go (Store.customers st))).

(** [x || 0] on an optional number. *)
Definition orZero (x : option Q) : Q :=
  match x with
  | Some q => if Qeq_bool q 0 then 0%Q else q
  | None => 0%Q
  end.

(** Create a new booking (customer flow).  The confirmation e-mail, sent
    last and inside [try]/[catch], does not touch the store and is left
    out.  The [paymentId] handed to [Booking.create] is declared by
    [IBooking] but is not a path of the booking schema: the document is
    stored without it. *)
Definition createBooking (env : Env) (body : CreateBookingDTO.t)
    : M Response.t :=
  let courtId := CreateBookingDTO.courtId body in
  let startTime := CreateBookingDTO.startTime body in
  let endTime := CreateBookingDTO.endTime body in
  let customerPhone := CreateBookingDTO.customerPhone body in
  let customerName := CreateBookingDTO.customerName body in
  match CreateBookingDTO.bookingDate body with
  | None => throwM (BadRequestError "All required fields must be provided")
  | Some bookingDate =>
  if negb (truthy courtId) || negb (truthy startTime) || negb (truthy endTime)
     || negb (truthy customerPhone) || negb (truthy customerName)
  then throwM (BadRequestError "All required fields must be provided")
  else
    st <- getM ;;
    (* Prevent duplicate bookings with same payment ID *)
    match (if BookingService.optTruthy (CreateBookingDTO.paymentId body)
           then findBookingByPaymentId (Store.bookings st)
                  (default "" (CreateBookingDTO.paymentId body))
           else None) with
    | Some existingBooking =>
        let populatedExisting :=
          findBookingById (Store.bookings st) (Booking._id existingBooking) in
        retM (Response.mk 200 true populatedExisting
                "Booking already exists for this payment")
    | None =>
        match findCourtById (Store.courts st) courtId with
        | None => throwM (NotFoundError "Court")
        | Some court =>
            match Court.status court with
            | CourtInactive =>
                throwM (BadRequestError "Court is not available for booking")
            | _ =>
                let dateObj := JsDate.setUTCMidnight bookingDate in
                liftM (BookingService.validateBookingTime env startTime endTime dateObj) ;;;
                availability <-
                  liftM (BookingService.checkAvailability env (Store.bookings st)
                           (BookingService.CheckAvailabilityDTO.mk
                              courtId dateObj startTime endTime None)) ;;
                if negb (BookingService.AvailabilityResult.available availability)
                then throwM (ConflictError "Time slot is not available")
                else
                  customer <- createCustomer customerName customerPhone
                                (CreateBookingDTO.customerEmail body) ;;
                  let durationHours :=
                    BookingService.calculateDuration startTime endTime in
                  pricingResult <-
                    liftM (PricingService.calculateBookingPrice (tzOffset env)
                             (Store.pricingRules st) bookingDate startTime endTime) ;;
                  st1 <- getM ;;
                  let basePrice := PricingService.PriceResult.finalPrice pricingResult in
                  let '(promoCodeId, discountAmount, finalPrice) :=
                    if BookingService.optTruthy (CreateBookingDTO.promoCode body) then
                      let promoValidation :=
                        PromoCodeService.validatePromoCode env
                          (Store.promoCodes st1) (Store.customers st1)
                          (default "" (CreateBookingDTO.promoCode body))
                          customerPhone basePrice in
                      if PromoCodeService.ValidationResult.valid promoValidation
                         && BookingService.optTruthy
                              (PromoCodeService.ValidationResult.promoCodeId promoValidation)
                      then (PromoCodeService.ValidationResult.promoCodeId promoValidation,
                            orZero (PromoCodeService.ValidationResult.discount promoValidation),
                            default basePrice
                              (PromoCodeService.ValidationResult.finalAmount promoValidation))
                      else (None, 0%Q, basePrice)
                    else (None, 0%Q, basePrice) in
                  let paymentStatusText :=
                    if BookingService.optTruthy (CreateBookingDTO.paymentStatus body)
                    then default "" (CreateBookingDTO.paymentStatus body)
                    else "pending" in
                  match parsePaymentStatus paymentStatusText with
                  | None => throwM ValidationFailure
                  | Some paymentStatus =>
                      booking <-
                        createBookingDoc (fun id =>
                          Booking.mk id (Some (Customer._id customer)) courtId
                            dateObj startTime endTime durationHours basePrice
                            (PricingService.PriceResult.breakdown pricingResult)
                            promoCodeId discountAmount finalPrice paymentStatus
                            (orZero (CreateBookingDTO.amountPaid body))
                            (* [paymentId: paymentId || undefined] is not a path
                               of the schema: the document is stored without it *)
                            None
                            (if bool_decide (CreateBookingDTO.paymentStatus body = Some "paid")
                             then Confirmed else Pending)
                            (CreateBookingDTO.notes body) ByCustomer) ;;
                      (* Mark promo code as used if applied *)
                      match promoCodeId with
                      | Some pid =>
                          if truthy pid && truthy (Customer._id customer)
                          then tryM (PromoCodeService.markAsUsed pid (Customer._id customer))
                          else retM tt
                      | None => retM tt
                      end ;;;
                      incTotalBookings (Customer._id customer) ;;;
                      st2 <- getM ;;
                      let populatedBooking :=
                        findBookingById (Store.bookings st2) (Booking._id booking) in
                      retM (Response.mk 201 true populatedBooking
                              "Booking created successfully")
                  end
            end
        end
    end
  end.

Definition withStatusNotes (b : Booking.t) (status : BookingStatus)
    (notes : option string) : Booking.t :=
  Booking.mk (Booking._id b) (Booking.customer b) (Booking.court b)
    (Booking.bookingDate b) (Booking.startTime b) (Booking.endTime b)
    (Booking.durationHours b) (Booking.totalPrice b)
    (Booking.pricingBreakdown b) (Booking.promoCode b)
    (Booking.discountAmount b) (Booking.finalPrice b)
    (Booking.paymentStatus b) (Booking.amountPaid b) (Booking.paymentId b)
    status notes (Booking.createdBy b).

Definition newline : string := String "010" "".

(** Cancel booking (soft delete). *)
Definition cancelBooking (id : string) (reason : option string)
    : M Response.t :=
  st <- getM ;;
  match findBookingById (Store.bookings st) id with
  | None => throwM (NotFoundError "Booking")
  | Some booking =>
      if bool_decide (Booking.status booking = Cancelled) then
        throwM (BadRequestError "Booking is already cancelled")
      else if bool_decide (Booking.status booking = Completed) then
        throwM (BadRequestError "Cannot cancel completed booking")
      else
        let notes :=
          if BookingService.optTruthy reason then
            if BookingService.optTruthy (Booking.notes booking)
            then Some (default "" (Booking.notes booking) +:+ newline
                       +:+ "Cancellation reason: " +:+ default "" reason)
            else Some ("Cancellation reason: " +:+ default "" reason)
          else Booking.notes booking in
        let booking' := withStatusNotes booking Cancelled notes in
        saveBooking booking' ;;;
        match Booking.promoCode booking', Booking.customer booking' with
        | Some promo, Some cust =>
            PromoCodeService.removeUsage promo cust
        | _, _ => retM tt
        end ;;;
        st' <- getM ;;
        let populatedBooking :=
          findBookingById (Store.bookings st') (Booking._id booking') in
        retM (Response.mk 200 true populatedBooking
                "Booking cancelled successfully")
  end.

Definition isActiveCourt (court : Court.t) : bool :=
  match Court.status court with CourtActive => true | _ => false end.

(** Check batch availability for multiple courts and time slots (public
    endpoint): the [data] of the answer. *)
Definition checkBatchAvailability (env : Env) (bookingDate : option Z)
    (timeSlots : option (list BookingService.TimeSlotDTO.t))
    (courtIds : option (list string))
    : M (gmap string (gmap string BookingService.SlotAvailability.t)) :=
  match bookingDate, timeSlots with
  | Some bookingDate, Some ((_ :: _) as timeSlots) =>
      if existsb (fun slot =>
                    negb (truthy (BookingService.TimeSlotDTO.startTime slot))
                    || negb (truthy (BookingService.TimeSlotDTO.endTime slot)))
           timeSlots
      then throwM (BadRequestError "Each time slot must have startTime and endTime")
      else
        st <- getM ;;
        match courtIds with
        | Some ((_ :: _) as courtIds) =>
            (* If courtIds provided, verify they exist.  The filter of
               [Court.find] casts the ids to [ObjectId]s: a string that does
               not cast makes the query fail, and the ids are compared in
               their canonical form. *)
            if negb (forallb isObjectIdString courtIds) then throwM CastFailure
            else
            let courts :=
              List.filter (fun court =>
                             bool_decide (Court._id court ∈ map toLowerCase courtIds)
                             && isActiveCourt court)
                (Store.courts st) in
            if negb (length courts =? length courtIds)%nat
            then throwM (BadRequestError "One or more courts not found or inactive")
            else
              liftM (BookingService.checkBatchAvailability env (Store.bookings st)
                       (BookingService.BatchAvailabilityDTO.mk
                          bookingDate timeSlots (Some courtIds)))
        | _ =>
            (* If no courtIds provided, get all active courts *)
            let allCourts := List.filter isActiveCourt (Store.courts st) in
            let allCourtIds := map Court._id allCourts in
            liftM (BookingService.checkBatchAvailability env (Store.bookings st)
                     (BookingService.BatchAvailabilityDTO.mk
                        bookingDate timeSlots (Some allCourtIds)))
        end
  | _, _ => throwM (BadRequestError "Booking date and time slots are required")
  end.

(** [BookingStatus] of the schema's enum. *)
Definition parseBookingStatus (s : string) : option BookingStatus :=
  if bool_decide (s = "pending") then Some Pending
  else if bool_decide (s = "confirmed") then Some Confirmed
  else if bool_decide (s = "completed") then Some Completed
  else if bool_decide (s = "cancelled") then Some Cancelled
  else if bool_decide (s = "no-show") then Some NoShow
  else if bool_decide (s = "blocked") then Some Blocked
  else None.

(** Update booking status (admin only).  [booking.save()] validates the
    document before the save hook runs: a status outside the schema's enum
    is refused there, and so is a stored document that fails a validator of
    the schema. *)
Definition updateBookingStatus (id : string) (status notes : option string)
    : M Response.t :=
  if negb (BookingService.optTruthy status)
  then throwM (BadRequestError "Status is required")
  else
    st <- getM ;;
    match findBookingById (Store.bookings st) id with
    | None => throwM (NotFoundError "Booking")
    | Some booking =>
        if bool_decide (Booking.status booking = Cancelled) then
          throwM (BadRequestError "Cannot update status of cancelled booking")
        else if bool_decide (Booking.status booking = Completed) then
          throwM (BadRequestError "Cannot update status of completed booking")
        else
          match parseBookingStatus (default "" status) with
          | None => throwM ValidationFailure
          | Some status' =>
              let booking' :=
                withStatusNotes booking status'
                  (if BookingService.optTruthy notes then notes
                   else Booking.notes booking) in
              if negb (schemaValid booking')
              then throwM ValidationFailure
              else
                saveBooking booking' ;;;
                st' <- getM ;;
                let populatedBooking :=
                  findBookingById (Store.bookings st')
                    (Booking._id booking') in
                retM (Response.mk 200 true populatedBooking
                        "Booking status updated successfully")
          end
    end.

(** Get single booking by ID (public endpoint). *)
Definition getBookingById (id : string) : M Response.t :=
  st <- getM ;;
  match findBookingById (Store.bookings st) id with
  | None => throwM (NotFoundError "Booking")
  | Some booking => retM (Response.mk 200 true (Some booking) "")
  end.

(** Get booking by payment ID (public endpoint for the confirmation
    page); a miss is answered with status 404, not thrown. *)
Definition getBookingByPaymentId (paymentId : string) : M Response.t :=
  st <- getM ;;
  match findBookingByPaymentId (Store.bookings st) paymentId with
  | None => retM (Response.mk 404 false None
                    "No booking found with this payment ID")
  | Some booking => retM (Response.mk 200 true (Some booking) "")
  end.

End BookingController.

(** ** Notions of the specification *)

Module Spec.

(** An interval given by its start and end minutes occupies, in the
    specification's words, the ranges [start,1440) and [0,end) when its
    end is at or before its start, and the range [start,end) otherwise. *)
Definition occupies (startMinute endMinute m : Z) : bool :=
  if endMinute <=? startMinute
  then ((startMinute <=? m) && (m <? 1440)) || ((0 <=? m) && (m <? endMinute))
  else (startMinute <=? m) && (m <? endMinute).

(** The specification's [crossesMidnight = endMinute <= startMinute]. *)
Definition crossesMidnight (startMinute endMinute : Z) : bool :=
  endMinute <=? startMinute.

(** Two intervals overlap when some minute of the day is occupied by
    both. *)
Definition overlaps (start1 end1 start2 end2 : Z) : Prop :=
  exists m, 0 <= m < 1440
            /\ occupies start1 end1 m = true /\ occupies start2 end2 m = true.

(** The specification's [round]: the nearest integer of the exact value,
    halves rounded up. *)
Definition round (x : Q) : Z := Qfloor (x + (1 # 2))%Q.

(** The required fields of a booking-creation request are all there. *)
Definition requiredFieldsPresent (body : BookingController.CreateBookingDTO.t)
    : bool :=
  JsString.truthy (BookingController.CreateBookingDTO.courtId body)
  && bool_decide (is_Some (BookingController.CreateBookingDTO.bookingDate body))
  && JsString.truthy (BookingController.CreateBookingDTO.startTime body)
  && JsString.truthy (BookingController.CreateBookingDTO.endTime body)
  && JsString.truthy (BookingController.CreateBookingDTO.customerPhone body)
  && JsString.truthy (BookingController.CreateBookingDTO.customerName body).

End Spec.

(** ** Notions used to state and prove the properties *)

(** The keys of a [JsMap] are the keys of its entries. *)
Definition JsMap_wf {V} (m : BookingService.JsMap.t V) : Prop :=
  forall k, is_Some (BookingService.JsMap.entries m !! k)
            <-> In k (BookingService.JsMap.keys m).

(** One step of [groupByCourt]. *)
Definition groupStep (m : BookingService.JsMap.t (list Booking.t))
    (booking : Booking.t) : BookingService.JsMap.t (list Booking.t) :=
  let courtId := Booking.court booking in
  let m1 := if negb (BookingService.JsMap.has m courtId)
            then BookingService.JsMap.set m courtId [] else m in
  BookingService.JsMap.set m1 courtId
    (default [] (BookingService.JsMap.get m1 courtId) ++ [booking]).

Fixpoint hasChar (c : ascii) (s : string) : bool :=
  match s with
  | EmptyString => false
  | String d rest => Ascii.eqb d c || hasChar c rest
  end.

(** [allFrom n z P]: [P] holds of [z], ..., [z + n - 1]. *)
Fixpoint allFrom (n : nat) (z : Z) (P : Z -> bool) : bool :=
  match n with
  | O => true
  | S k => if P z then allFrom k (z + 1) P else false
  end.

Definition slotEndAt (endDateTime t : Z) : Z :=
  if endDateTime <? t + JsDate.msPerHour then endDateTime else t + JsDate.msPerHour.

(** One iteration of the loop: the breakdown entry and the price of the
    segment that starts at [t]. *)
Definition segItem (tz : Z) (rules : list PricingRule.t)
    (dateObj endDateTime t : Z) : Result (BreakdownItem.t * Q) :=
  p ← PricingService.getPrice tz rules t (JsDate.getHours tz t) (Some dateObj);
  Ok (BreakdownItem.mk
        (PricingService.hourLabel tz t +:+ "-"
         +:+ PricingService.hourLabel tz (slotEndAt endDateTime t))
        (PricingService.PriceInfo.price p) (PricingService.PriceInfo.days p)
        (PricingService.PriceInfo.category p) (PricingService.PriceInfo.timeSlot p),
      JsNumber.mul (PricingService.PriceInfo.price p)
        (inject_Z (slotEndAt endDateTime t - t) / inject_Z JsDate.msPerHour)%Q).

(** The instants at which the loop's iterations start. *)
Fixpoint segmentStarts (fuel : nat) (endDateTime t : Z) : list Z :=
  match fuel with
  | O => []
  | S fuel' =>
      if t <? endDateTime
      then t :: segmentStarts fuel' endDateTime (slotEndAt endDateTime t)
      else []
  end.

(** [f] on every element, stopping at the first failure. *)
Fixpoint mapR {A B} (f : A -> Result B) (l : list A) : Result (list B) :=
  match l with
  | [] => Ok []
  | a :: l' => b ← f a; bs ← mapR f l'; Ok (b :: bs)
  end.

(** [totalPrice += slotPrice] over the segment prices, from left to right. *)
Definition sumQ (tot : Q) (vs : list Q) : Q := foldl JsNumber.add tot vs.

(** Hourly prices in whole units, of at most 2^40: prices under which the
    pricing arithmetic is exact. *)
Definition wholePrices (rules : list PricingRule.t) : Prop :=
  forall rule, In rule rules -> PricingRule.isActive rule = true ->
    exists z : Z, (PricingRule.pricePerHour rule == inject_Z z)%Q /\ Z.abs z <= 2 ^ 40.

(** Amounts in half units, of at most 2^40 each. *)
Definition halfUnits (vs : list Q) : Prop :=
  Forall (fun v => exists z : Z, (v == inject_Z z * (1 # 2))%Q /\ Z.abs z <= 2 ^ 41) vs
  /\ (length vs <= 1000)%nat.

(** The starts of [k] full hours from [t]. *)
Fixpoint hourStarts (k : nat) (t : Z) : list Z :=
  match k with
  | O => []
  | S k' => t :: hourStarts k' (t + JsDate.msPerHour)
  end.

(** The minutes a request lasts, with an end at or before the start taken
    as an end on the next day (the pricing service's reading). *)
Definition durationMinutes (startTime endTime : string) : Z :=
  let s := BookingService.timeToMinutes startTime in
  let e := BookingService.timeToMinutes endTime in
  e - s + (if e <=? s then 1440 else 0).

(** The instants between which a request is priced. *)
Definition startInstant (tz bookingDate : Z) (startTime : string) : Z :=
  JsDate.setHours tz bookingDate 0 0 0 0
  + BookingService.timeToMinutes startTime * JsDate.msPerMinute.

Definition endInstant (tz bookingDate : Z) (startTime endTime : string) : Z :=
  startInstant tz bookingDate startTime
  + durationMinutes startTime endTime * JsDate.msPerMinute.

(** The instants at which the priced segments of a request start. *)
Definition requestStarts (tz bookingDate : Z) (startTime endTime : string)
    : list Z :=
  let dmin := durationMinutes startTime endTime in
  let S := startInstant tz bookingDate startTime in
  hourStarts (Z.to_nat (dmin / 60)) S
  ++ (if 0 <? dmin mod 60 then [S + dmin / 60 * JsDate.msPerHour] else []).

(** The start hour written in a breakdown label ["HH:MM-HH:MM"]. *)
Definition labelStartHour (label : string) : Z :=
  fst (BookingService.parseTime (hd "" (JsString.split "-" label))).

(** *** What the controller writes *)

(** The promo code, discount and final price that [createBooking] puts on
    the booking document. *)
Definition appliedPromo (env : Env) (st1 : Store.t)
    (body : BookingController.CreateBookingDTO.t) (basePrice : Q)
    : option string * Q * Q :=
  if BookingService.optTruthy (BookingController.CreateBookingDTO.promoCode body) then
    let promoValidation :=
      PromoCodeService.validatePromoCode env
        (Store.promoCodes st1) (Store.customers st1)
        (default "" (BookingController.CreateBookingDTO.promoCode body))
        (BookingController.CreateBookingDTO.customerPhone body) basePrice in
    if PromoCodeService.ValidationResult.valid promoValidation
       && BookingService.optTruthy
            (PromoCodeService.ValidationResult.promoCodeId promoValidation)
    then (PromoCodeService.ValidationResult.promoCodeId promoValidation,
          BookingController.orZero (PromoCodeService.ValidationResult.discount promoValidation),
          default basePrice
            (PromoCodeService.ValidationResult.finalAmount promoValidation))
    else (None, 0%Q, basePrice)
  else (None, 0%Q, basePrice).

(** The document that [createBooking] hands to [Booking.create]. *)
Definition newBooking (body : BookingController.CreateBookingDTO.t) (d : Z)
    (customerId : string) (pr : PricingService.PriceResult.t)
    (promo : option string * Q * Q) (ps : PaymentStatus) (id : string) : Booking.t :=
  Booking.mk id (Some customerId) (BookingController.CreateBookingDTO.courtId body)
    (JsDate.setUTCMidnight d)
    (BookingController.CreateBookingDTO.startTime body)
    (BookingController.CreateBookingDTO.endTime body)
    (BookingService.calculateDuration
       (BookingController.CreateBookingDTO.startTime body)
       (BookingController.CreateBookingDTO.endTime body))
    (PricingService.PriceResult.finalPrice pr)
    (PricingService.PriceResult.breakdown pr)
    (fst (fst promo)) (snd (fst promo)) (snd promo) ps
    (BookingController.orZero (BookingController.CreateBookingDTO.amountPaid body))
    None
    (if bool_decide (BookingController.CreateBookingDTO.paymentStatus body = Some "paid")
     then Confirmed else Pending)
    (BookingController.CreateBookingDTO.notes body) ByCustomer.

(** The customer record that [createBooking] creates. *)
Definition newCustomer (body : BookingController.CreateBookingDTO.t) (st : Store.t)
    : Customer.t :=
  Customer.mk (BookingController.objectId (Store.nextId st))
    (JsString.trim (BookingController.CreateBookingDTO.customerName body))
    (JsString.trim (BookingController.CreateBookingDTO.customerPhone body))
    (option_map (fun e => BookingController.toLowerCase (JsString.trim e))
       (BookingController.CreateBookingDTO.customerEmail body))
    0.

(** The notes a cancelled booking gets. *)
Definition cancelNotes (booking : Booking.t) (reason : option string) : option string :=
  if BookingService.optTruthy reason then
    if BookingService.optTruthy (Booking.notes booking)
    then Some (default "" (Booking.notes booking) +:+ BookingController.newline
               +:+ "Cancellation reason: " +:+ default "" reason)
    else Some ("Cancellation reason: " +:+ default "" reason)
  else Booking.notes booking.

(** The bookings after [booking.save()] of the document [b]. *)
Definition savedBookings (b : Booking.t) (bookings : list Booking.t) : list Booking.t :=
  map (fun q => if bool_decide (Booking._id q = Booking._id b) then b else q) bookings.

(** ** Concrete data used by the examples *)

Module Examples.

(** A server running at UTC+3, on 2026-02-01 12:00 local time. *)
Definition riyadh : Env :=
  mkEnv 10800000 (JsDate.localMidnight 10800000 2026 2 1 + 12 * JsDate.msPerHour).

(** [new Date("2026-02-12")]: midnight UTC of a Thursday. *)
Definition feb12 : Z := JsDate.localMidnight 0 2026 2 12.

Definition booking (id court : string) (bookingDate : Z)
    (startTime endTime : string) (status : BookingStatus) : Booking.t :=
  Booking.mk id (Some "cust1") court bookingDate startTime endTime 2 0 []
    None 0 0 PayPending 0 None status None ByCustomer.

(** The rate table of the comments in [getCategory]. *)
Definition rules : list PricingRule.t :=
[PricingRule.mk SunWed Day WeekdayDay 90 true;
 PricingRule.mk SunWed Night WeekdayNight 110 true;
 PricingRule.mk Thu Day WeekdayDay 90 true;
 PricingRule.mk Thu Night WeekendNight 135 true;
 PricingRule.mk Fri Day WeekendDay 110 true;
 PricingRule.mk Fri Night WeekendNight 135 true;
 PricingRule.mk Sat Day WeekendDay 110 true;
 PricingRule.mk Sat Night WeekdayNight 110 true].

(** Ids as the database writes them: 24 hexadecimal digits, the letters in
    lower case. *)
Definition courtA : string := "65a1b2c3d4e5f60718293a4b".
Definition bookingA : string := "65a1b2c3d4e5f60718293a4c".

(** The same table at one hourly price. *)
Definition flatRules (price : Q) : list PricingRule.t :=
  map (fun rule => PricingRule.mk (PricingRule.days rule) (PricingRule.timeSlot rule)
                     (PricingRule.category rule) price (PricingRule.isActive rule))
    rules.

End Examples.

Module PromoScenario.
(** A 20% code, and one customer record for the phone that uses it. *)
Definition welcome20 : PromoCode.t :=
  PromoCode.mk "p1" "WELCOME20" Percentage 20 None [] true
    (now Examples.riyadh + 7 * JsDate.msPerDay).
Definition alice : Customer.t :=
  Customer.mk "c1" "Alice" "0500000001" None 0.
Definition store : Store.t := Store.mk [] [alice] [welcome20] [] [] 0.
Definition storeAfterUse : Store.t :=
  snd (PromoCodeService.markAsUsed "p1" "c1" store).
End PromoScenario.

Module Stores.
(** A store with one confirmed booking that carries a payment reference,
    and the same store once that booking is cancelled. *)
Definition paid : Booking.t :=
  Booking.mk "b1" (Some "c1") "court1"
    (JsDate.localMidnight 0 2026 2 12) "18:00" "20:00" 2 180 [] None 0 180
    PayPaid 180 (Some "pay_123") Confirmed None ByCustomer.
Definition court1 : Court.t := Court.mk "court1" "Net 1" CourtActive.
Definition one : Store.t :=
  Store.mk [paid] [PromoScenario.alice] [PromoScenario.welcome20] [court1] [] 7.
Definition oneCancelled : Store.t :=
  Store.withBookings one
    [BookingController.withStatusNotes paid Cancelled None].

(** A request replaying the payment reference of [paid]. *)
Definition replay (customerName : string) : BookingController.CreateBookingDTO.t :=
  BookingController.CreateBookingDTO.mk "court1" (Some Examples.feb12)
    "18:00" "20:00" "0500000001" customerName None None (Some "WELCOME20")
    (Some "pay_123") (Some "paid") (Some 180%Q).
End Stores.

Module Venue.
(** A venue with one active court, the full rate table and one promo code,
    and a paid request for Thursday 2026-02-12, 18:00-20:00, with that code. *)
Definition store : Store.t :=
  Store.mk [] [] [PromoScenario.welcome20] [Stores.court1] Examples.rules 0.
Definition request : BookingController.CreateBookingDTO.t :=
  BookingController.CreateBookingDTO.mk "court1" (Some Examples.feb12)
    "18:00" "20:00" "0500000001" "Alice" None None (Some "welcome20")
    (Some "pay_1") (Some "paid") (Some 180%Q).

(** The venue with its court under a database id, and a slot that an admin
    blocked on it. *)
Definition courtA : Court.t := Court.mk Examples.courtA "Net 1" CourtActive.
Definition blocked : Booking.t :=
  Booking.mk Examples.bookingA None Examples.courtA Examples.feb12 "18:00" "20:00"
    2 0 [] None 0 0 PayPaid 0 None Blocked None ByAdmin.
Definition storeA : Store.t :=
  Store.mk [blocked] [] [PromoScenario.welcome20] [courtA] Examples.rules 0.
End Venue.

(** * Properties *)

(** ** Binary64 arithmetic *)

Section Binary64.
Local Open Scope Q_scope.

Lemma inject_Z_sub a b : inject_Z (a - b) == inject_Z a - inject_Z b.
Proof. unfold Z.sub. rewrite inject_Z_plus, inject_Z_opp. reflexivity. Qed.

Lemma pow2_pos k : 0 < 2 ^ k.
Proof. apply Qpower_0_lt. reflexivity. Qed.

Lemma pow2_neq0 : ~ 2 == 0.
Proof. intros H. discriminate H. Qed.

Lemma pow2_add a b : 2 ^ (a + b) == 2 ^ a * 2 ^ b.
Proof. apply Qpower_plus, pow2_neq0. Qed.

Lemma pow2_sub a b : 2 ^ (a - b) == 2 ^ a / 2 ^ b.
Proof. apply Qpower_minus, pow2_neq0. Qed.

Lemma pow2_le a b : (a <= b)%Z -> 2 ^ a <= 2 ^ b.
Proof. intros H. apply Qpower_le_compat_l; [exact H|]. discriminate. Qed.

Lemma pow2_lt a b : (a < b)%Z -> 2 ^ a < 2 ^ b.
Proof. intros H. apply Qpower_lt_compat_l; [exact H|]. reflexivity. Qed.

Lemma pow2_lt_inv a b : 2 ^ a < 2 ^ b -> (a < b)%Z.
Proof. intros H. apply (Qpower_lt_compat_l_inv 2); [exact H|reflexivity]. Qed.

Lemma pow2_Z a : (0 <= a)%Z -> inject_Z (2 ^ a) == 2 ^ a.
Proof. intros H. now rewrite Zpower_Qpower. Qed.

Lemma pow2_succ a : 2 ^ (a + 1) == 2 * 2 ^ a.
Proof. rewrite pow2_add. change (2 ^ 1) with 2. ring. Qed.

Lemma pow2_pred a : 2 ^ (a - 1) == 2 ^ a / 2.
Proof. rewrite pow2_sub. change (2 ^ 1) with 2. reflexivity. Qed.

(** The exponent brackets the magnitude. *)
Lemma exponent_spec x :
  ~ x == 0 ->
  2 ^ JsNumber.exponent x <= Qabs x /\ Qabs x < 2 ^ (JsNumber.exponent x + 1).
Proof.
  intros Hx. unfold JsNumber.exponent.
  destruct x as [n d]. cbn [Qnum Qden].
  assert (Hn : (0 < Z.abs n)%Z).
  { destruct n; [exfalso; apply Hx; reflexivity|reflexivity|reflexivity]. }
  set (N := Z.abs n) in *.
  set (a := Z.log2 N). set (b := Z.log2 (Zpos d)).
  destruct (Z.log2_spec N Hn) as [Ha1 Ha2]. fold a in Ha1, Ha2.
  destruct (Z.log2_spec (Zpos d) eq_refl) as [Hb1 Hb2]. fold b in Hb1, Hb2.
  assert (Ha0 : (0 <= a)%Z) by apply Z.log2_nonneg.
  assert (Hb0 : (0 <= b)%Z) by apply Z.log2_nonneg.
  assert (Habs : Qabs (n # d) == inject_Z N / inject_Z (Zpos d)).
  { unfold Qabs. fold N. apply Qmake_Qdiv. }
  assert (Hd : 0 < inject_Z (Zpos d)) by reflexivity.
  assert (Hlow : 2 ^ (a - b - 1) <= Qabs (n # d)).
  { rewrite Habs. replace (a - b - 1)%Z with (a - (b + 1))%Z by lia.
    rewrite pow2_sub, <- !pow2_Z by lia.
    apply Qle_shift_div_l; [exact Hd|].
    unfold Qdiv. rewrite <- Qmult_assoc, (Qmult_comm (/ _)), Qmult_assoc.
    apply Qle_shift_div_r.
    { change 0 with (inject_Z 0). rewrite <- Zlt_Qlt. lia. }
    rewrite <- !inject_Z_mult, <- Zle_Qle. nia. }
  assert (Hup : Qabs (n # d) < 2 ^ (a - b + 1)).
  { rewrite Habs. replace (a - b + 1)%Z with (a + 1 - b)%Z by lia.
    rewrite pow2_sub, <- !pow2_Z by lia.
    apply Qlt_shift_div_r; [exact Hd|].
    unfold Qdiv. rewrite <- Qmult_assoc, (Qmult_comm (/ _)), Qmult_assoc.
    apply Qlt_shift_div_l.
    { change 0 with (inject_Z 0). rewrite <- Zlt_Qlt. lia. }
    rewrite <- !inject_Z_mult, <- Zlt_Qlt. nia. }
  destruct (Qle_bool (2 ^ (a - b)) (Qabs (n # d))) eqn:E.
  - apply Qle_bool_iff in E. split; [exact E|exact Hup].
  - split; [exact Hlow|].
    replace (a - b - 1 + 1)%Z with (a - b)%Z by lia.
    apply Qnot_le_lt. intros H. apply Qle_bool_iff in H. congruence.
Qed.

Lemma exponent_unique x e :
  2 ^ e <= Qabs x -> Qabs x < 2 ^ (e + 1) -> JsNumber.exponent x = e.
Proof.
  intros H1 H2.
  assert (Hx : ~ x == 0).
  { intros H. rewrite H in H1. pose proof (pow2_pos e). change (Qabs 0) with 0 in H1. lra. }
  destruct (exponent_spec x Hx) as [E1 E2].
  assert (A : (JsNumber.exponent x < e + 1)%Z) by (apply pow2_lt_inv; lra).
  assert (B : (e < JsNumber.exponent x + 1)%Z) by (apply pow2_lt_inv; lra).
  lia.
Qed.

Lemma exponent_comp x y :
  ~ x == 0 -> x == y -> JsNumber.exponent x = JsNumber.exponent y.
Proof.
  intros Hx H. symmetry. destruct (exponent_spec x Hx) as [E1 E2].
  apply exponent_unique; rewrite <- H; assumption.
Qed.

(** *** The nearest integer *)

Lemma nearestEven_comp y y' : y == y' -> JsNumber.nearestEven y = JsNumber.nearestEven y'.
Proof.
  intros H. unfold JsNumber.nearestEven.
  rewrite (Qfloor_comp _ _ H).
  assert (E : (y - inject_Z (Qfloor y') ?= 1 # 2) = (y' - inject_Z (Qfloor y') ?= 1 # 2)).
  { apply Qcompare_comp; [|reflexivity]. now rewrite H. }
  now rewrite E.
Qed.

Lemma nearestEven_Z z : JsNumber.nearestEven (inject_Z z) = z.
Proof.
  unfold JsNumber.nearestEven. rewrite Qfloor_Z.
  assert (E : (inject_Z z - inject_Z z ?= 1 # 2) = Lt).
  { apply Qlt_alt. assert (H : inject_Z z - inject_Z z == 0) by ring.
    rewrite H. reflexivity. }
  now rewrite E.
Qed.

Lemma nearestEven_err y :
  - (1 # 2) <= inject_Z (JsNumber.nearestEven y) - y <= 1 # 2.
Proof.
  unfold JsNumber.nearestEven.
  pose proof (Qfloor_le y) as F1. pose proof (Qlt_floor y) as F2.
  rewrite inject_Z_plus in F2. change (inject_Z 1) with 1 in F2.
  destruct (y - inject_Z (Qfloor y) ?= 1 # 2) eqn:C.
  - apply Qeq_alt in C. destruct (Z.even (Qfloor y)).
    + lra.
    + rewrite inject_Z_plus. change (inject_Z 1) with 1. lra.
  - apply Qlt_alt in C. lra.
  - apply Qgt_alt in C. rewrite inject_Z_plus. change (inject_Z 1) with 1. lra.
Qed.

Lemma nearestEven_le y z : y <= inject_Z z -> (JsNumber.nearestEven y <= z)%Z.
Proof.
  intros H. apply Z.lt_succ_r. rewrite Zlt_Qlt.
  pose proof (nearestEven_err y) as E.
  unfold Z.succ. rewrite inject_Z_plus. change (inject_Z 1) with 1.
  destruct (Qlt_le_dec y (inject_Z z)) as [L|L]; [lra|].
  assert (Hy : y == inject_Z z) by lra.
  rewrite (nearestEven_comp _ _ Hy), nearestEven_Z. lra.
Qed.

Lemma nearestEven_ge y z : inject_Z z <= y -> (z <= JsNumber.nearestEven y)%Z.
Proof.
  intros H. apply Z.lt_pred_le. rewrite Zlt_Qlt.
  pose proof (nearestEven_err y) as E.
  unfold Z.pred. rewrite inject_Z_plus. change (inject_Z (-1)) with (-1).
  destruct (Qlt_le_dec (inject_Z z) y) as [L|L]; [lra|].
  assert (Hy : y == inject_Z z) by lra.
  rewrite (nearestEven_comp _ _ Hy), nearestEven_Z. lra.
Qed.

(** *** Rounding to binary64 *)

Lemma ulp_pos x : 0 < JsNumber.ulp x.
Proof. apply pow2_pos. Qed.

Lemma ulp_comp x y : ~ x == 0 -> x == y -> JsNumber.ulp x = JsNumber.ulp y.
Proof. intros Hx H. unfold JsNumber.ulp. now rewrite (exponent_comp x y Hx H). Qed.

Lemma round_zero x : x == 0 -> JsNumber.round x = 0.
Proof.
  intros H. unfold JsNumber.round. apply Qeq_bool_iff in H. now rewrite H.
Qed.

Lemma round_nonzero x :
  ~ x == 0 ->
  JsNumber.round x
  = Qred (inject_Z (JsNumber.nearestEven (x / JsNumber.ulp x)) * JsNumber.ulp x).
Proof.
  intros H. unfold JsNumber.round.
  destruct (Qeq_bool x 0) eqn:E; [|reflexivity].
  apply Qeq_bool_iff in E. contradiction.
Qed.

(** The result does not depend on how the rational is written, and is in
    lowest terms. *)
Lemma round_comp x y : x == y -> JsNumber.round x = JsNumber.round y.
Proof.
  intros H. destruct (Qeq_dec x 0) as [Hx|Hx].
  - rewrite (round_zero x Hx). rewrite H in Hx. now rewrite (round_zero y Hx).
  - assert (Hy : ~ y == 0) by (now rewrite <- H).
    rewrite (round_nonzero x Hx), (round_nonzero y Hy).
    rewrite (ulp_comp x y Hx H). apply Qred_complete.
    assert (E : x / JsNumber.ulp y == y / JsNumber.ulp y) by (now rewrite H).
    now rewrite (nearestEven_comp _ _ E).
Qed.

Lemma round_canonical x : Qred (JsNumber.round x) = JsNumber.round x.
Proof.
  unfold JsNumber.round. destruct (Qeq_bool x 0); [reflexivity|].
  apply Qred_complete, Qred_correct.
Qed.

(** The rounding error is at most half the spacing. *)
Lemma round_err x :
  - (JsNumber.ulp x * (1 # 2)) <= JsNumber.round x - x <= JsNumber.ulp x * (1 # 2).
Proof.
  pose proof (ulp_pos x) as U.
  destruct (Qeq_dec x 0) as [Hx|Hx].
  - rewrite (round_zero x Hx). lra.
  - rewrite (round_nonzero x Hx), Qred_correct.
    pose proof (nearestEven_err (x / JsNumber.ulp x)) as E.
    set (m := inject_Z (JsNumber.nearestEven (x / JsNumber.ulp x))) in *.
    set (u := JsNumber.ulp x) in *.
    assert (K : m * u - x == (m - x / u) * u) by (field; lra).
    rewrite K. split.
    + assert (- (1 # 2) * u <= (m - x / u) * u).
      { apply Qmult_le_compat_r; lra. }
      lra.
    + assert ((m - x / u) * u <= (1 # 2) * u).
      { apply Qmult_le_compat_r; lra. }
      lra.
Qed.

(** A number with a significand below 2^53 and an exponent in range is
    kept as it is. *)
Lemma round_exact x m j :
  x == inject_Z m * 2 ^ j -> (Z.abs m < 2 ^ 53)%Z -> (-1074 <= j)%Z ->
  JsNumber.round x == x.
Proof.
  intros Hx Hm Hj. destruct (Qeq_dec x 0) as [H0|H0].
  - now rewrite (round_zero x H0), H0.
  - rewrite (round_nonzero x H0), Qred_correct.
    destruct (exponent_spec x H0) as [E1 _].
    set (e := JsNumber.exponent x) in *.
    assert (Habs : Qabs x == inject_Z (Z.abs m) * 2 ^ j).
    { rewrite Hx, Qabs_Qmult. rewrite (Qabs_pos (2 ^ j)).
      - reflexivity.
      - apply Qlt_le_weak, pow2_pos. }
    assert (He : (e < 53 + j)%Z).
    { apply pow2_lt_inv. apply Qle_lt_trans with (1 := E1).
      rewrite Habs, pow2_add.
      apply Qmult_lt_r; [apply pow2_pos|].
      rewrite <- pow2_Z by lia. rewrite <- Zlt_Qlt. exact Hm. }
    unfold JsNumber.ulp. fold e.
    set (u := Z.max (e - 52) (-1074)).
    assert (Hu : (u <= j)%Z) by lia.
    assert (Hq : x / 2 ^ u == inject_Z (m * 2 ^ (j - u))).
    { rewrite inject_Z_mult, pow2_Z by lia. rewrite pow2_sub, Hx.
      field. pose proof (pow2_pos u). lra. }
    rewrite (nearestEven_comp _ _ Hq), nearestEven_Z.
    rewrite inject_Z_mult, pow2_Z by lia. rewrite pow2_sub, Hx.
    field. pose proof (pow2_pos u). lra.
Qed.

Lemma round_nonneg x : 0 <= x -> 0 <= JsNumber.round x.
Proof.
  intros H. destruct (Qeq_dec x 0) as [H0|H0].
  - rewrite (round_zero x H0). lra.
  - rewrite (round_nonzero x H0), Qred_correct.
    pose proof (ulp_pos x) as U.
    apply Qmult_le_0_compat; [|lra].
    change 0 with (inject_Z 0). rewrite <- Zle_Qle.
    apply nearestEven_ge. change (inject_Z 0) with 0.
    apply Qle_shift_div_l; [exact U|]. lra.
Qed.

(** What [round] returns is a binary64 number: a significand below 2^53
    times a power of two not below 2^-1074. *)
Lemma round_representable x :
  exists m j, JsNumber.round x == inject_Z m * 2 ^ j
              /\ (Z.abs m < 2 ^ 53)%Z /\ (-1074 <= j)%Z.
Proof.
  destruct (Qeq_dec x 0) as [H0|H0].
  - exists 0%Z, 0%Z. rewrite (round_zero x H0). split; [reflexivity|]. split; lia.
  - assert (R : JsNumber.round x
                == inject_Z (JsNumber.nearestEven (x / JsNumber.ulp x)) * JsNumber.ulp x)
      by (now rewrite (round_nonzero x H0), Qred_correct).
    destruct (exponent_spec x H0) as [_ E2].
    unfold JsNumber.ulp in R.
    set (e := JsNumber.exponent x) in *.
    set (u := Z.max (e - 52) (-1074)) in *.
    set (M := JsNumber.nearestEven (x / 2 ^ u)) in *.
    pose proof (pow2_pos u) as U.
    assert (Hq : Qabs (x / 2 ^ u) <= inject_Z (2 ^ 53)).
    { unfold Qdiv. rewrite Qabs_Qmult, (Qabs_pos (/ 2 ^ u)).
      2:{ apply Qlt_le_weak, Qinv_lt_0_compat, U. }
      apply Qle_shift_div_r; [exact U|].
      rewrite pow2_Z by lia. rewrite <- pow2_add.
      apply Qle_trans with (2 ^ (e + 1)); [lra|]. apply pow2_le. lia. }
    apply Qabs_Qle_condition in Hq as [Q1 Q2].
    assert (M1 : (M <= 2 ^ 53)%Z) by (apply nearestEven_le; exact Q2).
    assert (M2 : (- 2 ^ 53 <= M)%Z).
    { apply nearestEven_ge. rewrite inject_Z_opp. exact Q1. }
    destruct (Z.eq_dec (Z.abs M) (2 ^ 53)%Z) as [Eq|Ne].
    + exists (M / 2)%Z, (u + 1)%Z. split; [|split; [|lia]].
      * rewrite R, pow2_succ.
        assert (HM : inject_Z M == 2 * inject_Z (M / 2)).
        { assert (M = 2 ^ 53 \/ M = - 2 ^ 53)%Z as [HM | HM] by lia;
            rewrite HM; reflexivity. }
        rewrite HM. ring.
      * assert (M = 2 ^ 53 \/ M = - 2 ^ 53)%Z as [HM | HM] by lia;
          rewrite HM; reflexivity.
    + exists M, u. split; [exact R|]. split; lia.
Qed.

Lemma round_idem x : JsNumber.round (JsNumber.round x) = JsNumber.round x.
Proof.
  destruct (round_representable x) as (m & j & H & Hm & Hj).
  pose proof (round_exact _ _ _ H Hm Hj) as E.
  apply Qred_complete in E. now rewrite !round_canonical in E.
Qed.

(** Below [2^k] the rounding error is at most [2^(k-54)]. *)
Lemma round_err_below x k :
  Qabs x < 2 ^ k -> (-1021 <= k)%Z ->
  - 2 ^ (k - 54) <= JsNumber.round x - x <= 2 ^ (k - 54).
Proof.
  intros Hx Hk. destruct (Qeq_dec x 0) as [H0|H0].
  - rewrite (round_zero x H0). pose proof (pow2_pos (k - 54)). lra.
  - pose proof (round_err x) as E.
    destruct (exponent_spec x H0) as [E1 _].
    assert (He : (JsNumber.exponent x < k)%Z) by (apply pow2_lt_inv; lra).
    assert (U : JsNumber.ulp x * (1 # 2) <= 2 ^ (k - 54)).
    { unfold JsNumber.ulp.
      replace (k - 54)%Z with (k - 53 - 1)%Z by lia. rewrite pow2_pred.
      unfold Qdiv. change (/ 2) with (1 # 2).
      assert (2 ^ Z.max (JsNumber.exponent x - 52) (-1074) <= 2 ^ (k - 53))
        by (apply pow2_le; lia).
      lra. }
    lra.
Qed.

(** Whole numbers below 2^53, and their halves, are binary64 numbers. *)
Lemma round_Z z : (Z.abs z < 2 ^ 53)%Z -> JsNumber.round (inject_Z z) == inject_Z z.
Proof.
  intros H. apply (round_exact _ z 0); [|exact H|lia].
  change (2 ^ 0) with 1. ring.
Qed.

Lemma round_half z :
  (Z.abs z < 2 ^ 53)%Z -> JsNumber.round (inject_Z z * (1 # 2)) == inject_Z z * (1 # 2).
Proof.
  intros H. apply (round_exact _ z (-1)); [|exact H|lia]. reflexivity.
Qed.

(** The rounding error relative to the number: at most [2^-53] of it, and
    [2^-1075] in the subnormal range. *)
Lemma round_rel_err x :
  0 <= x ->
  x * (1 - 2 ^ (-53)) - 2 ^ (-1075) <= JsNumber.round x
  /\ JsNumber.round x <= x * (1 + 2 ^ (-53)) + 2 ^ (-1075).
Proof.
  intros Hx. destruct (Qeq_dec x 0) as [H0|H0].
  - rewrite (round_zero x H0), H0. split; vm_compute; discriminate.
  - pose proof (round_err x) as E.
    destruct (exponent_spec x H0) as [E1 _].
    rewrite Qabs_pos in E1 by exact Hx.
    assert (U : JsNumber.ulp x * (1 # 2) <= x * 2 ^ (-53) + 2 ^ (-1075)).
    { unfold JsNumber.ulp.
      pose proof (pow2_pos (-1075)) as P1.
      assert (P2 : 0 <= x * 2 ^ (-53)).
      { apply Qmult_le_0_compat; [exact Hx|apply Qlt_le_weak, pow2_pos]. }
      destruct (Z.max_spec (JsNumber.exponent x - 52) (-1074)) as [[_ ->]|[_ ->]].
      - change (2 ^ (-1074) * (1 # 2)) with (2 ^ (-1075)). lra.
      - replace (JsNumber.exponent x - 52)%Z with (JsNumber.exponent x + (-52))%Z by lia.
        rewrite pow2_add.
        assert (K : 2 ^ JsNumber.exponent x * 2 ^ (-52) * (1 # 2)
                    == 2 ^ JsNumber.exponent x * 2 ^ (-53)).
        { change (2 ^ (-52)) with (1 # 4503599627370496).
          change (2 ^ (-53)) with (1 # 9007199254740992). ring. }
        rewrite K.
        assert (2 ^ JsNumber.exponent x * 2 ^ (-53) <= x * 2 ^ (-53)).
        { apply Qmult_le_compat_r; [exact E1|apply Qlt_le_weak, pow2_pos]. }
        lra. }
    split; lra.
Qed.

End Binary64.

(** ** Slot overlap detector *)

Local Ltac zbool :=
  repeat match goal with
    | H : _ && _ = true |- _ => apply andb_true_iff in H; destruct H
    | H : _ || _ = true |- _ => apply orb_true_iff in H; destruct H
    | H : (_ <? _) = true |- _ => apply Z.ltb_lt in H
    | H : (_ <? _) = false |- _ => apply Z.ltb_ge in H
    | H : (_ <=? _) = true |- _ => apply Z.leb_le in H
    | H : (_ <=? _) = false |- _ => apply Z.leb_gt in H
    | H : (_ =? _) = true |- _ => apply Z.eqb_eq in H
    | H : (_ =? _) = false |- _ => apply Z.eqb_neq in H
    end.

Lemma occupies_plain s e m :
  s < e -> Spec.occupies s e m = true <-> s <= m < e.
Proof.
  intros Hse. unfold Spec.occupies.
  destruct (e <=? s) eqn:E; zbool; [lia|].
  rewrite andb_true_iff, Z.leb_le, Z.ltb_lt. tauto.
Qed.

Lemma occupies_crossing s e m :
  e <= s -> 0 <= m < 1440 ->
  Spec.occupies s e m = true <-> (s <= m \/ m < e).
Proof.
  intros Hse Hm. unfold Spec.occupies.
  destruct (e <=? s) eqn:E; zbool; [|lia].
  rewrite orb_true_iff, !andb_true_iff, !Z.leb_le, !Z.ltb_lt. lia.
Qed.

(** On two intervals that do not cross midnight the detector is the
    classic test, and the test is exact. *)
Lemma timeSlotsOverlap_plain s1 e1 s2 e2 :
  BookingService.timeSlotsOverlap s1 e1 false s2 e2 false
  = (s1 <? e2) && (s2 <? e1).
Proof. reflexivity. Qed.

(** X2.  On two intervals of the same day that do not cross midnight the
    detector answers true exactly when some minute of the day lies in both. *)
Lemma timeSlotsOverlap_plain_exact s1 e1 s2 e2 :
  0 <= s1 < e1 -> e1 < 1440 -> 0 <= s2 < e2 -> e2 < 1440 ->
  BookingService.timeSlotsOverlap s1 e1 false s2 e2 false = true
  <-> Spec.overlaps s1 e1 s2 e2.
Proof.
  intros H1 H1' H2 H2'. rewrite timeSlotsOverlap_plain.
  rewrite andb_true_iff, !Z.ltb_lt. unfold Spec.overlaps. split.
  - intros [Ha Hb]. exists (Z.max s1 s2).
    rewrite !occupies_plain by lia. lia.
  - intros (m & Hm & Ho1 & Ho2).
    rewrite occupies_plain in Ho1, Ho2 by lia. lia.
Qed.

(** The detector is symmetric in its two slots. *)
Lemma timeSlotsOverlap_comm s1 e1 c1 s2 e2 c2 :
  BookingService.timeSlotsOverlap s1 e1 c1 s2 e2 c2
  = BookingService.timeSlotsOverlap s2 e2 c2 s1 e1 c1.
Proof.
  unfold BookingService.timeSlotsOverlap.
  destruct c1, c2; simpl; try reflexivity.
  apply andb_comm.
Qed.

(** X1.  Whenever the detector reports an overlap of two proper intervals
    (start and end differ, each flagged as crossing midnight exactly when its
    end is before its start), a common minute exists: the detector raises no
    false conflict. *)
Lemma timeSlotsOverlap_sound s1 e1 s2 e2 :
  0 <= s1 < 1440 -> 0 <= e1 < 1440 -> 0 <= s2 < 1440 -> 0 <= e2 < 1440 ->
  s1 <> e1 -> s2 <> e2 ->
  BookingService.timeSlotsOverlap s1 e1 (e1 <? s1) s2 e2 (e2 <? s2) = true ->
  Spec.overlaps s1 e1 s2 e2.
Proof.
  intros Hs1 He1 Hs2 He2 N1 N2. unfold BookingService.timeSlotsOverlap,
    BookingService.overlapCrossingFirst, Spec.overlaps.
  destruct (e1 <? s1) eqn:C1, (e2 <? s2) eqn:C2; simpl; zbool; intros H.
  - exists (Z.max s1 s2). rewrite !occupies_crossing by lia. lia.
  - exists s2. rewrite occupies_crossing, occupies_plain by lia.
    destruct (s1 <=? s2) eqn:A; zbool; [lia|].
    destruct (e2 <=? e1) eqn:B; zbool; [lia|discriminate].
  - exists s1. rewrite occupies_plain, occupies_crossing by lia.
    destruct (s2 <=? s1) eqn:A; zbool; [lia|].
    destruct (e1 <=? e2) eqn:B; zbool; [lia|discriminate].
  - zbool. exists (Z.max s1 s2). rewrite !occupies_plain by lia. lia.
Qed.

(** C1.  The scenario of the specification: a stored reservation
    23:00-02:00 and a request 01:00-03:00 on the same date share the minutes
    01:00-02:00, yet the detector answers [false], and so
    [checkAvailability] reports the court free. *)
Theorem timeSlotsOverlap_misses_midnight_scenario :
  BookingService.timeSlotsOverlap 60 180 (Spec.crossesMidnight 60 180)
    1380 120 (Spec.crossesMidnight 1380 120) = false
  /\ Spec.overlaps 60 180 1380 120
  /\ BookingService.checkAvailability Examples.riyadh
       [Examples.booking "b1" "court1"
          (JsDate.localMidnight 10800000 2026 2 12) "23:00" "02:00" Confirmed]
       (BookingService.CheckAvailabilityDTO.mk "court1" Examples.feb12
          "01:00" "03:00" None)
     = Ok (BookingService.AvailabilityResult.mk true None).
Proof.
  split; [reflexivity|]. split.
  - exists 60. repeat split; try lia; reflexivity.
  - vm_compute. reflexivity.
Qed.

(** ** Promo code ledger *)

(** *** The discount *)

Section DiscountArithmetic.
Local Open Scope Q_scope.

Lemma Qfloor_unique y n : inject_Z n <= y -> y < inject_Z n + 1 -> Qfloor y = n.
Proof.
  intros H1 H2. apply Z.le_antisymm.
  - apply Z.lt_succ_r. rewrite Zlt_Qlt. unfold Z.succ. rewrite inject_Z_plus.
    change (inject_Z 1) with 1. pose proof (Qfloor_le y). lra.
  - rewrite <- (Qfloor_Z n). now apply Qfloor_resp_le.
Qed.

(** [Math.round] gives the integer within a half of its argument, the
    upper one at a tie. *)
Lemma Math_round_bracket x :
  exists n : Z,
    JsNumber.Math_round x = inject_Z n
    /\ inject_Z n - (1 # 2) <= JsNumber.round x
    /\ JsNumber.round x < inject_Z n + (1 # 2).
Proof.
  exists (Qfloor (JsNumber.round x + (1 # 2))). split; [reflexivity|].
  pose proof (Qfloor_le (JsNumber.round x + (1 # 2))) as F1.
  pose proof (Qlt_floor (JsNumber.round x + (1 # 2))) as F2.
  rewrite inject_Z_plus in F2. change (inject_Z 1) with 1 in F2. lra.
Qed.

Lemma Math_round_unique x n :
  inject_Z n - (1 # 2) <= JsNumber.round x ->
  JsNumber.round x < inject_Z n + (1 # 2) ->
  JsNumber.Math_round x = inject_Z n.
Proof.
  intros H1 H2. unfold JsNumber.Math_round. f_equal. apply Qfloor_unique; lra.
Qed.

(** [Math.round] of a number is a number. *)
Lemma Math_round_number x :
  JsNumber.round (JsNumber.Math_round x) == JsNumber.Math_round x.
Proof.
  destruct (Math_round_bracket x) as (n & -> & B1 & B2).
  destruct (round_representable x) as (m & j & R & Hm & Hj).
  destruct (Z_lt_le_dec j 0%Z) as [Hneg|Hpos].
  - apply round_Z.
    assert (Hq : Qabs (JsNumber.round x) <= inject_Z (2 ^ 52)).
    { rewrite R, Qabs_Qmult, (Qabs_pos (2 ^ j)) by (apply Qlt_le_weak, pow2_pos).
      change (Qabs (inject_Z m)) with (inject_Z (Z.abs m)).
      assert (P : 2 ^ j <= 1 # 2).
      { change (1 # 2) with (2 ^ (-1)). apply pow2_le. lia. }
      pose proof (pow2_pos j) as P0.
      assert (M0 : 0 <= inject_Z (Z.abs m)).
      { change 0 with (inject_Z 0). rewrite <- Zle_Qle. lia. }
      assert (M1 : inject_Z (Z.abs m) <= inject_Z (2 ^ 53)).
      { rewrite <- Zle_Qle. lia. }
      apply Qle_trans with (inject_Z (2 ^ 53) * (1 # 2));
        [apply Qmult_le_compat_nonneg; split; lra|vm_compute; discriminate]. }
    apply Qabs_Qle_condition in Hq as [Q1 Q2].
    assert (A : (n <= 2 ^ 52)%Z).
    { apply Z.lt_succ_r. rewrite Zlt_Qlt. unfold Z.succ. rewrite inject_Z_plus.
      change (inject_Z 1) with 1. lra. }
    assert (B : (- 2 ^ 52 <= n)%Z).
    { apply Z.lt_pred_le. rewrite Zlt_Qlt. unfold Z.pred. rewrite inject_Z_plus.
      rewrite inject_Z_opp in *. change (inject_Z (-1)) with (-1). lra. }
    lia.
  - assert (Hq : JsNumber.round x == inject_Z (m * 2 ^ j)).
    { rewrite R, inject_Z_mult, pow2_Z by lia. reflexivity. }
    assert (Hn : n = (m * 2 ^ j)%Z).
    { apply Z.le_antisymm.
      - apply Z.lt_succ_r. rewrite Zlt_Qlt. unfold Z.succ. rewrite inject_Z_plus.
        change (inject_Z 1) with 1. lra.
      - apply Z.lt_pred_le. rewrite Zlt_Qlt. unfold Z.pred. rewrite inject_Z_plus.
        change (inject_Z (-1)) with (-1). lra. }
    subst n. rewrite <- Hq at 2.
    rewrite <- (round_comp _ _ Hq), round_idem. reflexivity.
Qed.

(** [Math.min] is the smaller of the two numbers. *)
Lemma Math_min_Qmin x y :
  JsNumber.Math_min x y == Qmin (JsNumber.round x) (JsNumber.round y).
Proof.
  unfold JsNumber.Math_min.
  destruct (Qle_bool (JsNumber.round x) (JsNumber.round y)) eqn:E.
  - apply Qle_bool_iff in E. now rewrite Q.min_l.
  - rewrite Q.min_r; [reflexivity|].
    apply Qlt_le_weak, Qnot_le_lt. intros H. apply Qle_bool_iff in H. congruence.
Qed.

Lemma Math_min_number x y :
  JsNumber.round (JsNumber.Math_min x y) = JsNumber.Math_min x y.
Proof.
  unfold JsNumber.Math_min. destruct (Qle_bool _ _); apply round_idem.
Qed.

Lemma Math_min_le_r x y : JsNumber.Math_min x y <= JsNumber.round y.
Proof. rewrite Math_min_Qmin. apply Q.le_min_r. Qed.

Lemma Math_min_le_l x y : JsNumber.Math_min x y <= JsNumber.round x.
Proof. rewrite Math_min_Qmin. apply Q.le_min_l. Qed.

Lemma Math_min_nonneg x y :
  0 <= JsNumber.round x -> 0 <= JsNumber.round y -> 0 <= JsNumber.Math_min x y.
Proof.
  intros Hx Hy. unfold JsNumber.Math_min. now destruct (Qle_bool _ _).
Qed.

(** The quotient that a percentage code is rounded from, as the code
    computes it: within [2^-51] of the exact quotient, relatively, and within
    [2^-1074] of it in the subnormal range. *)
Lemma quotient_err amount discountValue :
  0 <= amount -> 0 <= discountValue ->
  JsNumber.round amount == amount ->
  JsNumber.round discountValue == discountValue ->
  let q := JsNumber.div (JsNumber.mul amount discountValue) 100 in
  let x := amount * discountValue / 100 in
  x * (1 - 2 ^ (-51)) - 2 ^ (-1074) <= q
  /\ q <= x * (1 + 2 ^ (-51)) + 2 ^ (-1074).
Proof.
  intros Ha Hv Na Nv q x.
  set (m := amount * discountValue) in *.
  set (p := JsNumber.round m).
  assert (Hp : JsNumber.mul amount discountValue = p).
  { unfold JsNumber.mul, p, m. apply round_comp. now rewrite Na, Nv. }
  assert (Hq : q = JsNumber.round (p * (1 # 100))).
  { unfold q, JsNumber.div. rewrite Hp. apply round_comp.
    unfold p. rewrite round_idem.
    assert (H100 : JsNumber.round 100 == 100) by (apply (round_Z 100); reflexivity).
    rewrite H100. unfold Qdiv. reflexivity. }
  assert (Hm : 0 <= m) by (apply Qmult_le_0_compat; assumption).
  destruct (round_rel_err _ Hm) as [P1 P2]. fold p in P1, P2.
  assert (Hp0 : 0 <= p) by (apply round_nonneg; exact Hm).
  assert (Hp100 : 0 <= p * (1 # 100)) by lra.
  destruct (round_rel_err _ Hp100) as [Q1 Q2]. rewrite <- Hq in Q1, Q2.
  assert (D : 2 ^ (-1074) == 2 * 2 ^ (-1075)) by (vm_compute; reflexivity).
  pose proof (pow2_pos (-1075)) as D0.
  unfold x, Qdiv. change (/ 100) with (1 # 100). rewrite D.
  set (d := 2 ^ (-1075)) in *.
  change (2 ^ (-53)) with (1 # 9007199254740992) in *.
  change (2 ^ (-51)) with (1 # 2251799813685248).
  split; lra.
Qed.

(** The discount and the final amount of [calculateDiscount], for numbers. *)
Lemma calculateDiscount_general amount discountType discountValue :
  0 <= amount -> 0 <= discountValue ->
  JsNumber.round amount == amount ->
  JsNumber.round discountValue == discountValue ->
  let r := PromoCodeService.calculateDiscount amount discountType discountValue in
  let q := JsNumber.div (JsNumber.mul amount discountValue) 100 in
  match discountType with
  | Percentage =>
      exists n : Z,
        inject_Z n - (1 # 2) <= q /\ q < inject_Z n + (1 # 2)
        /\ PromoCodeService.Discount.discount r == Qmin (inject_Z n) amount
  | Fixed => PromoCodeService.Discount.discount r == Qmin discountValue amount
  end
  /\ 0 <= PromoCodeService.Discount.discount r
  /\ PromoCodeService.Discount.discount r <= amount
  /\ PromoCodeService.Discount.finalAmount r
     = JsNumber.sub amount (PromoCodeService.Discount.discount r)
  /\ 0 <= PromoCodeService.Discount.finalAmount r.
Proof.
  intros Ha Hv Na Nv r q. subst r.
  unfold PromoCodeService.calculateDiscount.
  cbn [PromoCodeService.Discount.discount PromoCodeService.Discount.finalAmount].
  fold q.
  set (raw := match discountType with
              | Percentage => JsNumber.Math_round q
              | Fixed => discountValue
              end).
  assert (Hq : 0 <= q).
  { unfold q, JsNumber.div. apply round_nonneg.
    apply Qle_shift_div_l; [reflexivity|]. rewrite Qmult_0_l.
    apply round_nonneg. unfold JsNumber.mul. apply round_nonneg.
    apply Qmult_le_0_compat; apply round_nonneg; assumption. }
  assert (Qq : JsNumber.round q = q) by apply round_idem.
  assert (Hraw : 0 <= JsNumber.round raw).
  { apply round_nonneg. unfold raw. destruct discountType; [|exact Hv].
    destruct (Math_round_bracket q) as (n & -> & B1 & B2).
    change 0 with (inject_Z 0). rewrite <- Zle_Qle.
    apply Z.lt_pred_le. rewrite Zlt_Qlt. change (inject_Z (Z.pred 0)) with (-1).
    rewrite Qq in B2. lra. }
  pose proof (Math_min_le_r raw amount) as Hle. rewrite Na in Hle.
  assert (Hd0 : 0 <= JsNumber.Math_min raw amount).
  { apply Math_min_nonneg; [exact Hraw|]. rewrite Na. exact Ha. }
  split; [|split; [exact Hd0|split; [exact Hle|split; [reflexivity|]]]].
  - destruct discountType; unfold raw.
    + destruct (Math_round_bracket q) as (n & E & B1 & B2).
      exists n. rewrite Qq in B1, B2. split; [exact B1|]. split; [exact B2|].
      rewrite Math_min_Qmin, Na, <- E, Math_round_number. reflexivity.
    + rewrite Math_min_Qmin, Na, Nv. reflexivity.
  - unfold JsNumber.sub. apply round_nonneg.
    rewrite Math_min_number, Na. lra.
Qed.

(** For an amount that is a multiple of 1/2 and a whole percentage the
    discount is the exact quotient rounded, and the final amount the exact
    difference. *)
Lemma calculateDiscount_whole (a v : Z) :
  (0 <= a < 2 ^ 47)%Z -> (0 <= v < 2 ^ 47)%Z -> (a * v < 2 ^ 47)%Z ->
  let amount := inject_Z a * (1 # 2) in
  let r := PromoCodeService.calculateDiscount amount Percentage (inject_Z v) in
  PromoCodeService.Discount.discount r
  == Qmin (inject_Z (Spec.round (amount * inject_Z v / 100))) amount
  /\ PromoCodeService.Discount.finalAmount r
     == amount - PromoCodeService.Discount.discount r.
Proof.
  intros Ha Hv Hav amount r.
  assert (Na : JsNumber.round amount == amount) by (apply round_half; lia).
  assert (Nv : JsNumber.round (inject_Z v) == inject_Z v) by (apply round_Z; lia).
  set (N := (a * v)%Z).
  set (x := inject_Z N * (1 # 200)).
  assert (Hx : amount * inject_Z v / 100 == x).
  { unfold x, N, amount. rewrite inject_Z_mult. field. }
  set (n := Spec.round (amount * inject_Z v / 100)).
  assert (Hn1 : inject_Z n <= x + (1 # 2)).
  { unfold n, Spec.round. rewrite <- Hx. apply Qfloor_le. }
  assert (Hn2 : x + (1 # 2) < inject_Z n + 1).
  { unfold n, Spec.round. rewrite <- Hx.
    pose proof (Qlt_floor (amount * inject_Z v / 100 + (1 # 2))) as F.
    rewrite inject_Z_plus in F. exact F. }
  assert (HN0 : (0 <= N)%Z) by (unfold N; nia).
  assert (Hx0 : 0 <= x).
  { unfold x. apply Qmult_le_0_compat; [|discriminate].
    change 0 with (inject_Z 0). now rewrite <- Zle_Qle. }
  (* the quotient as the code computes it *)
  set (q := JsNumber.div (JsNumber.mul amount (inject_Z v)) 100).
  assert (Hq : q = JsNumber.round x).
  { unfold q, JsNumber.div, JsNumber.mul. apply round_comp.
    rewrite round_idem.
    assert (P : JsNumber.round amount * JsNumber.round (inject_Z v)
                == inject_Z N * (1 # 2)).
    { rewrite Na, Nv. unfold amount, N. rewrite inject_Z_mult. ring. }
    rewrite (round_comp _ _ P), round_half by lia.
    assert (H100 : JsNumber.round 100 == 100) by (apply (round_Z 100); reflexivity).
    rewrite H100. unfold x. field. }
  assert (Xlt : Qabs x < 2 ^ 46).
  { rewrite Qabs_pos by exact Hx0. unfold x.
    apply Qlt_le_trans with (inject_Z (2 ^ 47) * (1 # 200)).
    - apply Qmult_lt_compat_r; [reflexivity|]. now rewrite <- Zlt_Qlt.
    - vm_compute. discriminate. }
  pose proof (round_err_below x 46 Xlt ltac:(lia)) as Err.
  change (2 ^ (46 - 54)) with (1 # 256) in Err.
  (* 200 x is a whole number *)
  assert (HnN : (200 * n - 100 <= N < 200 * n + 100)%Z).
  { split.
    - rewrite Zle_Qle. rewrite inject_Z_sub, inject_Z_mult.
      change (inject_Z 200) with 200. change (inject_Z 100) with 100.
      unfold x in Hn1. lra.
    - rewrite Zlt_Qlt. rewrite inject_Z_plus, inject_Z_mult.
      change (inject_Z 200) with 200. change (inject_Z 100) with 100.
      unfold x in Hn2. lra. }
  assert (Hn0 : (0 <= n)%Z) by lia.
  assert (HnB : (n < 2 ^ 47)%Z) by lia.
  assert (Hround : JsNumber.Math_round q = inject_Z n).
  { apply Math_round_unique; rewrite Hq, round_idem.
    - destruct (Z.eq_dec N (200 * n - 100)%Z) as [E|E].
      + assert (Hxh : x == inject_Z (2 * n - 1) * (1 # 2)).
        { unfold x. rewrite E, inject_Z_sub, !inject_Z_mult, inject_Z_sub,
            inject_Z_mult.
          change (inject_Z 200) with 200. change (inject_Z 100) with 100.
          change (inject_Z 2) with 2. change (inject_Z 1) with 1. ring. }
        rewrite (round_comp _ _ Hxh), round_half by lia.
        rewrite inject_Z_sub, inject_Z_mult.
        change (inject_Z 2) with 2. change (inject_Z 1) with 1. lra.
      + assert (L : (200 * n - 99 <= N)%Z) by lia.
        rewrite Zle_Qle in L. rewrite inject_Z_sub, inject_Z_mult in L.
        change (inject_Z 200) with 200 in L. change (inject_Z 99) with 99 in L.
        unfold x in Err |- *. unfold x in Hx0. lra.
    - assert (U : (N <= 200 * n + 99)%Z) by lia.
      rewrite Zle_Qle in U. rewrite inject_Z_plus, inject_Z_mult in U.
      change (inject_Z 200) with 200 in U. change (inject_Z 99) with 99 in U.
      unfold x in Err |- *. lra. }
  subst r. unfold PromoCodeService.calculateDiscount.
  cbn [PromoCodeService.Discount.discount PromoCodeService.Discount.finalAmount].
  fold q. rewrite Hround.
  assert (Nn : JsNumber.round (inject_Z n) == inject_Z n) by (apply round_Z; lia).
  assert (Hd : JsNumber.Math_min (inject_Z n) amount == Qmin (inject_Z n) amount).
  { now rewrite Math_min_Qmin, Nn, Na. }
  split; [exact Hd|].
  unfold JsNumber.sub. rewrite Math_min_number.
  destruct (Qlt_le_dec amount (inject_Z n)) as [C|C].
  - assert (Hm : JsNumber.Math_min (inject_Z n) amount == amount).
    { rewrite Hd. apply Q.min_r. lra. }
    assert (Z0 : JsNumber.round amount - JsNumber.Math_min (inject_Z n) amount == 0).
    { rewrite Na, Hm. ring. }
    rewrite (round_zero _ Z0), Hm. ring.
  - assert (Hm : JsNumber.Math_min (inject_Z n) amount == inject_Z n).
    { rewrite Hd. apply Q.min_l. exact C. }
    assert (D : JsNumber.round amount - JsNumber.Math_min (inject_Z n) amount
                == inject_Z (a - 2 * n) * (1 # 2)).
    { rewrite Na, Hm. unfold amount. rewrite inject_Z_sub, inject_Z_mult.
      change (inject_Z 2) with 2. ring. }
    rewrite (round_comp _ _ D), round_half by lia.
    rewrite Hm. unfold amount. rewrite inject_Z_sub, inject_Z_mult.
    change (inject_Z 2) with 2. ring.
Qed.

End DiscountArithmetic.

Lemma existsb_includes (l : list string) x :
  PromoCodeService.includes l x = true <-> In x l.
Proof.
  unfold PromoCodeService.includes. rewrite existsb_exists. split.
  - intros (y & Hy & E). apply bool_decide_eq_true in E. now subst.
  - intros H. exists x. split; [exact H|]. now apply bool_decide_eq_true.
Qed.

Lemma upper_of_lower c :
  JsString.upperChar (BookingController.lowerChar c) = JsString.upperChar c.
Proof. destruct c as [[] [] [] [] [] [] [] []]; reflexivity. Qed.

Lemma upper_of_upper c :
  JsString.upperChar (JsString.upperChar c) = JsString.upperChar c.
Proof. destruct c as [[] [] [] [] [] [] [] []]; reflexivity. Qed.

Lemma toUpperCase_toLowerCase s :
  JsString.toUpperCase (BookingController.toLowerCase s) = JsString.toUpperCase s.
Proof.
  induction s as [|c s IH]; cbn [BookingController.toLowerCase JsString.toUpperCase];
    [reflexivity|].
  now rewrite upper_of_lower, IH.
Qed.

Lemma toUpperCase_idempotent s :
  JsString.toUpperCase (JsString.toUpperCase s) = JsString.toUpperCase s.
Proof.
  induction s as [|c s IH]; cbn [JsString.toUpperCase]; [reflexivity|].
  now rewrite upper_of_upper, IH.
Qed.

(** What [PromoCode.findOne] returns carries the trimmed, upper-cased text. *)
Lemma findByCode_some promoCodes code p :
  PromoCodeService.findByCode promoCodes code = Some p ->
  In p promoCodes /\ PromoCode.code p = JsString.trim (JsString.toUpperCase code).
Proof.
  unfold PromoCodeService.findByCode. intros H.
  apply find_some in H as [Hin H]. now apply bool_decide_eq_true in H.
Qed.

Lemma findByCode_none promoCodes code p :
  PromoCodeService.findByCode promoCodes code = None ->
  In p promoCodes -> PromoCode.code p <> JsString.trim (JsString.toUpperCase code).
Proof.
  unfold PromoCodeService.findByCode. intros H Hin.
  pose proof (find_none _ _ H p Hin) as F. now apply bool_decide_eq_false in F.
Qed.

(** C7.  For binary64 amounts and discount values (non-negative, at most
    2^53): a percentage code yields the integer that [Math.round] gives for
    the binary64 quotient (amount * value) / 100, the integer within a half
    of that quotient, which itself lies within 2^-51 of the exact quotient,
    relatively; a fixed code yields its value; either is clamped to the
    amount, so the discount lies between 0 and the amount; the final amount
    is the binary64 difference of the amount and the discount, within 2^-53
    of the exact difference, relatively, and is never negative.  For an
    amount that is a multiple of 1/2 and a whole percentage the discount is
    the exact round(amount * value / 100), clamped, and the final amount the
    exact difference.  A 20% code on 200 SAR gives 40 and
    160, and a code whose every stored match (the code text trimmed and
    upper-cased) was used by a customer record with the same phone (trimmed)
    is not valid. *)
Theorem calculateDiscount_and_reuse :
  (forall amount discountType discountValue,
     (0 <= amount <= inject_Z (2 ^ 53))%Q ->
     (0 <= discountValue <= inject_Z (2 ^ 53))%Q ->
     (JsNumber.round amount == amount)%Q ->
     (JsNumber.round discountValue == discountValue)%Q ->
     let r := PromoCodeService.calculateDiscount amount discountType discountValue in
     let q := JsNumber.div (JsNumber.mul amount discountValue) 100 in
     let x := (amount * discountValue / 100)%Q in
     let d := PromoCodeService.Discount.discount r in
     (x * (1 - 2 ^ (-51)) - 2 ^ (-1074) <= q)%Q
     /\ (q <= x * (1 + 2 ^ (-51)) + 2 ^ (-1074))%Q
     /\ ((amount - d) * (1 - 2 ^ (-53)) - 2 ^ (-1075)
         <= PromoCodeService.Discount.finalAmount r)%Q
     /\ (PromoCodeService.Discount.finalAmount r
         <= (amount - d) * (1 + 2 ^ (-53)) + 2 ^ (-1075))%Q
     /\ match discountType with
     | Percentage =>
         exists n : Z,
           (inject_Z n - (1 # 2) <= q)%Q /\ (q < inject_Z n + (1 # 2))%Q
           /\ (PromoCodeService.Discount.discount r == Qmin (inject_Z n) amount)%Q
     | Fixed =>
         (PromoCodeService.Discount.discount r == Qmin discountValue amount)%Q
     end
     /\ (0 <= PromoCodeService.Discount.discount r)%Q
     /\ (PromoCodeService.Discount.discount r <= amount)%Q
     /\ PromoCodeService.Discount.finalAmount r
        = JsNumber.sub amount (PromoCodeService.Discount.discount r)
     /\ (0 <= PromoCodeService.Discount.finalAmount r)%Q)
  /\ (forall a v : Z,
        0 <= a < 2 ^ 47 -> 0 <= v < 2 ^ 47 -> a * v < 2 ^ 47 ->
        let amount := (inject_Z a * (1 # 2))%Q in
        let r := PromoCodeService.calculateDiscount amount Percentage (inject_Z v) in
        (PromoCodeService.Discount.discount r
         == Qmin (inject_Z (Spec.round (amount * inject_Z v / 100))) amount)%Q
        /\ (PromoCodeService.Discount.finalAmount r
            == amount - PromoCodeService.Discount.discount r)%Q)
  /\ PromoCodeService.calculateDiscount 200 Percentage 20
     = PromoCodeService.Discount.mk 40 160
  /\ (forall env promoCodes customers code customerPhone bookingAmount,
        (forall p, In p promoCodes ->
                   PromoCode.code p = JsString.trim (JsString.toUpperCase code) ->
                   exists c, In c customers
                             /\ Customer.phone c = JsString.trim customerPhone
                             /\ In (Customer._id c) (PromoCode.usedByCustomers p)) ->
        PromoCodeService.ValidationResult.valid
          (PromoCodeService.validatePromoCode env promoCodes customers
             code customerPhone bookingAmount) = false)
  /\ PromoCodeService.validatePromoCode Examples.riyadh
       (Store.promoCodes PromoScenario.store) (Store.customers PromoScenario.store)
       "welcome20" "0500000001" 200
     = PromoCodeService.ValidationResult.mk true (Some 40%Q) (Some 160%Q) (Some "p1")
         (PromoCodeService.MsgApplied 40)
  /\ PromoCodeService.ValidationResult.valid
       (PromoCodeService.validatePromoCode Examples.riyadh
          (Store.promoCodes PromoScenario.storeAfterUse)
          (Store.customers PromoScenario.storeAfterUse)
          "welcome20" "0500000001" 200) = false.
Proof.
  split; [|split; [|split; [|split; [|split]]]].
  - intros amount ty v [Ha _] [Hv _] Na Nv r q x d.
    destruct (quotient_err amount v Ha Hv Na Nv) as [Q1 Q2].
    pose proof (calculateDiscount_general amount ty v Ha Hv Na Nv) as G.
    cbv zeta in G. fold r in G. fold q in G. fold d in G.
    split; [exact Q1|]. split; [exact Q2|].
    destruct G as (G1 & G2 & G3 & G4 & G5).
    assert (F : PromoCodeService.Discount.finalAmount r
                = JsNumber.round (amount - d)).
    { rewrite G4. unfold JsNumber.sub. apply round_comp. rewrite Na.
      unfold d, r, PromoCodeService.calculateDiscount.
      cbn [PromoCodeService.Discount.discount]. now rewrite Math_min_number. }
    assert (Hdiff : (0 <= amount - d)%Q) by lra.
    destruct (round_rel_err _ Hdiff) as [F1 F2]. rewrite <- F in F1, F2.
    split; [exact F1|]. split; [exact F2|].
    split; [exact G1|]. split; [exact G2|]. split; [exact G3|].
    split; [exact G4|exact G5].
  - intros a v Ha Hv Hav. exact (calculateDiscount_whole a v Ha Hv Hav).
  - vm_compute. reflexivity.
  - intros env promoCodes customers code phone amount H.
    unfold PromoCodeService.validatePromoCode.
    destruct (PromoCodeService.findByCode promoCodes (JsString.toUpperCase code))
      as [p|] eqn:F; [|reflexivity].
    apply findByCode_some in F as [Hp Hc]. rewrite toUpperCase_idempotent in Hc.
    destruct (H p Hp Hc) as (c & Hin & Hphone & Hused).
    destruct (negb (PromoCode.isActive p)); [reflexivity|].
    destruct (PromoCode.expiresAt p <? now env); [reflexivity|].
    set (existing := PromoCodeService.findCustomersByPhone customers phone).
    assert (Hc' : In c existing).
    { apply filter_In. split; [exact Hin|]. now apply bool_decide_eq_true. }
    assert (Hlen : (0 <? length existing)%nat = true).
    { destruct existing; [destruct Hc'|reflexivity]. }
    assert (Hex : existsb (fun id => PromoCodeService.includes
                                       (PromoCode.usedByCustomers p) id)
                    (map Customer._id existing) = true).
    { apply existsb_exists. exists (Customer._id c). split.
      - now apply in_map.
      - now apply existsb_includes. }
    rewrite Hlen, Hex. reflexivity.
  - vm_compute. reflexivity.
  - vm_compute. reflexivity.
Qed.

Lemma calculateDiscount_and_reuse_witness :
  (PromoCodeService.Discount.discount (PromoCodeService.calculateDiscount 50 Fixed 80)
   == Qmin 80 50)%Q
  /\ (PromoCodeService.Discount.discount
        (PromoCodeService.calculateDiscount (inject_Z 751 * (1 # 2)) Percentage
           (inject_Z 15))
      == Qmin (inject_Z (Spec.round (inject_Z 751 * (1 # 2) * inject_Z 15 / 100)))
           (inject_Z 751 * (1 # 2)))%Q
  /\ PromoCodeService.ValidationResult.valid
       (PromoCodeService.validatePromoCode Examples.riyadh
          [PromoCode.mk "p1" "WELCOME20" Percentage 20 None ["c1"] true
             (now Examples.riyadh + 1)]
          [PromoScenario.alice] " welcome20 " "0500000001 " 200) = false.
Proof.
  destruct calculateDiscount_and_reuse as (Hd & Hw & _ & Hv & _).
  split; [|split].
  - apply (Hd 50%Q Fixed 80%Q); [split; discriminate|split; discriminate| |];
      vm_compute; reflexivity.
  - apply (Hw 751 15); lia.
  - apply Hv. intros p [<-|[]] _.
    exists PromoScenario.alice. split; [now left|]. split; vm_compute; auto.
Defined.

(** C7, the claim as stated fails.  At 4.6%, a value that binary64 stores
    as a number slightly below 4.6, the discount on 250 is 12: the product
    is rounded to 1150 and the quotient 11.5 rounds up, where the exact value
    of 250 times the stored percentage over 100 lies below 11.5 and rounds to
    11.  On 750 the discount is 34, where 750 * 4.6 / 100 = 34.5 rounds to
    35. *)
Lemma percentage_discount_is_not_the_exact_round :
  let v := JsNumber.round (46 # 10) in
  JsNumber.round v = v
  /\ PromoCodeService.Discount.discount
       (PromoCodeService.calculateDiscount 250 Percentage v) = 12%Q
  /\ Spec.round (250 * v / 100) = 11
  /\ ~ (PromoCodeService.Discount.discount
          (PromoCodeService.calculateDiscount 250 Percentage v)
        == Qmin (inject_Z (Spec.round (250 * v / 100))) 250)%Q
  /\ PromoCodeService.Discount.discount
       (PromoCodeService.calculateDiscount 750 Percentage (46 # 10)) = 34%Q
  /\ Spec.round (750 * (46 # 10) / 100) = 35
  /\ ~ (PromoCodeService.Discount.discount
          (PromoCodeService.calculateDiscount 750 Percentage (46 # 10))
        == Qmin (inject_Z (Spec.round (750 * (46 # 10) / 100))) 750)%Q.
Proof.
  cbv zeta. repeat split; try (vm_compute; reflexivity); vm_compute; discriminate.
Qed.

Lemma find_save p p' (l : list PromoCode.t) id :
  PromoCodeService.findById l id = Some p ->
  PromoCode._id p' = id ->
  PromoCodeService.findById (PromoCodeService.save p' l) id = Some p'.
Proof.
  unfold PromoCodeService.findById, PromoCodeService.save.
  intros H Hid. subst id. induction l as [|q l IH]; simpl in *; [discriminate|].
  destruct (bool_decide (PromoCode._id q = PromoCode._id p')) eqn:E.
  - now rewrite bool_decide_eq_true_2.
  - rewrite E. now apply IH.
Qed.

Lemma findById_id (l : list PromoCode.t) id p :
  PromoCodeService.findById l id = Some p -> PromoCode._id p = id.
Proof.
  unfold PromoCodeService.findById. intros H.
  apply find_some in H as [_ H]. now apply bool_decide_eq_true in H.
Qed.

Lemma filter_neq_app_not_in (l : list string) x :
  ~ In x l ->
  List.filter (fun id => negb (bool_decide (id = x))) (l ++ [x]) = l.
Proof.
  intros H. induction l as [|y l IH]; simpl.
  - now rewrite bool_decide_eq_true_2.
  - rewrite bool_decide_eq_false_2.
    + simpl. f_equal. apply IH. intros Hin. apply H. now right.
    + intros ->. apply H. now left.
Qed.

Lemma filter_neq_not_in (l : list string) x :
  ~ In x l -> List.filter (fun id => negb (bool_decide (id = x))) l = l.
Proof.
  intros H. induction l as [|y l IH]; simpl; [reflexivity|].
  rewrite bool_decide_eq_false_2.
  - simpl. f_equal. apply IH. intros Hin. apply H. now right.
  - intros ->. apply H. now left.
Qed.

(** What [markAsUsed] does when the code exists and the customer has not
    used it. *)
Lemma markAsUsed_fresh st pid cid p :
  PromoCodeService.findById (Store.promoCodes st) pid = Some p ->
  ~ In cid (PromoCode.usedByCustomers p) ->
  exists st',
    PromoCodeService.markAsUsed pid cid st = (Ok tt, st')
    /\ PromoCodeService.findById (Store.promoCodes st') pid
       = Some (PromoCode.withUsedByCustomers p (PromoCode.usedByCustomers p ++ [cid])).
Proof.
  intros Hf Hn. unfold PromoCodeService.markAsUsed, bindM, getM. rewrite Hf.
  destruct (PromoCodeService.includes (PromoCode.usedByCustomers p) cid) eqn:E.
  - apply existsb_includes in E. contradiction.
  - eexists. split; [reflexivity|]. simpl.
    eapply find_save; [exact Hf|]. simpl. eapply findById_id, Hf.
Qed.

(** What [markAsUsed] does when the customer is already recorded. *)
Lemma markAsUsed_again st pid cid p :
  PromoCodeService.findById (Store.promoCodes st) pid = Some p ->
  In cid (PromoCode.usedByCustomers p) ->
  PromoCodeService.markAsUsed pid cid st
  = (Throw (BadRequestError "Promo code already used by this customer"), st).
Proof.
  intros Hf Hin. unfold PromoCodeService.markAsUsed, bindM, getM. rewrite Hf.
  apply existsb_includes in Hin. now rewrite Hin.
Qed.

(** What [removeUsage] does when the code exists. *)
Lemma removeUsage_found st pid cid p :
  PromoCodeService.findById (Store.promoCodes st) pid = Some p ->
  exists st',
    PromoCodeService.removeUsage pid cid st = (Ok tt, st')
    /\ PromoCodeService.findById (Store.promoCodes st') pid
       = Some (PromoCode.withUsedByCustomers p
                 (List.filter (fun id => negb (bool_decide (id = cid)))
                    (PromoCode.usedByCustomers p))).
Proof.
  intros Hf. unfold PromoCodeService.removeUsage, bindM, getM. rewrite Hf.
  eexists. split; [reflexivity|]. simpl.
  eapply find_save; [exact Hf|]. simpl. eapply findById_id, Hf.
Qed.

(** C8.  From a code that the customer has not used: consume records the
    customer; release removes the record; consume then succeeds again; a
    second consume without release fails and changes nothing.  Release never
    fails: not on a missing code (the store is left as it is), and not when
    the customer is not recorded (the usage list is left as it is). *)
Theorem consume_release_consume st pid cid p :
  PromoCodeService.findById (Store.promoCodes st) pid = Some p ->
  ~ In cid (PromoCode.usedByCustomers p) ->
  exists st1 st2 st3,
    (* consume *)
    PromoCodeService.markAsUsed pid cid st = (Ok tt, st1)
    /\ PromoCodeService.findById (Store.promoCodes st1) pid
       = Some (PromoCode.withUsedByCustomers p (PromoCode.usedByCustomers p ++ [cid]))
    (* a second consume fails and leaves the store as it is *)
    /\ PromoCodeService.markAsUsed pid cid st1
       = (Throw (BadRequestError "Promo code already used by this customer"), st1)
    (* release *)
    /\ PromoCodeService.removeUsage pid cid st1 = (Ok tt, st2)
    /\ PromoCodeService.findById (Store.promoCodes st2) pid = Some p
    (* consume again *)
    /\ PromoCodeService.markAsUsed pid cid st2 = (Ok tt, st3)
    /\ PromoCodeService.findById (Store.promoCodes st3) pid
       = Some (PromoCode.withUsedByCustomers p (PromoCode.usedByCustomers p ++ [cid]))
    (* release when the customer is not recorded *)
    /\ (exists st4,
          PromoCodeService.removeUsage pid cid st2 = (Ok tt, st4)
          /\ PromoCodeService.findById (Store.promoCodes st4) pid = Some p)
    (* release of a code that does not exist *)
    /\ (forall st0 pid0,
          PromoCodeService.findById (Store.promoCodes st0) pid0 = None ->
          PromoCodeService.removeUsage pid0 cid st0 = (Ok tt, st0)).
Proof.
  intros Hf Hn.
  assert (Hp : forall l, l = PromoCode.usedByCustomers p ->
                         PromoCode.withUsedByCustomers p l = p).
  { intros l ->. destruct p; reflexivity. }
  destruct (markAsUsed_fresh st pid cid p Hf Hn) as (st1 & E1 & F1).
  destruct (removeUsage_found st1 pid cid _ F1) as (st2 & E2 & F2).
  simpl in F2. rewrite filter_neq_app_not_in in F2 by exact Hn.
  assert (F2' : PromoCodeService.findById (Store.promoCodes st2) pid = Some p).
  { rewrite F2. f_equal. destruct p; reflexivity. }
  destruct (markAsUsed_fresh st2 pid cid p F2' Hn) as (st3 & E3 & F3).
  destruct (removeUsage_found st2 pid cid p F2') as (st4 & E4 & F4).
  rewrite filter_neq_not_in in F4 by exact Hn. rewrite Hp in F4 by reflexivity.
  exists st1, st2, st3. repeat split; try assumption.
  - apply markAsUsed_again with (p := PromoCode.withUsedByCustomers p
                                        (PromoCode.usedByCustomers p ++ [cid])).
    + exact F1.
    + simpl. apply in_or_app. right. now left.
  - exists st4. split; assumption.
  - intros st0 pid0 H0. unfold PromoCodeService.removeUsage, bindM, getM.
    now rewrite H0.
Qed.

Lemma consume_release_consume_witness :
  exists st1 st2 st3,
    PromoCodeService.markAsUsed "p1" "c1" PromoScenario.store = (Ok tt, st1)
    /\ PromoCodeService.removeUsage "p1" "c1" st1 = (Ok tt, st2)
    /\ PromoCodeService.markAsUsed "p1" "c1" st2 = (Ok tt, st3).
Proof.
  destruct (consume_release_consume PromoScenario.store "p1" "c1"
              PromoScenario.welcome20)
    as (st1 & st2 & st3 & H1 & _ & _ & H2 & _ & H3 & _).
  - reflexivity.
  - simpl. tauto.
  - exists st1, st2, st3. auto.
Defined.

(** ** Time strings *)

Lemma inRange_bounds c lo hi :
  JsString.inRange c lo hi = true ->
  (nat_of_ascii lo <= nat_of_ascii c <= nat_of_ascii hi)%nat.
Proof.
  unfold JsString.inRange. rewrite andb_true_iff, !Nat.leb_le. tauto.
Qed.

Lemma digit_not_sep c lo hi (sep : ascii) :
  JsString.inRange c lo hi = true ->
  (nat_of_ascii sep < nat_of_ascii lo \/ nat_of_ascii hi < nat_of_ascii sep)%nat ->
  Ascii.eqb c sep = false.
Proof.
  intros H Hsep. apply inRange_bounds in H.
  apply Ascii.eqb_neq. intros ->. lia.
Qed.

Lemma digitValue_range c lo hi :
  JsString.inRange c lo hi = true ->
  Z.of_nat (nat_of_ascii lo) - 48 <= JsString.digitValue c
  <= Z.of_nat (nat_of_ascii hi) - 48.
Proof.
  intros H. apply inRange_bounds in H. unfold JsString.digitValue. lia.
Qed.

(** A string accepted by the time format parses to an hour below 24 and a
    minute below 60. *)
Lemma timeRegex_parse t :
  BookingService.timeRegex t = true ->
  exists h m, BookingService.parseTime t = (h, m)
              /\ 0 <= h <= 23 /\ 0 <= m <= 59.
Proof.
  unfold BookingService.timeRegex, BookingService.parseTime, JsString.split.
  destruct t as [|a [|b [|c [|d [|e [|f t]]]]]]; try discriminate.
  - (* h:mm *)
    rewrite !andb_true_iff. intros [[[Ha Hb] Hc] Hd].
    apply Ascii.eqb_eq in Hb. subst b.
    pose proof (digit_not_sep _ _ _ ":"%char Ha ltac:(vm_compute; lia)) as Ea.
    pose proof (digit_not_sep _ _ _ ":"%char Hc ltac:(vm_compute; lia)) as Ec.
    pose proof (digit_not_sep _ _ _ ":"%char Hd ltac:(vm_compute; lia)) as Ed.
    cbn [JsString.splitAux]. rewrite Ea, Ec, Ed, Ascii.eqb_refl.
    simpl map. unfold JsString.Number; simpl JsString.NumberAux.
    apply digitValue_range in Ha, Hc, Hd.
    change (Z.of_nat (nat_of_ascii "0")) with 48 in *.
    change (Z.of_nat (nat_of_ascii "9")) with 57 in *.
    change (Z.of_nat (nat_of_ascii "5")) with 53 in *.
    eexists _, _. split; [reflexivity|]. lia.
  - (* hh:mm *)
    rewrite !andb_true_iff. intros [[[Hab Hc] Hd] He].
    apply Ascii.eqb_eq in Hc. subst c.
    assert (Ha : Ascii.eqb a ":" = false /\ Ascii.eqb b ":" = false
                 /\ 0 <= 10 * JsString.digitValue a + JsString.digitValue b <= 23).
    { apply orb_true_iff in Hab. destruct Hab as [H|H];
        apply andb_true_iff in H; destruct H as [H1 H2].
      - pose proof (digit_not_sep _ _ _ ":"%char H1 ltac:(vm_compute; lia)).
        pose proof (digit_not_sep _ _ _ ":"%char H2 ltac:(vm_compute; lia)).
        apply digitValue_range in H1, H2.
        change (Z.of_nat (nat_of_ascii "0")) with 48 in *.
        change (Z.of_nat (nat_of_ascii "1")) with 49 in *.
        change (Z.of_nat (nat_of_ascii "9")) with 57 in *.
        repeat split; try assumption; lia.
      - apply Ascii.eqb_eq in H1. subst a.
        pose proof (digit_not_sep _ _ _ ":"%char H2 ltac:(vm_compute; lia)).
        apply digitValue_range in H2.
        change (Z.of_nat (nat_of_ascii "0")) with 48 in *.
        change (Z.of_nat (nat_of_ascii "3")) with 51 in *.
        change (JsString.digitValue "2") with 2.
        repeat split; try assumption; try reflexivity; lia. }
    destruct Ha as (Ea & Eb & Hh).
    pose proof (digit_not_sep _ _ _ ":"%char Hd ltac:(vm_compute; lia)) as Ed.
    pose proof (digit_not_sep _ _ _ ":"%char He ltac:(vm_compute; lia)) as Ee.
    cbn [JsString.splitAux]. rewrite Ea, Eb, Ed, Ee, Ascii.eqb_refl.
    simpl map. unfold JsString.Number; simpl JsString.NumberAux.
    apply digitValue_range in Hd, He.
    change (Z.of_nat (nat_of_ascii "0")) with 48 in *.
    change (Z.of_nat (nat_of_ascii "9")) with 57 in *.
    change (Z.of_nat (nat_of_ascii "5")) with 53 in *.
    eexists _, _. split; [reflexivity|]. lia.
Qed.

Lemma timeRegex_minutes t :
  BookingService.timeRegex t = true ->
  0 <= BookingService.timeToMinutes t < 1440.
Proof.
  intros H. destruct (timeRegex_parse t H) as (h & m & E & Hh & Hm).
  unfold BookingService.timeToMinutes. rewrite E. lia.
Qed.

Lemma validateTimeFormat_ok t :
  BookingService.timeRegex t = true -> BookingService.validateTimeFormat t = Ok tt.
Proof. intros H. unfold BookingService.validateTimeFormat. now rewrite H. Qed.

(** ** Interval validation and the single availability check *)

Lemma conflicts_fold_length {A B} (f : A -> bool) (conv : A -> B) (l : list A) acc :
  length (foldl (fun c b => if f b then c ++ [conv b] else c) acc l)
  = (length acc + length (List.filter f l))%nat.
Proof.
  revert acc. induction l as [|b l IH]; intros acc; simpl.
  - lia.
  - rewrite IH. destruct (f b); simpl; [|reflexivity].
    rewrite length_app. simpl. lia.
Qed.

Lemma filter_length_zero {A} (f : A -> bool) (l : list A) :
  (length (List.filter f l) =? 0)%nat = negb (existsb f l).
Proof.
  induction l as [|a l IH]; simpl; [reflexivity|].
  destruct (f a); simpl; [reflexivity|exact IH].
Qed.

(** The single check answers [available] exactly when no fetched booking
    conflicts with the requested minutes. *)
Lemma checkAvailability_available env bookings data :
  BookingService.timeRegex (BookingService.CheckAvailabilityDTO.startTime data) = true ->
  BookingService.timeRegex (BookingService.CheckAvailabilityDTO.endTime data) = true ->
  exists r,
    BookingService.checkAvailability env bookings data = Ok r
    /\ BookingService.AvailabilityResult.available r
       = negb (existsb
                 (BookingService.conflictsWith
                    (BookingService.timeToMinutes (BookingService.CheckAvailabilityDTO.startTime data))
                    (BookingService.timeToMinutes (BookingService.CheckAvailabilityDTO.endTime data))
                    (BookingService.timeToMinutes (BookingService.CheckAvailabilityDTO.endTime data)
                     <? BookingService.timeToMinutes (BookingService.CheckAvailabilityDTO.startTime data)))
                 (List.filter
                    (BookingService.singleQuery
                       (BookingService.CheckAvailabilityDTO.courtId data)
                       (JsDate.setHours (tzOffset env)
                          (BookingService.CheckAvailabilityDTO.bookingDate data) 0 0 0 0)
                       (BookingService.CheckAvailabilityDTO.excludeBookingId data))
                    bookings)).
Proof.
  intros Hs He. unfold BookingService.checkAvailability.
  rewrite (validateTimeFormat_ok _ Hs), (validateTimeFormat_ok _ He).
  eexists. split; [reflexivity|]. cbn [BookingService.AvailabilityResult.available].
  rewrite conflicts_fold_length. simpl. apply filter_length_zero.
Qed.

(** C6.  An interval whose end minute is strictly below its start minute is
    taken as crossing midnight: its duration is 1440 - start + end, validation
    rejects it only for a short or uneven duration, a start outside the
    operating window, an end after 04:00 or a past date, and the availability
    check hands it to the overlap detector as a crossing interval and returns
    a result. *)
Theorem crossing_interval_is_accepted env startTime endTime bookingDate :
  BookingService.timeRegex startTime = true ->
  BookingService.timeRegex endTime = true ->
  BookingService.timeToMinutes endTime < BookingService.timeToMinutes startTime ->
  let s := BookingService.timeToMinutes startTime in
  let e := BookingService.timeToMinutes endTime in
  (BookingService.validateBookingTime env startTime endTime bookingDate = Ok tt
   <-> 60 <= 1440 - s + e
       /\ (1440 - s + e) mod 30 = 0
       /\ (540 <= s \/ s < 240)
       /\ e <= 240
       /\ JsDate.setHours (tzOffset env) (now env) 0 0 0 0
          <= JsDate.setHours (tzOffset env) bookingDate 0 0 0 0)
  /\ BookingService.calculateDuration startTime endTime
     = (inject_Z (1440 - s + e) / 60)%Q
  /\ forall bookings courtId excludeBookingId,
       exists r,
         BookingService.checkAvailability env bookings
           (BookingService.CheckAvailabilityDTO.mk courtId bookingDate
              startTime endTime excludeBookingId) = Ok r
         /\ BookingService.AvailabilityResult.available r
            = negb (existsb (BookingService.conflictsWith s e true)
                      (List.filter
                         (BookingService.singleQuery courtId
                            (JsDate.setHours (tzOffset env) bookingDate 0 0 0 0)
                            excludeBookingId)
                         bookings)).
Proof.
  intros Hs He Hlt s e.
  pose proof (timeRegex_minutes _ Hs) as Bs.
  pose proof (timeRegex_minutes _ He) as Be.
  fold s in Hlt, Bs. fold e in Hlt, Be.
  assert (Hc : (e <? s) = true) by now apply Z.ltb_lt.
  split; [|split].
  - unfold BookingService.validateBookingTime.
    rewrite (validateTimeFormat_ok _ Hs), (validateTimeFormat_ok _ He).
    cbn [mbind Result_bind]. fold s e. rewrite Hc.
    change (24 * 60) with 1440. change (9 * 60) with 540. change (4 * 60) with 240.
    destruct (1440 - s + e <? 60) eqn:D1.
    { apply Z.ltb_lt in D1. split; [discriminate|lia]. }
    apply Z.ltb_ge in D1.
    rewrite Z.rem_mod_nonneg by lia.
    destruct ((1440 - s + e) mod 30 =? 0) eqn:D2; simpl negb.
    2:{ apply Z.eqb_neq in D2. split; [discriminate|lia]. }
    apply Z.eqb_eq in D2.
    destruct ((540 <=? s) || (s <? 240)) eqn:D3; simpl negb.
    2:{ apply orb_false_iff in D3 as [A B].
        apply Z.leb_gt in A. apply Z.ltb_ge in B. split; [discriminate|lia]. }
    assert (D3' : 540 <= s \/ s < 240).
    { apply orb_true_iff in D3 as [A|A];
        [left; now apply Z.leb_le|right; now apply Z.ltb_lt]. }
    destruct (240 <? e) eqn:D4; simpl.
    { apply Z.ltb_lt in D4. split; [discriminate|lia]. }
    apply Z.ltb_ge in D4.
    destruct (JsDate.setHours (tzOffset env) bookingDate 0 0 0 0
              <? JsDate.setHours (tzOffset env) (now env) 0 0 0 0) eqn:D5.
    { apply Z.ltb_lt in D5. split; [discriminate|lia]. }
    apply Z.ltb_ge in D5.
    split; [|reflexivity]. intros _. repeat split; lia.
  - unfold BookingService.calculateDuration. fold s e. now rewrite Hc.
  - intros bookings courtId excl.
    destruct (checkAvailability_available env bookings
                (BookingService.CheckAvailabilityDTO.mk courtId bookingDate
                   startTime endTime excl) Hs He) as (r & Hr & Ha).
    exists r. split; [exact Hr|]. rewrite Ha. simpl. fold s e. now rewrite Hc.
Qed.

Lemma crossing_interval_is_accepted_witness :
  BookingService.validateBookingTime Examples.riyadh "23:00" "02:00" Examples.feb12
  = Ok tt.
Proof.
  destruct (crossing_interval_is_accepted Examples.riyadh "23:00" "02:00"
              Examples.feb12) as [[_ H] _];
    [reflexivity | reflexivity | reflexivity | ].
  apply H. split; [|split; [|split; [|split]]].
  - vm_compute; discriminate.
  - reflexivity.
  - left. vm_compute; discriminate.
  - vm_compute; discriminate.
  - vm_compute; discriminate.
Defined.

(** C6, the claim as stated fails: an end time equal to the start time is
    not taken as crossing midnight; validation rejects it as too short. *)
Lemma equal_times_are_rejected :
  BookingService.timeToMinutes "10:00" <= BookingService.timeToMinutes "10:00"
  /\ BookingService.validateBookingTime Examples.riyadh "10:00" "10:00" Examples.feb12
     = Throw (mkApiError 400 "Booking duration must be at least 1 hour").
Proof. split; [vm_compute; discriminate|reflexivity]. Qed.

(** ** Reservation transaction *)

Lemma findBookingById_unique (l : list Booking.t) b :
  List.NoDup (map Booking._id l) -> In b l ->
  BookingController.findBookingById l (Booking._id b) = Some b.
Proof.
  unfold BookingController.findBookingById.
  induction l as [|q l IH]; simpl; intros Hnd Hin; [destruct Hin|].
  apply NoDup_cons_iff in Hnd as [Hq Hnd].
  destruct Hin as [->|Hin].
  - now rewrite bool_decide_eq_true_2.
  - rewrite bool_decide_eq_false_2; [now apply IH|].
    intros E. apply Hq. rewrite E. now apply in_map.
Qed.

Lemma findBookingByPaymentId_some (l : list Booking.t) pid :
  (exists b, In b l /\ Booking.paymentId b = Some pid) ->
  exists b, BookingController.findBookingByPaymentId l pid = Some b
            /\ In b l /\ Booking.paymentId b = Some pid.
Proof.
  intros (b & Hin & Hp). unfold BookingController.findBookingByPaymentId.
  destruct (List.find _ l) as [b'|] eqn:F.
  - apply find_some in F as [Hin' Hp']. apply bool_decide_eq_true in Hp'.
    exists b'. auto.
  - apply find_none with (x := b) in F; [|exact Hin].
    apply bool_decide_eq_false in F. contradiction.
Qed.

(** C4.  A request that carries a payment reference already present on a
    stored booking changes nothing in the store; when its required fields are
    all there the answer is that stored booking, with status 200, and
    otherwise the request is refused for its missing fields. *)
Theorem createBooking_replay env body st pid :
  BookingController.CreateBookingDTO.paymentId body = Some pid ->
  JsString.truthy pid = true ->
  (exists b, In b (Store.bookings st) /\ Booking.paymentId b = Some pid) ->
  List.NoDup (map Booking._id (Store.bookings st)) ->
  snd (BookingController.createBooking env body st) = st
  /\ (Spec.requiredFieldsPresent body = true ->
      exists b, In b (Store.bookings st)
                /\ Booking.paymentId b = Some pid
                /\ fst (BookingController.createBooking env body st)
                   = Ok (BookingController.Response.mk 200 true (Some b)
                           "Booking already exists for this payment"))
  /\ (Spec.requiredFieldsPresent body = false ->
      fst (BookingController.createBooking env body st)
      = Throw (BadRequestError "All required fields must be provided")).
Proof.
  intros Hpid Htr Hex Hnd.
  destruct (findBookingByPaymentId_some _ _ Hex) as (b & Hf & Hin & Hp).
  unfold BookingController.createBooking, Spec.requiredFieldsPresent.
  destruct (BookingController.CreateBookingDTO.bookingDate body) as [d|].
  2:{ cbn. repeat split; try reflexivity.
      rewrite andb_false_r. simpl. discriminate. }
  rewrite (bool_decide_eq_true_2 (is_Some (Some d))) by (eexists; reflexivity).
  rewrite andb_true_r.
  destruct (JsString.truthy (BookingController.CreateBookingDTO.courtId body));
    [|cbn; repeat split; first [discriminate|reflexivity|intros _; reflexivity]].
  destruct (JsString.truthy (BookingController.CreateBookingDTO.startTime body));
    [|cbn; repeat split; first [discriminate|reflexivity|intros _; reflexivity]].
  destruct (JsString.truthy (BookingController.CreateBookingDTO.endTime body));
    [|cbn; repeat split; first [discriminate|reflexivity|intros _; reflexivity]].
  destruct (JsString.truthy (BookingController.CreateBookingDTO.customerPhone body));
    [|cbn; repeat split; first [discriminate|reflexivity|intros _; reflexivity]].
  destruct (JsString.truthy (BookingController.CreateBookingDTO.customerName body));
    [|cbn; repeat split; first [discriminate|reflexivity|intros _; reflexivity]].
  cbn [negb orb andb]. unfold bindM, getM.
  rewrite Hpid. cbn [BookingService.optTruthy from_option id]. rewrite Htr, Hf.
  rewrite (findBookingById_unique _ _ Hnd Hin).
  cbn. split; [reflexivity|]. split; [|discriminate].
  intros _. exists b. auto.
Qed.

Lemma createBooking_replay_witness :
  snd (BookingController.createBooking Examples.riyadh (Stores.replay "Alice") Stores.one)
  = Stores.one
  /\ fst (BookingController.createBooking Examples.riyadh (Stores.replay "Alice") Stores.one)
     = Ok (BookingController.Response.mk 200 true (Some Stores.paid)
             "Booking already exists for this payment").
Proof.
  destruct (createBooking_replay Examples.riyadh (Stores.replay "Alice")
              Stores.one "pay_123") as (Hs & Hr & _).
  - reflexivity.
  - reflexivity.
  - exists Stores.paid. split; [now left|reflexivity].
  - simpl. constructor; [simpl; tauto|constructor].
  - split; [exact Hs|].
    destruct (Hr eq_refl) as (b & [<-|[]] & _ & E). exact E.
Defined.

(** C4, the claim as stated fails: with a required field missing the
    replayed request is refused and the stored booking is not returned. *)
Lemma replay_without_name_is_refused :
  BookingController.CreateBookingDTO.paymentId (Stores.replay "")
  = Booking.paymentId Stores.paid
  /\ In Stores.paid (Store.bookings Stores.one)
  /\ BookingController.createBooking Examples.riyadh (Stores.replay "") Stores.one
     = (Throw (BadRequestError "All required fields must be provided"), Stores.one).
Proof. split; [reflexivity|]. split; [now left|reflexivity]. Qed.

Lemma cancelBooking_unfold_cancelled st id reason b :
  BookingController.findBookingById (Store.bookings st) id = Some b ->
  Booking.status b = Cancelled ->
  BookingController.cancelBooking id reason st
  = (Throw (BadRequestError "Booking is already cancelled"), st).
Proof.
  intros Hf Hs. unfold BookingController.cancelBooking, bindM, getM.
  rewrite Hf. now rewrite bool_decide_eq_true_2.
Qed.

(** C5.  Cancelling a reservation that is already cancelled is refused
    with the error "Booking is already cancelled" (status 400), and the store
    is left as it was. *)
Theorem cancel_of_cancelled_is_refused st id reason b :
  BookingController.findBookingById (Store.bookings st) id = Some b ->
  Booking.status b = Cancelled ->
  fst (BookingController.cancelBooking id reason st)
  = Throw (mkApiError 400 "Booking is already cancelled")
  /\ snd (BookingController.cancelBooking id reason st) = st.
Proof.
  intros Hf Hs. now rewrite (cancelBooking_unfold_cancelled st id reason b Hf Hs).
Qed.

Lemma cancel_of_cancelled_is_refused_witness :
  fst (BookingController.cancelBooking "b1" None Stores.oneCancelled)
  = Throw (mkApiError 400 "Booking is already cancelled")
  /\ snd (BookingController.cancelBooking "b1" None Stores.oneCancelled)
     = Stores.oneCancelled.
Proof.
  apply (cancel_of_cancelled_is_refused Stores.oneCancelled "b1" None
           (BookingController.withStatusNotes Stores.paid Cancelled None));
    reflexivity.
Defined.

(** C5, the claim as stated fails: the first cancel succeeds and leaves the
    store [Stores.oneCancelled]; the same cancel once more does not succeed. *)
Lemma second_cancel_is_an_error :
  isOk (fst (BookingController.cancelBooking "b1" None Stores.one)) = true
  /\ snd (BookingController.cancelBooking "b1" None Stores.one) = Stores.oneCancelled
  /\ isOk (fst (BookingController.cancelBooking "b1" None Stores.oneCancelled)) = false.
Proof. repeat split; vm_compute; reflexivity. Qed.

(** ** Batch availability *)

Lemma JsMap_wf_empty {V} : JsMap_wf (@BookingService.JsMap.empty V).
Proof.
  intros k. simpl. rewrite lookup_empty. split.
  - intros [x Hx]. discriminate.
  - intros [].
Qed.

Lemma JsMap_has_spec {V} (m : BookingService.JsMap.t V) k :
  BookingService.JsMap.has m k = true
  <-> is_Some (BookingService.JsMap.entries m !! k).
Proof. unfold BookingService.JsMap.has. apply bool_decide_eq_true. Qed.

Lemma JsMap_wf_set {V} (m : BookingService.JsMap.t V) k v :
  JsMap_wf m -> JsMap_wf (BookingService.JsMap.set m k v).
Proof.
  intros Hwf k'. unfold BookingService.JsMap.set. simpl.
  destruct (decide (k = k')) as [->|Hne].
  - rewrite lookup_insert_eq. split; [intros _|eauto].
    destruct (BookingService.JsMap.has m k') eqn:E.
    + apply Hwf. now apply JsMap_has_spec.
    + apply in_or_app. right. now left.
  - rewrite lookup_insert_ne by exact Hne. rewrite (Hwf k').
    destruct (BookingService.JsMap.has m k); [reflexivity|].
    rewrite in_app_iff. simpl. intuition congruence.
Qed.

Lemma JsMap_keys_set {V} (m : BookingService.JsMap.t V) k v k' :
  JsMap_wf m ->
  In k' (BookingService.JsMap.keys (BookingService.JsMap.set m k v))
  <-> k' = k \/ In k' (BookingService.JsMap.keys m).
Proof.
  intros Hwf. unfold BookingService.JsMap.set. simpl.
  destruct (BookingService.JsMap.has m k) eqn:E.
  - split; [auto|]. intros [->|H]; [|exact H].
    apply Hwf. now apply JsMap_has_spec.
  - rewrite in_app_iff. simpl. intuition congruence.
Qed.

Lemma groupStep_wf m b : JsMap_wf m -> JsMap_wf (groupStep m b).
Proof.
  intros H. unfold groupStep. apply JsMap_wf_set.
  destruct (negb _); [now apply JsMap_wf_set|exact H].
Qed.

Lemma groupStep_keys m b k :
  JsMap_wf m ->
  In k (BookingService.JsMap.keys (groupStep m b))
  <-> k = Booking.court b \/ In k (BookingService.JsMap.keys m).
Proof.
  intros H. unfold groupStep.
  destruct (negb (BookingService.JsMap.has m (Booking.court b))).
  - rewrite JsMap_keys_set by now apply JsMap_wf_set.
    rewrite JsMap_keys_set by exact H. tauto.
  - now rewrite JsMap_keys_set.
Qed.

Lemma groupStep_get m b k :
  BookingService.JsMap.get (groupStep m b) k
  = if decide (Booking.court b = k)
    then Some (default [] (BookingService.JsMap.get m k) ++ [b])
    else BookingService.JsMap.get m k.
Proof.
  unfold groupStep, BookingService.JsMap.get.
  destruct (decide (Booking.court b = k)) as [<-|Hne].
  - unfold BookingService.JsMap.set at 1.
    cbn [BookingService.JsMap.entries]. rewrite lookup_insert_eq.
    destruct (negb (BookingService.JsMap.has m (Booking.court b))) eqn:E.
    + unfold BookingService.JsMap.set.
      cbn [BookingService.JsMap.entries]. rewrite lookup_insert_eq.
      apply negb_true_iff in E. unfold BookingService.JsMap.has in E.
      apply bool_decide_eq_false in E.
      destruct (BookingService.JsMap.entries m !! Booking.court b) eqn:L;
        [exfalso; apply E; eauto|reflexivity].
    + reflexivity.
  - unfold BookingService.JsMap.set at 1.
    cbn [BookingService.JsMap.entries]. rewrite lookup_insert_ne by exact Hne.
    destruct (negb (BookingService.JsMap.has m (Booking.court b))).
    + unfold BookingService.JsMap.set.
      cbn [BookingService.JsMap.entries]. now rewrite lookup_insert_ne.
    + reflexivity.
Qed.

Lemma groupFold_wf l m :
  JsMap_wf m -> JsMap_wf (foldl groupStep m l).
Proof.
  revert m. induction l as [|b l IH]; intros m H; simpl; [exact H|].
  apply IH. now apply groupStep_wf.
Qed.

Lemma groupFold_keys l m k :
  JsMap_wf m ->
  In k (BookingService.JsMap.keys (foldl groupStep m l))
  <-> In k (BookingService.JsMap.keys m) \/ exists b, In b l /\ Booking.court b = k.
Proof.
  revert m. induction l as [|b l IH]; intros m H; simpl.
  - split; [auto|]. intros [H'|(b & [] & _)]. exact H'.
  - rewrite IH by now apply groupStep_wf. rewrite groupStep_keys by exact H.
    split.
    + intros [[->|H']|(b' & Hb' & E)]; eauto.
    + intros [H'|(b' & [->|Hb'] & E)]; eauto.
Qed.

Lemma groupFold_get l m k :
  BookingService.JsMap.get (foldl groupStep m l) k
  = match List.filter (fun b => bool_decide (Booking.court b = k)) l with
    | [] => BookingService.JsMap.get m k
    | bs => Some (default [] (BookingService.JsMap.get m k) ++ bs)
    end.
Proof.
  revert m. induction l as [|b l IH]; intros m; simpl; [reflexivity|].
  rewrite IH, groupStep_get.
  destruct (decide (Booking.court b = k)) as [E|E].
  - rewrite bool_decide_eq_true_2 by exact E. simpl.
    destruct (List.filter _ l); [reflexivity|]. now rewrite <- app_assoc.
  - rewrite bool_decide_eq_false_2 by exact E. reflexivity.
Qed.

(** The keys of [groupByCourt] are the courts of the fetched bookings, and
    each key holds that court's bookings in the order fetched. *)
Lemma groupByCourt_keys l k :
  In k (BookingService.JsMap.keys (BookingService.groupByCourt l))
  <-> exists b, In b l /\ Booking.court b = k.
Proof.
  change (BookingService.groupByCourt l)
    with (foldl groupStep BookingService.JsMap.empty l).
  rewrite groupFold_keys by apply JsMap_wf_empty. simpl. tauto.
Qed.

Lemma groupByCourt_get l k :
  default [] (BookingService.JsMap.get (BookingService.groupByCourt l) k)
  = List.filter (fun b => bool_decide (Booking.court b = k)) l.
Proof.
  change (BookingService.groupByCourt l)
    with (foldl groupStep BookingService.JsMap.empty l).
  rewrite groupFold_get. unfold BookingService.JsMap.get. simpl.
  rewrite lookup_empty. now destruct (List.filter _ l).
Qed.

(** The result object has an entry for exactly the courts checked. *)
Lemma result_fold_lookup {V} (f : string -> V) (cs : list string)
    (acc : gmap string V) k :
  foldl (fun result courtId => <[courtId := f courtId]> result) acc cs !! k
  = if bool_decide (k ∈ cs) then Some (f k) else acc !! k.
Proof.
  revert acc. induction cs as [|c cs IH]; intros acc; cbn [foldl].
  - rewrite bool_decide_eq_false_2; [reflexivity|]. apply not_elem_of_nil.
  - rewrite IH. destruct (bool_decide (k ∈ cs)) eqn:E.
    + apply bool_decide_eq_true in E.
      rewrite bool_decide_eq_true_2; [reflexivity|]. rewrite elem_of_cons. now right.
    + apply bool_decide_eq_false in E.
      destruct (decide (c = k)) as [->|Hne].
      * rewrite bool_decide_eq_true_2 by (rewrite elem_of_cons; now left).
        apply lookup_insert_eq.
      * rewrite bool_decide_eq_false_2.
        -- now apply lookup_insert_ne.
        -- rewrite elem_of_cons. intuition.
Qed.

Lemma validate_fold_ok slots (acc : Result unit) :
  foldl (fun acc slot =>
           _ ← acc;
           _ ← BookingService.validateTimeFormat (BookingService.TimeSlotDTO.startTime slot);
           BookingService.validateTimeFormat (BookingService.TimeSlotDTO.endTime slot))
        acc slots = Ok tt ->
  acc = Ok tt
  /\ forall slot, In slot slots ->
       BookingService.timeRegex (BookingService.TimeSlotDTO.startTime slot) = true
       /\ BookingService.timeRegex (BookingService.TimeSlotDTO.endTime slot) = true.
Proof.
  revert acc. induction slots as [|s slots IH]; intros acc H; simpl in *.
  - split; [exact H|]. intros _ [].
  - apply IH in H as [H1 H2]. destruct acc as [[]| |]; try discriminate.
    cbn [mbind Result_bind] in H1. unfold BookingService.validateTimeFormat in H1.
    destruct (BookingService.timeRegex (BookingService.TimeSlotDTO.startTime s)) eqn:E1;
      [|discriminate].
    destruct (BookingService.timeRegex (BookingService.TimeSlotDTO.endTime s)) eqn:E2;
      [|discriminate].
    split; [reflexivity|]. intros slot [<-|Hin]; auto.
Qed.

Lemma validate_fold_all slots :
  (forall slot, In slot slots ->
     BookingService.timeRegex (BookingService.TimeSlotDTO.startTime slot) = true
     /\ BookingService.timeRegex (BookingService.TimeSlotDTO.endTime slot) = true) ->
  foldl (fun acc slot =>
           _ ← acc;
           _ ← BookingService.validateTimeFormat (BookingService.TimeSlotDTO.startTime slot);
           BookingService.validateTimeFormat (BookingService.TimeSlotDTO.endTime slot))
        (Ok tt) slots = Ok tt.
Proof.
  induction slots as [|s slots IH]; intros H; simpl; [reflexivity|].
  destruct (H s (or_introl eq_refl)) as [H1 H2].
  rewrite (validateTimeFormat_ok _ H1), (validateTimeFormat_ok _ H2).
  cbn [mbind Result_bind]. apply IH. intros slot Hin. apply H. now right.
Qed.

(** C10.  Called without court ids, the batch check returns an entry for a
    court exactly when some stored booking of that court, not cancelled, has
    its date within the requested day; a court without such a booking has no
    entry at all. *)
Theorem batch_without_courtIds_lists_only_booked_courts
    env bookings bookingDate timeSlots result :
  BookingService.checkBatchAvailability env bookings
    (BookingService.BatchAvailabilityDTO.mk bookingDate timeSlots None)
  = Ok result ->
  let dateObj := JsDate.setHours (tzOffset env) bookingDate 0 0 0 0 in
  let endOfDay := JsDate.setHours (tzOffset env) dateObj 23 59 59 999 in
  forall courtId,
    is_Some (result !! courtId)
    <-> exists b, In b bookings
                  /\ Booking.court b = courtId
                  /\ Booking.status b <> Cancelled
                  /\ dateObj <= Booking.bookingDate b <= endOfDay.
Proof.
  intros H dateObj endOfDay courtId.
  unfold BookingService.checkBatchAvailability in H. simpl in H.
  destruct (foldl _ (Ok tt) timeSlots) as [[]| |]; try discriminate.
  cbn [mbind Result_bind] in H. injection H as <-.
  fold dateObj. fold endOfDay.
  rewrite result_fold_lookup, lookup_empty.
  destruct (bool_decide (courtId ∈ _)) eqn:E.
  - apply bool_decide_eq_true in E. apply list_elem_of_In in E.
    apply groupByCourt_keys in E.
    destruct E as (b & Hin & Hc). apply filter_In in Hin as [Hin Hq].
    unfold BookingService.batchQuery in Hq.
    rewrite !andb_true_iff, Z.leb_le, Z.leb_le, negb_true_iff in Hq.
    destruct Hq as [[[Q1 Q2] Q3] _]. apply bool_decide_eq_false in Q3.
    split; [|eauto]. intros _. exists b. auto.
  - apply bool_decide_eq_false in E. split.
    + intros [x Hx]. discriminate.
    + intros (b & Hin & Hc & Hs & Hd). exfalso. apply E.
      apply list_elem_of_In. apply groupByCourt_keys. exists b. split; [|exact Hc].
      apply filter_In. split; [exact Hin|].
      unfold BookingService.batchQuery.
      rewrite !andb_true_iff, Z.leb_le, Z.leb_le, negb_true_iff.
      repeat split; try lia. now apply bool_decide_eq_false.
Qed.

Lemma batch_without_courtIds_lists_only_booked_courts_witness :
  is_Some
    (({[ "court1" :=
           {[ "19:00-21:00" :=
                BookingService.SlotAvailability.mk false "19:00" "21:00" ]} ]}
      : gmap string (gmap string BookingService.SlotAvailability.t))
     !! "court1").
Proof.
  apply (batch_without_courtIds_lists_only_booked_courts Examples.riyadh
           [Examples.booking "b1" "court1"
              (JsDate.localMidnight 10800000 2026 2 12) "18:00" "20:00" Confirmed]
           Examples.feb12 [BookingService.TimeSlotDTO.mk "19:00" "21:00"]).
  - vm_compute. reflexivity.
  - eexists. split; [now left|]. repeat split; try discriminate.
Defined.

(** *** The batch check against the single check *)

Lemma timeRegex_no_dash t :
  BookingService.timeRegex t = true -> hasChar "-" t = false.
Proof.
  unfold BookingService.timeRegex.
  destruct t as [|a [|b [|c [|d [|e [|f t]]]]]]; try discriminate.
  - rewrite !andb_true_iff. intros [[[Ha Hb] Hc] Hd].
    apply Ascii.eqb_eq in Hb. subst b. simpl.
    rewrite (digit_not_sep _ _ _ "-"%char Ha ltac:(vm_compute; lia)).
    rewrite (digit_not_sep _ _ _ "-"%char Hc ltac:(vm_compute; lia)).
    rewrite (digit_not_sep _ _ _ "-"%char Hd ltac:(vm_compute; lia)).
    reflexivity.
  - rewrite !andb_true_iff. intros [[[Hab Hc] Hd] He].
    apply Ascii.eqb_eq in Hc. subst c. simpl.
    rewrite (digit_not_sep _ _ _ "-"%char Hd ltac:(vm_compute; lia)).
    rewrite (digit_not_sep _ _ _ "-"%char He ltac:(vm_compute; lia)).
    apply orb_true_iff in Hab. destruct Hab as [H|H];
      apply andb_true_iff in H; destruct H as [H1 H2].
    + rewrite (digit_not_sep _ _ _ "-"%char H1 ltac:(vm_compute; lia)).
      rewrite (digit_not_sep _ _ _ "-"%char H2 ltac:(vm_compute; lia)).
      reflexivity.
    + apply Ascii.eqb_eq in H1. subst a.
      rewrite (digit_not_sep _ _ _ "-"%char H2 ltac:(vm_compute; lia)).
      reflexivity.
Qed.

Lemma app_dash_inj s1 e1 s2 e2 :
  hasChar "-" s1 = false -> hasChar "-" s2 = false ->
  s1 +:+ "-" +:+ e1 = s2 +:+ "-" +:+ e2 -> s1 = s2 /\ e1 = e2.
Proof.
  revert s2. induction s1 as [|a s1 IH]; intros [|b s2] H1 H2 E; cbn in *.
  - injection E as E. auto.
  - injection E as Hb _. subst b. discriminate.
  - injection E as Ha _. subst a. discriminate.
  - injection E as Hab E. subst b. apply orb_false_iff in H1 as [_ H1].
    apply orb_false_iff in H2 as [_ H2].
    destruct (IH s2 H1 H2 E) as [E1 E2]. subst. auto.
Qed.

(** Two slots with well-formed times and the same key are the same slot. *)
Lemma timeSlotKey_inj s s' :
  BookingService.timeRegex (BookingService.TimeSlotDTO.startTime s) = true ->
  BookingService.timeRegex (BookingService.TimeSlotDTO.startTime s') = true ->
  BookingService.timeSlotKey s = BookingService.timeSlotKey s' -> s = s'.
Proof.
  intros H H' E. unfold BookingService.timeSlotKey in E.
  apply app_dash_inj in E as [E1 E2]; try now apply timeRegex_no_dash.
  destruct s, s'. simpl in *. congruence.
Qed.

Lemma find_app {A} (P : A -> bool) (l1 l2 : list A) :
  List.find P (l1 ++ l2)
  = match List.find P l1 with Some x => Some x | None => List.find P l2 end.
Proof.
  induction l1 as [|a l1 IH]; simpl; [reflexivity|].
  destruct (P a); [reflexivity|exact IH].
Qed.

(** The inner object holds, under a key, the value of the last slot with
    that key. *)
Lemma inner_fold_lookup {V} (f : BookingService.TimeSlotDTO.t -> V) slots
    (acc : gmap string V) k :
  foldl (fun inner s => <[BookingService.timeSlotKey s := f s]> inner) acc slots !! k
  = match List.find (fun s => bool_decide (BookingService.timeSlotKey s = k))
            (rev slots) with
    | Some s => Some (f s)
    | None => acc !! k
    end.
Proof.
  revert acc. induction slots as [|s slots IH]; intros acc; cbn [foldl rev];
    [reflexivity|].
  rewrite IH, find_app.
  destruct (List.find _ (rev slots)); [reflexivity|]. simpl.
  destruct (decide (BookingService.timeSlotKey s = k)) as [E|E].
  - rewrite bool_decide_eq_true_2 by exact E. rewrite E. apply lookup_insert_eq.
  - rewrite bool_decide_eq_false_2 by exact E. now apply lookup_insert_ne.
Qed.

Lemma inner_fold_slot {V} (f : BookingService.TimeSlotDTO.t -> V) slots slot :
  (forall s, In s slots ->
     BookingService.timeRegex (BookingService.TimeSlotDTO.startTime s) = true) ->
  In slot slots ->
  foldl (fun (inner : gmap string V) s =>
           <[BookingService.timeSlotKey s := f s]> inner) ∅ slots
    !! BookingService.timeSlotKey slot
  = Some (f slot).
Proof.
  intros Hv Hin. rewrite inner_fold_lookup.
  destruct (List.find _ (rev slots)) as [s|] eqn:F.
  - apply find_some in F as [Hs E]. apply bool_decide_eq_true in E.
    apply in_rev in Hs. apply timeSlotKey_inj in E; auto. now subst.
  - apply find_none with (x := slot) in F; [|now apply in_rev in Hin].
    apply bool_decide_eq_false in F. now contradiction F.
Qed.

(** *** Dates *)

Lemma localDay_midnight tz t :
  JsDate.localDay tz (JsDate.setHours tz t 0 0 0 0) = JsDate.localDay tz t.
Proof.
  unfold JsDate.setHours, JsDate.localDay, JsDate.localTime, JsDate.msPerDay.
  replace (_ - tz + tz) with ((t + tz) / 86400000 * 86400000) by lia.
  now rewrite Z.div_mul.
Qed.

(** Setting the clock of a date that stands at local midnight adds the
    clock time to it. *)
Lemma setHours_from_midnight tz t h m s ms :
  JsDate.setHours tz (JsDate.setHours tz t 0 0 0 0) h m s ms
  = JsDate.setHours tz t 0 0 0 0
    + h * JsDate.msPerHour + m * JsDate.msPerMinute + s * JsDate.msPerSecond + ms.
Proof.
  unfold JsDate.setHours at 1. rewrite localDay_midnight.
  unfold JsDate.setHours. lia.
Qed.

Lemma filter_filter {A} (f g : A -> bool) (l : list A) :
  List.filter f (List.filter g l) = List.filter (fun x => g x && f x) l.
Proof.
  induction l as [|a l IH]; simpl; [reflexivity|].
  destruct (g a); simpl; [|exact IH].
  destruct (f a); [now rewrite IH|exact IH].
Qed.

(** On a store whose bookings of the requested day all carry the day's
    local midnight as their date, the batch check and the single check fetch
    the same bookings for a requested court. *)
Lemma batch_fetch_eq_single env bookings bookingDate courtIds courtId :
  let dateObj := JsDate.setHours (tzOffset env) bookingDate 0 0 0 0 in
  let endOfDay := JsDate.setHours (tzOffset env) dateObj 23 59 59 999 in
  (forall b, In b bookings -> Booking.status b <> Cancelled ->
             dateObj <= Booking.bookingDate b <= endOfDay ->
             Booking.bookingDate b = dateObj) ->
  In courtId courtIds ->
  List.filter (fun b => bool_decide (Booking.court b = courtId))
    (List.filter (BookingService.batchQuery dateObj endOfDay (Some courtIds)) bookings)
  = List.filter (BookingService.singleQuery courtId dateObj None) bookings.
Proof.
  intros dateObj endOfDay Hnorm Hin. rewrite filter_filter.
  apply filter_ext_in. intros b Hb.
  unfold BookingService.batchQuery, BookingService.singleQuery.
  cbn [BookingService.optTruthy]. rewrite andb_true_r.
  assert (Hend : endOfDay = dateObj + 86399999).
  { unfold endOfDay, dateObj. rewrite setHours_from_midnight.
    unfold JsDate.msPerHour, JsDate.msPerMinute, JsDate.msPerSecond. lia. }
  destruct courtIds as [|c cs]; [destruct Hin|].
  destruct (bool_decide (Booking.court b = courtId)) eqn:Ec.
  - apply bool_decide_eq_true in Ec.
    rewrite (bool_decide_eq_true_2 (Booking.court b ∈ c :: cs))
      by (rewrite Ec; now apply list_elem_of_In).
    rewrite !andb_true_r. simpl.
    destruct (bool_decide (Booking.status b = Cancelled)) eqn:Es; simpl.
    + now rewrite !andb_false_r.
    + apply bool_decide_eq_false in Es. rewrite !andb_true_r.
      destruct (Booking.bookingDate b =? dateObj) eqn:Ed.
      * apply Z.eqb_eq in Ed. rewrite Ed.
        apply andb_true_iff. rewrite !Z.leb_le. lia.
      * apply Z.eqb_neq in Ed.
        destruct ((dateObj <=? Booking.bookingDate b)
                  && (Booking.bookingDate b <=? endOfDay)) eqn:Er; [|reflexivity].
        apply andb_true_iff in Er as [E1 E2].
        apply Z.leb_le in E1, E2. exfalso. apply Ed. apply Hnorm; auto.
  - rewrite andb_false_r. reflexivity.
Qed.

(** X17.  When every stored booking of the requested day carries the day's local
    midnight as its date and the court ids are requested as the database
    writes them (24 hexadecimal digits, the letters in lower case), the batch
    check gives each requested court and slot the [available] value of the
    single check. *)
Lemma batch_matches_single_on_normalised_dates
    env bookings bookingDate timeSlots courtIds result :
  let dateObj := JsDate.setHours (tzOffset env) bookingDate 0 0 0 0 in
  let endOfDay := JsDate.setHours (tzOffset env) dateObj 23 59 59 999 in
  (forall b, In b bookings -> Booking.status b <> Cancelled ->
             dateObj <= Booking.bookingDate b <= endOfDay ->
             Booking.bookingDate b = dateObj) ->
  (forall courtId, In courtId courtIds ->
                   JsString.isCanonicalObjectId courtId = true) ->
  BookingService.checkBatchAvailability env bookings
    (BookingService.BatchAvailabilityDTO.mk bookingDate timeSlots (Some courtIds))
  = Ok result ->
  forall courtId slot,
    In courtId courtIds -> In slot timeSlots ->
    exists inner sa r,
      result !! courtId = Some inner
      /\ inner !! BookingService.timeSlotKey slot = Some sa
      /\ BookingService.checkAvailability env bookings
           (BookingService.CheckAvailabilityDTO.mk courtId bookingDate
              (BookingService.TimeSlotDTO.startTime slot)
              (BookingService.TimeSlotDTO.endTime slot) None) = Ok r
      /\ BookingService.SlotAvailability.available sa
         = BookingService.AvailabilityResult.available r.
Proof.
  intros dateObj endOfDay Hnorm _ H courtId slot Hc Hs.
  unfold BookingService.checkBatchAvailability in H.
  cbn [BookingService.BatchAvailabilityDTO.bookingDate
       BookingService.BatchAvailabilityDTO.timeSlots
       BookingService.BatchAvailabilityDTO.courtIds] in H.
  destruct (foldl _ (Ok tt) timeSlots) as [[]| |] eqn:V; try discriminate.
  apply validate_fold_ok in V as [_ V].
  cbn [mbind Result_bind] in H. injection H as <-.
  fold dateObj. fold endOfDay.
  destruct (checkAvailability_available env bookings
              (BookingService.CheckAvailabilityDTO.mk courtId bookingDate
                 (BookingService.TimeSlotDTO.startTime slot)
                 (BookingService.TimeSlotDTO.endTime slot) None))
    as (r & Hr & Ha); try (apply V; exact Hs).
  eexists _, _, r. split; [|split; [|split; [exact Hr|]]].
  - rewrite result_fold_lookup.
    rewrite bool_decide_eq_true_2 by now apply list_elem_of_In. reflexivity.
  - apply inner_fold_slot; [|exact Hs]. intros s Hin. now apply V.
  - rewrite Ha. cbn.
    rewrite groupByCourt_get.
    fold dateObj. fold endOfDay.
    pose proof (batch_fetch_eq_single env bookings bookingDate courtIds courtId
                  Hnorm Hc) as E.
    cbv zeta in E. fold dateObj in E. fold endOfDay in E. now rewrite E.
Qed.

(** C3.  A booking stored with midnight UTC as its date (as [createBooking]
    stores it), on a server at UTC+3: for the same court, date and slot the
    single check fetches nothing and answers available, the batch check
    fetches the booking and answers not available. *)
Theorem batch_and_single_disagree :
  let stored :=
    [Examples.booking "b1" "court1" (JsDate.setUTCMidnight Examples.feb12)
       "18:00" "20:00" Confirmed] in
  BookingService.checkAvailability Examples.riyadh stored
    (BookingService.CheckAvailabilityDTO.mk "court1" Examples.feb12
       "19:00" "21:00" None)
  = Ok (BookingService.AvailabilityResult.mk true None)
  /\ BookingService.checkBatchAvailability Examples.riyadh stored
       (BookingService.BatchAvailabilityDTO.mk Examples.feb12
          [BookingService.TimeSlotDTO.mk "19:00" "21:00"] (Some ["court1"]))
     = Ok {[ "court1" :=
               {[ "19:00-21:00" :=
                    BookingService.SlotAvailability.mk false "19:00" "21:00" ]} ]}.
Proof. split; vm_compute; reflexivity. Qed.

(** *** The calendar *)

Lemma allFrom_spec n P : forall z0,
  allFrom n z0 P = true -> forall z, z0 <= z < z0 + Z.of_nat n -> P z = true.
Proof.
  induction n as [|k IH]; intros z0 H z Hz; [lia|].
  cbn [allFrom] in H. destruct (P z0) eqn:E; [|discriminate].
  destruct (Z.eq_dec z z0) as [->|Hne]; [exact E|].
  apply (IH (z0 + 1)); [exact H|lia].
Qed.

(** Within the 400-year era the day of the month changes from each day to
    the next (checked on all 146097 days of the era). *)
Lemma dayOfMonthOfEraDay_next_differs :
  allFrom (Z.to_nat 146097) 0
    (fun doe => negb (JsDate.dayOfMonthOfEraDay ((doe + 1) mod 146097)
                      =? JsDate.dayOfMonthOfEraDay doe)) = true.
Proof. vm_compute. reflexivity. Qed.

(** The day-of-month function agrees with the calendar on sample dates,
    leap days and year ends among them, and 2026-02-12 is a Thursday. *)
Lemma calendar_samples :
  JsDate.dayOfMonth (JsDate.daysFromCivil 1970 1 1) = 1
  /\ JsDate.dayOfMonth (JsDate.daysFromCivil 2000 2 29) = 29
  /\ JsDate.dayOfMonth (JsDate.daysFromCivil 2024 2 29 + 1) = 1
  /\ JsDate.dayOfMonth (JsDate.daysFromCivil 2025 12 31) = 31
  /\ JsDate.dayOfMonth (JsDate.daysFromCivil 2026 2 12) = 12
  /\ JsDate.getDay 0 Examples.feb12 = 4
  /\ JsDate.getDate (tzOffset Examples.riyadh) Examples.feb12 = 12.
Proof. repeat split; reflexivity. Qed.

(** Two consecutive days never have the same day of the month. *)
Lemma dayOfMonth_succ_neq n : JsDate.dayOfMonth (n + 1) <> JsDate.dayOfMonth n.
Proof.
  unfold JsDate.dayOfMonth, JsDate.dayOfEra.
  set (doe := (n + 719468) mod 146097).
  assert (Hd : 0 <= doe < 146097) by (apply Z.mod_pos_bound; lia).
  replace ((n + 1 + 719468) mod 146097) with ((doe + 1) mod 146097).
  - pose proof (allFrom_spec _ _ 0 dayOfMonthOfEraDay_next_differs doe) as H.
    assert (Hd' : 0 <= doe < 0 + Z.of_nat (Z.to_nat 146097)) by lia.
    specialize (H Hd').
    apply negb_true_iff, Z.eqb_neq in H. exact H.
  - unfold doe. rewrite Zplus_mod_idemp_l. f_equal. lia.
Qed.

(** *** Arithmetic of instants *)

Lemma mod_hour_of_mod_day x :
  (x mod JsDate.msPerDay) mod JsDate.msPerHour = x mod JsDate.msPerHour.
Proof.
  apply Z.mod_mod_divide. exists 24. reflexivity.
Qed.

(** [next.setHours(next.getHours() + 1)] moves a date one hour ahead. *)
Lemma setHours1_next tz t :
  JsDate.setHours1 tz t (JsDate.getHours tz t + 1) = t + JsDate.msPerHour.
Proof.
  unfold JsDate.setHours1, JsDate.getHours, JsDate.localDay.
  set (lt := JsDate.localTime tz t).
  pose proof (Z.div_mod lt JsDate.msPerDay ltac:(discriminate)) as H1.
  pose proof (Z.div_mod (lt mod JsDate.msPerDay) JsDate.msPerHour ltac:(discriminate)) as H2.
  rewrite mod_hour_of_mod_day in H2.
  unfold lt, JsDate.localTime in *. lia.
Qed.

Section Instants.
(** [dateObj] stands at local midnight of the day numbered [L]. *)
Variables (tz dateObj L : Z).
Hypothesis midnight : dateObj + tz = L * JsDate.msPerDay.

Lemma localDay_dateObj : JsDate.localDay tz dateObj = L.
Proof.
  unfold JsDate.localDay, JsDate.localTime. rewrite midnight.
  apply Z.div_mul. discriminate.
Qed.

Lemma localTime_offset off :
  JsDate.localTime tz (dateObj + off) = L * JsDate.msPerDay + off.
Proof.
  unfold JsDate.localTime. lia.
Qed.

Lemma localDay_offset off :
  JsDate.localDay tz (dateObj + off) = L + off / JsDate.msPerDay.
Proof.
  unfold JsDate.localDay at 1. rewrite localTime_offset.
  rewrite Z.add_comm, Z.div_add by discriminate. lia.
Qed.

Lemma getHours_offset off :
  JsDate.getHours tz (dateObj + off)
  = (off mod JsDate.msPerDay) / JsDate.msPerHour.
Proof.
  unfold JsDate.getHours. rewrite localTime_offset.
  now rewrite Z.add_comm, Z.mod_add by discriminate.
Qed.

Lemma getMinutes_offset off :
  JsDate.getMinutes tz (dateObj + off)
  = (off mod JsDate.msPerHour) / JsDate.msPerMinute.
Proof.
  unfold JsDate.getMinutes. rewrite localTime_offset.
  replace (L * JsDate.msPerDay + off)
    with (off + (L * 24) * JsDate.msPerHour)
    by (unfold JsDate.msPerDay, JsDate.msPerHour; lia).
  now rewrite Z.mod_add by discriminate.
Qed.

Lemma getDays_offset off :
  PricingService.getDays tz (dateObj + off)
  = PricingService.getDays tz (dateObj + off mod JsDate.msPerDay
                               + (off / JsDate.msPerDay) * JsDate.msPerDay).
Proof.
  f_equal. pose proof (Z.div_mod off JsDate.msPerDay ltac:(discriminate)). lia.
Qed.

(** The midnight rule on the instants a booking can reach: between 00:00
    and 04:00 the date priced is the booking date itself on the booking
    day, and the slot's date less one day, which is the booking day again,
    on the day after. *)
Lemma getEffectiveDate_early off :
  0 <= off < 2 * JsDate.msPerDay ->
  JsDate.getHours tz (dateObj + off) < 4 ->
  PricingService.getEffectiveDate tz (dateObj + off) (Some dateObj)
  = if off <? JsDate.msPerDay then dateObj
    else dateObj + off - JsDate.msPerDay.
Proof.
  intros Hoff Hh. unfold PricingService.getEffectiveDate.
  assert (H0 : 0 <= JsDate.getHours tz (dateObj + off)).
  { rewrite getHours_offset. apply Z.div_pos; [|reflexivity].
    apply Z.mod_pos_bound. reflexivity. }
  replace (0 <=? _) with true by (symmetry; now apply Z.leb_le).
  replace (_ <? 4) with true by (symmetry; now apply Z.ltb_lt).
  cbn [andb]. unfold JsDate.setDate, JsDate.getDate.
  rewrite localDay_dateObj.
  rewrite localDay_offset.
  destruct (off <? JsDate.msPerDay) eqn:E.
  - apply Z.ltb_lt in E. rewrite Z.div_small by lia.
    rewrite Z.add_0_r, Z.eqb_refl. reflexivity.
  - apply Z.ltb_ge in E.
    replace (off / JsDate.msPerDay) with 1.
    + pose proof (dayOfMonth_succ_neq L) as N.
      apply Z.eqb_neq in N. rewrite N. lia.
    + apply Z.div_unique with (r := off - JsDate.msPerDay).
      * left. unfold JsDate.msPerDay in *. lia.
      * lia.
Qed.

Lemma getDays_same_day off :
  0 <= off < JsDate.msPerDay ->
  PricingService.getDays tz (dateObj + off) = PricingService.getDays tz dateObj.
Proof.
  intros H. unfold PricingService.getDays, PricingService.getDayOfWeek, JsDate.getDay.
  rewrite localDay_dateObj.
  rewrite localDay_offset, Z.div_small by lia. now rewrite Z.add_0_r.
Qed.

(** Between 00:00 and 04:00 the day bucket is that of the booking date. *)
Lemma getDays_effective_early off :
  0 <= off < 2 * JsDate.msPerDay ->
  JsDate.getHours tz (dateObj + off) < 4 ->
  PricingService.getDays tz
    (PricingService.getEffectiveDate tz (dateObj + off) (Some dateObj))
  = PricingService.getDays tz dateObj.
Proof.
  intros Hoff Hh. rewrite getEffectiveDate_early by assumption.
  destruct (off <? JsDate.msPerDay) eqn:E; [reflexivity|].
  apply Z.ltb_ge in E.
  replace (dateObj + off - JsDate.msPerDay)
    with (dateObj + (off - JsDate.msPerDay)) by lia.
  apply getDays_same_day. lia.
Qed.

End Instants.

Lemma setHours_midnight tz t :
  JsDate.setHours tz t 0 0 0 0 + tz = JsDate.localDay tz t * JsDate.msPerDay.
Proof. unfold JsDate.setHours. lia. Qed.

(** *** The pricing loop *)

Lemma priceLoop_spec tz rules dateObj endDateTime fuel :
  forall t breakdown totalPrice,
    endDateTime - t <= Z.of_nat fuel * JsDate.msPerHour ->
    PricingService.priceLoop fuel tz rules dateObj endDateTime t breakdown totalPrice
    = (xs ← mapR (segItem tz rules dateObj endDateTime)
               (segmentStarts fuel endDateTime t);
       Ok (breakdown ++ map fst xs, sumQ totalPrice (map snd xs))).
Proof.
  induction fuel as [|fuel IH]; intros t bd tot Hf.
  - cbn [PricingService.priceLoop segmentStarts mapR mbind Result_bind map sumQ foldl].
    replace (t <? endDateTime) with false
      by (symmetry; apply Z.ltb_ge; lia).
    now rewrite app_nil_r.
  - cbn [PricingService.priceLoop segmentStarts].
    destruct (t <? endDateTime) eqn:E.
    2:{ cbn. now rewrite app_nil_r. }
    apply Z.ltb_lt in E.
    rewrite setHours1_next. fold (slotEndAt endDateTime t).
    cbn [mapR]. change (1000 * 60 * 60) with JsDate.msPerHour.
    assert (Hend : endDateTime - slotEndAt endDateTime t
                   <= Z.of_nat fuel * JsDate.msPerHour).
    { unfold slotEndAt. destruct (endDateTime <? t + JsDate.msPerHour) eqn:E2.
      - unfold JsDate.msPerHour. lia.
      - apply Z.ltb_ge in E2. lia. }
    unfold segItem at 2.
    destruct (PricingService.getPrice tz rules t (JsDate.getHours tz t) (Some dateObj))
      as [p| |]; cbn [mbind Result_bind]; try reflexivity.
    rewrite IH by exact Hend.
    destruct (mapR _ _) as [xs| |]; cbn [mbind Result_bind]; try reflexivity.
    cbn [map fst snd sumQ foldl]. now rewrite <- app_assoc.
Qed.

Lemma mapR_app {A B} (f : A -> Result B) l1 l2 :
  mapR f (l1 ++ l2)
  = (xs ← mapR f l1; ys ← mapR f l2; Ok (xs ++ ys)).
Proof.
  induction l1 as [|a l1 IH]; cbn [mapR app mbind Result_bind].
  - destruct (mapR f l2); reflexivity.
  - destruct (f a) as [b| |]; cbn [mbind Result_bind]; try reflexivity.
    rewrite IH. destruct (mapR f l1) as [xs| |]; cbn [mbind Result_bind];
      try reflexivity.
    destruct (mapR f l2); reflexivity.
Qed.

Lemma mapR_ext_in {A B} (f g : A -> Result B) l :
  (forall a, In a l -> f a = g a) -> mapR f l = mapR g l.
Proof.
  induction l as [|a l IH]; intros H; cbn [mapR]; [reflexivity|].
  rewrite (H a) by now left. rewrite IH; [reflexivity|].
  intros x Hx. apply H. now right.
Qed.

Lemma mapR_map {A B C} (f : B -> Result C) (g : A -> B) l :
  mapR f (map g l) = mapR (fun a => f (g a)) l.
Proof.
  induction l as [|a l IH]; cbn [mapR map]; [reflexivity|]. now rewrite IH.
Qed.

Lemma mapR_in {A B} (f : A -> Result B) l xs x :
  mapR f l = Ok xs -> In x xs -> exists a, In a l /\ f a = Ok x.
Proof.
  revert xs. induction l as [|a l IH]; intros xs H Hx; cbn [mapR] in H.
  - injection H as <-. destruct Hx.
  - destruct (f a) as [b| |] eqn:Fa; cbn [mbind Result_bind] in H; try discriminate.
    destruct (mapR f l) as [bs| |]; cbn [mbind Result_bind] in H; try discriminate.
    injection H as <-. destruct Hx as [<-|Hx].
    + exists a. split; [now left|exact Fa].
    + destruct (IH bs eq_refl Hx) as (a' & Ha' & E). exists a'. split; [now right|exact E].
Qed.

(** *** Sums of whole and half amounts *)

Section ExactPrices.
Local Open Scope Q_scope.

Lemma add_halves x y a b :
  x == inject_Z a * (1 # 2) -> y == inject_Z b * (1 # 2) ->
  (Z.abs a < 2 ^ 53)%Z -> (Z.abs b < 2 ^ 53)%Z -> (Z.abs (a + b) < 2 ^ 53)%Z ->
  JsNumber.add x y == x + y.
Proof.
  intros Hx Hy Ha Hb Hab. unfold JsNumber.add.
  assert (Rx : JsNumber.round x == x).
  { rewrite (round_comp _ _ Hx), round_half by exact Ha. now rewrite Hx. }
  assert (Ry : JsNumber.round y == y).
  { rewrite (round_comp _ _ Hy), round_half by exact Hb. now rewrite Hy. }
  assert (S : JsNumber.round x + JsNumber.round y == inject_Z (a + b) * (1 # 2)).
  { rewrite Rx, Ry, Hx, Hy, inject_Z_plus. ring. }
  rewrite (round_comp _ _ S), round_half by exact Hab.
  rewrite Hx, Hy, inject_Z_plus. ring.
Qed.

Lemma mul_whole_half x y a k :
  x == inject_Z a -> y == inject_Z k * (1 # 2) ->
  (Z.abs a < 2 ^ 53)%Z -> (Z.abs k < 2 ^ 53)%Z -> (Z.abs (a * k) < 2 ^ 53)%Z ->
  JsNumber.mul x y == x * y.
Proof.
  intros Hx Hy Ha Hk Hak. unfold JsNumber.mul.
  assert (Rx : JsNumber.round x == x).
  { rewrite (round_comp _ _ Hx), round_Z by exact Ha. now rewrite Hx. }
  assert (Ry : JsNumber.round y == y).
  { rewrite (round_comp _ _ Hy), round_half by exact Hk. now rewrite Hy. }
  assert (P : JsNumber.round x * JsNumber.round y == inject_Z (a * k) * (1 # 2)).
  { rewrite Rx, Ry, Hx, Hy, inject_Z_mult. ring. }
  rewrite (round_comp _ _ P), round_half by exact Hak.
  rewrite Hx, Hy, inject_Z_mult. ring.
Qed.

Lemma Qsum_app vs ws :
  fold_right Qplus 0 (vs ++ ws) == fold_right Qplus 0 vs + fold_right Qplus 0 ws.
Proof.
  induction vs as [|v vs IH]; cbn [app fold_right]; [ring|]. rewrite IH. ring.
Qed.

(** Adding up half units from left to right in binary64 gives their
    exact sum. *)
Lemma sumQ_exact_from vs : forall tot t,
  tot == inject_Z t * (1 # 2) ->
  Forall (fun v => exists z : Z, v == inject_Z z * (1 # 2) /\ (Z.abs z <= 2 ^ 41)%Z) vs ->
  (Z.abs t + 2 ^ 41 * Z.of_nat (length vs) < 2 ^ 53)%Z ->
  sumQ tot vs == tot + fold_right Qplus 0 vs.
Proof.
  unfold sumQ. induction vs as [|v vs IH]; intros tot t Ht Hvs Hb;
    cbn [foldl fold_right].
  - ring.
  - apply Forall_cons_iff in Hvs as [(z & Hv & Hz) Hvs].
    cbn [length] in Hb. rewrite Nat2Z.inj_succ in Hb.
    assert (A : JsNumber.add tot v == tot + v) by (apply (add_halves _ _ t z); lia || assumption).
    rewrite (IH (JsNumber.add tot v) (t + z)%Z).
    + rewrite A. ring.
    + rewrite A, Ht, Hv, inject_Z_plus. ring.
    + exact Hvs.
    + lia.
Qed.

Lemma sumQ_exact vs : halfUnits vs -> sumQ 0 vs == fold_right Qplus 0 vs.
Proof.
  intros [Hvs Hlen]. rewrite (sumQ_exact_from vs 0 0%Z); [ring|reflexivity|exact Hvs|].
  cbn [Z.abs]. lia.
Qed.

Lemma halfUnits_app vs ws : halfUnits (vs ++ ws) -> halfUnits vs /\ halfUnits ws.
Proof.
  intros [H Hlen]. apply Forall_app in H as [H1 H2]. rewrite length_app in Hlen.
  split; (split; [assumption|lia]).
Qed.

(** The price of two runs of segments is the sum of their prices. *)
Lemma sumQ_app vs ws :
  halfUnits (vs ++ ws) -> sumQ 0 (vs ++ ws) == sumQ 0 vs + sumQ 0 ws.
Proof.
  intros H. destruct (halfUnits_app _ _ H) as [H1 H2].
  rewrite !sumQ_exact by assumption. apply Qsum_app.
Qed.

End ExactPrices.

Lemma hourStarts_app k1 k2 t :
  hourStarts (k1 + k2) t
  = hourStarts k1 t ++ hourStarts k2 (t + Z.of_nat k1 * JsDate.msPerHour).
Proof.
  revert t. induction k1 as [|k1 IH]; intros t.
  - simpl. f_equal. lia.
  - cbn [hourStarts Nat.add app]. rewrite IH.
    replace (t + JsDate.msPerHour + Z.of_nat k1 * JsDate.msPerHour)
      with (t + Z.of_nat (S k1) * JsDate.msPerHour)
      by (unfold JsDate.msPerHour; lia).
    reflexivity.
Qed.

Lemma hourStarts_in k t x :
  In x (hourStarts k t) ->
  exists i, 0 <= i < Z.of_nat k /\ x = t + i * JsDate.msPerHour.
Proof.
  revert t. induction k as [|k IH]; intros t H; [destruct H|].
  destruct H as [<-|H].
  - exists 0. lia.
  - destruct (IH _ H) as (i & Hi & ->). exists (i + 1).
    unfold JsDate.msPerHour. lia.
Qed.

(** The loop runs through the full hours from its start and then, when the
    interval does not end on one of them, through one shorter segment. *)
Lemma segmentStarts_eq fuel endDateTime t :
  t <= endDateTime ->
  endDateTime - t <= Z.of_nat fuel * JsDate.msPerHour ->
  segmentStarts fuel endDateTime t
  = hourStarts (Z.to_nat ((endDateTime - t) / JsDate.msPerHour)) t
    ++ (if 0 <? (endDateTime - t) mod JsDate.msPerHour
        then [t + (endDateTime - t) / JsDate.msPerHour * JsDate.msPerHour]
        else []).
Proof.
  revert t. induction fuel as [|fuel IH]; intros t Hle Hf.
  - assert (endDateTime - t = 0) by lia.
    replace (endDateTime - t) with 0 by lia. reflexivity.
  - cbn [segmentStarts]. destruct (t <? endDateTime) eqn:E.
    + apply Z.ltb_lt in E. unfold slotEndAt.
      destruct (endDateTime <? t + JsDate.msPerHour) eqn:E2.
      * apply Z.ltb_lt in E2.
        rewrite Z.div_small, Z.mod_small by lia.
        replace (0 <? endDateTime - t) with true by (symmetry; apply Z.ltb_lt; lia).
        change (Z.to_nat 0) with O. rewrite Z.mul_0_l, Z.add_0_r.
        cbn [hourStarts app]. f_equal.
        destruct fuel; cbn [segmentStarts]; [reflexivity|].
        now rewrite Z.ltb_irrefl.
      * apply Z.ltb_ge in E2.
        rewrite IH by (unfold JsDate.msPerHour in *; lia).
        replace (endDateTime - (t + JsDate.msPerHour))
          with ((endDateTime - t) + (-1) * JsDate.msPerHour) by lia.
        rewrite Z.div_add, Z.mod_add by discriminate.
        assert (1 <= (endDateTime - t) / JsDate.msPerHour).
        { apply Z.div_le_lower_bound; [reflexivity|lia]. }
        replace (Z.to_nat ((endDateTime - t) / JsDate.msPerHour))
          with (S (Z.to_nat ((endDateTime - t) / JsDate.msPerHour + -1))) by lia.
        cbn [hourStarts app].
        replace (t + JsDate.msPerHour
                 + ((endDateTime - t) / JsDate.msPerHour + -1) * JsDate.msPerHour)
          with (t + (endDateTime - t) / JsDate.msPerHour * JsDate.msPerHour) by lia.
        reflexivity.
    + apply Z.ltb_ge in E. assert (endDateTime - t = 0) by lia.
      replace (endDateTime - t) with 0 by lia. reflexivity.
Qed.

(** *** [calculateBookingPrice] on well-formed times *)

Lemma Qltb_div_one a b :
  0 < b -> Qltb (inject_Z a / inject_Z b) 1 = (a <? b).
Proof.
  intros Hb. destruct b as [|p|p]; try lia.
  unfold Qltb, Qle_bool, Qdiv, Qmult, Qinv, inject_Z. cbn.
  rewrite Z.ltb_antisym. f_equal. f_equal. lia.
Qed.

Lemma setDate_next_day tz t :
  JsDate.setDate tz t (JsDate.getDate tz t + 1) = t + JsDate.msPerDay.
Proof. unfold JsDate.setDate. lia. Qed.

Lemma parseTime_minutes t h m :
  BookingService.parseTime t = (h, m) ->
  BookingService.timeToMinutes t = h * 60 + m.
Proof. intros H. unfold BookingService.timeToMinutes. now rewrite H. Qed.

Lemma calculateBookingPrice_unfold tz rules bookingDate startTime endTime :
  BookingService.timeRegex startTime = true ->
  BookingService.timeRegex endTime = true ->
  let dmin := durationMinutes startTime endTime in
  PricingService.calculateBookingPrice tz rules bookingDate startTime endTime
  = if dmin <? 60 then
      Throw (BadRequestError "Minimum booking duration is 1 hour")
    else if negb (dmin mod 60 =? 0) && negb (dmin mod 60 =? 30) then
      Throw (BadRequestError
               "Bookings must be in 30-minute increments (e.g., 1.0h, 1.5h, 2.0h)")
    else
      xs ← mapR (segItem tz rules (JsDate.setHours tz bookingDate 0 0 0 0)
                   (endInstant tz bookingDate startTime endTime))
             (requestStarts tz bookingDate startTime endTime);
      Ok (PricingService.PriceResult.mk
            (inject_Z (dmin * JsDate.msPerMinute) / inject_Z JsDate.msPerHour)
            (map fst xs) (sumQ 0 (map snd xs))).
Proof.
  intros Hs He dmin.
  destruct (timeRegex_parse _ Hs) as (sh & sm & Ps & Bsh & Bsm).
  destruct (timeRegex_parse _ He) as (eh & em & Pe & Beh & Bem).
  pose proof (parseTime_minutes _ _ _ Ps) as Ms.
  pose proof (parseTime_minutes _ _ _ Pe) as Me.
  unfold PricingService.calculateBookingPrice. rewrite Ps, Pe.
  rewrite !setHours_from_midnight.
  set (d0 := JsDate.setHours tz bookingDate 0 0 0 0).
  set (smin := BookingService.timeToMinutes startTime) in *.
  set (emin := BookingService.timeToMinutes endTime) in *.
  assert (HS : d0 + sh * JsDate.msPerHour + sm * JsDate.msPerMinute
               + 0 * JsDate.msPerSecond + 0
               = startInstant tz bookingDate startTime).
  { unfold startInstant. fold d0 smin. rewrite Ms.
    unfold JsDate.msPerHour, JsDate.msPerMinute. lia. }
  rewrite HS. set (S := startInstant tz bookingDate startTime) in *.
  assert (HE : (if d0 + eh * JsDate.msPerHour + em * JsDate.msPerMinute
                     + 0 * JsDate.msPerSecond + 0 <=? S
                then JsDate.setDate tz
                       (d0 + eh * JsDate.msPerHour + em * JsDate.msPerMinute
                        + 0 * JsDate.msPerSecond + 0)
                       (JsDate.getDate tz
                          (d0 + eh * JsDate.msPerHour + em * JsDate.msPerMinute
                           + 0 * JsDate.msPerSecond + 0) + 1)
                else d0 + eh * JsDate.msPerHour + em * JsDate.msPerMinute
                     + 0 * JsDate.msPerSecond + 0)
               = endInstant tz bookingDate startTime endTime).
  { rewrite setDate_next_day. unfold endInstant, durationMinutes.
    fold S smin emin. rewrite <- HS. rewrite Ms, Me.
    unfold JsDate.msPerHour, JsDate.msPerMinute, JsDate.msPerDay.
    destruct (eh * 60 + em <=? sh * 60 + sm) eqn:C.
    - apply Z.leb_le in C.
      replace (_ <=? _) with true by (symmetry; apply Z.leb_le; lia). lia.
    - apply Z.leb_gt in C.
      replace (_ <=? _) with false by (symmetry; apply Z.leb_gt; lia). lia. }
  rewrite HE. set (E := endInstant tz bookingDate startTime endTime) in *.
  assert (HT : E - S = dmin * JsDate.msPerMinute).
  { unfold E, endInstant. fold S. fold dmin. lia. }
  rewrite HT.
  change (1000 * 60 * 60) with JsDate.msPerHour.
  change (1000 * 60) with JsDate.msPerMinute.
  rewrite Qltb_div_one by reflexivity.
  replace (dmin * JsDate.msPerMinute <? JsDate.msPerHour) with (dmin <? 60).
  2:{ unfold JsDate.msPerMinute, JsDate.msPerHour.
      destruct (dmin <? 60) eqn:C; symmetry;
        [apply Z.ltb_lt in C; apply Z.ltb_lt|apply Z.ltb_ge in C; apply Z.ltb_ge]; lia. }
  destruct (dmin <? 60) eqn:D1; [reflexivity|]. apply Z.ltb_ge in D1.
  rewrite Z.div_mul by discriminate.
  rewrite Z.rem_mod_nonneg by lia.
  destruct (negb (dmin mod 60 =? 0) && negb (dmin mod 60 =? 30)); [reflexivity|].
  assert (Hdiv : dmin * JsDate.msPerMinute / JsDate.msPerHour = dmin / 60).
  { unfold JsDate.msPerMinute, JsDate.msPerHour.
    replace 3600000 with (60000 * 60) by reflexivity.
    rewrite Z.mul_comm. rewrite Z.div_mul_cancel_l by discriminate. reflexivity. }
  assert (Hmod : dmin * JsDate.msPerMinute mod JsDate.msPerHour
                 = (dmin mod 60) * JsDate.msPerMinute).
  { unfold JsDate.msPerMinute, JsDate.msPerHour.
    replace 3600000 with (60 * 60000) by reflexivity.
    now rewrite Z.mul_mod_distr_r by discriminate. }
  rewrite priceLoop_spec.
  2:{ rewrite HT, Hdiv.
      pose proof (Z.div_mod dmin 60 ltac:(discriminate)) as Q.
      pose proof (Z.mod_pos_bound dmin 60 ltac:(reflexivity)) as R.
      assert (0 <= dmin / 60) by (apply Z.div_pos; lia).
      rewrite Z2Nat.id by lia.
      unfold JsDate.msPerMinute, JsDate.msPerHour. lia. }
  rewrite segmentStarts_eq.
  - rewrite HT, Hdiv, Hmod. unfold requestStarts. fold dmin S.
    replace (0 <? dmin mod 60 * JsDate.msPerMinute) with (0 <? dmin mod 60).
    + destruct (mapR _ _); reflexivity.
    + unfold JsDate.msPerMinute.
      destruct (0 <? dmin mod 60) eqn:C; symmetry;
        [apply Z.ltb_lt in C; apply Z.ltb_lt|apply Z.ltb_ge in C; apply Z.ltb_ge]; lia.
  - unfold JsDate.msPerMinute in HT. lia.
  - rewrite HT, Hdiv.
    pose proof (Z.div_mod dmin 60 ltac:(discriminate)) as Q.
    pose proof (Z.mod_pos_bound dmin 60 ltac:(reflexivity)) as R.
    assert (0 <= dmin / 60) by (apply Z.div_pos; lia).
    rewrite Z2Nat.id by lia.
    unfold JsDate.msPerMinute, JsDate.msPerHour. lia.
Qed.

(** *** Hour labels *)

Lemma digitChar_code d :
  0 <= d <= 9 -> nat_of_ascii (JsString.digitChar d) = Z.to_nat (d + 48).
Proof.
  intros H. unfold JsString.digitChar. apply nat_ascii_embedding. lia.
Qed.

Lemma digitChar_value d : 0 <= d <= 9 -> JsString.digitValue (JsString.digitChar d) = d.
Proof.
  intros H. unfold JsString.digitValue. rewrite digitChar_code by exact H. lia.
Qed.

Lemma digitChar_neq d (c : ascii) :
  0 <= d <= 9 -> (nat_of_ascii c < 48 \/ 57 < nat_of_ascii c)%nat ->
  Ascii.eqb (JsString.digitChar d) c = false.
Proof.
  intros H Hc. apply Ascii.eqb_neq. intros E.
  apply (f_equal nat_of_ascii) in E. rewrite digitChar_code in E by exact H. lia.
Qed.

Lemma string_app_cons c s t : String c s +:+ t = String c (s +:+ t).
Proof. reflexivity. Qed.

Lemma string_app_nil t : "" +:+ t = t.
Proof. reflexivity. Qed.

Local Ltac string_app := repeat (rewrite string_app_cons || rewrite string_app_nil).

Lemma labelStartHour_label h m rest :
  0 <= h < 24 -> 0 <= m < 60 ->
  labelStartHour (JsString.pad2 h +:+ ":" +:+ JsString.pad2 m +:+ "-" +:+ rest) = h.
Proof.
  intros Hh Hm. unfold labelStartHour, JsString.pad2, JsString.split.
  assert (H1 : 0 <= h / 10 <= 9)
    by (split; [apply Z.div_pos|apply Z.div_le_upper_bound]; lia).
  assert (H2 : 0 <= h mod 10 <= 9) by (pose proof (Z.mod_pos_bound h 10); lia).
  assert (H3 : 0 <= m / 10 <= 9)
    by (split; [apply Z.div_pos|apply Z.div_le_upper_bound]; lia).
  assert (H4 : 0 <= m mod 10 <= 9) by (pose proof (Z.mod_pos_bound m 10); lia).
  string_app. cbn [JsString.splitAux].
  rewrite !(digitChar_neq _ "-"%char) by (assumption || (vm_compute; lia)).
  change (Ascii.eqb ":" "-") with false. cbn iota.
  rewrite Ascii.eqb_refl. cbn [hd]. string_app.
  unfold BookingService.parseTime, JsString.split. cbn [JsString.splitAux].
  rewrite !(digitChar_neq _ ":"%char) by (assumption || (vm_compute; lia)).
  rewrite Ascii.eqb_refl. string_app. cbn [map fst].
  unfold JsString.Number. cbn [JsString.NumberAux].
  rewrite !digitChar_value by assumption.
  pose proof (Z.div_mod h 10 ltac:(discriminate)). lia.
Qed.

Lemma getHours_range tz t : 0 <= JsDate.getHours tz t < 24.
Proof.
  unfold JsDate.getHours.
  pose proof (Z.mod_pos_bound (JsDate.localTime tz t) JsDate.msPerDay eq_refl) as H.
  split.
  - apply Z.div_pos; [lia|reflexivity].
  - apply Z.div_lt_upper_bound; [reflexivity|]. unfold JsDate.msPerDay in *.
    unfold JsDate.msPerHour. lia.
Qed.

Lemma getMinutes_range tz t : 0 <= JsDate.getMinutes tz t < 60.
Proof.
  unfold JsDate.getMinutes.
  pose proof (Z.mod_pos_bound (JsDate.localTime tz t) JsDate.msPerHour eq_refl) as H.
  split.
  - apply Z.div_pos; [lia|reflexivity].
  - apply Z.div_lt_upper_bound; [reflexivity|]. unfold JsDate.msPerHour in *.
    unfold JsDate.msPerMinute. lia.
Qed.

(** The label of a segment starts with the hour of the segment's start. *)
Lemma labelStartHour_segment tz t t' :
  labelStartHour (PricingService.hourLabel tz t +:+ "-"
                  +:+ PricingService.hourLabel tz t')
  = JsDate.getHours tz t.
Proof.
  unfold PricingService.hourLabel at 1.
  replace ((JsString.pad2 (JsDate.getHours tz t) +:+ ":"
            +:+ JsString.pad2 (JsDate.getMinutes tz t))
           +:+ "-" +:+ PricingService.hourLabel tz t')
    with (JsString.pad2 (JsDate.getHours tz t) +:+ ":"
          +:+ JsString.pad2 (JsDate.getMinutes tz t)
          +:+ "-" +:+ PricingService.hourLabel tz t')
    by (unfold JsString.pad2; string_app; reflexivity).
  apply labelStartHour_label; [apply getHours_range|apply getMinutes_range].
Qed.

(** *** The segments of a request *)

Lemma durationMinutes_range startTime endTime :
  BookingService.timeRegex startTime = true ->
  BookingService.timeRegex endTime = true ->
  1 <= durationMinutes startTime endTime
  /\ BookingService.timeToMinutes startTime + durationMinutes startTime endTime
     < 2880.
Proof.
  intros Hs He. pose proof (timeRegex_minutes _ Hs). pose proof (timeRegex_minutes _ He).
  unfold durationMinutes.
  destruct (_ <=? _) eqn:C; [apply Z.leb_le in C|apply Z.leb_gt in C]; lia.
Qed.

(** Every segment of a request starts between the request's start and its
    end. *)
Lemma requestStarts_offset tz bookingDate startTime endTime t :
  1 <= durationMinutes startTime endTime ->
  In t (requestStarts tz bookingDate startTime endTime) ->
  exists off,
    t = JsDate.setHours tz bookingDate 0 0 0 0 + off
    /\ BookingService.timeToMinutes startTime * JsDate.msPerMinute <= off
    /\ off < (BookingService.timeToMinutes startTime
              + durationMinutes startTime endTime) * JsDate.msPerMinute.
Proof.
  intros Hd Hin. unfold requestStarts, startInstant in Hin.
  set (dmin := durationMinutes startTime endTime) in *.
  set (smin := BookingService.timeToMinutes startTime) in *.
  pose proof (Z.div_mod dmin 60 ltac:(discriminate)) as Q.
  pose proof (Z.mod_pos_bound dmin 60 ltac:(reflexivity)) as R.
  assert (0 <= dmin / 60) by (apply Z.div_pos; lia).
  apply in_app_or in Hin as [Hin|Hin].
  - apply hourStarts_in in Hin as (i & Hi & ->).
    rewrite Z2Nat.id in Hi by lia.
    exists (smin * JsDate.msPerMinute + i * JsDate.msPerHour).
    unfold JsDate.msPerMinute, JsDate.msPerHour. lia.
  - destruct (0 <? dmin mod 60) eqn:C; [|destruct Hin].
    apply Z.ltb_lt in C. destruct Hin as [<-|[]].
    exists (smin * JsDate.msPerMinute + dmin / 60 * JsDate.msPerHour).
    unfold JsDate.msPerMinute, JsDate.msPerHour. lia.
Qed.

Lemma getTimeSlot_early h : h < 4 -> PricingService.getTimeSlot h = Night.
Proof.
  intros H. unfold PricingService.getTimeSlot, PricingService.isNightTime.
  replace (h <? 9) with true by (symmetry; apply Z.ltb_lt; lia).
  now rewrite orb_true_r.
Qed.

(** C2.  Every priced sub-segment whose start hour lies in [00:00, 04:00) is
    priced in the day bucket of the booking's nominal date, at the rate of the
    nominal date's night rule: on the nominal day the date priced is the
    booking date itself, on the day after it is the segment's date less one
    day, which is the nominal day again; it is never the day before the
    nominal date. *)
Theorem early_hours_use_booking_date_bucket
    tz rules bookingDate startTime endTime r :
  BookingService.timeRegex startTime = true ->
  BookingService.timeRegex endTime = true ->
  PricingService.calculateBookingPrice tz rules bookingDate startTime endTime = Ok r ->
  let dateObj := JsDate.setHours tz bookingDate 0 0 0 0 in
  (forall item,
     In item (PricingService.PriceResult.breakdown r) ->
     0 <= labelStartHour (BreakdownItem.hour item) < 4 ->
     BreakdownItem.days item = PricingService.getDays tz dateObj
     /\ exists rule,
          PricingService.findRule rules (PricingService.getDays tz dateObj) Night
          = Some rule
          /\ BreakdownItem.rate item = PricingRule.pricePerHour rule)
  /\ (forall off,
        0 <= off < 2 * JsDate.msPerDay ->
        JsDate.getHours tz (dateObj + off) < 4 ->
        let effective :=
          PricingService.getEffectiveDate tz (dateObj + off) (Some dateObj) in
        effective = (if off <? JsDate.msPerDay then dateObj
                     else dateObj + off - JsDate.msPerDay)
        /\ JsDate.localDay tz effective = JsDate.localDay tz dateObj
        /\ JsDate.localDay tz effective <> JsDate.localDay tz dateObj - 1).
Proof.
  intros Hs He Hr dateObj.
  assert (Hmid : dateObj + tz = JsDate.localDay tz bookingDate * JsDate.msPerDay)
    by apply setHours_midnight.
  assert (Heff : forall off,
            0 <= off < 2 * JsDate.msPerDay ->
            JsDate.getHours tz (dateObj + off) < 4 ->
            JsDate.localDay tz
              (PricingService.getEffectiveDate tz (dateObj + off) (Some dateObj))
            = JsDate.localDay tz dateObj).
  { intros off Hoff Hh.
    rewrite (getEffectiveDate_early tz dateObj _ Hmid) by assumption.
    destruct (off <? JsDate.msPerDay) eqn:C; [reflexivity|]. apply Z.ltb_ge in C.
    replace (dateObj + off - JsDate.msPerDay)
      with (dateObj + (off - JsDate.msPerDay)) by lia.
    rewrite (localDay_offset tz dateObj _ Hmid), (localDay_dateObj tz dateObj _ Hmid).
    rewrite Z.div_small by lia. lia. }
  split.
  - intros item Hin Hlabel.
    rewrite calculateBookingPrice_unfold in Hr by assumption.
    destruct (durationMinutes_range _ _ Hs He) as [Hd1 Hd2].
    destruct (_ <? 60); [discriminate|].
    destruct (negb _ && negb _); [discriminate|].
    destruct (mapR _ _) as [xs| |] eqn:Hxs; cbn [mbind Result_bind] in Hr;
      try discriminate.
    injection Hr as <-. cbn [PricingService.PriceResult.breakdown] in Hin.
    apply in_map_iff in Hin as ([item' v] & <- & Hin).
    destruct (mapR_in _ _ _ _ Hxs Hin) as (t & Ht & Hseg).
    destruct (requestStarts_offset _ _ _ _ _ Hd1 Ht) as (off & -> & Ho1 & Ho2).
    fold dateObj in Hseg.
    pose proof (timeRegex_minutes _ Hs) as Bs.
    assert (Hoff : 0 <= off < 2 * JsDate.msPerDay)
      by (unfold JsDate.msPerMinute, JsDate.msPerDay in *; lia).
    unfold segItem, PricingService.getPrice in Hseg.
    destruct (PricingService.findRule _ _ _) as [rule|] eqn:Hrule;
      cbn [mbind Result_bind] in Hseg; [|discriminate].
    apply (f_equal (fun x => match x with Ok y => fst y | _ => item' end)) in Hseg.
    cbv beta iota in Hseg. cbn [fst] in Hseg. subst item'.
    cbn [fst BreakdownItem.hour BreakdownItem.days
         BreakdownItem.rate PricingService.PriceInfo.days
         PricingService.PriceInfo.price] in *.
    rewrite labelStartHour_segment in Hlabel.
    rewrite (getDays_effective_early tz dateObj _ Hmid) in * by (assumption || lia).
    rewrite getTimeSlot_early in Hrule by lia.
    split; [reflexivity|]. exists rule. auto.
  - intros off Hoff Hh effective. subst effective. split; [|split].
    + now apply (getEffectiveDate_early tz dateObj _ Hmid).
    + now apply Heff.
    + rewrite Heff by assumption. lia.
Qed.

(** *** Additivity of the price *)

Lemma getHours_add_day tz t :
  JsDate.getHours tz (t + JsDate.msPerDay) = JsDate.getHours tz t.
Proof.
  unfold JsDate.getHours, JsDate.localTime.
  replace (t + JsDate.msPerDay + tz) with (t + tz + 1 * JsDate.msPerDay) by lia.
  now rewrite Z.mod_add by discriminate.
Qed.

Lemma getMinutes_add_day tz t :
  JsDate.getMinutes tz (t + JsDate.msPerDay) = JsDate.getMinutes tz t.
Proof.
  unfold JsDate.getMinutes, JsDate.localTime.
  replace (t + JsDate.msPerDay + tz) with (t + tz + 24 * JsDate.msPerHour)
    by (unfold JsDate.msPerDay, JsDate.msPerHour; lia).
  now rewrite Z.mod_add by discriminate.
Qed.

Lemma hourLabel_add_day tz t :
  PricingService.hourLabel tz (t + JsDate.msPerDay) = PricingService.hourLabel tz t.
Proof.
  unfold PricingService.hourLabel.
  now rewrite getHours_add_day, getMinutes_add_day.
Qed.

Lemma slotEndAt_add endDateTime t d :
  slotEndAt (endDateTime + d) (t + d) = slotEndAt endDateTime t + d.
Proof.
  unfold slotEndAt.
  destruct (endDateTime <? t + JsDate.msPerHour) eqn:C.
  - apply Z.ltb_lt in C.
    replace (_ <? _) with true by (symmetry; apply Z.ltb_lt; lia). reflexivity.
  - apply Z.ltb_ge in C.
    replace (_ <? _) with false by (symmetry; apply Z.ltb_ge; lia). lia.
Qed.

Lemma slotEndAt_full endDateTime t :
  t + JsDate.msPerHour <= endDateTime -> slotEndAt endDateTime t = t + JsDate.msPerHour.
Proof.
  intros H. unfold slotEndAt.
  now replace (_ <? _) with false by (symmetry; apply Z.ltb_ge; lia).
Qed.

(** A segment depends on the end of the request only through the end of the
    segment. *)
Lemma segItem_slotEnd tz rules dateObj e1 e2 t :
  slotEndAt e1 t = slotEndAt e2 t ->
  segItem tz rules dateObj e1 t = segItem tz rules dateObj e2 t.
Proof. intros H. unfold segItem. now rewrite H. Qed.

(** A segment between 00:00 and 04:00 of the day after the booking date
    is priced as the same hours of the booking date are. *)
Lemma segItem_next_day tz rules dateObj L endDateTime off :
  dateObj + tz = L * JsDate.msPerDay ->
  0 <= off < JsDate.msPerDay ->
  JsDate.getHours tz (dateObj + off) < 4 ->
  segItem tz rules dateObj (endDateTime + JsDate.msPerDay)
    (dateObj + off + JsDate.msPerDay)
  = segItem tz rules dateObj endDateTime (dateObj + off).
Proof.
  intros Hmid Hoff Hh. unfold segItem, PricingService.getPrice.
  rewrite slotEndAt_add, !hourLabel_add_day, getHours_add_day.
  replace (dateObj + off + JsDate.msPerDay)
    with (dateObj + (off + JsDate.msPerDay)) by lia.
  rewrite (getDays_effective_early tz dateObj L Hmid (off + JsDate.msPerDay)).
  - rewrite (getDays_effective_early tz dateObj L Hmid off) by (assumption || lia).
    replace (slotEndAt endDateTime (dateObj + off) + JsDate.msPerDay
             - (dateObj + (off + JsDate.msPerDay)))
      with (slotEndAt endDateTime (dateObj + off) - (dateObj + off)) by lia.
    reflexivity.
  - lia.
  - replace (dateObj + (off + JsDate.msPerDay))
      with (dateObj + off + JsDate.msPerDay) by lia.
    now rewrite getHours_add_day.
Qed.

Lemma hourStarts_shift n t d :
  hourStarts n (t + d) = map (fun x => x + d) (hourStarts n t).
Proof.
  revert t. induction n as [|n IH]; intros t; cbn [hourStarts map]; [reflexivity|].
  f_equal. rewrite <- IH. f_equal. lia.
Qed.

(** What an accepted interval satisfies. *)
Lemma validateBookingTime_ok env startTime endTime bookingDate :
  BookingService.validateBookingTime env startTime endTime bookingDate = Ok tt ->
  BookingService.timeRegex startTime = true
  /\ BookingService.timeRegex endTime = true
  /\ 60 <= durationMinutes startTime endTime
  /\ BookingService.timeToMinutes endTime <> BookingService.timeToMinutes startTime
  /\ (BookingService.timeToMinutes endTime < BookingService.timeToMinutes startTime ->
      BookingService.timeToMinutes endTime <= 240).
Proof.
  unfold BookingService.validateBookingTime, BookingService.validateTimeFormat,
    durationMinutes.
  destruct (BookingService.timeRegex startTime); [|discriminate].
  destruct (BookingService.timeRegex endTime); [|discriminate].
  cbn [negb mbind Result_bind].
  set (s := BookingService.timeToMinutes startTime).
  set (e := BookingService.timeToMinutes endTime).
  change (24 * 60) with 1440. change (4 * 60) with 240.
  destruct (e <? s) eqn:C.
  - apply Z.ltb_lt in C.
    destruct (1440 - s + e <? 60) eqn:D1; [discriminate|]. apply Z.ltb_ge in D1.
    destruct (negb _); [discriminate|].
    destruct (negb _); [discriminate|].
    cbn [andb].
    destruct (240 <? e) eqn:D4; [discriminate|]. apply Z.ltb_ge in D4.
    intros _. replace (e <=? s) with true by (symmetry; apply Z.leb_le; lia).
    repeat split; lia.
  - apply Z.ltb_ge in C.
    destruct (e - s <? 60) eqn:D1; [discriminate|]. apply Z.ltb_ge in D1.
    intros _. replace (e <=? s) with false by (symmetry; apply Z.leb_gt; lia).
    repeat split; lia.
Qed.

Lemma mapR_app_ok {A B} (f : A -> Result B) l1 l2 xs :
  mapR f (l1 ++ l2) = Ok xs ->
  exists xs1 xs2, mapR f l1 = Ok xs1 /\ mapR f l2 = Ok xs2 /\ xs = xs1 ++ xs2.
Proof.
  rewrite mapR_app. intros H.
  destruct (mapR f l1) as [xs1| |]; cbn [mbind Result_bind] in H; try discriminate.
  destruct (mapR f l2) as [xs2| |]; cbn [mbind Result_bind] in H; try discriminate.
  injection H as <-. eauto.
Qed.

Lemma mapR_length {A B} (f : A -> Result B) l xs :
  mapR f l = Ok xs -> length xs = length l.
Proof.
  revert xs. induction l as [|a l IH]; intros xs; cbn [mapR].
  - intros [= <-]. reflexivity.
  - destruct (f a); cbn [mbind Result_bind]; try discriminate.
    destruct (mapR f l); cbn [mbind Result_bind]; try discriminate.
    intros [= <-]. cbn [length]. f_equal. now apply IH.
Qed.

Lemma hourStarts_length k t : length (hourStarts k t) = k.
Proof. revert t. induction k as [|k IH]; intros t; cbn [hourStarts length]; [|rewrite IH]; reflexivity. Qed.

Lemma requestStarts_length tz bookingDate startTime endTime :
  let dmin := durationMinutes startTime endTime in
  0 <= dmin ->
  Z.of_nat (length (requestStarts tz bookingDate startTime endTime))
  = dmin / 60 + (if 0 <? dmin mod 60 then 1 else 0).
Proof.
  intros dmin Hd. unfold requestStarts. fold dmin.
  rewrite length_app, hourStarts_length, Nat2Z.inj_add.
  rewrite Z2Nat.id by (apply Z.div_pos; lia).
  now destruct (0 <? dmin mod 60).
Qed.

(** The rule behind a priced segment. *)
Lemma segItem_rule tz rules dateObj endDateTime t item v :
  segItem tz rules dateObj endDateTime t = Ok (item, v) ->
  exists rule,
    In rule rules
    /\ PricingRule.isActive rule = true
    /\ PricingRule.days rule = BreakdownItem.days item
    /\ PricingRule.timeSlot rule = BreakdownItem.timeSlot item
    /\ BreakdownItem.rate item = PricingRule.pricePerHour rule
    /\ BreakdownItem.category item
       = PricingService.getCategory (BreakdownItem.days item) (BreakdownItem.timeSlot item)
    /\ BreakdownItem.timeSlot item = PricingService.getTimeSlot (JsDate.getHours tz t)
    /\ v = JsNumber.mul (PricingRule.pricePerHour rule)
             (inject_Z (slotEndAt endDateTime t - t) / inject_Z JsDate.msPerHour)%Q.
Proof.
  unfold segItem, PricingService.getPrice.
  destruct (PricingService.findRule _ _ _) as [rule|] eqn:F;
    cbn [mbind Result_bind]; [|discriminate].
  intros [= <- <-]. exists rule.
  unfold PricingService.findRule in F. apply find_some in F as [Hin Hp].
  apply andb_true_iff in Hp as [Hp Ha]. apply andb_true_iff in Hp as [Hd Hs].
  apply bool_decide_eq_true in Hd, Hs.
  cbn. repeat split; assumption.
Qed.

(** The price of a segment of an hour or of half an hour at a whole hourly
    price is the exact product, a number of half units. *)
Lemma segment_price_exact tz rules dateObj endDateTime t item v :
  wholePrices rules ->
  (slotEndAt endDateTime t - t = JsDate.msPerHour
   \/ slotEndAt endDateTime t - t = 30 * JsDate.msPerMinute) ->
  segItem tz rules dateObj endDateTime t = Ok (item, v) ->
  (v == BreakdownItem.rate item
        * (inject_Z (slotEndAt endDateTime t - t) / inject_Z JsDate.msPerHour))%Q
  /\ exists z : Z, (v == inject_Z z * (1 # 2))%Q /\ Z.abs z <= 2 ^ 41.
Proof.
  intros HW Hd H.
  destruct (segItem_rule _ _ _ _ _ _ _ H)
    as (rule & Hin & Hact & _ & _ & Hrate & _ & _ & ->).
  destruct (HW rule Hin Hact) as (a & Ha & Hb). rewrite Hrate.
  assert (Hk : exists k : Z,
             (inject_Z (slotEndAt endDateTime t - t) / inject_Z JsDate.msPerHour
              == inject_Z k * (1 # 2))%Q /\ (k = 1 \/ k = 2)).
  { destruct Hd as [-> | ->].
    - exists 2. split; [reflexivity|now right].
    - exists 1. split; [reflexivity|now left]. }
  destruct Hk as (k & Hk & Hk12).
  assert (Hak : Z.abs (a * k) <= 2 ^ 41).
  { rewrite Z.abs_mul. destruct Hk12 as [-> | ->]; cbn [Z.abs]; lia. }
  assert (M : (JsNumber.mul (PricingRule.pricePerHour rule)
                 (inject_Z (slotEndAt endDateTime t - t) / inject_Z JsDate.msPerHour)
               == PricingRule.pricePerHour rule
                  * (inject_Z (slotEndAt endDateTime t - t)
                     / inject_Z JsDate.msPerHour))%Q).
  { apply (mul_whole_half _ _ a k Ha Hk).
    - assert (2 ^ 40 < 2 ^ 53) by reflexivity. lia.
    - destruct Hk12 as [-> | ->]; reflexivity.
    - assert (2 ^ 41 < 2 ^ 53) by reflexivity. lia. }
  split; [exact M|]. exists (a * k). split; [|exact Hak].
  rewrite M, Ha, Hk, inject_Z_mult. ring.
Qed.

(** The segments of a request in 30-minute steps last an hour each, the last
    one half an hour when the request ends on a half hour. *)
Lemma requestStarts_grid tz bookingDate startTime endTime t :
  0 <= durationMinutes startTime endTime ->
  (durationMinutes startTime endTime mod 60 = 0
   \/ durationMinutes startTime endTime mod 60 = 30) ->
  In t (requestStarts tz bookingDate startTime endTime) ->
  slotEndAt (endInstant tz bookingDate startTime endTime) t - t = JsDate.msPerHour
  \/ slotEndAt (endInstant tz bookingDate startTime endTime) t - t
     = 30 * JsDate.msPerMinute.
Proof.
  intros Hd Hm Hin. unfold requestStarts, endInstant in *.
  set (dmin := durationMinutes startTime endTime) in *.
  set (S := startInstant tz bookingDate startTime) in *.
  pose proof (Z.div_mod dmin 60 ltac:(discriminate)) as Q.
  assert (0 <= dmin / 60) by (apply Z.div_pos; lia).
  apply in_app_or in Hin as [Hin|Hin].
  - apply hourStarts_in in Hin as (i & Hi & ->).
    rewrite Z2Nat.id in Hi by lia. left.
    rewrite slotEndAt_full; [lia|].
    unfold JsDate.msPerMinute, JsDate.msPerHour. lia.
  - destruct (0 <? dmin mod 60) eqn:C; [|destruct Hin].
    apply Z.ltb_lt in C. destruct Hin as [<-|[]]. right.
    unfold slotEndAt.
    replace (_ <? _) with true
      by (symmetry; apply Z.ltb_lt;
          unfold JsDate.msPerMinute, JsDate.msPerHour; lia).
    unfold JsDate.msPerMinute, JsDate.msPerHour. lia.
Qed.

(** The segment prices of a run of such segments are half units. *)
Lemma segments_halfUnits tz rules dateObj endDateTime l xs :
  wholePrices rules ->
  (forall t, In t l ->
     slotEndAt endDateTime t - t = JsDate.msPerHour
     \/ slotEndAt endDateTime t - t = 30 * JsDate.msPerMinute) ->
  (length l <= 1000)%nat ->
  mapR (segItem tz rules dateObj endDateTime) l = Ok xs ->
  halfUnits (map snd xs).
Proof.
  intros HW Hg Hlen Hxs. split.
  - apply List.Forall_forall. intros v Hv.
    apply in_map_iff in Hv as ([item v'] & <- & Hin).
    destruct (mapR_in _ _ _ _ Hxs Hin) as (t & Ht & Hseg).
    exact (proj2 (segment_price_exact _ _ _ _ _ _ _ HW (Hg t Ht) Hseg)).
  - rewrite length_map, (mapR_length _ _ _ Hxs). exact Hlen.
Qed.

(** The segment prices of a priced request at whole hourly prices are half
    units. *)
Lemma request_halfUnits tz rules bookingDate startTime endTime xs :
  wholePrices rules ->
  0 <= durationMinutes startTime endTime <= 2880 ->
  (durationMinutes startTime endTime mod 60 = 0
   \/ durationMinutes startTime endTime mod 60 = 30) ->
  mapR (segItem tz rules (JsDate.setHours tz bookingDate 0 0 0 0)
          (endInstant tz bookingDate startTime endTime))
    (requestStarts tz bookingDate startTime endTime) = Ok xs ->
  halfUnits (map snd xs).
Proof.
  intros HW Hd Hm Hxs.
  refine (segments_halfUnits _ _ _ _ _ _ HW _ _ Hxs).
  - intros t Ht. apply requestStarts_grid; [lia|exact Hm|exact Ht].
  - apply Nat2Z.inj_le. rewrite requestStarts_length by lia.
    assert (durationMinutes startTime endTime / 60 <= 48)
      by (apply Z.div_le_upper_bound; lia).
    destruct (0 <? _); lia.
Qed.

(** C9.  For an interval that validation accepts, a split point a whole
    number of hours after the start that leaves at least one hour on each
    side: when the whole interval is priced, both parts are priced, their
    breakdowns joined are the breakdown of the whole, and, when the hourly
    prices of the pricing rules are whole numbers, their prices add up to the
    price of the whole. *)
Theorem price_is_additive_over_whole_hours
    env rules bookingDate startTime midTime endTime k r :
  BookingService.validateBookingTime env startTime endTime bookingDate = Ok tt ->
  BookingService.timeRegex midTime = true ->
  1 <= k ->
  BookingService.timeToMinutes midTime
  = (BookingService.timeToMinutes startTime + 60 * k) mod 1440 ->
  60 * k + 60 <= durationMinutes startTime endTime ->
  PricingService.calculateBookingPrice (tzOffset env) rules bookingDate
    startTime endTime = Ok r ->
  exists r1 r2,
    PricingService.calculateBookingPrice (tzOffset env) rules bookingDate
      startTime midTime = Ok r1
    /\ PricingService.calculateBookingPrice (tzOffset env) rules bookingDate
         midTime endTime = Ok r2
    /\ PricingService.PriceResult.breakdown r
       = PricingService.PriceResult.breakdown r1
         ++ PricingService.PriceResult.breakdown r2
    /\ (wholePrices rules ->
        (PricingService.PriceResult.finalPrice r1
         + PricingService.PriceResult.finalPrice r2
         == PricingService.PriceResult.finalPrice r)%Q).
Proof.
  intros Hv Hm Hk Hmid Hlen Hr.
  destruct (validateBookingTime_ok _ _ _ _ Hv) as (Hs & He & Hd60 & Hne & Hcross).
  set (tz := tzOffset env) in *.
  pose proof (timeRegex_minutes _ Hs) as Bs.
  pose proof (timeRegex_minutes _ He) as Be.
  pose proof (timeRegex_minutes _ Hm) as Bm.
  set (d0 := JsDate.setHours tz bookingDate 0 0 0 0).
  assert (Hmidn : d0 + tz = JsDate.localDay tz bookingDate * JsDate.msPerDay)
    by apply setHours_midnight.
  set (dmin := durationMinutes startTime endTime) in *.
  assert (Hdmax : dmin <= 1440).
  { unfold dmin, durationMinutes.
    destruct (_ <=? _) eqn:C; [apply Z.leb_le in C|apply Z.leb_gt in C]; lia. }
  (* the two parts, in minutes *)
  assert (Hparts :
    durationMinutes startTime midTime = 60 * k
    /\ durationMinutes midTime endTime = dmin - 60 * k
    /\ exists sigma,
         startInstant tz bookingDate midTime
         = startInstant tz bookingDate startTime + k * JsDate.msPerHour - sigma
         /\ (sigma = 0
             \/ (sigma = JsDate.msPerDay
                 /\ BookingService.timeToMinutes midTime
                    + durationMinutes midTime endTime <= 240))).
  { unfold dmin, durationMinutes, startInstant in *. fold d0.
    set (smin := BookingService.timeToMinutes startTime) in *.
    set (emin := BookingService.timeToMinutes endTime) in *.
    set (mmin := BookingService.timeToMinutes midTime) in *.
    destruct (Z.lt_ge_cases (smin + 60 * k) 1440) as [C|C].
    - rewrite Z.mod_small in Hmid by lia.
      replace (mmin <=? smin) with false by (symmetry; apply Z.leb_gt; lia).
      destruct (emin <=? smin) eqn:C1; [apply Z.leb_le in C1|apply Z.leb_gt in C1].
      + replace (emin <=? mmin) with true by (symmetry; apply Z.leb_le; lia).
        repeat split; try lia. exists 0. split; [|now left].
        unfold JsDate.msPerMinute, JsDate.msPerHour. lia.
      + replace (emin <=? mmin) with false by (symmetry; apply Z.leb_gt; lia).
        repeat split; try lia. exists 0. split; [|now left].
        unfold JsDate.msPerMinute, JsDate.msPerHour. lia.
    - assert (Hmm : mmin = smin + 60 * k - 1440).
      { rewrite Hmid. symmetry. apply Z.mod_unique with (q := 1); lia. }
      replace (mmin <=? smin) with true by (symmetry; apply Z.leb_le; lia).
      destruct (emin <=? smin) eqn:C1; [apply Z.leb_le in C1|apply Z.leb_gt in C1];
        [|lia].
      replace (emin <=? mmin) with false by (symmetry; apply Z.leb_gt; lia).
      assert (emin <= 240) by (apply Hcross; lia).
      repeat split; try lia. exists JsDate.msPerDay. split; [|right; split; lia].
      unfold JsDate.msPerMinute, JsDate.msPerHour, JsDate.msPerDay. lia. }
  destruct Hparts as (Hd1 & Hd2 & sigma & HS2 & Hsigma).
  (* the whole *)
  rewrite calculateBookingPrice_unfold in Hr by assumption. fold dmin d0 in Hr.
  replace (dmin <? 60) with false in Hr by (symmetry; apply Z.ltb_ge; lia).
  destruct (negb (dmin mod 60 =? 0) && negb (dmin mod 60 =? 30)) eqn:Hinc;
    [discriminate|].
  destruct (mapR _ _) as [xs| |] eqn:Hxs; cbn [mbind Result_bind] in Hr;
    try discriminate.
  injection Hr as <-.
  (* arithmetic of the segment counts *)
  assert (Hq : (dmin - 60 * k) / 60 = dmin / 60 - k).
  { replace (dmin - 60 * k) with (dmin + (- k) * 60) by lia.
    rewrite Z.div_add by discriminate. lia. }
  assert (Hrem : (dmin - 60 * k) mod 60 = dmin mod 60).
  { replace (dmin - 60 * k) with (dmin + (- k) * 60) by lia.
    now rewrite Z.mod_add by discriminate. }
  assert (Hk60 : (60 * k) / 60 = k)
    by (rewrite Z.mul_comm; now apply Z.div_mul).
  assert (Hk60m : (60 * k) mod 60 = 0)
    by (rewrite Z.mul_comm; now apply Z.mod_mul).
  assert (Hq0 : k <= dmin / 60).
  { apply Z.div_le_lower_bound; lia. }
  set (S := startInstant tz bookingDate startTime) in *.
  set (E := endInstant tz bookingDate startTime endTime) in *.
  assert (HE : E = S + dmin * JsDate.msPerMinute) by reflexivity.
  assert (HE1 : endInstant tz bookingDate startTime midTime
                = S + k * JsDate.msPerHour).
  { unfold endInstant. fold S. rewrite Hd1.
    unfold JsDate.msPerMinute, JsDate.msPerHour. lia. }
  assert (HE2 : endInstant tz bookingDate midTime endTime = E - sigma).
  { unfold endInstant. rewrite HS2, Hd2, HE.
    unfold JsDate.msPerMinute, JsDate.msPerHour. lia. }
  assert (Hl1 : requestStarts tz bookingDate startTime midTime
                = hourStarts (Z.to_nat k) S).
  { unfold requestStarts. fold S. rewrite Hd1, Hk60, Hk60m.
    cbn. apply app_nil_r. }
  assert (Hwhole : requestStarts tz bookingDate startTime endTime
                   = hourStarts (Z.to_nat k) S
                     ++ map (fun x => x + sigma)
                          (requestStarts tz bookingDate midTime endTime)).
  { unfold requestStarts. fold S dmin. rewrite HS2, Hd2, Hq, Hrem.
    replace (Z.to_nat (dmin / 60))
      with (Z.to_nat k + Z.to_nat (dmin / 60 - k))%nat by lia.
    rewrite hourStarts_app, <- app_assoc. f_equal.
    rewrite map_app, <- hourStarts_shift. rewrite Z2Nat.id by lia.
    replace (S + k * JsDate.msPerHour - sigma + sigma)
      with (S + k * JsDate.msPerHour) by lia.
    f_equal. destruct (0 <? dmin mod 60); [|reflexivity].
    cbn [map]. f_equal. unfold JsDate.msPerHour. lia. }
  assert (HU : wholePrices rules -> halfUnits (map snd xs)).
  { intros HW. apply (request_halfUnits tz rules bookingDate startTime endTime).
    - exact HW.
    - fold dmin. lia.
    - fold dmin. apply andb_false_iff in Hinc.
      destruct Hinc as [C|C]; apply negb_false_iff, Z.eqb_eq in C; tauto.
    - exact Hxs. }
  rewrite Hwhole in Hxs.
  apply mapR_app_ok in Hxs as (xs1 & xs2 & Hx1 & Hx2 & ->).
  (* the first part *)
  assert (Hp1 : mapR (segItem tz rules d0 (endInstant tz bookingDate startTime midTime))
                  (requestStarts tz bookingDate startTime midTime) = Ok xs1).
  { rewrite Hl1, <- Hx1. apply mapR_ext_in. intros t Ht.
    apply hourStarts_in in Ht as (i & Hi & ->). rewrite Z2Nat.id in Hi by lia.
    apply segItem_slotEnd. rewrite HE1, !slotEndAt_full; [reflexivity| |];
      rewrite ?HE; unfold JsDate.msPerMinute, JsDate.msPerHour; lia. }
  (* the second part *)
  assert (Hp2 : mapR (segItem tz rules d0 (endInstant tz bookingDate midTime endTime))
                  (requestStarts tz bookingDate midTime endTime) = Ok xs2).
  { rewrite <- Hx2, mapR_map. apply mapR_ext_in. intros t Ht. rewrite HE2.
    destruct Hsigma as [->|[-> Hearly]].
    - now rewrite Z.sub_0_r, Z.add_0_r.
    - assert (Hd2' : 1 <= durationMinutes midTime endTime) by lia.
      destruct (requestStarts_offset _ _ _ _ _ Hd2' Ht)
        as (off & -> & Ho1 & Ho2). fold d0.
      assert (Hoff : 0 <= off < 4 * JsDate.msPerHour).
      { unfold JsDate.msPerMinute, JsDate.msPerHour in *. lia. }
      symmetry.
      replace E with (E - JsDate.msPerDay + JsDate.msPerDay) at 1 by lia.
      apply (segItem_next_day tz rules d0 _ _ off Hmidn).
      + unfold JsDate.msPerHour, JsDate.msPerDay in *. lia.
      + rewrite (getHours_offset tz d0 _ Hmidn).
        rewrite Z.mod_small by (unfold JsDate.msPerHour, JsDate.msPerDay in *; lia).
        apply Z.div_lt_upper_bound; [reflexivity|lia]. }
  rewrite !calculateBookingPrice_unfold by assumption.
  fold d0. rewrite Hd1, Hd2, Hk60m, Hrem, Hinc, Hp1, Hp2.
  replace (60 * k <? 60) with false by (symmetry; apply Z.ltb_ge; lia).
  replace (dmin - 60 * k <? 60) with false by (symmetry; apply Z.ltb_ge; lia).
  cbn [negb andb Z.eqb mbind Result_bind].
  eexists _, _. split; [reflexivity|]. split; [reflexivity|].
  cbn [PricingService.PriceResult.finalPrice PricingService.PriceResult.breakdown].
  split; [now rewrite map_app|].
  intros HW. symmetry. rewrite map_app. apply sumQ_app.
  rewrite <- map_app. exact (HU HW).
Qed.


Lemma segItem_fuel tz rules dateObj endDateTime t :
  segItem tz rules dateObj endDateTime t <> OutOfFuel.
Proof.
  unfold segItem, PricingService.getPrice.
  destruct (PricingService.findRule _ _ _); discriminate.
Qed.

Lemma mapR_segItem_fuel tz rules dateObj endDateTime l :
  mapR (segItem tz rules dateObj endDateTime) l <> OutOfFuel.
Proof.
  induction l as [|t l IH]; cbn [mapR]; [discriminate|].
  pose proof (segItem_fuel tz rules dateObj endDateTime t) as H.
  destruct (segItem tz rules dateObj endDateTime t); cbn [mbind Result_bind];
    [|discriminate|contradiction].
  destruct (mapR _ l); [discriminate|discriminate|contradiction].
Qed.

(** On well-formed times the pricing loop is given enough fuel:
    [calculateBookingPrice] returns a price or throws. *)
Lemma calculateBookingPrice_returns tz rules bookingDate startTime endTime :
  BookingService.timeRegex startTime = true ->
  BookingService.timeRegex endTime = true ->
  PricingService.calculateBookingPrice tz rules bookingDate startTime endTime
  <> OutOfFuel.
Proof.
  intros Hs He. rewrite calculateBookingPrice_unfold by assumption.
  destruct (_ <? 60); [discriminate|].
  destruct (negb _ && negb _); [discriminate|].
  pose proof (mapR_segItem_fuel tz rules (JsDate.setHours tz bookingDate 0 0 0 0)
                (endInstant tz bookingDate startTime endTime)
                (requestStarts tz bookingDate startTime endTime)) as H.
  destruct (mapR _ _); [discriminate|discriminate|contradiction].
Qed.

(** The scenario of the specification: Thursday 2026-02-12, 09:00-11:00,
    rule thu/day = 90: two one-hour segments at rate 90, total 180. *)
Lemma thursday_morning_scenario :
  exists r,
    PricingService.calculateBookingPrice (tzOffset Examples.riyadh) Examples.rules
      Examples.feb12 "09:00" "11:00" = Ok r
    /\ map (fun i => (BreakdownItem.hour i, BreakdownItem.rate i, BreakdownItem.days i))
         (PricingService.PriceResult.breakdown r)
       = [("09:00-10:00", 90%Q, Thu); ("10:00-11:00", 90%Q, Thu)]
    /\ (PricingService.PriceResult.finalPrice r == 180)%Q.
Proof. eexists. split; [vm_compute; reflexivity|]. split; reflexivity. Qed.

Lemma early_hours_use_booking_date_bucket_witness :
  exists r,
    PricingService.calculateBookingPrice (tzOffset Examples.riyadh) Examples.rules
      Examples.feb12 "23:00" "01:00" = Ok r
    /\ forall item,
         In item (PricingService.PriceResult.breakdown r) ->
         0 <= labelStartHour (BreakdownItem.hour item) < 4 ->
         BreakdownItem.days item
         = PricingService.getDays (tzOffset Examples.riyadh)
             (JsDate.setHours (tzOffset Examples.riyadh) Examples.feb12 0 0 0 0).
Proof.
  destruct (PricingService.calculateBookingPrice (tzOffset Examples.riyadh)
              Examples.rules Examples.feb12 "23:00" "01:00") as [r| |] eqn:E;
    [|vm_compute in E; discriminate|vm_compute in E; discriminate].
  exists r. split; [reflexivity|]. intros item Hin Hl.
  destruct (early_hours_use_booking_date_bucket _ _ _ "23:00" "01:00" r
              eq_refl eq_refl E) as [H _].
  now apply H.
Defined.

(** C2, the claim as stated fails: in a booking of Thursday 2026-02-12 from
    23:00 to 01:00 the segment 00:00-01:00 lies on Friday, a date that differs
    from the nominal date, and is priced in Thursday's bucket, not in the
    bucket of the next real day. *)
Lemma midnight_segment_keeps_nominal_bucket :
  let tz := tzOffset Examples.riyadh in
  let dateObj := JsDate.setHours tz Examples.feb12 0 0 0 0 in
  let raw := dateObj + 24 * JsDate.msPerHour in
  (exists r,
     PricingService.calculateBookingPrice tz Examples.rules Examples.feb12
       "23:00" "01:00" = Ok r
     /\ map (fun i => (BreakdownItem.hour i, BreakdownItem.days i))
          (PricingService.PriceResult.breakdown r)
        = [("23:00-00:00", Thu); ("00:00-01:00", Thu)])
  /\ JsDate.getHours tz raw = 0
  /\ JsDate.getDate tz raw <> JsDate.getDate tz dateObj
  /\ PricingService.getDays tz raw = Fri
  /\ PricingService.getDays tz dateObj = Thu.
Proof.
  cbv zeta. split; [eexists; split; [vm_compute; reflexivity|reflexivity]|].
  repeat split; vm_compute; discriminate.
Qed.

Lemma example_rules_whole : wholePrices Examples.rules.
Proof.
  intros rule Hin _. cbn in Hin.
  repeat (destruct Hin as [<-|Hin];
          [eexists; split; [reflexivity|vm_compute; discriminate]|]).
  destruct Hin.
Qed.

Lemma price_is_additive_over_whole_hours_witness :
  exists r r1 r2,
    PricingService.calculateBookingPrice (tzOffset Examples.riyadh) Examples.rules
      Examples.feb12 "22:00" "02:00" = Ok r
    /\ PricingService.calculateBookingPrice (tzOffset Examples.riyadh) Examples.rules
         Examples.feb12 "22:00" "01:00" = Ok r1
    /\ PricingService.calculateBookingPrice (tzOffset Examples.riyadh) Examples.rules
         Examples.feb12 "01:00" "02:00" = Ok r2
    /\ (PricingService.PriceResult.finalPrice r1
        + PricingService.PriceResult.finalPrice r2
        == PricingService.PriceResult.finalPrice r)%Q.
Proof.
  destruct (PricingService.calculateBookingPrice (tzOffset Examples.riyadh)
              Examples.rules Examples.feb12 "22:00" "02:00") as [r| |] eqn:E;
    [|vm_compute in E; discriminate|vm_compute in E; discriminate].
  destruct (price_is_additive_over_whole_hours Examples.riyadh Examples.rules
              Examples.feb12 "22:00" "01:00" "02:00" 3 r)
    as (r1 & r2 & H1 & H2 & _ & Hsum).
  - reflexivity.
  - reflexivity.
  - lia.
  - reflexivity.
  - vm_compute. discriminate.
  - exact E.
  - exists r, r1, r2. pose proof (Hsum example_rules_whole). auto.
Defined.

(** C9, the claim as stated fails.  Thursday 17:30-20:30 split at the hour
    boundary 19:00: the whole costs 315, the two parts 135 and 202.5.
    Thursday 21:00-23:30 split at the hour boundary 23:00: the second part is
    shorter than an hour and is not priced. *)
Lemma split_at_clock_hour_changes_price :
  let price := PricingService.calculateBookingPrice (tzOffset Examples.riyadh)
                 Examples.rules Examples.feb12 in
  BookingService.validateBookingTime Examples.riyadh "17:30" "20:30" Examples.feb12
  = Ok tt
  /\ (exists r r1 r2,
        price "17:30" "20:30" = Ok r
        /\ price "17:30" "19:00" = Ok r1
        /\ price "19:00" "20:30" = Ok r2
        /\ (PricingService.PriceResult.finalPrice r == 315)%Q
        /\ (PricingService.PriceResult.finalPrice r1
            + PricingService.PriceResult.finalPrice r2 == 675 # 2)%Q
        /\ ~ (PricingService.PriceResult.finalPrice r1
              + PricingService.PriceResult.finalPrice r2
              == PricingService.PriceResult.finalPrice r)%Q)
  /\ BookingService.validateBookingTime Examples.riyadh "21:00" "23:30" Examples.feb12
     = Ok tt
  /\ isOk (price "21:00" "23:30") = true
  /\ price "23:00" "23:30"
     = Throw (BadRequestError "Minimum booking duration is 1 hour").
Proof.
  cbv zeta. split; [reflexivity|]. split.
  - eexists _, _, _.
    split; [vm_compute; reflexivity|].
    split; [vm_compute; reflexivity|].
    split; [vm_compute; reflexivity|].
    split; [reflexivity|]. split; [reflexivity|]. discriminate.
  - split; [reflexivity|]. split; vm_compute; reflexivity.
Qed.

(** C9, the hourly prices.  The amounts are binary64 numbers, and at an
    hourly price that is not a whole number they need not add up: at 99.9 an
    hour, 09:00-14:00 costs 499.5, and its parts 09:00-11:00 and 11:00-14:00
    cost 199.8 and 299.70000000000005 as binary64 numbers. *)
Lemma fractional_prices_need_not_add_up :
  let price := PricingService.calculateBookingPrice (tzOffset Examples.riyadh)
                 (Examples.flatRules (999 # 10)) Examples.feb12 in
  BookingService.validateBookingTime Examples.riyadh "09:00" "14:00" Examples.feb12
  = Ok tt
  /\ exists r r1 r2,
       price "09:00" "14:00" = Ok r
       /\ price "09:00" "11:00" = Ok r1
       /\ price "11:00" "14:00" = Ok r2
       /\ (PricingService.PriceResult.finalPrice r == 999 # 2)%Q
       /\ ~ (PricingService.PriceResult.finalPrice r1
             + PricingService.PriceResult.finalPrice r2
             == PricingService.PriceResult.finalPrice r)%Q
       /\ JsNumber.add (PricingService.PriceResult.finalPrice r1)
            (PricingService.PriceResult.finalPrice r2)
          <> PricingService.PriceResult.finalPrice r.
Proof.
  cbv zeta. split; [reflexivity|].
  eexists _, _, _.
  split; [vm_compute; reflexivity|].
  split; [vm_compute; reflexivity|].
  split; [vm_compute; reflexivity|].
  split; [reflexivity|]. split; vm_compute; discriminate.
Qed.

(** *** The older copy of the midnight rule *)

(** The copy of [getEffectiveDate] kept in [promoCode.service.ts] rewinds
    every slot between 00:00 and 04:00 by one day. *)
Lemma legacy_getEffectiveDate_rewinds tz t :
  JsDate.getHours tz t < 4 ->
  LegacyPricing.getEffectiveDate tz t = t - JsDate.msPerDay.
Proof.
  intros H. unfold LegacyPricing.getEffectiveDate.
  pose proof (getHours_range tz t) as R.
  replace (0 <=? _) with true by (symmetry; apply Z.leb_le; lia).
  replace (_ <? 4) with true by (symmetry; now apply Z.ltb_lt).
  cbn [andb]. unfold JsDate.setDate. lia.
Qed.

(** On a Thursday booking for 02:00 the two copies pick different days. *)
Lemma legacy_and_current_differ :
  let tz := tzOffset Examples.riyadh in
  let dateObj := JsDate.setHours tz Examples.feb12 0 0 0 0 in
  let slot := dateObj + 2 * JsDate.msPerHour in
  PricingService.getDays tz (PricingService.getEffectiveDate tz slot (Some dateObj)) = Thu
  /\ PricingService.getDays tz (LegacyPricing.getEffectiveDate tz slot) = SunWed.
Proof. split; vm_compute; reflexivity. Qed.

(** * Further properties *)

(** ** Slot overlap detector, continued *)

Lemma timeSlotsOverlap_sound_witness : Spec.overlaps 1380 120 0 60.
Proof. apply timeSlotsOverlap_sound; try lia; reflexivity. Defined.

Lemma timeSlotsOverlap_plain_exact_witness : Spec.overlaps 600 720 660 780.
Proof.
  apply (proj1 (timeSlotsOverlap_plain_exact 600 720 660 780
                  ltac:(lia) ltac:(lia) ltac:(lia) ltac:(lia))).
  reflexivity.
Defined.

(** ** Time strings, continued *)

Lemma inRange_digitChar d lo hi :
  0 <= lo -> lo <= d <= hi -> hi <= 9 ->
  JsString.inRange (JsString.digitChar d) (JsString.digitChar lo)
    (JsString.digitChar hi) = true.
Proof.
  intros Hlo Hd Hhi. unfold JsString.inRange. rewrite !digitChar_code by lia.
  apply andb_true_iff. split; apply Nat.leb_le; lia.
Qed.

Lemma pad2_time h m :
  0 <= h < 24 -> 0 <= m < 60 ->
  BookingService.timeRegex (JsString.pad2 h +:+ ":" +:+ JsString.pad2 m) = true
  /\ BookingService.parseTime (JsString.pad2 h +:+ ":" +:+ JsString.pad2 m) = (h, m).
Proof.
  intros Hh Hm. unfold JsString.pad2.
  assert (H1 : 0 <= h / 10 <= 2).
  { split; [apply Z.div_pos; lia|].
    assert (h / 10 < 3) by (apply Z.div_lt_upper_bound; lia). lia. }
  assert (H2 : 0 <= h mod 10 <= 9) by (pose proof (Z.mod_pos_bound h 10); lia).
  assert (H3 : 0 <= m / 10 <= 5).
  { split; [apply Z.div_pos; lia|].
    assert (m / 10 < 6) by (apply Z.div_lt_upper_bound; lia). lia. }
  assert (H4 : 0 <= m mod 10 <= 9) by (pose proof (Z.mod_pos_bound m 10); lia).
  pose proof (Z.div_mod h 10 ltac:(discriminate)) as Qh.
  pose proof (Z.div_mod m 10 ltac:(discriminate)) as Qm.
  string_app. split.
  - cbn [BookingService.timeRegex]. rewrite Ascii.eqb_refl.
    rewrite (inRange_digitChar (m / 10) 0 5 ltac:(lia) ltac:(lia) ltac:(lia)
               : JsString.inRange (JsString.digitChar (m / 10)) "0" "5" = true).
    rewrite (inRange_digitChar (m mod 10) 0 9 ltac:(lia) ltac:(lia) ltac:(lia)
               : JsString.inRange (JsString.digitChar (m mod 10)) "0" "9" = true).
    rewrite !andb_true_r.
    destruct (Z.eq_dec (h / 10) 2) as [E|E].
    + rewrite E. change (JsString.digitChar 2) with "2"%char.
      rewrite Ascii.eqb_refl.
      rewrite (inRange_digitChar (h mod 10) 0 3 ltac:(lia) ltac:(lia) ltac:(lia)
               : JsString.inRange (JsString.digitChar (h mod 10)) "0" "3" = true).
      apply orb_true_r.
    + rewrite (inRange_digitChar (h / 10) 0 1 ltac:(lia) ltac:(lia) ltac:(lia)
               : JsString.inRange (JsString.digitChar (h / 10)) "0" "1" = true).
      rewrite (inRange_digitChar (h mod 10) 0 9 ltac:(lia) ltac:(lia) ltac:(lia)
               : JsString.inRange (JsString.digitChar (h mod 10)) "0" "9" = true).
      reflexivity.
  - unfold BookingService.parseTime, JsString.split. cbn [JsString.splitAux].
    rewrite !(digitChar_neq _ ":"%char) by (lia || (vm_compute; lia)).
    rewrite Ascii.eqb_refl. string_app. cbn [map].
    unfold JsString.Number. cbn [JsString.NumberAux].
    rewrite !digitChar_value by lia. f_equal; lia.
Qed.

(** The clock label that the pricing service writes for an instant
    (hours and minutes, each padded to two digits) is accepted by the time
    format of the booking service and parses back to the hour and minute of
    that instant; as minutes since midnight it is 60 * hours + minutes. *)
Theorem hour_label_parses_back tz t :
  BookingService.validateTimeFormat (PricingService.hourLabel tz t) = Ok tt
  /\ BookingService.parseTime (PricingService.hourLabel tz t)
     = (JsDate.getHours tz t, JsDate.getMinutes tz t)
  /\ BookingService.timeToMinutes (PricingService.hourLabel tz t)
     = JsDate.getHours tz t * 60 + JsDate.getMinutes tz t.
Proof.
  destruct (pad2_time _ _ (getHours_range tz t) (getMinutes_range tz t)) as [R P].
  unfold PricingService.hourLabel. split; [now apply validateTimeFormat_ok|].
  split; [exact P|]. now apply parseTime_minutes.
Qed.

(** X3.  A time string that passes the format check is a minute of the
    day: it splits at the colon into an hour of at most 23 and a minute of at
    most 59, and its minute count lies in [0, 1440). *)
Theorem validated_time_is_a_minute_of_the_day time :
  BookingService.validateTimeFormat time = Ok tt ->
  exists hours minutes,
    BookingService.parseTime time = (hours, minutes)
    /\ 0 <= hours <= 23 /\ 0 <= minutes <= 59
    /\ BookingService.timeToMinutes time = hours * 60 + minutes
    /\ 0 <= BookingService.timeToMinutes time < 1440.
Proof.
  unfold BookingService.validateTimeFormat.
  destruct (BookingService.timeRegex time) eqn:R; [|discriminate]. intros _.
  destruct (timeRegex_parse _ R) as (h & m & P & Hh & Hm).
  exists h, m. rewrite (parseTime_minutes _ _ _ P). repeat split; try assumption; lia.
Qed.

Lemma validated_time_is_a_minute_of_the_day_witness :
  exists hours minutes,
    BookingService.parseTime "09:30" = (hours, minutes)
    /\ 0 <= hours <= 23 /\ 0 <= minutes <= 59
    /\ BookingService.timeToMinutes "09:30" = hours * 60 + minutes
    /\ 0 <= BookingService.timeToMinutes "09:30" < 1440.
Proof. apply (validated_time_is_a_minute_of_the_day "09:30"). reflexivity. Defined.

(** A malformed time string is refused with a 400 error that quotes it. *)
Lemma validateTimeFormat_cases time :
  BookingService.validateTimeFormat time
  = if BookingService.timeRegex time then Ok tt
    else Throw (mkApiError 400 ("Invalid time format: " +:+ time +:+ ". Expected HH:MM")).
Proof. unfold BookingService.validateTimeFormat. now destruct (BookingService.timeRegex time). Qed.

(** ** Interval validation, continued *)

(** X4.  The guard of [validateBookingTime] that answers "Invalid booking
    time" can never fire: an interval that does not cross midnight and lasts
    at least an hour cannot start at or after 09:00 and end at or before
    09:00.  No input makes the function throw that error. *)
Theorem invalid_booking_time_is_never_reported env startTime endTime bookingDate :
  BookingService.validateBookingTime env startTime endTime bookingDate
  <> Throw (mkApiError 400 "Invalid booking time").
Proof.
  unfold BookingService.validateBookingTime.
  rewrite !validateTimeFormat_cases.
  destruct (BookingService.timeRegex startTime); cbn [mbind Result_bind];
    [|string_app; intros H; discriminate H].
  destruct (BookingService.timeRegex endTime); cbn [mbind Result_bind];
    [|string_app; intros H; discriminate H].
  set (s := BookingService.timeToMinutes startTime).
  set (e := BookingService.timeToMinutes endTime).
  destruct (e <? s) eqn:C.
  - destruct (_ <? 60); [intros H; discriminate H|].
    destruct (negb _); [intros H; discriminate H|].
    destruct (negb _); [intros H; discriminate H|].
    cbn [andb negb]. destruct (_ <? e); [intros H; discriminate H|].
    destruct (JsDate.setHours _ _ _ _ _ _ <? _); intros H; discriminate H.
  - destruct (e - s <? 60) eqn:D; [intros H; discriminate H|].
    destruct (negb _); [intros H; discriminate H|].
    destruct (negb _); [intros H; discriminate H|].
    cbn [andb negb].
    destruct ((9 * 60 <=? s) && (e <=? 9 * 60)) eqn:G.
    + zbool. lia.
    + destruct (JsDate.setHours _ _ _ _ _ _ <? _); intros H; discriminate H.
Qed.

(** X5.  For well-formed times whose end is not before the start (an
    interval within one day), [validateBookingTime] accepts exactly when the
    interval lasts at least 60 minutes, its length is a multiple of 30
    minutes, it starts at or after 09:00 or before 04:00, and the booking day
    is not before today.  The end of such an interval is not held against the
    operating hours: an interval that starts before 04:00 is accepted
    whatever later time of the same day it ends at. *)
Theorem plain_interval_acceptance env startTime endTime bookingDate :
  BookingService.timeRegex startTime = true ->
  BookingService.timeRegex endTime = true ->
  BookingService.timeToMinutes startTime <= BookingService.timeToMinutes endTime ->
  let s := BookingService.timeToMinutes startTime in
  let e := BookingService.timeToMinutes endTime in
  BookingService.validateBookingTime env startTime endTime bookingDate = Ok tt
  <-> 60 <= e - s
      /\ (e - s) mod 30 = 0
      /\ (540 <= s \/ s < 240)
      /\ JsDate.setHours (tzOffset env) (now env) 0 0 0 0
         <= JsDate.setHours (tzOffset env) bookingDate 0 0 0 0.
Proof.
  intros Hs He Hle s e. fold s e in Hle.
  assert (Hc : (e <? s) = false) by now apply Z.ltb_ge.
  unfold BookingService.validateBookingTime.
  rewrite (validateTimeFormat_ok _ Hs), (validateTimeFormat_ok _ He).
  cbn [mbind Result_bind]. fold s e. rewrite Hc.
  change (9 * 60) with 540. change (4 * 60) with 240.
  destruct (e - s <? 60) eqn:D1.
  { apply Z.ltb_lt in D1. split; [discriminate|lia]. }
  apply Z.ltb_ge in D1.
  rewrite Z.rem_mod_nonneg by lia.
  destruct ((e - s) mod 30 =? 0) eqn:D2; cbn [negb].
  2:{ apply Z.eqb_neq in D2. split; [discriminate|lia]. }
  apply Z.eqb_eq in D2.
  destruct ((540 <=? s) || (s <? 240)) eqn:D3; cbn [negb].
  2:{ apply orb_false_iff in D3 as [A B].
      apply Z.leb_gt in A. apply Z.ltb_ge in B. split; [discriminate|lia]. }
  assert (D3' : 540 <= s \/ s < 240).
  { apply orb_true_iff in D3 as [A|A];
      [left; now apply Z.leb_le|right; now apply Z.ltb_lt]. }
  cbn [andb].
  replace ((540 <=? s) && (e <=? 540)) with false.
  2:{ symmetry. apply andb_false_iff.
      destruct (Z_le_gt_dec 540 s); [right; apply Z.leb_gt|left; apply Z.leb_gt]; lia. }
  destruct (JsDate.setHours (tzOffset env) bookingDate 0 0 0 0
            <? JsDate.setHours (tzOffset env) (now env) 0 0 0 0) eqn:D5.
  { apply Z.ltb_lt in D5. split; [discriminate|lia]. }
  apply Z.ltb_ge in D5.
  split; [|reflexivity]. intros _. repeat split; lia.
Qed.

Lemma plain_interval_acceptance_witness :
  BookingService.validateBookingTime Examples.riyadh "03:00" "11:00" Examples.feb12
  = Ok tt.
Proof.
  apply (plain_interval_acceptance Examples.riyadh "03:00" "11:00" Examples.feb12);
    [reflexivity|reflexivity|vm_compute; discriminate|].
  split; [vm_compute; discriminate|]. split; [reflexivity|].
  split; [right; reflexivity|vm_compute; discriminate].
Defined.

(** ** Pricing, continued *)

Lemma mapR_all_ok {A B} (f : A -> Result B) l :
  (forall a, In a l -> exists b, f a = Ok b) -> exists xs, mapR f l = Ok xs.
Proof.
  induction l as [|a l IH]; intros H; cbn [mapR]; [now eexists|].
  destruct (H a (or_introl eq_refl)) as [b ->].
  destruct IH as [xs ->]; [intros a' Ha'; apply H; now right|].
  now eexists.
Qed.

(** What a successful call of [calculateBookingPrice] has computed. *)
Lemma calculateBookingPrice_ok_inv tz rules bookingDate startTime endTime r :
  BookingService.timeRegex startTime = true ->
  BookingService.timeRegex endTime = true ->
  PricingService.calculateBookingPrice tz rules bookingDate startTime endTime = Ok r ->
  let dmin := durationMinutes startTime endTime in
  60 <= dmin
  /\ (dmin mod 60 = 0 \/ dmin mod 60 = 30)
  /\ exists xs,
       mapR (segItem tz rules (JsDate.setHours tz bookingDate 0 0 0 0)
               (endInstant tz bookingDate startTime endTime))
         (requestStarts tz bookingDate startTime endTime) = Ok xs
       /\ r = PricingService.PriceResult.mk
                (inject_Z (dmin * JsDate.msPerMinute) / inject_Z JsDate.msPerHour)
                (map fst xs) (sumQ 0 (map snd xs)).
Proof.
  intros Hs He. rewrite calculateBookingPrice_unfold by assumption. intros H dmin.
  fold dmin in H.
  destruct (dmin <? 60) eqn:D1; [discriminate|]. apply Z.ltb_ge in D1.
  destruct (dmin mod 60 =? 0) eqn:D2; cbn [negb andb] in H.
  - apply Z.eqb_eq in D2.
    destruct (mapR _ _) as [xs| |]; cbn [mbind Result_bind] in H; try discriminate.
    injection H as <-. split; [exact D1|]. split; [now left|]. now exists xs.
  - destruct (dmin mod 60 =? 30) eqn:D3; cbn [negb] in H; [|discriminate].
    apply Z.eqb_eq in D3.
    destruct (mapR _ _) as [xs| |]; cbn [mbind Result_bind] in H; try discriminate.
    injection H as <-. split; [exact D1|]. split; [now right|]. now exists xs.
Qed.

Lemma Qdiv_minutes d :
  (inject_Z (d * JsDate.msPerMinute) / inject_Z JsDate.msPerHour == inject_Z d / 60)%Q.
Proof.
  unfold Qeq, Qdiv, Qmult, Qinv, inject_Z, JsDate.msPerMinute, JsDate.msPerHour.
  cbn. lia.
Qed.

(** The hours priced are the duration of the request. *)
Lemma priced_hours_equal_stored_duration_aux
    tz rules bookingDate startTime endTime r :
  BookingService.timeRegex startTime = true ->
  BookingService.timeRegex endTime = true ->
  BookingService.timeToMinutes endTime <> BookingService.timeToMinutes startTime ->
  PricingService.calculateBookingPrice tz rules bookingDate startTime endTime = Ok r ->
  (PricingService.PriceResult.totalHours r
   == BookingService.calculateDuration startTime endTime)%Q.
Proof.
  intros Hs He Hne H.
  destruct (calculateBookingPrice_ok_inv _ _ _ _ _ _ Hs He H) as (D & _ & xs & _ & ->).
  cbn [PricingService.PriceResult.totalHours]. rewrite Qdiv_minutes.
  unfold BookingService.calculateDuration, durationMinutes.
  set (s := BookingService.timeToMinutes startTime) in *.
  set (e := BookingService.timeToMinutes endTime) in *.
  destruct (e <? s) eqn:C; [apply Z.ltb_lt in C|apply Z.ltb_ge in C].
  - replace (e <=? s) with true by (symmetry; apply Z.leb_le; lia).
    now replace (e - s + 1440) with (24 * 60 - s + e) by lia.
  - replace (e <=? s) with false by (symmetry; apply Z.leb_gt; lia).
    now rewrite Z.add_0_r.
Qed.

(** X6.  Whenever a request with well-formed, distinct start and end times
    is priced, the hours the pricing service reports ([totalHours]) are the
    duration that [calculateDuration] gives for the same times, the value
    [createBooking] stores as [durationHours]; it is at least one hour. *)
Theorem priced_hours_equal_stored_duration
    tz rules bookingDate startTime endTime r :
  BookingService.timeRegex startTime = true ->
  BookingService.timeRegex endTime = true ->
  BookingService.timeToMinutes endTime <> BookingService.timeToMinutes startTime ->
  PricingService.calculateBookingPrice tz rules bookingDate startTime endTime = Ok r ->
  (PricingService.PriceResult.totalHours r
   == BookingService.calculateDuration startTime endTime)%Q
  /\ (1 <= PricingService.PriceResult.totalHours r)%Q.
Proof.
  intros Hs He Hne H. split.
  - now apply (priced_hours_equal_stored_duration_aux tz rules bookingDate).
  - destruct (calculateBookingPrice_ok_inv _ _ _ _ _ _ Hs He H) as (D & _ & xs & _ & ->).
    cbn [PricingService.PriceResult.totalHours]. rewrite Qdiv_minutes.
    unfold Qle, Qdiv, Qmult, Qinv, inject_Z. cbn. lia.
Qed.

Lemma priced_hours_equal_stored_duration_witness :
  exists r,
    PricingService.calculateBookingPrice (tzOffset Examples.riyadh) Examples.rules
      Examples.feb12 "23:00" "01:30" = Ok r
    /\ (PricingService.PriceResult.totalHours r
        == BookingService.calculateDuration "23:00" "01:30")%Q.
Proof.
  destruct (PricingService.calculateBookingPrice (tzOffset Examples.riyadh)
              Examples.rules Examples.feb12 "23:00" "01:30") as [r| |] eqn:E;
    [|vm_compute in E; discriminate|vm_compute in E; discriminate].
  exists r. split; [reflexivity|].
  apply (priced_hours_equal_stored_duration (tzOffset Examples.riyadh)
           Examples.rules Examples.feb12 "23:00" "01:30" r eq_refl eq_refl);
    [vm_compute; discriminate|exact E].
Defined.

(** X7.  A request whose end time equals its start time is priced as a
    booking of a full day: the pricing service moves the end to the next day,
    reports 24 hours and prices 24 one-hour segments, while
    [calculateDuration] gives 0 hours for the same times. *)
Theorem equal_times_are_priced_as_a_full_day tz rules bookingDate time r :
  BookingService.timeRegex time = true ->
  PricingService.calculateBookingPrice tz rules bookingDate time time = Ok r ->
  (PricingService.PriceResult.totalHours r == 24)%Q
  /\ length (PricingService.PriceResult.breakdown r) = 24%nat
  /\ (BookingService.calculateDuration time time == 0)%Q.
Proof.
  intros Ht H.
  destruct (calculateBookingPrice_ok_inv _ _ _ _ _ _ Ht Ht H) as (_ & _ & xs & Hxs & ->).
  cbn [PricingService.PriceResult.totalHours PricingService.PriceResult.breakdown].
  assert (D : durationMinutes time time = 1440).
  { unfold durationMinutes. rewrite Z.leb_refl. lia. }
  split; [|split].
  - rewrite D. reflexivity.
  - rewrite length_map, (mapR_length _ _ _ Hxs).
    apply Nat2Z.inj. rewrite requestStarts_length by (rewrite D; lia).
    rewrite D. reflexivity.
  - unfold BookingService.calculateDuration. rewrite Z.ltb_irrefl, Z.sub_diag.
    reflexivity.
Qed.

Lemma equal_times_are_priced_as_a_full_day_witness :
  exists r,
    PricingService.calculateBookingPrice (tzOffset Examples.riyadh) Examples.rules
      Examples.feb12 "10:00" "10:00" = Ok r
    /\ (PricingService.PriceResult.totalHours r == 24)%Q
    /\ length (PricingService.PriceResult.breakdown r) = 24%nat.
Proof.
  destruct (PricingService.calculateBookingPrice (tzOffset Examples.riyadh)
              Examples.rules Examples.feb12 "10:00" "10:00") as [r| |] eqn:E;
    [|vm_compute in E; discriminate|vm_compute in E; discriminate].
  exists r. split; [reflexivity|].
  destruct (equal_times_are_priced_as_a_full_day (tzOffset Examples.riyadh)
              Examples.rules Examples.feb12 "10:00" r eq_refl E)
    as (H1 & H2 & _).
  split; assumption.
Defined.

(** X8.  The breakdown of a priced request has one entry for every hour
    started from the request's start (the duration in minutes divided by 60,
    rounded up), and every entry carries the hourly price of an active
    pricing rule stored for the entry's day bucket and time slot; the
    entry's category is the one [getCategory] gives for that bucket and
    slot, whatever category the rule itself stores. *)
Theorem breakdown_has_one_entry_per_started_hour
    tz rules bookingDate startTime endTime r :
  BookingService.timeRegex startTime = true ->
  BookingService.timeRegex endTime = true ->
  PricingService.calculateBookingPrice tz rules bookingDate startTime endTime = Ok r ->
  Z.of_nat (length (PricingService.PriceResult.breakdown r))
  = (durationMinutes startTime endTime + 59) / 60
  /\ forall item,
       In item (PricingService.PriceResult.breakdown r) ->
       exists rule,
         In rule rules
         /\ PricingRule.isActive rule = true
         /\ PricingRule.days rule = BreakdownItem.days item
         /\ PricingRule.timeSlot rule = BreakdownItem.timeSlot item
         /\ BreakdownItem.rate item = PricingRule.pricePerHour rule
         /\ BreakdownItem.category item
            = PricingService.getCategory (BreakdownItem.days item)
                (BreakdownItem.timeSlot item).
Proof.
  intros Hs He H.
  destruct (calculateBookingPrice_ok_inv _ _ _ _ _ _ Hs He H) as (D & M & xs & Hxs & ->).
  cbn [PricingService.PriceResult.breakdown]. split.
  - rewrite length_map, (mapR_length _ _ _ Hxs).
    rewrite requestStarts_length by lia.
    set (dmin := durationMinutes startTime endTime) in *.
    pose proof (Z.div_mod dmin 60 ltac:(discriminate)) as Q.
    destruct M as [M|M]; rewrite M; cbn [Z.ltb Z.compare].
    + apply (Z.div_unique _ _ _ 59); lia.
    + apply (Z.div_unique _ _ _ 29); lia.
  - intros item Hin. apply in_map_iff in Hin as ([item' v] & <- & Hin).
    destruct (mapR_in _ _ _ _ Hxs Hin) as (t & _ & Ht).
    destruct (segItem_rule _ _ _ _ _ _ _ Ht) as (rule & ? & ? & ? & ? & ? & ? & _).
    exists rule. cbn [fst]. repeat split; assumption.
Qed.

Lemma breakdown_has_one_entry_per_started_hour_witness :
  exists r,
    PricingService.calculateBookingPrice (tzOffset Examples.riyadh) Examples.rules
      Examples.feb12 "17:30" "20:00" = Ok r
    /\ Z.of_nat (length (PricingService.PriceResult.breakdown r)) = 3.
Proof.
  destruct (PricingService.calculateBookingPrice (tzOffset Examples.riyadh)
              Examples.rules Examples.feb12 "17:30" "20:00") as [r| |] eqn:E;
    [|vm_compute in E; discriminate|vm_compute in E; discriminate].
  exists r. split; [reflexivity|].
  destruct (breakdown_has_one_entry_per_started_hour (tzOffset Examples.riyadh)
              Examples.rules Examples.feb12 "17:30" "20:00" r
              eq_refl eq_refl E) as [H _].
  exact H.
Defined.

Lemma hours_nonneg d : 0 <= d -> (0 <= inject_Z d / inject_Z JsDate.msPerHour)%Q.
Proof.
  intros H. unfold Qle, Qdiv, Qmult, Qinv, inject_Z, JsDate.msPerHour. cbn. lia.
Qed.

Lemma hours_plus a b :
  (inject_Z (a + b) / inject_Z JsDate.msPerHour
   == inject_Z a / inject_Z JsDate.msPerHour + inject_Z b / inject_Z JsDate.msPerHour)%Q.
Proof. unfold Qdiv. rewrite inject_Z_plus. ring. Qed.

(** At whole hourly prices, the price of a run of segments of an hour or of
    half an hour lies between the lowest and the highest hourly price, each
    times the hours the segments last. *)
Lemma segments_bounds tz rules dateObj endDateTime lo hi :
  wholePrices rules ->
  (forall rule, In rule rules -> PricingRule.isActive rule = true ->
     (lo <= PricingRule.pricePerHour rule <= hi)%Q) ->
  forall l xs,
    mapR (segItem tz rules dateObj endDateTime) l = Ok xs ->
    (forall t, In t l ->
       slotEndAt endDateTime t - t = JsDate.msPerHour
       \/ slotEndAt endDateTime t - t = 30 * JsDate.msPerMinute) ->
    let w := (inject_Z (fold_right (fun t acc => slotEndAt endDateTime t - t + acc)%Z
                          0%Z l)
              / inject_Z JsDate.msPerHour)%Q in
    (lo * w <= fold_right Qplus 0 (map snd xs) <= hi * w)%Q.
Proof.
  intros HW Hb. induction l as [|t l IH]; intros xs Hxs Hl; cbn [mapR] in Hxs.
  - injection Hxs as <-. cbn. unfold Qdiv. rewrite !Qmult_0_l, !Qmult_0_r.
    split; apply Qle_refl.
  - destruct (segItem tz rules dateObj endDateTime t) as [[item v]| |] eqn:Ht;
      cbn [mbind Result_bind] in Hxs; try discriminate.
    destruct (mapR _ l) as [xs'| |] eqn:Hxs'; cbn [mbind Result_bind] in Hxs;
      try discriminate.
    injection Hxs as <-.
    specialize (IH xs' eq_refl (fun t' H' => Hl t' (or_intror H'))).
    cbn zeta in IH. cbn [fold_right map snd].
    destruct (segment_price_exact _ _ _ _ _ _ _ HW (Hl t (or_introl eq_refl)) Ht)
      as [Hv _].
    destruct (segItem_rule _ _ _ _ _ _ _ Ht)
      as (rule & Hin & Hact & _ & _ & Hrate & _).
    rewrite Hrate in Hv.
    destruct (Hb rule Hin Hact) as [Hlo Hhi].
    assert (Hw : (0 <= inject_Z (slotEndAt endDateTime t - t)
                       / inject_Z JsDate.msPerHour)%Q).
    { apply hours_nonneg.
      destruct (Hl t (or_introl eq_refl)) as [-> | ->];
        unfold JsDate.msPerHour, JsDate.msPerMinute; lia. }
    rewrite Hv, hours_plus, !Qmult_plus_distr_r.
    destruct IH as [IHlo IHhi].
    split; apply Qplus_le_compat;
      solve [now apply Qmult_le_compat_r | assumption].
Qed.

Lemma fold_hourStarts endDateTime k : forall t a,
  t + Z.of_nat k * JsDate.msPerHour <= endDateTime ->
  fold_right (fun t acc => slotEndAt endDateTime t - t + acc) a (hourStarts k t)
  = Z.of_nat k * JsDate.msPerHour + a.
Proof.
  induction k as [|k IH]; intros t a H; cbn [hourStarts fold_right]; [lia|].
  rewrite IH by (unfold JsDate.msPerHour in *; lia).
  rewrite slotEndAt_full by (unfold JsDate.msPerHour in *; lia).
  unfold JsDate.msPerHour. lia.
Qed.

(** The segments of a request tile it: their lengths add up to the length
    of the request. *)
Lemma requestStarts_total tz bookingDate startTime endTime :
  let dmin := durationMinutes startTime endTime in
  0 <= dmin ->
  fold_right (fun t acc =>
                slotEndAt (endInstant tz bookingDate startTime endTime) t - t + acc)
    0 (requestStarts tz bookingDate startTime endTime)
  = dmin * JsDate.msPerMinute.
Proof.
  intros dmin Hd. unfold requestStarts, endInstant. fold dmin.
  set (S := startInstant tz bookingDate startTime).
  pose proof (Z.div_mod dmin 60 ltac:(discriminate)) as Q.
  pose proof (Z.mod_pos_bound dmin 60 ltac:(reflexivity)) as R.
  assert (0 <= dmin / 60) by (apply Z.div_pos; lia).
  rewrite fold_right_app, fold_hourStarts;
    [|rewrite Z2Nat.id by lia; unfold JsDate.msPerMinute, JsDate.msPerHour; lia].
  rewrite Z2Nat.id by lia.
  destruct (0 <? dmin mod 60) eqn:C; cbn [fold_right].
  - apply Z.ltb_lt in C. unfold slotEndAt.
    replace (_ <? _) with true
      by (symmetry; apply Z.ltb_lt; unfold JsDate.msPerMinute, JsDate.msPerHour; lia).
    unfold JsDate.msPerMinute, JsDate.msPerHour. lia.
  - apply Z.ltb_ge in C. unfold JsDate.msPerMinute, JsDate.msPerHour. lia.
Qed.

(** X9.  When the hourly prices of the active pricing rules are whole
    numbers, the price of a request lies between the lowest and the highest
    of them, each multiplied by the hours priced: under non-negative rates
    no price is negative, and under a single rate the price is that rate
    times the hours. *)
Theorem price_lies_between_the_rate_bounds
    tz rules bookingDate startTime endTime r lo hi :
  BookingService.timeRegex startTime = true ->
  BookingService.timeRegex endTime = true ->
  wholePrices rules ->
  (forall rule, In rule rules -> PricingRule.isActive rule = true ->
     (lo <= PricingRule.pricePerHour rule <= hi)%Q) ->
  PricingService.calculateBookingPrice tz rules bookingDate startTime endTime = Ok r ->
  (lo * PricingService.PriceResult.totalHours r
   <= PricingService.PriceResult.finalPrice r
   <= hi * PricingService.PriceResult.totalHours r)%Q.
Proof.
  intros Hs He HW Hb H.
  destruct (calculateBookingPrice_ok_inv _ _ _ _ _ _ Hs He H)
    as (D & Dm & xs & Hxs & ->).
  cbn [PricingService.PriceResult.totalHours PricingService.PriceResult.finalPrice].
  pose proof (durationMinutes_range _ _ Hs He) as [_ Dmax].
  pose proof (timeRegex_minutes _ Hs) as Bs.
  assert (HU : halfUnits (map snd xs)).
  { apply (request_halfUnits tz rules bookingDate startTime endTime);
      [exact HW|lia|exact Dm|exact Hxs]. }
  rewrite (sumQ_exact _ HU).
  pose proof (segments_bounds tz rules _ _ lo hi HW Hb _ _ Hxs) as B.
  cbn zeta in B. rewrite requestStarts_total in B by lia.
  apply B. intros t Ht. apply requestStarts_grid; [lia|exact Dm|exact Ht].
Qed.

Lemma price_lies_between_the_rate_bounds_witness :
  exists r,
    PricingService.calculateBookingPrice (tzOffset Examples.riyadh) Examples.rules
      Examples.feb12 "17:30" "20:00" = Ok r
    /\ (90 * PricingService.PriceResult.totalHours r
        <= PricingService.PriceResult.finalPrice r
        <= 135 * PricingService.PriceResult.totalHours r)%Q.
Proof.
  destruct (PricingService.calculateBookingPrice (tzOffset Examples.riyadh)
              Examples.rules Examples.feb12 "17:30" "20:00") as [r| |] eqn:E;
    [|vm_compute in E; discriminate|vm_compute in E; discriminate].
  exists r. split; [reflexivity|].
  apply (price_lies_between_the_rate_bounds (tzOffset Examples.riyadh)
           Examples.rules Examples.feb12 "17:30" "20:00" r 90 135 eq_refl eq_refl
           example_rules_whole);
    [|exact E].
  intros rule Hin _. cbn in Hin.
  repeat (destruct Hin as [<-|Hin]; [split; vm_compute; discriminate|]).
  destruct Hin.
Defined.

Lemma validateBookingTime_increment env startTime endTime bookingDate :
  BookingService.validateBookingTime env startTime endTime bookingDate = Ok tt ->
  durationMinutes startTime endTime mod 30 = 0.
Proof.
  intros H. pose proof (validateBookingTime_ok _ _ _ _ H) as (Hs & He & D & Hne & _).
  revert H. unfold BookingService.validateBookingTime.
  rewrite (validateTimeFormat_ok _ Hs), (validateTimeFormat_ok _ He).
  cbn [mbind Result_bind]. revert D Hne. unfold durationMinutes.
  set (s := BookingService.timeToMinutes startTime).
  set (e := BookingService.timeToMinutes endTime).
  change (24 * 60) with 1440. intros D Hne.
  destruct (e <? s) eqn:C; [apply Z.ltb_lt in C|apply Z.ltb_ge in C].
  - replace (e <=? s) with true in * by (symmetry; apply Z.leb_le; lia).
    replace (1440 - s + e) with (e - s + 1440) by lia.
    destruct (e - s + 1440 <? 60); [discriminate|].
    rewrite Z.rem_mod_nonneg by lia.
    destruct (_ =? 0) eqn:M; [now apply Z.eqb_eq in M|discriminate].
  - replace (e <=? s) with false in * by (symmetry; apply Z.leb_gt; lia).
    rewrite Z.add_0_r in *.
    destruct (e - s <? 60); [discriminate|].
    rewrite Z.rem_mod_nonneg by lia.
    destruct (_ =? 0) eqn:M; [now apply Z.eqb_eq in M|discriminate].
Qed.

(** X10.  Validation suffices for pricing: when the rule table holds an
    active rule for every day bucket and time slot, every interval that
    [validateBookingTime] accepts is priced by [calculateBookingPrice], for
    whatever date, and the hours priced are the duration
    [calculateDuration] gives. *)
Theorem accepted_interval_is_always_priced
    env rules startTime endTime bookingDate pricedDate :
  BookingService.validateBookingTime env startTime endTime bookingDate = Ok tt ->
  (forall days timeSlot, is_Some (PricingService.findRule rules days timeSlot)) ->
  exists r,
    PricingService.calculateBookingPrice (tzOffset env) rules pricedDate
      startTime endTime = Ok r
    /\ (PricingService.PriceResult.totalHours r
        == BookingService.calculateDuration startTime endTime)%Q.
Proof.
  intros H Hrules.
  pose proof (validateBookingTime_ok _ _ _ _ H) as (Hs & He & D & Hne & _).
  pose proof (validateBookingTime_increment _ _ _ _ H) as M.
  assert (exists r, PricingService.calculateBookingPrice (tzOffset env) rules
                      pricedDate startTime endTime = Ok r) as [r Hr].
  { rewrite calculateBookingPrice_unfold by assumption.
    replace (_ <? 60) with false by (symmetry; apply Z.ltb_ge; lia).
    set (dmin := durationMinutes startTime endTime) in *.
    assert (M60 : dmin mod 60 = 0 \/ dmin mod 60 = 30).
    { pose proof (Z.mod_pos_bound dmin 60 ltac:(reflexivity)).
      rewrite <- (Z.mod_mod_divide dmin 60 30) in M by (exists 2; reflexivity).
      pose proof (Z.div_mod (dmin mod 60) 30 ltac:(discriminate)) as Q.
      assert (0 <= (dmin mod 60) / 30 < 2)
        by (split; [apply Z.div_pos|apply Z.div_lt_upper_bound]; lia).
      lia. }
    replace (negb (dmin mod 60 =? 0) && negb (dmin mod 60 =? 30)) with false
      by (destruct M60 as [-> | ->]; reflexivity).
    destruct (mapR_all_ok
                (segItem (tzOffset env) rules
                   (JsDate.setHours (tzOffset env) pricedDate 0 0 0 0)
                   (endInstant (tzOffset env) pricedDate startTime endTime))
                (requestStarts (tzOffset env) pricedDate startTime endTime))
      as [xs ->]; [|now eexists].
    intros t _. unfold segItem, PricingService.getPrice.
    destruct (Hrules
                (PricingService.getDays (tzOffset env)
                   (PricingService.getEffectiveDate (tzOffset env) t
                      (Some (JsDate.setHours (tzOffset env) pricedDate 0 0 0 0))))
                (PricingService.getTimeSlot (JsDate.getHours (tzOffset env) t)))
      as [rule ->].
    now eexists. }
  exists r. split; [exact Hr|].
  now apply (priced_hours_equal_stored_duration_aux (tzOffset env) rules pricedDate).
Qed.

Lemma accepted_interval_is_always_priced_witness :
  exists r,
    PricingService.calculateBookingPrice (tzOffset Examples.riyadh) Examples.rules
      Examples.feb12 "23:00" "02:00" = Ok r
    /\ (PricingService.PriceResult.totalHours r
        == BookingService.calculateDuration "23:00" "02:00")%Q.
Proof.
  apply (accepted_interval_is_always_priced Examples.riyadh Examples.rules
           "23:00" "02:00" Examples.feb12 Examples.feb12).
  - vm_compute. reflexivity.
  - intros [] []; vm_compute; eauto.
Defined.

(** *** Prices repeat weekly *)

Lemma localDay_add_days tz t n :
  JsDate.localDay tz (t + n * JsDate.msPerDay) = JsDate.localDay tz t + n.
Proof.
  unfold JsDate.localDay, JsDate.localTime.
  replace (t + n * JsDate.msPerDay + tz) with (t + tz + n * JsDate.msPerDay) by lia.
  now rewrite Z.div_add by discriminate.
Qed.

Lemma getHours_add_days tz t n :
  JsDate.getHours tz (t + n * JsDate.msPerDay) = JsDate.getHours tz t.
Proof.
  unfold JsDate.getHours, JsDate.localTime.
  replace (t + n * JsDate.msPerDay + tz) with (t + tz + n * JsDate.msPerDay) by lia.
  now rewrite Z.mod_add by discriminate.
Qed.

Lemma getMinutes_add_days tz t n :
  JsDate.getMinutes tz (t + n * JsDate.msPerDay) = JsDate.getMinutes tz t.
Proof.
  unfold JsDate.getMinutes, JsDate.localTime.
  replace (t + n * JsDate.msPerDay + tz) with (t + tz + (24 * n) * JsDate.msPerHour)
    by (unfold JsDate.msPerDay, JsDate.msPerHour; lia).
  now rewrite Z.mod_add by discriminate.
Qed.

Lemma hourLabel_add_days tz t n :
  PricingService.hourLabel tz (t + n * JsDate.msPerDay) = PricingService.hourLabel tz t.
Proof.
  unfold PricingService.hourLabel.
  now rewrite getHours_add_days, getMinutes_add_days.
Qed.

Lemma getDays_add_week tz t :
  PricingService.getDays tz (t + 7 * JsDate.msPerDay) = PricingService.getDays tz t.
Proof.
  unfold PricingService.getDays, PricingService.getDayOfWeek, JsDate.getDay.
  rewrite localDay_add_days.
  replace (JsDate.localDay tz t + 7 + 4) with (JsDate.localDay tz t + 4 + 1 * 7) by lia.
  now rewrite Z.mod_add by discriminate.
Qed.

Lemma setHours_add_days tz t n h m s ms :
  JsDate.setHours tz (t + n * JsDate.msPerDay) h m s ms
  = JsDate.setHours tz t h m s ms + n * JsDate.msPerDay.
Proof. unfold JsDate.setHours. rewrite localDay_add_days. lia. Qed.

(** The date whose bucket prices a slot moves with the booking date. *)
Lemma getEffectiveDate_add_week tz dateObj L off :
  dateObj + tz = L * JsDate.msPerDay ->
  0 <= off < 2 * JsDate.msPerDay ->
  PricingService.getEffectiveDate tz (dateObj + off + 7 * JsDate.msPerDay)
    (Some (dateObj + 7 * JsDate.msPerDay))
  = PricingService.getEffectiveDate tz (dateObj + off) (Some dateObj)
    + 7 * JsDate.msPerDay.
Proof.
  intros Hmid Hoff.
  assert (Hmid' : dateObj + 7 * JsDate.msPerDay + tz = (L + 7) * JsDate.msPerDay) by lia.
  destruct (Z_lt_ge_dec (JsDate.getHours tz (dateObj + off)) 4) as [Hh|Hh].
  - replace (dateObj + off + 7 * JsDate.msPerDay)
      with (dateObj + 7 * JsDate.msPerDay + off) by lia.
    rewrite (getEffectiveDate_early tz _ _ Hmid' off Hoff).
    + rewrite (getEffectiveDate_early tz _ _ Hmid off Hoff Hh).
      destruct (off <? JsDate.msPerDay); lia.
    + replace (dateObj + 7 * JsDate.msPerDay + off)
        with (dateObj + off + 7 * JsDate.msPerDay) by lia.
      now rewrite getHours_add_days.
  - unfold PricingService.getEffectiveDate. rewrite getHours_add_days.
    replace (JsDate.getHours tz (dateObj + off) <? 4) with false
      by (symmetry; apply Z.ltb_ge; lia).
    now rewrite andb_false_r.
Qed.

Lemma segItem_add_week tz rules dateObj L endDateTime off :
  dateObj + tz = L * JsDate.msPerDay ->
  0 <= off < 2 * JsDate.msPerDay ->
  segItem tz rules (dateObj + 7 * JsDate.msPerDay)
    (endDateTime + 7 * JsDate.msPerDay) (dateObj + off + 7 * JsDate.msPerDay)
  = segItem tz rules dateObj endDateTime (dateObj + off).
Proof.
  intros Hmid Hoff. unfold segItem, PricingService.getPrice.
  rewrite slotEndAt_add, !hourLabel_add_days, getHours_add_days.
  rewrite (getEffectiveDate_add_week tz dateObj L off Hmid Hoff), getDays_add_week.
  replace (slotEndAt endDateTime (dateObj + off) + 7 * JsDate.msPerDay
           - (dateObj + off + 7 * JsDate.msPerDay))
    with (slotEndAt endDateTime (dateObj + off) - (dateObj + off)) by lia.
  reflexivity.
Qed.

(** X11.  Prices repeat weekly: the same start and end times requested for
    a date seven days later get the same result, with the same breakdown
    (labels, rates, day buckets) and the same total, or the same error. *)
Theorem price_repeats_weekly tz rules bookingDate startTime endTime :
  BookingService.timeRegex startTime = true ->
  BookingService.timeRegex endTime = true ->
  PricingService.calculateBookingPrice tz rules (bookingDate + 7 * JsDate.msPerDay)
    startTime endTime
  = PricingService.calculateBookingPrice tz rules bookingDate startTime endTime.
Proof.
  intros Hs He. rewrite !calculateBookingPrice_unfold by assumption.
  destruct (_ <? 60); [reflexivity|].
  destruct (negb _ && negb _); [reflexivity|].
  set (W := 7 * JsDate.msPerDay).
  assert (Hd : JsDate.setHours tz (bookingDate + W) 0 0 0 0
               = JsDate.setHours tz bookingDate 0 0 0 0 + W)
    by apply setHours_add_days.
  set (d0 := JsDate.setHours tz bookingDate 0 0 0 0) in *.
  assert (HS : startInstant tz (bookingDate + W) startTime
               = startInstant tz bookingDate startTime + W).
  { unfold startInstant. fold d0. rewrite Hd. lia. }
  assert (HE : endInstant tz (bookingDate + W) startTime endTime
               = endInstant tz bookingDate startTime endTime + W).
  { unfold endInstant. rewrite HS. lia. }
  assert (HR : requestStarts tz (bookingDate + W) startTime endTime
               = map (fun x => x + W) (requestStarts tz bookingDate startTime endTime)).
  { unfold requestStarts. rewrite HS, map_app, hourStarts_shift.
    f_equal. destruct (0 <? _); [|reflexivity]. cbn [map]. f_equal. lia. }
  rewrite Hd, HE, HR, mapR_map.
  rewrite (mapR_ext_in _ (segItem tz rules d0 (endInstant tz bookingDate startTime endTime)));
    [reflexivity|].
  intros t Ht.
  destruct (durationMinutes_range _ _ Hs He) as [D1 D2].
  destruct (requestStarts_offset tz bookingDate startTime endTime t D1 Ht)
    as (off & -> & Hlo & Hhi). fold d0.
  pose proof (timeRegex_minutes _ Hs) as Bs.
  apply (segItem_add_week tz rules d0 (JsDate.localDay tz bookingDate)).
  - apply setHours_midnight.
  - unfold JsDate.msPerMinute, JsDate.msPerDay in *. lia.
Qed.

Lemma price_repeats_weekly_witness :
  PricingService.calculateBookingPrice (tzOffset Examples.riyadh) Examples.rules
    (Examples.feb12 + 7 * JsDate.msPerDay) "23:00" "01:00"
  = PricingService.calculateBookingPrice (tzOffset Examples.riyadh) Examples.rules
      Examples.feb12 "23:00" "01:00".
Proof.
  apply (price_repeats_weekly (tzOffset Examples.riyadh) Examples.rules
           Examples.feb12 "23:00" "01:00"); reflexivity.
Defined.

(** ** The availability checks, continued *)


Lemma filter_notCancelled_single courtId dateObj excl bookings :
  List.filter (BookingService.singleQuery courtId dateObj excl)
    (List.filter (fun b => negb (bool_decide (Booking.status b = Cancelled))) bookings)
  = List.filter (BookingService.singleQuery courtId dateObj excl) bookings.
Proof.
  rewrite filter_filter. apply filter_ext. intros b.
  unfold BookingService.singleQuery.
  destruct (negb (bool_decide (Booking.status b = Cancelled))); [reflexivity|].
  now rewrite !andb_false_r.
Qed.

Lemma filter_notCancelled_batch dateObj endOfDay courtIds bookings :
  List.filter (BookingService.batchQuery dateObj endOfDay courtIds)
    (List.filter (fun b => negb (bool_decide (Booking.status b = Cancelled))) bookings)
  = List.filter (BookingService.batchQuery dateObj endOfDay courtIds) bookings.
Proof.
  rewrite filter_filter. apply filter_ext. intros b.
  unfold BookingService.batchQuery.
  destruct (negb (bool_decide (Booking.status b = Cancelled))); [reflexivity|].
  now rewrite !andb_false_r.
Qed.

(** X12.  Cancelled bookings never block a slot: removing every cancelled
    booking from the collection changes the answer of neither the single
    availability check nor the batch check. *)
Theorem cancelled_bookings_never_block env bookings :
  let live :=
    List.filter (fun b => negb (bool_decide (Booking.status b = Cancelled))) bookings in
  (forall data,
     BookingService.checkAvailability env live data
     = BookingService.checkAvailability env bookings data)
  /\ (forall data,
        BookingService.checkBatchAvailability env live data
        = BookingService.checkBatchAvailability env bookings data).
Proof.
  intros live. split; intros data.
  - unfold BookingService.checkAvailability, live.
    now rewrite filter_notCancelled_single.
  - unfold BookingService.checkBatchAvailability, live.
    now rewrite filter_notCancelled_batch.
Qed.

(** X13.  The booking named by [excludeBookingId] is left out of the check:
    the answer is the one the check without exclusion gives on the collection
    without that booking.  An empty [excludeBookingId] excludes nothing. *)
Theorem excluded_booking_is_ignored
    env bookings courtId bookingDate startTime endTime excludeBookingId :
  BookingService.checkAvailability env bookings
    (BookingService.CheckAvailabilityDTO.mk courtId bookingDate startTime endTime
       (Some excludeBookingId))
  = BookingService.checkAvailability env
      (if JsString.truthy excludeBookingId
       then List.filter (fun b => negb (bool_decide (Booking._id b = excludeBookingId)))
              bookings
       else bookings)
      (BookingService.CheckAvailabilityDTO.mk courtId bookingDate startTime endTime None).
Proof.
  unfold BookingService.checkAvailability.
  cbn [BookingService.CheckAvailabilityDTO.courtId
       BookingService.CheckAvailabilityDTO.bookingDate
       BookingService.CheckAvailabilityDTO.startTime
       BookingService.CheckAvailabilityDTO.endTime
       BookingService.CheckAvailabilityDTO.excludeBookingId].
  set (dateObj := JsDate.setHours (tzOffset env) bookingDate 0 0 0 0).
  assert (E : List.filter (BookingService.singleQuery courtId dateObj (Some excludeBookingId))
                bookings
              = List.filter (BookingService.singleQuery courtId dateObj None)
                  (if JsString.truthy excludeBookingId
                   then List.filter
                          (fun b => negb (bool_decide (Booking._id b = excludeBookingId)))
                          bookings
                   else bookings)).
  { unfold BookingService.singleQuery. cbn [BookingService.optTruthy].
    destruct (JsString.truthy excludeBookingId); [|reflexivity].
    rewrite filter_filter. apply filter_ext. intros b.
    rewrite andb_true_r.
    rewrite (bool_decide_ext (Some (Booking._id b) = Some excludeBookingId)
               (Booking._id b = excludeBookingId))
      by (split; [now intros [= ->]|now intros ->]).
    apply andb_comm. }
  now rewrite E.
Qed.



Lemma inner_fold_keys {V} (f : BookingService.TimeSlotDTO.t -> V) slots k :
  is_Some (foldl (fun (inner : gmap string V) s =>
                    <[BookingService.timeSlotKey s := f s]> inner) ∅ slots !! k)
  <-> exists s, In s slots /\ BookingService.timeSlotKey s = k.
Proof.
  rewrite inner_fold_lookup, lookup_empty.
  destruct (List.find _ (rev slots)) as [s|] eqn:F.
  - apply find_some in F as [Hin Hk]. apply bool_decide_eq_true in Hk.
    apply in_rev in Hin. split; [eauto|]. intros _. eauto.
  - split; [intros [x Hx]; discriminate|].
    intros (s & Hin & Hk). exfalso.
    apply in_rev in Hin. pose proof (find_none _ _ F s Hin) as N.
    apply bool_decide_eq_false in N. now apply N.
Qed.

(** X15.  Called with a list of court ids, the batch check answers for
    exactly the listed courts and, for each of them, for exactly the requested
    slots: the entry of a court and a slot is the slot's availability against
    the bookings fetched for that court, it echoes the slot's times, and a
    court none of whose bookings is stored is reported available in every
    slot.  With an empty list of court ids the result is empty. *)
Theorem batch_answers_every_requested_court_and_slot
    env bookings bookingDate timeSlots courtIds result :
  BookingService.checkBatchAvailability env bookings
    (BookingService.BatchAvailabilityDTO.mk bookingDate timeSlots (Some courtIds))
  = Ok result ->
  let dateObj := JsDate.setHours (tzOffset env) bookingDate 0 0 0 0 in
  let endOfDay := JsDate.setHours (tzOffset env) dateObj 23 59 59 999 in
  (forall courtId, is_Some (result !! courtId) <-> In courtId courtIds)
  /\ forall courtId,
       In courtId courtIds ->
       exists inner,
         result !! courtId = Some inner
         /\ (forall k, is_Some (inner !! k)
                       <-> exists slot, In slot timeSlots
                                        /\ BookingService.timeSlotKey slot = k)
         /\ forall slot,
              In slot timeSlots ->
              exists sa,
                inner !! BookingService.timeSlotKey slot = Some sa
                /\ sa = BookingService.slotAvailability
                          (List.filter (fun b => bool_decide (Booking.court b = courtId))
                             (List.filter
                                (BookingService.batchQuery dateObj endOfDay (Some courtIds))
                                bookings))
                          slot
                /\ BookingService.SlotAvailability.startTime sa
                   = BookingService.TimeSlotDTO.startTime slot
                /\ BookingService.SlotAvailability.endTime sa
                   = BookingService.TimeSlotDTO.endTime slot
                /\ ((forall b, In b bookings -> Booking.court b <> courtId) ->
                    BookingService.SlotAvailability.available sa = true).
Proof.
  intros H dateObj endOfDay.
  unfold BookingService.checkBatchAvailability in H.
  cbn [BookingService.BatchAvailabilityDTO.bookingDate
       BookingService.BatchAvailabilityDTO.timeSlots
       BookingService.BatchAvailabilityDTO.courtIds] in H.
  destruct (foldl _ (Ok tt) timeSlots) as [[]| |] eqn:V; try discriminate.
  apply validate_fold_ok in V as [_ V].
  cbn [mbind Result_bind] in H. injection H as <-.
  fold dateObj. fold endOfDay. split.
  - intros courtId. rewrite result_fold_lookup, lookup_empty.
    destruct (bool_decide (courtId ∈ courtIds)) eqn:E.
    + apply bool_decide_eq_true in E. apply list_elem_of_In in E.
      split; [intros _; exact E|intros _; eauto].
    + apply bool_decide_eq_false in E. split.
      * intros [x Hx]. discriminate.
      * intros Hin. exfalso. apply E. now apply list_elem_of_In.
  - intros courtId Hc. eexists. split; [|split].
    + rewrite result_fold_lookup.
      rewrite bool_decide_eq_true_2 by now apply list_elem_of_In. reflexivity.
    + intros k. apply inner_fold_keys.
    + intros slot Hs. eexists. split; [|split; [|split; [|split]]].
      * apply inner_fold_slot; [|exact Hs]. intros s Hin. now apply V.
      * now rewrite groupByCourt_get.
      * reflexivity.
      * reflexivity.
      * intros Hnone. cbn [BookingService.slotAvailability
                           BookingService.SlotAvailability.available].
        rewrite groupByCourt_get.
        replace (List.filter (fun b => bool_decide (Booking.court b = courtId)) _)
          with (@nil Booking.t); [reflexivity|].
        symmetry. rewrite filter_filter.
        induction bookings as [|b l IH]; [reflexivity|]. cbn [List.filter].
        rewrite (bool_decide_eq_false_2 (Booking.court b = courtId))
          by (apply Hnone; now left).
        rewrite andb_false_r. apply IH. intros b' Hb'. apply Hnone. now right.
Qed.

Lemma batch_answers_every_requested_court_and_slot_witness :
  is_Some
    (({[ "court1" :=
           {[ "19:00-21:00" :=
                BookingService.SlotAvailability.mk false "19:00" "21:00" ]};
         "court2" :=
           {[ "19:00-21:00" :=
                BookingService.SlotAvailability.mk true "19:00" "21:00" ]} ]}
      : gmap string (gmap string BookingService.SlotAvailability.t))
     !! "court2").
Proof.
  apply (batch_answers_every_requested_court_and_slot Examples.riyadh
           [Examples.booking "b1" "court1"
              (JsDate.localMidnight 10800000 2026 2 12) "18:00" "20:00" Confirmed]
           Examples.feb12 [BookingService.TimeSlotDTO.mk "19:00" "21:00"]
           ["court1"; "court2"]).
  - vm_compute. reflexivity.
  - right. now left.
Defined.

(** The availability checks fail only on malformed times: the single
    check returns a result exactly when both requested times have the
    HH:MM format, and the batch check exactly when the times of every
    requested slot have it; neither looks at the stored bookings to decide
    that. *)
Theorem availability_checks_fail_only_on_malformed_times env bookings :
  (forall data,
     isOk (BookingService.checkAvailability env bookings data) = true
     <-> BookingService.timeRegex (BookingService.CheckAvailabilityDTO.startTime data) = true
         /\ BookingService.timeRegex (BookingService.CheckAvailabilityDTO.endTime data) = true)
  /\ (forall data,
        isOk (BookingService.checkBatchAvailability env bookings data) = true
        <-> forall slot,
              In slot (BookingService.BatchAvailabilityDTO.timeSlots data) ->
              BookingService.timeRegex (BookingService.TimeSlotDTO.startTime slot) = true
              /\ BookingService.timeRegex (BookingService.TimeSlotDTO.endTime slot) = true).
Proof.
  split; intros data.
  - unfold BookingService.checkAvailability. rewrite !validateTimeFormat_cases.
    destruct (BookingService.timeRegex (BookingService.CheckAvailabilityDTO.startTime data));
      cbn [mbind Result_bind isOk]; [|intuition discriminate].
    destruct (BookingService.timeRegex (BookingService.CheckAvailabilityDTO.endTime data));
      cbn [mbind Result_bind isOk]; intuition discriminate.
  - unfold BookingService.checkBatchAvailability.
    destruct (foldl _ (Ok tt) (BookingService.BatchAvailabilityDTO.timeSlots data))
      as [[]| |] eqn:V; cbn [mbind Result_bind isOk].
    + apply validate_fold_ok in V as [_ V]. split; [intros _; exact V|reflexivity].
    + split; [discriminate|]. intros Hall.
      rewrite (validate_fold_all _ Hall) in V. discriminate.
    + split; [discriminate|]. intros Hall.
      rewrite (validate_fold_all _ Hall) in V. discriminate.
Qed.

Lemma batch_matches_single_on_normalised_dates_witness :
  exists inner sa r,
    ({[ Examples.courtA :=
          {[ "19:00-21:00" :=
               BookingService.SlotAvailability.mk false "19:00" "21:00" ]} ]}
     : gmap string (gmap string BookingService.SlotAvailability.t))
    !! Examples.courtA = Some inner
    /\ inner !! BookingService.timeSlotKey (BookingService.TimeSlotDTO.mk "19:00" "21:00")
       = Some sa
    /\ BookingService.checkAvailability Examples.riyadh
         [Examples.booking Examples.bookingA Examples.courtA
            (JsDate.localMidnight 10800000 2026 2 12) "18:00" "20:00" Confirmed]
         (BookingService.CheckAvailabilityDTO.mk Examples.courtA Examples.feb12
            "19:00" "21:00" None) = Ok r
    /\ BookingService.SlotAvailability.available sa
       = BookingService.AvailabilityResult.available r.
Proof.
  apply (batch_matches_single_on_normalised_dates Examples.riyadh
           [Examples.booking Examples.bookingA Examples.courtA
              (JsDate.localMidnight 10800000 2026 2 12) "18:00" "20:00" Confirmed]
           Examples.feb12 [BookingService.TimeSlotDTO.mk "19:00" "21:00"]
           [Examples.courtA]).
  - intros b [<-|[]] _ _. vm_compute. reflexivity.
  - intros courtId [<-|[]]. reflexivity.
  - vm_compute. reflexivity.
  - now left.
  - now left.
Defined.

(** *** Dates written at midnight UTC *)

Lemma local_midnight_is_not_utc_midnight tz t :
  tz mod JsDate.msPerDay <> 0 ->
  JsDate.setHours tz t 0 0 0 0 mod JsDate.msPerDay <> 0.
Proof.
  intros Htz H. apply Htz.
  unfold JsDate.setHours in H.
  replace (JsDate.localDay tz t * JsDate.msPerDay + 0 * JsDate.msPerHour
           + 0 * JsDate.msPerMinute + 0 * JsDate.msPerSecond + 0 - tz)
    with (- tz + JsDate.localDay tz t * JsDate.msPerDay) in H by lia.
  rewrite Z.mod_add in H by discriminate.
  apply Z.mod_divide in H; [|discriminate].
  apply Z.mod_divide; [discriminate|].
  destruct H as [k Hk]. exists (- k). lia.
Qed.

(** X16.  On a server whose local time is not UTC (an offset that is not a
    whole number of days), the single availability check never sees a booking
    whose date was written at midnight UTC, which is how [createBooking] and
    [createManualBooking] write it: against a collection of such bookings it
    answers available for every court, date and well-formed times. *)
Theorem single_check_misses_utc_midnight_dates env bookings data :
  tzOffset env mod JsDate.msPerDay <> 0 ->
  (forall b, In b bookings -> Booking.bookingDate b = JsDate.setUTCMidnight (Booking.bookingDate b)) ->
  BookingService.timeRegex (BookingService.CheckAvailabilityDTO.startTime data) = true ->
  BookingService.timeRegex (BookingService.CheckAvailabilityDTO.endTime data) = true ->
  BookingService.checkAvailability env bookings data
  = Ok (BookingService.AvailabilityResult.mk true None).
Proof.
  intros Htz Hutc Hs He. unfold BookingService.checkAvailability.
  rewrite (validateTimeFormat_ok _ Hs), (validateTimeFormat_ok _ He).
  cbn [mbind Result_bind].
  replace (List.filter _ bookings) with (@nil Booking.t); [reflexivity|].
  symmetry. induction bookings as [|b l IH]; [reflexivity|]. cbn [List.filter].
  replace (BookingService.singleQuery _ _ _ b) with false.
  - apply IH. intros b' Hb'. apply Hutc. now right.
  - symmetry. unfold BookingService.singleQuery.
    replace (Booking.bookingDate b =? _) with false;
      [now rewrite andb_false_r|].
    symmetry. apply Z.eqb_neq. intros E.
    apply (local_midnight_is_not_utc_midnight (tzOffset env)
             (BookingService.CheckAvailabilityDTO.bookingDate data) Htz).
    rewrite <- E, (Hutc b (or_introl eq_refl)).
    unfold JsDate.setUTCMidnight. apply Z.mod_mul. discriminate.
Qed.

Lemma single_check_misses_utc_midnight_dates_witness :
  BookingService.checkAvailability Examples.riyadh
    [Examples.booking "b1" "court1" (JsDate.setUTCMidnight Examples.feb12)
       "18:00" "20:00" Confirmed]
    (BookingService.CheckAvailabilityDTO.mk "court1" Examples.feb12
       "18:00" "20:00" None)
  = Ok (BookingService.AvailabilityResult.mk true None).
Proof.
  apply (single_check_misses_utc_midnight_dates Examples.riyadh
           [Examples.booking "b1" "court1" (JsDate.setUTCMidnight Examples.feb12)
              "18:00" "20:00" Confirmed]
           (BookingService.CheckAvailabilityDTO.mk "court1" Examples.feb12
              "18:00" "20:00" None)).
  - vm_compute. discriminate.
  - intros b [<-|[]]. vm_compute. reflexivity.
  - reflexivity.
  - reflexivity.
Defined.

(** ** Promo codes, continued *)

Lemma hasUsedPromo_false (used : list string) (existing : list Customer.t) :
  (0 <? length existing)%nat
  && existsb (fun id => PromoCodeService.includes used id) (map Customer._id existing)
  = false
  <-> forall c, In c existing -> ~ In (Customer._id c) used.
Proof.
  split.
  - intros H c Hc Hu.
    assert (L : (0 <? length existing)%nat = true) by (destruct existing; [destruct Hc|reflexivity]).
    rewrite L in H. cbn [andb] in H.
    assert (E : existsb (fun id => PromoCodeService.includes used id)
                  (map Customer._id existing) = true).
    { apply existsb_exists. exists (Customer._id c). split; [now apply in_map|].
      now apply existsb_includes. }
    congruence.
  - intros H. apply andb_false_iff. right.
    apply not_true_is_false. intros E. apply existsb_exists in E as (id & Hin & Hu).
    apply in_map_iff in Hin as (c & <- & Hc). apply existsb_includes in Hu.
    exact (H c Hc Hu).
Qed.

(** What [validatePromoCode] looks up. *)
Lemma validatePromoCode_lookup promoCodes code :
  PromoCodeService.findByCode promoCodes (JsString.toUpperCase code)
  = List.find (fun p => bool_decide
                          (PromoCode.code p
                           = JsString.trim (JsString.toUpperCase code)))
      promoCodes.
Proof.
  unfold PromoCodeService.findByCode. now rewrite toUpperCase_idempotent.
Qed.

(** X18.  [validatePromoCode] accepts a code exactly when the first stored
    code whose text is the input in upper case without the blanks around it
    is active, has not expired (its expiry is not before the current
    instant), is not in use by any customer record whose phone is the
    caller's phone without the blanks around it, and has uses left under its
    cap; the accepted result names that code and carries the discount and
    final amount that [calculateDiscount] gives for the booking amount. *)
Theorem validatePromoCode_accepts_exactly
    env promoCodes customers code customerPhone bookingAmount :
  let r := PromoCodeService.validatePromoCode env promoCodes customers
             code customerPhone bookingAmount in
  let found :=
    List.find (fun p => bool_decide
                          (PromoCode.code p
                           = JsString.trim (JsString.toUpperCase code)))
      promoCodes in
  (PromoCodeService.ValidationResult.valid r = true
   <-> exists p,
         found = Some p
         /\ PromoCode.isActive p = true
         /\ now env <= PromoCode.expiresAt p
         /\ (forall c, In c customers ->
                       Customer.phone c = JsString.trim customerPhone ->
                       ~ In (Customer._id c) (PromoCode.usedByCustomers p))
         /\ (forall n, PromoCode.maxTotalUses p = Some n ->
                       Z.of_nat (length (PromoCode.usedByCustomers p)) < n))
  /\ (PromoCodeService.ValidationResult.valid r = true ->
      exists p,
        found = Some p
        /\ let d := PromoCodeService.calculateDiscount bookingAmount
                      (PromoCode.discountType p) (PromoCode.discountValue p) in
           r = PromoCodeService.ValidationResult.mk true
                 (Some (PromoCodeService.Discount.discount d))
                 (Some (PromoCodeService.Discount.finalAmount d))
                 (Some (PromoCode._id p))
                 (PromoCodeService.MsgApplied (PromoCodeService.Discount.discount d))).
Proof.
  intros r found. subst r found. unfold PromoCodeService.validatePromoCode.
  rewrite validatePromoCode_lookup.
  destruct (List.find _ promoCodes) as [p|] eqn:F.
  2:{ cbn. split; [split; [discriminate|]|discriminate].
      intros (p & Hp & _). discriminate. }
  assert (Hinj : forall (P : PromoCode.t -> Prop),
             (exists q, Some p = Some q /\ P q) <-> P p).
  { intros P. split; [intros (q & [= <-] & H); exact H|intros H; eauto]. }
  rewrite Hinj.
  destruct (PromoCode.isActive p) eqn:A; cbn [negb].
  2:{ cbn. split; [split; [discriminate|]|discriminate].
      intros (? & _). discriminate. }
  destruct (PromoCode.expiresAt p <? now env) eqn:X.
  { apply Z.ltb_lt in X. cbn. split; [split; [discriminate|]|discriminate].
    intros (_ & ? & _). lia. }
  apply Z.ltb_ge in X.
  set (existing := PromoCodeService.findCustomersByPhone customers customerPhone).
  assert (Hex : forall c, In c existing
                          <-> In c customers
                              /\ Customer.phone c = JsString.trim customerPhone).
  { intros c. unfold existing, PromoCodeService.findCustomersByPhone.
    rewrite filter_In, bool_decide_eq_true. reflexivity. }
  destruct ((0 <? length existing)%nat && existsb _ (map Customer._id existing)) eqn:U.
  { cbn. split; [split; [discriminate|]|discriminate].
    intros (_ & _ & Hu & _). exfalso.
    apply not_false_iff_true in U. apply U.
    apply (proj2 (hasUsedPromo_false _ _)).
    intros c Hc. apply Hex in Hc as [Hc Hp]. now apply Hu. }
  pose proof (proj1 (hasUsedPromo_false _ _) U) as U'. clear U. rename U' into U.
  destruct (PromoCode.maxTotalUses p) as [n|] eqn:Mx.
  - destruct (n <=? Z.of_nat (length (PromoCode.usedByCustomers p))) eqn:C.
    + apply Z.leb_le in C. cbn. split; [split; [discriminate|]|discriminate].
      intros (_ & _ & _ & Hn). specialize (Hn n eq_refl). lia.
    + apply Z.leb_gt in C. cbn. split; [|intros _; exists p; split; reflexivity].
      split; [intros _|reflexivity]. repeat split; try assumption.
      * intros c Hc Hp. apply U. now apply Hex.
      * intros n' [= <-]. exact C.
  - cbn. split; [|intros _; exists p; split; reflexivity].
    split; [intros _|reflexivity]. repeat split; try assumption.
    + intros c Hc Hp. apply U. now apply Hex.
    + discriminate.
Qed.

(** A code and a phone sent with blanks around them are taken as the stored
    ones. *)
Lemma validatePromoCode_accepts_exactly_witness :
  PromoCodeService.ValidationResult.valid
    (PromoCodeService.validatePromoCode Examples.riyadh [PromoScenario.welcome20]
       [PromoScenario.alice] " welcome20 " "0500000001 " 200)
  = true.
Proof.
  apply (proj1 (validatePromoCode_accepts_exactly Examples.riyadh
                  [PromoScenario.welcome20] [PromoScenario.alice]
                  " welcome20 " "0500000001 " 200)).
  exists PromoScenario.welcome20.
  split; [reflexivity|]. split; [reflexivity|].
  split; [vm_compute; discriminate|].
  split; [intros c _ _ []|discriminate].
Defined.

(** X19.  Promo codes are matched without regard to letter case: the
    lower-cased and the upper-cased spelling of a code are validated as the
    code itself is, for every phone and amount. *)
Theorem promo_codes_match_case_insensitively
    env promoCodes customers code customerPhone bookingAmount :
  PromoCodeService.validatePromoCode env promoCodes customers
    (BookingController.toLowerCase code) customerPhone bookingAmount
  = PromoCodeService.validatePromoCode env promoCodes customers
      code customerPhone bookingAmount
  /\ PromoCodeService.validatePromoCode env promoCodes customers
       (JsString.toUpperCase code) customerPhone bookingAmount
     = PromoCodeService.validatePromoCode env promoCodes customers
         code customerPhone bookingAmount.
Proof.
  unfold PromoCodeService.validatePromoCode.
  now rewrite toUpperCase_toLowerCase, toUpperCase_idempotent.
Qed.

(** *** The usage ledger *)

Lemma save_In p' (l : list PromoCode.t) q :
  In q (PromoCodeService.save p' l)
  -> q = p' \/ (In q l /\ PromoCode._id q <> PromoCode._id p').
Proof.
  unfold PromoCodeService.save. rewrite in_map_iff. intros (q0 & E & Hin).
  destruct (bool_decide (PromoCode._id q0 = PromoCode._id p')) eqn:B.
  - now left.
  - apply bool_decide_eq_false in B. subst q0. now right.
Qed.

Lemma markAsUsed_store promoCodeId customerId st :
  snd (PromoCodeService.markAsUsed promoCodeId customerId st)
  = match PromoCodeService.findById (Store.promoCodes st) promoCodeId with
    | Some p =>
        if PromoCodeService.includes (PromoCode.usedByCustomers p) customerId then st
        else Store.withPromoCodes st
               (PromoCodeService.save
                  (PromoCode.withUsedByCustomers p
                     (PromoCode.usedByCustomers p ++ [customerId]))
                  (Store.promoCodes st))
    | None => st
    end.
Proof.
  unfold PromoCodeService.markAsUsed, bindM, getM.
  destruct (PromoCodeService.findById _ _) as [p|]; [|reflexivity].
  now destruct (PromoCodeService.includes _ _).
Qed.

Lemma removeUsage_run promoCodeId customerId st :
  PromoCodeService.removeUsage promoCodeId customerId st
  = (Ok tt,
     match PromoCodeService.findById (Store.promoCodes st) promoCodeId with
     | Some p =>
         Store.withPromoCodes st
           (PromoCodeService.save
              (PromoCode.withUsedByCustomers p
                 (List.filter (fun id => negb (bool_decide (id = customerId)))
                    (PromoCode.usedByCustomers p)))
              (Store.promoCodes st))
     | None => st
     end).
Proof.
  unfold PromoCodeService.removeUsage, bindM, getM.
  now destruct (PromoCodeService.findById _ _) as [p|].
Qed.

Lemma NoDup_snoc (l : list string) x : List.NoDup l -> ~ In x l -> List.NoDup (l ++ [x]).
Proof.
  intros Hl Hx. induction l as [|y l IH]; cbn [app].
  - constructor; [intros []|constructor].
  - inversion Hl as [|? ? Hy Hl']; subst. constructor.
    + rewrite in_app_iff. intros [H|[->|[]]]; [contradiction|]. apply Hx. now left.
    + apply IH; [exact Hl'|]. intros H. apply Hx. now right.
Qed.

(** X20.  No customer is recorded twice against a code: if every usage
    list of the collection is free of duplicates, it still is after
    [markAsUsed] and after [removeUsage], whatever code and customer they
    are called with and whether they succeed or not. *)
Theorem usage_lists_stay_duplicate_free st promoCodeId customerId :
  (forall p, In p (Store.promoCodes st) -> List.NoDup (PromoCode.usedByCustomers p)) ->
  (forall p,
     In p (Store.promoCodes (snd (PromoCodeService.markAsUsed promoCodeId customerId st))) ->
     List.NoDup (PromoCode.usedByCustomers p))
  /\ (forall p,
        In p (Store.promoCodes (snd (PromoCodeService.removeUsage promoCodeId customerId st))) ->
        List.NoDup (PromoCode.usedByCustomers p)).
Proof.
  intros Inv. split; intros q.
  - rewrite markAsUsed_store.
    destruct (PromoCodeService.findById _ _) as [p|] eqn:F; [|apply Inv].
    destruct (PromoCodeService.includes _ _) eqn:U; [apply Inv|].
    cbn [Store.withPromoCodes Store.promoCodes]. intros Hq.
    apply save_In in Hq as [->|[Hq _]]; [|now apply Inv].
    cbn [PromoCode.withUsedByCustomers PromoCode.usedByCustomers].
    apply NoDup_snoc.
    + apply Inv. unfold PromoCodeService.findById in F. now apply find_some in F.
    + intros Hin. apply existsb_includes in Hin. congruence.
  - rewrite removeUsage_run. cbn [snd].
    destruct (PromoCodeService.findById _ _) as [p|] eqn:F; [|apply Inv].
    cbn [Store.withPromoCodes Store.promoCodes]. intros Hq.
    apply save_In in Hq as [->|[Hq _]]; [|now apply Inv].
    cbn [PromoCode.withUsedByCustomers PromoCode.usedByCustomers].
    apply List.NoDup_filter. apply Inv.
    unfold PromoCodeService.findById in F. now apply find_some in F.
Qed.

Lemma usage_lists_stay_duplicate_free_witness :
  List.NoDup
    (PromoCode.usedByCustomers
       (PromoCode.withUsedByCustomers PromoScenario.welcome20 ["c1"])).
Proof.
  destruct (usage_lists_stay_duplicate_free PromoScenario.store "p1" "c1") as [H _].
  - intros p [<-|[]]. constructor.
  - apply H. vm_compute. now left.
Defined.

Lemma save_save p' (l : list PromoCode.t) :
  PromoCodeService.save p' (PromoCodeService.save p' l) = PromoCodeService.save p' l.
Proof.
  unfold PromoCodeService.save. rewrite map_map. apply map_ext. intros q.
  destruct (bool_decide (PromoCode._id q = PromoCode._id p')) eqn:B; [|now rewrite B].
  now rewrite bool_decide_eq_true_2.
Qed.

Lemma filter_idem {A} (f : A -> bool) (l : list A) :
  List.filter f (List.filter f l) = List.filter f l.
Proof.
  rewrite filter_filter. apply filter_ext. intros a. apply andb_diag.
Qed.

(** X21.  Releasing a promo usage never fails and is idempotent: whatever
    the code id and the customer, [removeUsage] returns normally, and a second
    release leaves the store exactly as the first one left it. *)
Theorem release_never_fails_and_is_idempotent st promoCodeId customerId :
  fst (PromoCodeService.removeUsage promoCodeId customerId st) = Ok tt
  /\ PromoCodeService.removeUsage promoCodeId customerId
       (snd (PromoCodeService.removeUsage promoCodeId customerId st))
     = PromoCodeService.removeUsage promoCodeId customerId st.
Proof.
  rewrite !removeUsage_run. cbn [fst snd]. split; [reflexivity|]. f_equal.
  destruct (PromoCodeService.findById (Store.promoCodes st) promoCodeId) as [p|] eqn:F.
  - cbn [Store.withPromoCodes Store.promoCodes].
    pose proof (findById_id _ _ _ F) as Hid.
    rewrite (find_save p _ _ promoCodeId F) by exact Hid.
    cbn [PromoCode.withUsedByCustomers PromoCode.usedByCustomers
         PromoCode._id PromoCode.code PromoCode.discountType PromoCode.discountValue
         PromoCode.maxTotalUses PromoCode.isActive PromoCode.expiresAt].
    rewrite filter_idem.
    unfold Store.withPromoCodes. cbn [Store.bookings Store.customers Store.courts
                                       Store.pricingRules Store.nextId].
    f_equal. apply save_save.
  - now rewrite F.
Qed.

(** ** The reservation transaction, continued *)

Lemma validateBookingTime_no_fuel env startTime endTime bookingDate :
  BookingService.validateBookingTime env startTime endTime bookingDate <> OutOfFuel.
Proof.
  unfold BookingService.validateBookingTime. rewrite !validateTimeFormat_cases.
  destruct (BookingService.timeRegex startTime); cbn [mbind Result_bind]; [|discriminate].
  destruct (BookingService.timeRegex endTime); cbn [mbind Result_bind]; [|discriminate].
  repeat match goal with
         | |- (if ?c then _ else _) <> _ => destruct c
         end; discriminate.
Qed.

Lemma checkAvailability_no_throw_after_format env bookings data :
  BookingService.timeRegex (BookingService.CheckAvailabilityDTO.startTime data) = true ->
  BookingService.timeRegex (BookingService.CheckAvailabilityDTO.endTime data) = true ->
  exists av, BookingService.checkAvailability env bookings data = Ok av.
Proof.
  intros Hs He. destruct (checkAvailability_available env bookings data Hs He) as (r & Hr & _).
  eauto.
Qed.

Lemma segItem_throw tz rules dateObj endDateTime t e :
  segItem tz rules dateObj endDateTime t = Throw e -> statusCode e = 400.
Proof.
  unfold segItem, PricingService.getPrice.
  destruct (PricingService.findRule _ _ _); cbn [mbind Result_bind]; [discriminate|].
  now intros [= <-].
Qed.

Lemma mapR_segItem_throw tz rules dateObj endDateTime l e :
  mapR (segItem tz rules dateObj endDateTime) l = Throw e -> statusCode e = 400.
Proof.
  induction l as [|t l IH]; cbn [mapR]; [discriminate|].
  destruct (segItem tz rules dateObj endDateTime t) as [x|e'|] eqn:S;
    cbn [mbind Result_bind]; [| |discriminate].
  - destruct (mapR _ l); cbn [mbind Result_bind]; try discriminate.
    intros [= <-]. now apply IH.
  - intros [= <-]. eapply segItem_throw, S.
Qed.

(** Every error of the pricing service is a 400. *)
Lemma calculateBookingPrice_throw tz rules bookingDate startTime endTime e :
  BookingService.timeRegex startTime = true ->
  BookingService.timeRegex endTime = true ->
  PricingService.calculateBookingPrice tz rules bookingDate startTime endTime = Throw e ->
  statusCode e = 400.
Proof.
  intros Hs He. rewrite calculateBookingPrice_unfold by assumption.
  destruct (_ <? 60); [now intros [= <-]|].
  destruct (negb _ && negb _); [now intros [= <-]|].
  destruct (mapR _ _) eqn:M; cbn [mbind Result_bind]; try discriminate.
  intros [= <-]. eapply mapR_segItem_throw, M.
Qed.

Lemma preSave_customer b c :
  Booking.customer b = Some c -> BookingController.preSave b = Ok tt.
Proof.
  intros H. unfold BookingController.preSave. rewrite H.
  rewrite (bool_decide_eq_true_2 (is_Some (Some c))) by (eexists; reflexivity).
  cbn [negb]. now rewrite !andb_false_r.
Qed.

Lemma tryM_markAsUsed promoCodeId customerId st :
  tryM (PromoCodeService.markAsUsed promoCodeId customerId) st
  = (Ok tt, snd (PromoCodeService.markAsUsed promoCodeId customerId st)).
Proof.
  unfold tryM, PromoCodeService.markAsUsed, bindM, getM.
  destruct (PromoCodeService.findById _ _) as [p|]; [|reflexivity].
  now destruct (PromoCodeService.includes _ _).
Qed.

Lemma orZero_eq x : (BookingController.orZero (Some x) == x)%Q.
Proof.
  unfold BookingController.orZero. destruct (Qeq_bool x 0) eqn:E; [|reflexivity].
  apply Qeq_bool_iff in E. now rewrite E.
Qed.

(** The result of a successful validation. *)
Lemma validatePromoCode_valid_inv env promoCodes customers code customerPhone bookingAmount :
  let r := PromoCodeService.validatePromoCode env promoCodes customers
             code customerPhone bookingAmount in
  PromoCodeService.ValidationResult.valid r = true ->
  exists p,
    PromoCodeService.findByCode promoCodes (JsString.toUpperCase code) = Some p
    /\ r = PromoCodeService.ValidationResult.mk true
             (Some (PromoCodeService.Discount.discount
                      (PromoCodeService.calculateDiscount bookingAmount
                         (PromoCode.discountType p) (PromoCode.discountValue p))))
             (Some (PromoCodeService.Discount.finalAmount
                      (PromoCodeService.calculateDiscount bookingAmount
                         (PromoCode.discountType p) (PromoCode.discountValue p))))
             (Some (PromoCode._id p))
             (PromoCodeService.MsgApplied
                (PromoCodeService.Discount.discount
                   (PromoCodeService.calculateDiscount bookingAmount
                      (PromoCode.discountType p) (PromoCode.discountValue p)))).
Proof.
  intros r. subst r. unfold PromoCodeService.validatePromoCode.
  destruct (PromoCodeService.findByCode _ _) as [p|]; [|discriminate].
  destruct (negb _); [discriminate|].
  destruct (_ <? _); [discriminate|].
  destruct (_ && _); [discriminate|].
  destruct (match PromoCode.maxTotalUses p with Some _ => _ | None => _ end);
    [discriminate|].
  intros _. exists p. split; reflexivity.
Qed.

(** The four ways a call of [createBooking] ends: refused with nothing
    written; answered with the booking already stored for the payment;
    failed after the customer record was written; or a booking created. *)
Lemma createBooking_outcome_gen env body st R :
  R = BookingController.createBooking env body st ->
  (exists e, R = (Throw e, st))
  \/ (exists existing,
        (if BookingService.optTruthy (BookingController.CreateBookingDTO.paymentId body)
         then BookingController.findBookingByPaymentId (Store.bookings st)
                (default "" (BookingController.CreateBookingDTO.paymentId body))
         else None) = Some existing
        /\ R
           = (Ok (BookingController.Response.mk 200 true
                    (BookingController.findBookingById (Store.bookings st)
                       (Booking._id existing))
                    "Booking already exists for this payment"), st))
  \/ (exists e n,
        R
        = (Throw e,
           Store.withNextId
             (Store.withCustomers st (Store.customers st ++ [newCustomer body st])) n)
        /\ statusCode e = 400)
  \/ (exists d pr ps,
        let st1 :=
          Store.withCustomers (Store.withNextId st (N.succ (Store.nextId st)))
            (Store.customers st ++ [newCustomer body st]) in
        let promo := appliedPromo env st1 body (PricingService.PriceResult.finalPrice pr) in
        let b := newBooking body d (Customer._id (newCustomer body st)) pr promo ps
                   (BookingController.objectId (N.succ (Store.nextId st))) in
        let st2 :=
          Store.withBookings (Store.withNextId st1 (N.succ (N.succ (Store.nextId st))))
            (Store.bookings st ++ [b]) in
        let st3 :=
          match fst (fst promo) with
          | Some pid =>
              if JsString.truthy pid && JsString.truthy (Customer._id (newCustomer body st))
              then snd (PromoCodeService.markAsUsed pid
                          (Customer._id (newCustomer body st)) st2)
              else st2
          | None => st2
          end in
        let st4 := snd (BookingController.incTotalBookings
                          (Customer._id (newCustomer body st)) st3) in
        BookingController.CreateBookingDTO.bookingDate body = Some d
        /\ BookingService.validateBookingTime env
             (BookingController.CreateBookingDTO.startTime body)
             (BookingController.CreateBookingDTO.endTime body)
             (JsDate.setUTCMidnight d) = Ok tt
        /\ PricingService.calculateBookingPrice (tzOffset env) (Store.pricingRules st) d
             (BookingController.CreateBookingDTO.startTime body)
             (BookingController.CreateBookingDTO.endTime body) = Ok pr
        /\ BookingController.schemaValid b = true
        /\ R
           = (Ok (BookingController.Response.mk 201 true
                    (BookingController.findBookingById (Store.bookings st4) (Booking._id b))
                    "Booking created successfully"), st4)).
Proof.
  unfold BookingController.createBooking.
  destruct (BookingController.CreateBookingDTO.bookingDate body) as [d|] eqn:Bd.
  2:{ intros ->. left. eexists. reflexivity. }
  destruct (negb (JsString.truthy (BookingController.CreateBookingDTO.courtId body))
            || _ || _ || _ || _) eqn:Req.
  { intros ->. left. eexists. reflexivity. }
  unfold bindM at 1. unfold getM at 1.
  destruct (if BookingService.optTruthy (BookingController.CreateBookingDTO.paymentId body)
            then _ else None) as [existing|] eqn:Pay.
  { intros ->. right. left. exists existing. split; reflexivity. }
  destruct (BookingController.findCourtById _ _) as [court|] eqn:Ct.
  2:{ intros ->. left. eexists. reflexivity. }
  set (K := liftM (BookingService.validateBookingTime env _ _ _) ;;; _).
  assert (HK : forall R', R' = K st ->
    (exists e, R' = (Throw e, st))
    \/ (exists e n,
          R' = (Throw e,
                  Store.withNextId
                    (Store.withCustomers st (Store.customers st ++ [newCustomer body st])) n)
          /\ statusCode e = 400)
    \/ (exists pr ps,
          let st1 :=
            Store.withCustomers (Store.withNextId st (N.succ (Store.nextId st)))
              (Store.customers st ++ [newCustomer body st]) in
          let promo := appliedPromo env st1 body (PricingService.PriceResult.finalPrice pr) in
          let b := newBooking body d (Customer._id (newCustomer body st)) pr promo ps
                     (BookingController.objectId (N.succ (Store.nextId st))) in
          let st2 :=
            Store.withBookings (Store.withNextId st1 (N.succ (N.succ (Store.nextId st))))
              (Store.bookings st ++ [b]) in
          let st3 :=
            match fst (fst promo) with
            | Some pid =>
                if JsString.truthy pid && JsString.truthy (Customer._id (newCustomer body st))
                then snd (PromoCodeService.markAsUsed pid
                            (Customer._id (newCustomer body st)) st2)
                else st2
            | None => st2
            end in
          let st4 := snd (BookingController.incTotalBookings
                            (Customer._id (newCustomer body st)) st3) in
          BookingService.validateBookingTime env
            (BookingController.CreateBookingDTO.startTime body)
            (BookingController.CreateBookingDTO.endTime body)
            (JsDate.setUTCMidnight d) = Ok tt
          /\ PricingService.calculateBookingPrice (tzOffset env) (Store.pricingRules st) d
               (BookingController.CreateBookingDTO.startTime body)
               (BookingController.CreateBookingDTO.endTime body) = Ok pr
          /\ BookingController.schemaValid b = true
          /\ R'
             = (Ok (BookingController.Response.mk 201 true
                      (BookingController.findBookingById (Store.bookings st4) (Booking._id b))
                      "Booking created successfully"), st4))).
  { intros R'. subst K. unfold bindM at 1. unfold liftM at 1.
    destruct (BookingService.validateBookingTime _ _ _ _) as [[]|ev|] eqn:V.
    2:{ intros ->. left. eexists. reflexivity. }
    2:{ now apply validateBookingTime_no_fuel in V. }
    pose proof (validateBookingTime_ok _ _ _ _ V) as (Hs & He & _).
    unfold bindM at 1. unfold liftM at 1.
    destruct (checkAvailability_no_throw_after_format env (Store.bookings st)
                (BookingService.CheckAvailabilityDTO.mk
                   (BookingController.CreateBookingDTO.courtId body)
                   (JsDate.setUTCMidnight d)
                   (BookingController.CreateBookingDTO.startTime body)
                   (BookingController.CreateBookingDTO.endTime body) None) Hs He)
      as [av ->].
    destruct (negb (BookingService.AvailabilityResult.available av)) eqn:Avl.
    { intros ->. left. eexists. reflexivity. }
    unfold bindM at 1. unfold BookingController.createCustomer at 1.
    destruct (negb (JsString.truthy (JsString.trim _)) || _) eqn:CC.
    { intros ->. left. eexists. reflexivity. }
    unfold bindM at 1. unfold BookingController.newObjectId at 1.
    unfold bindM at 1. unfold getM at 1.
    unfold bindM at 1. unfold putM at 1. unfold retM at 1.
    fold (newCustomer body st).
    unfold bindM at 1. unfold liftM at 1.
    cbn [Store.withNextId Store.withCustomers Store.pricingRules Store.customers
         Store.bookings Store.promoCodes Store.courts Store.nextId].
    destruct (PricingService.calculateBookingPrice _ _ _ _ _) as [pr|ep|] eqn:Pr.
    2:{ intros ->. right. left. exists ep, (N.succ (Store.nextId st)).
        split; [reflexivity|].
        exact (calculateBookingPrice_throw _ _ _ _ _ _ Hs He Pr). }
    2:{ now apply (calculateBookingPrice_returns _ _ _ _ _ Hs He) in Pr. }
    unfold bindM at 1. unfold getM at 1.
    set (st1 := Store.withCustomers (Store.withNextId st _) _).
    fold (appliedPromo env st1 body (PricingService.PriceResult.finalPrice pr)).
    destruct (appliedPromo env st1 body (PricingService.PriceResult.finalPrice pr))
      as [[promoCodeId discountAmount] finalPrice] eqn:Promo.
    destruct (BookingController.parsePaymentStatus _) as [ps|] eqn:PS.
    2:{ intros ->. right. left.
        exists BookingController.ValidationFailure, (N.succ (Store.nextId st)).
        split; reflexivity. }
    unfold bindM at 1. unfold BookingController.createBookingDoc at 1.
    unfold bindM at 1. unfold BookingController.newObjectId at 1.
    change (Store.nextId st1) with (N.succ (Store.nextId st)).
    match goal with
    | |- context [BookingController.schemaValid ?doc] => set (b := doc)
    end.
    destruct (negb (BookingController.schemaValid b)) eqn:SV.
    { intros ->. right. left.
      exists BookingController.ValidationFailure, (N.succ (N.succ (Store.nextId st))).
      split; reflexivity. }
    apply negb_false_iff in SV.
    unfold bindM at 1. unfold liftM at 1.
    rewrite (preSave_customer b (Customer._id (newCustomer body st)) eq_refl).
    unfold bindM at 1. unfold getM at 1.
    unfold bindM at 1. unfold putM at 1. unfold retM at 1.
    intros ->.
    right. right. exists pr, ps. cbv zeta. fold st1. rewrite Promo.
    cbn [fst snd]. fold b.
    split; [reflexivity|]. split; [reflexivity|]. split; [exact SV|].
    unfold bindM at 1.
    destruct promoCodeId as [pid|].
    - destruct (JsString.truthy pid && JsString.truthy _) eqn:T.
      + rewrite tryM_markAsUsed.
        unfold bindM, BookingController.incTotalBookings, getM, putM, retM.
        reflexivity.
      + unfold retM at 1.
        unfold bindM, BookingController.incTotalBookings, getM, putM, retM.
        reflexivity.
    - unfold retM at 1.
      unfold bindM, BookingController.incTotalBookings, getM, putM, retM.
      reflexivity. }
  destruct (Court.status court) eqn:CS.
  2:{ intros ->. left. eexists. reflexivity. }
  - intros ->. fold K.
    destruct (HK (K st) eq_refl) as [(e & ->)|[(e & n & -> & He)|(pr & ps & H)]].
    + left. eauto.
    + right. right. left. eauto.
    + right. right. right. exists d, pr, ps. cbv zeta in H |- *.
      destruct H as (H1 & H2 & H3 & ->). auto.
  - intros ->. fold K.
    destruct (HK (K st) eq_refl) as [(e & ->)|[(e & n & -> & He)|(pr & ps & H)]].
    + left. eauto.
    + right. right. left. eauto.
    + right. right. right. exists d, pr, ps. cbv zeta in H |- *.
      destruct H as (H1 & H2 & H3 & ->). auto.
Qed.

Lemma createBooking_outcome env body st :
  (exists e, BookingController.createBooking env body st = (Throw e, st))
  \/ (exists existing,
        BookingController.createBooking env body st
        = (Ok (BookingController.Response.mk 200 true
                 (BookingController.findBookingById (Store.bookings st)
                    (Booking._id existing))
                 "Booking already exists for this payment"), st))
  \/ (exists e n,
        BookingController.createBooking env body st
        = (Throw e,
           Store.withNextId
             (Store.withCustomers st (Store.customers st ++ [newCustomer body st])) n)
        /\ statusCode e = 400)
  \/ (exists d pr ps,
        let st1 :=
          Store.withCustomers (Store.withNextId st (N.succ (Store.nextId st)))
            (Store.customers st ++ [newCustomer body st]) in
        let promo := appliedPromo env st1 body (PricingService.PriceResult.finalPrice pr) in
        let b := newBooking body d (Customer._id (newCustomer body st)) pr promo ps
                   (BookingController.objectId (N.succ (Store.nextId st))) in
        let st2 :=
          Store.withBookings (Store.withNextId st1 (N.succ (N.succ (Store.nextId st))))
            (Store.bookings st ++ [b]) in
        let st3 :=
          match fst (fst promo) with
          | Some pid =>
              if JsString.truthy pid && JsString.truthy (Customer._id (newCustomer body st))
              then snd (PromoCodeService.markAsUsed pid
                          (Customer._id (newCustomer body st)) st2)
              else st2
          | None => st2
          end in
        let st4 := snd (BookingController.incTotalBookings
                          (Customer._id (newCustomer body st)) st3) in
        BookingController.CreateBookingDTO.bookingDate body = Some d
        /\ BookingService.validateBookingTime env
             (BookingController.CreateBookingDTO.startTime body)
             (BookingController.CreateBookingDTO.endTime body)
             (JsDate.setUTCMidnight d) = Ok tt
        /\ PricingService.calculateBookingPrice (tzOffset env) (Store.pricingRules st) d
             (BookingController.CreateBookingDTO.startTime body)
             (BookingController.CreateBookingDTO.endTime body) = Ok pr
        /\ BookingController.schemaValid b = true
        /\ BookingController.createBooking env body st
           = (Ok (BookingController.Response.mk 201 true
                    (BookingController.findBookingById (Store.bookings st4) (Booking._id b))
                    "Booking created successfully"), st4)).
Proof.
  destruct (createBooking_outcome_gen env body st _ eq_refl) as [H|[(x & _ & H)|H]].
  - now left.
  - right. left. now exists x.
  - right. right. exact H.
Qed.

Lemma markAsUsed_frame promoCodeId customerId st :
  let st' := snd (PromoCodeService.markAsUsed promoCodeId customerId st) in
  Store.bookings st' = Store.bookings st
  /\ Store.customers st' = Store.customers st
  /\ Store.courts st' = Store.courts st
  /\ Store.pricingRules st' = Store.pricingRules st
  /\ Store.nextId st' = Store.nextId st.
Proof.
  cbv zeta. rewrite markAsUsed_store.
  destruct (PromoCodeService.findById _ _) as [p|]; [|now repeat split].
  destruct (PromoCodeService.includes _ _); now repeat split.
Qed.

Lemma incTotalBookings_frame id st :
  let st' := snd (BookingController.incTotalBookings id st) in
  Store.bookings st' = Store.bookings st
  /\ Store.promoCodes st' = Store.promoCodes st
  /\ Store.courts st' = Store.courts st
  /\ Store.pricingRules st' = Store.pricingRules st
  /\ Store.nextId st' = Store.nextId st
  /\ length (Store.customers st') = length (Store.customers st).
Proof.
  cbv zeta. unfold BookingController.incTotalBookings, bindM, getM, putM.
  cbn [snd Store.withCustomers Store.bookings Store.promoCodes Store.courts
       Store.pricingRules Store.nextId Store.customers].
  repeat split. induction (Store.customers st) as [|c l IH]; [reflexivity|].
  destruct (bool_decide (Customer._id c = id)); cbn [length]; [reflexivity|].
  now rewrite IH.
Qed.

(** Amounts that the pricing loop adds up are binary64 numbers. *)
Lemma sumQ_number vs : forall tot,
  JsNumber.round tot = tot -> JsNumber.round (sumQ tot vs) = sumQ tot vs.
Proof.
  unfold sumQ. induction vs as [|v vs IH]; intros tot H; cbn [foldl]; [exact H|].
  apply IH. unfold JsNumber.add. apply round_idem.
Qed.

Lemma calculateBookingPrice_number tz rules bookingDate startTime endTime r :
  BookingService.timeRegex startTime = true ->
  BookingService.timeRegex endTime = true ->
  PricingService.calculateBookingPrice tz rules bookingDate startTime endTime = Ok r ->
  JsNumber.round (PricingService.PriceResult.finalPrice r)
  = PricingService.PriceResult.finalPrice r.
Proof.
  intros Hs He H.
  destruct (calculateBookingPrice_ok_inv _ _ _ _ _ _ Hs He H) as (_ & _ & xs & _ & ->).
  cbn [PricingService.PriceResult.finalPrice]. apply sumQ_number.
  now apply round_zero.
Qed.

Lemma sub_comp x y y' : (y == y')%Q -> JsNumber.sub x y = JsNumber.sub x y'.
Proof.
  intros H. unfold JsNumber.sub. apply round_comp.
  now rewrite (round_comp _ _ H).
Qed.

Lemma sub_zero x : JsNumber.round x = x -> JsNumber.sub x 0 = x.
Proof.
  intros H. unfold JsNumber.sub. rewrite H, (round_zero 0) by reflexivity.
  rewrite <- H at 2. apply round_comp. ring.
Qed.

(** The final price is the difference of the price and the discount as the
    code computes it, in binary64 arithmetic. *)
Lemma appliedPromo_amounts env st1 body basePrice :
  JsNumber.round basePrice = basePrice ->
  let promo := appliedPromo env st1 body basePrice in
  snd promo = JsNumber.sub basePrice (snd (fst promo))
  /\ (fst (fst promo) = None -> snd (fst promo) = 0%Q /\ snd promo = basePrice).
Proof.
  intros Hn. cbv zeta. unfold appliedPromo.
  destruct (BookingService.optTruthy (BookingController.CreateBookingDTO.promoCode body));
    [|cbn [fst snd]; split; [now rewrite sub_zero|auto]].
  destruct (PromoCodeService.ValidationResult.valid _) eqn:Vd;
    [|cbn [fst snd andb]; split; [now rewrite sub_zero|auto]].
  destruct (validatePromoCode_valid_inv _ _ _ _ _ _ Vd) as (p & _ & ->).
  cbn [PromoCodeService.ValidationResult.promoCodeId
       PromoCodeService.ValidationResult.discount
       PromoCodeService.ValidationResult.finalAmount andb].
  destruct (BookingService.optTruthy (Some (PromoCode._id p)));
    cbn [fst snd from_option Datatypes.id]; [|split; [now rewrite sub_zero|auto]].
  split; [|discriminate].
  rewrite (sub_comp _ _ _ (orZero_eq _)).
  reflexivity.
Qed.

(** X22.  A call of [createBooking] that ends in an error has written no
    booking and consumed no promo code, and has left the courts and the
    pricing rules alone.  Either it has written nothing at all (every 404 and
    409, and every check made before the customer record is created), or the
    error is a 400 raised after the customer record was created, and that
    one record, with no booking counted on it, stays in the store. *)
Theorem failed_createBooking_writes_no_booking env body st e :
  fst (BookingController.createBooking env body st) = Throw e ->
  let st' := snd (BookingController.createBooking env body st) in
  Store.bookings st' = Store.bookings st
  /\ Store.promoCodes st' = Store.promoCodes st
  /\ Store.courts st' = Store.courts st
  /\ Store.pricingRules st' = Store.pricingRules st
  /\ (st' = st
      \/ (statusCode e = 400
          /\ exists c, Store.customers st' = Store.customers st ++ [c]
                       /\ Customer.totalBookings c = 0)).
Proof.
  intros H st'. subst st'. revert H.
  destruct (createBooking_outcome env body st)
    as [(e' & ->)|[(x & ->)|[(e' & n & -> & He')|(d & pr & ps & Hc)]]].
  - cbn [fst snd]. intros _. repeat split. now left.
  - discriminate.
  - cbn [fst snd]. intros [= <-]. repeat split. right. split; [exact He'|].
    exists (newCustomer body st). split; reflexivity.
  - cbv zeta in Hc. destruct Hc as (_ & _ & _ & _ & ->). discriminate.
Qed.

Lemma failed_createBooking_writes_no_booking_witness :
  Store.bookings
    (snd (BookingController.createBooking Examples.riyadh
            (BookingController.CreateBookingDTO.mk "court1" (Some Examples.feb12)
               "21:00" "23:00" "0500000002" "Bilal" None None None None None None)
            Stores.one))
  = Store.bookings Stores.one.
Proof.
  destruct (fst (BookingController.createBooking Examples.riyadh
                   (BookingController.CreateBookingDTO.mk "court1" (Some Examples.feb12)
                      "21:00" "23:00" "0500000002" "Bilal" None None None None None None)
                   Stores.one)) as [r|e|] eqn:E;
    [vm_compute in E; discriminate| |vm_compute in E; discriminate].
  destruct (failed_createBooking_writes_no_booking Examples.riyadh
              (BookingController.CreateBookingDTO.mk "court1" (Some Examples.feb12)
                 "21:00" "23:00" "0500000002" "Bilal" None None None None None None)
              Stores.one e E) as [H _].
  exact H.
Defined.

(** The difference of a price and a discount is rounded as every result
    is: 99.9 less a fixed discount of 0.1, both as binary64 stores them, is
    not the exact difference of the two. *)
Lemma final_amount_is_a_rounded_difference :
  let amount := JsNumber.round (999 # 10) in
  let r := PromoCodeService.calculateDiscount amount Fixed (JsNumber.round (1 # 10)) in
  PromoCodeService.Discount.discount r = JsNumber.round (1 # 10)
  /\ PromoCodeService.Discount.finalAmount r
     = JsNumber.sub amount (PromoCodeService.Discount.discount r)
  /\ ~ (PromoCodeService.Discount.finalAmount r
        == amount - PromoCodeService.Discount.discount r)%Q.
Proof.
  cbv zeta. split; [vm_compute; reflexivity|]. split; [reflexivity|].
  vm_compute. discriminate.
Qed.

(** X23.  What a successful [createBooking] (status 201) has written: one
    booking appended to the collection, for the requested court and times,
    dated at midnight UTC of the requested date, made by the customer flow,
    confirmed exactly when the request says "paid" and pending otherwise;
    the times had passed [validateBookingTime]; the stored duration is the
    one [calculateDuration] gives and the stored total and breakdown are the
    ones [calculateBookingPrice] gives for the date as sent; the final price
    is the total less the discount, subtracted as the code subtracts them (in
    binary64 arithmetic), and neither the discount nor the final price is
    negative; one customer record was added, and the booking points to
    it. *)
Theorem created_booking_is_consistent env body st resp st' :
  BookingController.createBooking env body st = (Ok resp, st') ->
  BookingController.Response.status resp = 201 ->
  exists d b customerId pr,
    BookingController.CreateBookingDTO.bookingDate body = Some d
    /\ Store.bookings st' = Store.bookings st ++ [b]
    /\ length (Store.customers st') = S (length (Store.customers st))
    /\ Booking.customer b = Some customerId
    /\ Booking.court b = BookingController.CreateBookingDTO.courtId body
    /\ Booking.bookingDate b = JsDate.setUTCMidnight d
    /\ Booking.startTime b = BookingController.CreateBookingDTO.startTime body
    /\ Booking.endTime b = BookingController.CreateBookingDTO.endTime body
    /\ Booking.createdBy b = ByCustomer
    /\ Booking.status b
       = (if bool_decide (BookingController.CreateBookingDTO.paymentStatus body = Some "paid")
          then Confirmed else Pending)
    /\ BookingService.validateBookingTime env (Booking.startTime b) (Booking.endTime b)
         (Booking.bookingDate b) = Ok tt
    /\ Booking.durationHours b
       = BookingService.calculateDuration (Booking.startTime b) (Booking.endTime b)
    /\ PricingService.calculateBookingPrice (tzOffset env) (Store.pricingRules st) d
         (Booking.startTime b) (Booking.endTime b) = Ok pr
    /\ Booking.totalPrice b = PricingService.PriceResult.finalPrice pr
    /\ Booking.pricingBreakdown b = PricingService.PriceResult.breakdown pr
    /\ Booking.finalPrice b
       = JsNumber.sub (Booking.totalPrice b) (Booking.discountAmount b)
    /\ (0 <= Booking.discountAmount b)%Q
    /\ (0 <= Booking.finalPrice b)%Q.
Proof.
  intros H Hst.
  destruct (createBooking_outcome env body st)
    as [(e' & E)|[(x & E)|[(e' & n & E & _)|(d & pr & ps & Hc)]]];
    try (rewrite E in H; discriminate).
  { rewrite E in H. injection H as <- <-. discriminate. }
  cbv zeta in Hc. destruct Hc as (Bd & V & Pr & SV & E).
  rewrite E in H. injection H as <- <-.
  set (c := newCustomer body st) in *.
  set (st1 := Store.withCustomers (Store.withNextId st (N.succ (Store.nextId st)))
                (Store.customers st ++ [c])) in *.
  set (promo := appliedPromo env st1 body (PricingService.PriceResult.finalPrice pr)) in *.
  set (b := newBooking body d (Customer._id c) pr promo ps
              (BookingController.objectId (N.succ (Store.nextId st)))) in *.
  set (st2 := Store.withBookings _ (Store.bookings st ++ [b])) in *.
  set (st3 := match fst (fst promo) with Some _ => _ | None => _ end) in *.
  assert (F3 : Store.bookings st3 = Store.bookings st ++ [b]
               /\ Store.customers st3 = Store.customers st ++ [c]).
  { unfold st3. destruct (fst (fst promo)) as [pid|]; [|split; reflexivity].
    destruct (JsString.truthy pid && _); [|split; reflexivity].
    match goal with
    | |- Store.bookings (snd (PromoCodeService.markAsUsed ?p ?cid ?s)) = _ /\ _ =>
        destruct (markAsUsed_frame p cid s) as (Hb & Hcu & _)
    end.
    rewrite Hb, Hcu. split; reflexivity. }
  destruct F3 as [F3b F3c].
  destruct (incTotalBookings_frame (Customer._id c) st3) as (Hb & _ & _ & _ & _ & Hl).
  exists d, b, (Customer._id c), pr.
  unfold BookingController.schemaValid in SV.
  rewrite !andb_true_iff in SV.
  destruct SV as ((((((_ & _) & _) & _) & Hd) & Hf) & _).
  apply Qle_bool_iff in Hd, Hf.
  destruct (validateBookingTime_ok _ _ _ _ V) as (Hs & He & _).
  destruct (appliedPromo_amounts env st1 body (PricingService.PriceResult.finalPrice pr)
              (calculateBookingPrice_number _ _ _ _ _ _ Hs He Pr))
    as [Ham _].
  split; [exact Bd|]. split; [exact (eq_trans Hb F3b)|]. split.
  { etransitivity; [exact Hl|]. rewrite F3c, length_app. cbn [length]. lia. }
  repeat split; try reflexivity; try assumption.
Qed.

Lemma created_booking_is_consistent_witness :
  exists b,
    Store.bookings (snd (BookingController.createBooking Examples.riyadh
                           Venue.request Venue.store))
    = Store.bookings Venue.store ++ [b]
    /\ Booking.court b = "court1"
    /\ Booking.status b = Confirmed.
Proof.
  destruct (BookingController.createBooking Examples.riyadh Venue.request Venue.store)
    as [r st'] eqn:E.
  destruct r as [resp|e|];
    [|vm_compute in E; discriminate|vm_compute in E; discriminate].
  assert (Hst : BookingController.Response.status resp = 201).
  { vm_compute in E. injection E as <- _. reflexivity. }
  destruct (created_booking_is_consistent Examples.riyadh Venue.request Venue.store
              resp st' E Hst)
    as (d & b & cid & pr & _ & Hb & _ & _ & Hc & _ & _ & _ & _ & Hs & _).
  exists b. split; [exact Hb|]. split; [exact Hc|exact Hs].
Defined.

Lemma findById_exists (l : list PromoCode.t) p :
  In p l -> exists p0, PromoCodeService.findById l (PromoCode._id p) = Some p0.
Proof.
  intros Hin. unfold PromoCodeService.findById.
  destruct (List.find _ l) as [p0|] eqn:F; [eauto|].
  apply find_none with (x := p) in F; [|exact Hin].
  apply bool_decide_eq_false in F. now contradiction F.
Qed.

Lemma appliedPromo_some env st1 body basePrice promoCodeId :
  fst (fst (appliedPromo env st1 body basePrice)) = Some promoCodeId ->
  JsString.truthy promoCodeId = true
  /\ exists p,
       In p (Store.promoCodes st1)
       /\ PromoCode._id p = promoCodeId
       /\ PromoCode.code p
          = JsString.trim
              (JsString.toUpperCase
                 (default "" (BookingController.CreateBookingDTO.promoCode body)))
       /\ (snd (fst (appliedPromo env st1 body basePrice))
           == PromoCodeService.Discount.discount
                (PromoCodeService.calculateDiscount basePrice
                   (PromoCode.discountType p) (PromoCode.discountValue p)))%Q.
Proof.
  unfold appliedPromo.
  destruct (BookingService.optTruthy (BookingController.CreateBookingDTO.promoCode body));
    [|discriminate].
  destruct (PromoCodeService.ValidationResult.valid _) eqn:Vd; [|discriminate].
  destruct (validatePromoCode_valid_inv _ _ _ _ _ _ Vd) as (p & F & ->).
  cbn [PromoCodeService.ValidationResult.promoCodeId
       PromoCodeService.ValidationResult.discount
       PromoCodeService.ValidationResult.finalAmount andb].
  destruct (BookingService.optTruthy (Some (PromoCode._id p))) eqn:T;
    cbn [fst snd]; [|discriminate].
  intros [= <-]. split; [exact T|]. exists p.
  apply findByCode_some in F as [Hin Hc]. rewrite toUpperCase_idempotent in Hc.
  repeat split; try assumption. apply orZero_eq.
Qed.

Lemma truthy_objectId n : JsString.truthy (BookingController.objectId n) = true.
Proof. reflexivity. Qed.

(** X24.  The promo code of a created booking.  When the booking carries
    a promo code, that code is a stored one whose text is the code of the
    request in upper case without the blanks around it, the discount on the
    booking is the one
    [calculateDiscount] gives for the booking's total, and afterwards the new
    customer is recorded in the usage list of a stored code with that id.
    When the booking carries none (no code sent, or a code that validation
    turned down: the booking is created all the same), the discount is 0, the
    final price is the total, and the promo codes are as they were. *)
Theorem promo_is_applied_and_recorded_on_creation env body st resp st' :
  BookingController.createBooking env body st = (Ok resp, st') ->
  BookingController.Response.status resp = 201 ->
  exists b customerId,
    Store.bookings st' = Store.bookings st ++ [b]
    /\ Booking.customer b = Some customerId
    /\ match Booking.promoCode b with
       | Some promoCodeId =>
           exists p q,
             In p (Store.promoCodes st)
             /\ PromoCode._id p = promoCodeId
             /\ PromoCode.code p
                = JsString.trim
                    (JsString.toUpperCase
                       (default "" (BookingController.CreateBookingDTO.promoCode body)))
             /\ (Booking.discountAmount b
                 == PromoCodeService.Discount.discount
                      (PromoCodeService.calculateDiscount (Booking.totalPrice b)
                         (PromoCode.discountType p) (PromoCode.discountValue p)))%Q
             /\ In q (Store.promoCodes st')
             /\ PromoCode._id q = promoCodeId
             /\ In customerId (PromoCode.usedByCustomers q)
       | None =>
           Booking.discountAmount b = 0%Q
           /\ Booking.finalPrice b = Booking.totalPrice b
           /\ Store.promoCodes st' = Store.promoCodes st
       end.
Proof.
  intros H Hst.
  destruct (createBooking_outcome env body st)
    as [(e' & E)|[(x & E)|[(e' & n & E & _)|(d & pr & ps & Hc)]]];
    try (rewrite E in H; discriminate).
  { rewrite E in H. injection H as <- <-. discriminate. }
  cbv zeta in Hc. destruct Hc as (Bd & V & Pr & SV & E).
  rewrite E in H. clear E. injection H as _ Hst'.
  set (c := newCustomer body st) in *.
  set (st1 := Store.withCustomers (Store.withNextId st (N.succ (Store.nextId st)))
                (Store.customers st ++ [c])) in *.
  set (promo := appliedPromo env st1 body (PricingService.PriceResult.finalPrice pr)) in *.
  set (b := newBooking body d (Customer._id c) pr promo ps
              (BookingController.objectId (N.succ (Store.nextId st)))) in *.
  set (st2 := Store.withBookings (Store.withNextId st1 (N.succ (N.succ (Store.nextId st))))
                (Store.bookings st ++ [b])) in *.
  set (st3 := match fst (fst promo) with
              | Some pid =>
                  if JsString.truthy pid && JsString.truthy (Customer._id c)
                  then snd (PromoCodeService.markAsUsed pid (Customer._id c) st2)
                  else st2
              | None => st2
              end) in *.
  assert (Hst4 : st' = snd (BookingController.incTotalBookings (Customer._id c) st3))
    by (symmetry; exact Hst').
  clear Hst'. rewrite Hst4. clear Hst4 st'.
  destruct (incTotalBookings_frame (Customer._id c) st3) as (Hb4 & Hp4 & _).
  exists b, (Customer._id c).
  assert (Hb3 : Store.bookings st3 = Store.bookings st ++ [b]).
  { unfold st3. destruct (fst (fst promo)) as [pid|]; [|reflexivity].
    destruct (JsString.truthy pid && _); [|reflexivity].
    now destruct (markAsUsed_frame pid (Customer._id c) st2) as (-> & _). }
  split; [now rewrite Hb4|]. split; [reflexivity|].
  change (Booking.promoCode b) with (fst (fst promo)).
  change (Booking.discountAmount b) with (snd (fst promo)).
  change (Booking.finalPrice b) with (snd promo).
  change (Booking.totalPrice b) with (PricingService.PriceResult.finalPrice pr).
  destruct (fst (fst promo)) as [pid|] eqn:Pid.
  - destruct (appliedPromo_some _ _ _ _ _ Pid) as (Tp & p & Hin & Hid & Hcode & Hdisc).
    change (Store.promoCodes st1) with (Store.promoCodes st) in Hin.
    assert (H3 : st3 = snd (PromoCodeService.markAsUsed pid (Customer._id c) st2)).
    { unfold st3. rewrite Tp. reflexivity. }
    destruct (findById_exists _ _ Hin) as [p0 F0]. rewrite Hid in F0.
    assert (Hq : exists q, In q (Store.promoCodes st3)
                           /\ PromoCode._id q = pid
                           /\ In (Customer._id c) (PromoCode.usedByCustomers q)).
    { rewrite H3, markAsUsed_store.
      change (Store.promoCodes st2) with (Store.promoCodes st). rewrite F0.
      pose proof (findById_id _ _ _ F0) as Hid0.
      destruct (PromoCodeService.includes _ _) eqn:U.
      - exists p0. split; [|split; [exact Hid0|now apply existsb_includes]].
        unfold PromoCodeService.findById in F0. now apply find_some in F0.
      - cbn [Store.withPromoCodes Store.promoCodes].
        change (Store.promoCodes st2) with (Store.promoCodes st).
        set (p0' := PromoCode.withUsedByCustomers p0 _).
        pose proof (find_save p0 p0' _ pid F0 Hid0) as Fs.
        exists p0'. split; [|split; [exact Hid0|]].
        + unfold PromoCodeService.findById in Fs. now apply find_some in Fs.
        + cbn. apply in_or_app. right. now left. }
    destruct Hq as (q & Hq1 & Hq2 & Hq3).
    exists p, q. rewrite Hp4. repeat split; assumption.
  - destruct (validateBookingTime_ok _ _ _ _ V) as (Hs & He & _).
    destruct (appliedPromo_amounts env st1 body (PricingService.PriceResult.finalPrice pr)
                (calculateBookingPrice_number _ _ _ _ _ _ Hs He Pr))
      as [_ Hn].
    destruct (Hn Pid) as [H1 H2].
    split; [exact H1|]. split; [exact H2|]. rewrite Hp4. reflexivity.
Qed.

Lemma promo_is_applied_and_recorded_on_creation_witness :
  exists b q,
    Store.bookings (snd (BookingController.createBooking Examples.riyadh
                           Venue.request Venue.store))
    = Store.bookings Venue.store ++ [b]
    /\ Booking.promoCode b = Some "p1"
    /\ In q (Store.promoCodes (snd (BookingController.createBooking Examples.riyadh
                                      Venue.request Venue.store)))
    /\ Booking.customer b = Some (BookingController.objectId 0)
    /\ In (BookingController.objectId 0) (PromoCode.usedByCustomers q).
Proof.
  destruct (BookingController.createBooking Examples.riyadh Venue.request Venue.store)
    as [r st'] eqn:E.
  destruct r as [resp|e|];
    [|vm_compute in E; discriminate|vm_compute in E; discriminate].
  assert (Hst : BookingController.Response.status resp = 201).
  { vm_compute in E. injection E as <- _. reflexivity. }
  destruct (promo_is_applied_and_recorded_on_creation Examples.riyadh Venue.request
              Venue.store resp st' E Hst) as (b & cid & Hb & Hc & Hp).
  assert (Eb : Store.bookings st' = Store.bookings Venue.store ++ [b]) by exact Hb.
  vm_compute in E. injection E as _ <-.
  cbn [Store.bookings Venue.store app] in Hb. injection Hb as <-.
  cbn [Booking.promoCode Booking.customer] in Hp, Hc. injection Hc as <-.
  destruct Hp as (p & q & _ & _ & _ & _ & Hq & _ & Hu).
  eexists _, q. split; [reflexivity|]. split; [reflexivity|].
  split; [exact Hq|]. split; [reflexivity|exact Hu].
Defined.

(** *** Cancellation *)

Lemma findBookingById_id (l : list Booking.t) id b :
  BookingController.findBookingById l id = Some b -> Booking._id b = id /\ In b l.
Proof.
  unfold BookingController.findBookingById. intros H.
  apply find_some in H as [Hin H]. now apply bool_decide_eq_true in H.
Qed.

Lemma findBookingById_saved (l : list Booking.t) b b' :
  BookingController.findBookingById l (Booking._id b') = Some b ->
  BookingController.findBookingById (savedBookings b' l) (Booking._id b') = Some b'.
Proof.
  unfold BookingController.findBookingById, savedBookings.
  induction l as [|q l IH]; cbn [map List.find]; [discriminate|].
  destruct (bool_decide (Booking._id q = Booking._id b')) eqn:E.
  - now rewrite bool_decide_eq_true_2.
  - rewrite E. exact IH.
Qed.

(** The ways a call of [cancelBooking] ends. *)
Lemma cancelBooking_outcome_gen id reason st R :
  R = BookingController.cancelBooking id reason st ->
  (BookingController.findBookingById (Store.bookings st) id = None
   /\ R = (Throw (NotFoundError "Booking"), st))
  \/ exists b,
       BookingController.findBookingById (Store.bookings st) id = Some b
       /\ ((Booking.status b = Cancelled
            /\ R
               = (Throw (BadRequestError "Booking is already cancelled"), st))
           \/ (Booking.status b = Completed
               /\ R
                  = (Throw (BadRequestError "Cannot cancel completed booking"), st))
           \/ (Booking.status b <> Cancelled /\ Booking.status b <> Completed
               /\ Booking.customer b = None
               /\ R
                  = (Throw BookingController.InternalError, st))
           \/ (exists customerId,
                 Booking.status b <> Cancelled /\ Booking.status b <> Completed
                 /\ Booking.customer b = Some customerId
                 /\ let b' := BookingController.withStatusNotes b Cancelled
                                (cancelNotes b reason) in
                    let st1 := Store.withBookings st (savedBookings b' (Store.bookings st)) in
                    let st2 :=
                      match Booking.promoCode b with
                      | Some promoCodeId =>
                          snd (PromoCodeService.removeUsage promoCodeId customerId st1)
                      | None => st1
                      end in
                    R
                    = (Ok (BookingController.Response.mk 200 true
                             (BookingController.findBookingById (Store.bookings st2)
                                (Booking._id b'))
                             "Booking cancelled successfully"), st2))).
Proof.
  unfold BookingController.cancelBooking, bindM at 1, getM at 1.
  destruct (BookingController.findBookingById (Store.bookings st) id) as [b|] eqn:F.
  2:{ intros ->. left. split; reflexivity. }
  destruct (bool_decide (Booking.status b = Cancelled)) eqn:S1.
  { intros ->. apply bool_decide_eq_true in S1. right. exists b. split; [reflexivity|].
    left. split; [exact S1|reflexivity]. }
  apply bool_decide_eq_false in S1.
  destruct (bool_decide (Booking.status b = Completed)) eqn:S2.
  { intros ->. apply bool_decide_eq_true in S2. right. exists b. split; [reflexivity|].
    right. left. split; [exact S2|reflexivity]. }
  apply bool_decide_eq_false in S2.
  fold (cancelNotes b reason).
  set (b' := BookingController.withStatusNotes b Cancelled (cancelNotes b reason)).
  unfold bindM at 1. unfold BookingController.saveBooking, bindM at 1, liftM.
  destruct (Booking.customer b) as [customerId|] eqn:C.
  - rewrite (preSave_customer b' customerId) by exact C.
    unfold bindM at 1, getM at 1, putM.
    fold (savedBookings b' (Store.bookings st)).
    unfold bindM at 1.
    change (Booking.promoCode b') with (Booking.promoCode b).
    change (Booking.customer b') with (Booking.customer b). rewrite C.
    intros ->. right. exists b. split; [reflexivity|]. right. right. right.
    exists customerId. split; [exact S1|]. split; [exact S2|]. split; [exact C|].
    cbv zeta. fold b'.
    destruct (Booking.promoCode b) as [promoCodeId|].
    + rewrite removeUsage_run. reflexivity.
    + reflexivity.
  - assert (P : BookingController.preSave b' = Throw BookingController.InternalError).
    { unfold BookingController.preSave.
      change (Booking.status b') with Cancelled.
      change (Booking.customer b') with (Booking.customer b). rewrite C.
      rewrite (bool_decide_eq_false_2 (Cancelled = Blocked)) by discriminate.
      rewrite (bool_decide_eq_false_2 (is_Some None)) by (intros [x Hx]; discriminate).
      reflexivity. }
    rewrite P. intros ->. right. exists b. split; [reflexivity|]. right. right. left.
    split; [exact S1|]. split; [exact S2|]. split; [exact C|reflexivity].
Qed.

(** The ways a call of [cancelBooking] ends. *)
Lemma cancelBooking_outcome id reason st :
  (BookingController.findBookingById (Store.bookings st) id = None
   /\ BookingController.cancelBooking id reason st = (Throw (NotFoundError "Booking"), st))
  \/ exists b,
       BookingController.findBookingById (Store.bookings st) id = Some b
       /\ ((Booking.status b = Cancelled
            /\ BookingController.cancelBooking id reason st
               = (Throw (BadRequestError "Booking is already cancelled"), st))
           \/ (Booking.status b = Completed
               /\ BookingController.cancelBooking id reason st
                  = (Throw (BadRequestError "Cannot cancel completed booking"), st))
           \/ (Booking.status b <> Cancelled /\ Booking.status b <> Completed
               /\ Booking.customer b = None
               /\ BookingController.cancelBooking id reason st
                  = (Throw BookingController.InternalError, st))
           \/ (exists customerId,
                 Booking.status b <> Cancelled /\ Booking.status b <> Completed
                 /\ Booking.customer b = Some customerId
                 /\ let b' := BookingController.withStatusNotes b Cancelled
                                (cancelNotes b reason) in
                    let st1 := Store.withBookings st (savedBookings b' (Store.bookings st)) in
                    let st2 :=
                      match Booking.promoCode b with
                      | Some promoCodeId =>
                          snd (PromoCodeService.removeUsage promoCodeId customerId st1)
                      | None => st1
                      end in
                    BookingController.cancelBooking id reason st
                    = (Ok (BookingController.Response.mk 200 true
                             (BookingController.findBookingById (Store.bookings st2)
                                (Booking._id b'))
                             "Booking cancelled successfully"), st2))).
Proof. now apply cancelBooking_outcome_gen. Qed.

(** X26.  Cancelling a booking that is neither cancelled nor completed,
    that has a customer and whose stored document satisfies the schema (the
    save validates it again) succeeds with status 200: the stored document with
    that id gets the status cancelled (and the reason appended to its notes),
    every other booking, the customers, the courts, the pricing rules and the
    id counter stay as they were, and when the booking carried a promo code
    the customer no longer appears in the usage list of the code with that
    id; without a promo code the promo codes stay as they were. *)
Theorem cancelBooking_cancels_and_releases st id reason b customerId :
  BookingController.findBookingById (Store.bookings st) id = Some b ->
  Booking.status b <> Cancelled ->
  Booking.status b <> Completed ->
  Booking.customer b = Some customerId ->
  BookingController.schemaValid b = true ->
  exists resp st',
    BookingController.cancelBooking id reason st = (Ok resp, st')
    /\ BookingController.Response.status resp = 200
    /\ BookingController.Response.data resp
       = Some (BookingController.withStatusNotes b Cancelled (cancelNotes b reason))
    /\ Store.bookings st'
       = map (fun q => if bool_decide (Booking._id q = id)
                       then BookingController.withStatusNotes b Cancelled
                              (cancelNotes b reason)
                       else q)
           (Store.bookings st)
    /\ Store.customers st' = Store.customers st
    /\ Store.courts st' = Store.courts st
    /\ Store.pricingRules st' = Store.pricingRules st
    /\ Store.nextId st' = Store.nextId st
    /\ match Booking.promoCode b with
       | Some promoCodeId =>
           forall p, PromoCodeService.findById (Store.promoCodes st') promoCodeId = Some p ->
                     ~ In customerId (PromoCode.usedByCustomers p)
       | None => Store.promoCodes st' = Store.promoCodes st
       end.
Proof.
  intros F S1 S2 C _.
  destruct (cancelBooking_outcome id reason st) as [[F0 _]|(b0 & F0 & H)];
    rewrite F in F0; [discriminate|]. injection F0 as <-.
  destruct H as [[H _]|[[H _]|[(_ & _ & H & _)|(cid & _ & _ & C' & H)]]];
    try contradiction; try congruence.
  rewrite C in C'. injection C' as <-. cbv zeta in H.
  destruct (findBookingById_id _ _ _ F) as [Hid _].
  set (b' := BookingController.withStatusNotes b Cancelled (cancelNotes b reason)) in *.
  assert (Hid' : Booking._id b' = id) by exact Hid.
  set (st1 := Store.withBookings st (savedBookings b' (Store.bookings st))) in *.
  assert (Fs : BookingController.findBookingById (Store.bookings st1) (Booking._id b')
               = Some b').
  { apply (findBookingById_saved _ b). now rewrite Hid'. }
  assert (Hmap : Store.bookings st1
                 = map (fun q => if bool_decide (Booking._id q = id) then b' else q)
                     (Store.bookings st)).
  { unfold st1, savedBookings. cbn [Store.withBookings Store.bookings]. now rewrite Hid'. }
  eexists _, _. split; [exact H|].
  destruct (Booking.promoCode b) as [promoCodeId|].
  - rewrite removeUsage_run. cbn [snd].
    destruct (PromoCodeService.findById (Store.promoCodes st1) promoCodeId) as [p|] eqn:Fp.
    + cbn [Store.withPromoCodes Store.bookings Store.customers Store.courts
           Store.pricingRules Store.nextId Store.promoCodes
           BookingController.Response.status BookingController.Response.data].
      rewrite Fs. repeat split; try reflexivity; try exact Hmap.
      intros q Fq.
      pose proof (find_save p
                    (PromoCode.withUsedByCustomers p
                       (List.filter (fun x => negb (bool_decide (x = customerId)))
                          (PromoCode.usedByCustomers p)))
                    _ promoCodeId Fp (findById_id _ _ _ Fp)) as Fs'.
      assert (Eq : Some q = Some (PromoCode.withUsedByCustomers p
                       (List.filter (fun x => negb (bool_decide (x = customerId)))
                          (PromoCode.usedByCustomers p))))
        by (rewrite <- Fq; exact Fs').
      injection Eq as ->. cbn [PromoCode.withUsedByCustomers PromoCode.usedByCustomers].
      intros Hin. apply filter_In in Hin as [_ Hin].
      now rewrite bool_decide_eq_true_2 in Hin.
    + cbn [BookingController.Response.status BookingController.Response.data].
      rewrite Fs. repeat split; try reflexivity; try exact Hmap.
      intros q Fq. rewrite Fp in Fq. discriminate.
  - cbn [BookingController.Response.status BookingController.Response.data].
    rewrite Fs. repeat split; try reflexivity. exact Hmap.
Qed.

Lemma cancelBooking_cancels_and_releases_witness :
  exists resp st',
    BookingController.cancelBooking "b1" (Some "rain") Stores.one = (Ok resp, st')
    /\ BookingController.Response.status resp = 200
    /\ Store.customers st' = Store.customers Stores.one.
Proof.
  destruct (cancelBooking_cancels_and_releases Stores.one "b1" (Some "rain")
              Stores.paid "c1") as (resp & st' & H1 & H2 & _ & _ & H3 & _);
    [reflexivity|discriminate|discriminate|reflexivity|reflexivity|].
  exists resp, st'. auto.
Defined.

(** X27.  A cancellation asked for with an id as the database writes it
    (24 hexadecimal digits, the letters in lower case) that fails changes
    nothing, and, the stored document satisfying the schema, it fails for
    exactly four reasons: no booking has the id (404); the booking is
    already cancelled (400); it is completed (400); or it has no customer,
    as a blocked slot has, in which case the save hook of the booking schema
    refuses the cancelled document and the error surfaces as a 500. *)
Theorem failed_cancelBooking_changes_nothing st id reason e :
  JsString.isCanonicalObjectId id = true ->
  (forall b, BookingController.findBookingById (Store.bookings st) id = Some b ->
             BookingController.schemaValid b = true) ->
  fst (BookingController.cancelBooking id reason st) = Throw e ->
  snd (BookingController.cancelBooking id reason st) = st
  /\ ((BookingController.findBookingById (Store.bookings st) id = None
       /\ e = mkApiError 404 "Booking not found")
      \/ exists b,
           BookingController.findBookingById (Store.bookings st) id = Some b
           /\ ((Booking.status b = Cancelled
                /\ e = mkApiError 400 "Booking is already cancelled")
               \/ (Booking.status b = Completed
                   /\ e = mkApiError 400 "Cannot cancel completed booking")
               \/ (Booking.status b <> Cancelled /\ Booking.status b <> Completed
                   /\ Booking.customer b = None
                   /\ e = BookingController.InternalError))).
Proof.
  intros _ _.
  destruct (cancelBooking_outcome id reason st) as [[F ->]|(b & F & H)].
  - cbn [fst snd]. intros [= <-]. split; [reflexivity|]. left. split; [exact F|reflexivity].
  - destruct H as [[H ->]|[[H ->]|[(H1 & H2 & H3 & ->)|(cid & _ & _ & _ & H)]]];
      cbn [fst snd].
    + intros [= <-]. split; [reflexivity|]. right. exists b. split; [exact F|].
      left. split; [exact H|reflexivity].
    + intros [= <-]. split; [reflexivity|]. right. exists b. split; [exact F|].
      right. left. split; [exact H|reflexivity].
    + intros [= <-]. split; [reflexivity|]. right. exists b. split; [exact F|].
      right. right. repeat split; assumption.
    + cbv zeta in H. rewrite H. discriminate.
Qed.

(** The slot that an admin blocked cannot be cancelled. *)
Lemma failed_cancelBooking_changes_nothing_witness :
  snd (BookingController.cancelBooking Examples.bookingA None Venue.storeA)
  = Venue.storeA.
Proof.
  apply (failed_cancelBooking_changes_nothing Venue.storeA Examples.bookingA None
           BookingController.InternalError).
  - reflexivity.
  - intros b [= <-]. reflexivity.
  - reflexivity.
Defined.

Lemma find_last_match {A} (f : A -> bool) (l : list A) (x : A) :
  List.find f l = None -> f x = true -> List.find f (l ++ [x]) = Some x.
Proof.
  induction l as [|a l IH]; cbn [List.find app]; intros H Hx.
  - now rewrite Hx.
  - destruct (f a); [discriminate|auto].
Qed.

Lemma find_last_none {A} (f : A -> bool) (l : list A) (x : A) :
  List.find f l = None -> f x = false -> List.find f (l ++ [x]) = None.
Proof.
  induction l as [|a l IH]; cbn [List.find app]; intros H Hx.
  - now rewrite Hx.
  - destruct (f a); [discriminate|auto].
Qed.

(** What a call of [createBooking] answered with status 201 has appended. *)
Lemma createBooking_appends env body st resp st' :
  BookingController.createBooking env body st = (Ok resp, st') ->
  BookingController.Response.status resp = 201 ->
  exists b,
    Store.bookings st' = Store.bookings st ++ [b]
    /\ Booking.paymentId b = None
    /\ BookingController.Response.data resp
       = BookingController.findBookingById (Store.bookings st') (Booking._id b).
Proof.
  intros H Hst.
  destruct (createBooking_outcome env body st)
    as [(e' & E)|[(x & E)|[(e' & n & E & _)|(d & pr & ps & Hc)]]];
    try (rewrite E in H; discriminate).
  { rewrite E in H. injection H as <- <-. discriminate. }
  cbv zeta in Hc. destruct Hc as (_ & _ & _ & _ & E).
  set (c := newCustomer body st) in *.
  set (st1 := Store.withCustomers (Store.withNextId st (N.succ (Store.nextId st)))
                (Store.customers st ++ [c])) in *.
  set (promo := appliedPromo env st1 body (PricingService.PriceResult.finalPrice pr)) in *.
  set (b := newBooking body d (Customer._id c) pr promo ps
              (BookingController.objectId (N.succ (Store.nextId st)))) in *.
  set (st2 := Store.withBookings _ (Store.bookings st ++ [b])) in *.
  set (st3 := match fst (fst promo) with Some _ => _ | None => _ end) in *.
  set (st4 := snd (BookingController.incTotalBookings (Customer._id c) st3)) in *.
  assert (Hs : st' = st4).
  { rewrite E in H. injection H as _ Hs. symmetry. exact Hs. }
  assert (Hr : BookingController.Response.data resp
               = BookingController.findBookingById (Store.bookings st4) (Booking._id b)).
  { rewrite E in H. injection H as Hr _. rewrite <- Hr. reflexivity. }
  clear E H. rewrite Hs, Hr. clear Hs Hr st' resp Hst.
  assert (F3 : Store.bookings st3 = Store.bookings st ++ [b]).
  { unfold st3. destruct (fst (fst promo)) as [pid|]; [|reflexivity].
    destruct (JsString.truthy pid && _); [|reflexivity].
    match goal with
    | |- Store.bookings (snd (PromoCodeService.markAsUsed ?p ?cid ?s)) = _ =>
        destruct (markAsUsed_frame p cid s) as (Hb & _)
    end.
    rewrite Hb. reflexivity. }
  destruct (incTotalBookings_frame (Customer._id c) st3) as (Hb & _).
  exists b. split; [exact (eq_trans Hb F3)|]. split; reflexivity.
Qed.

(** X25.  The payment reference of a request is not stored.  The booking
    schema has no path for it, so the booking that a request with a payment
    reference creates carries none; the lookup by that payment id still
    answers 404 after the creation; the lookup by the new document's id
    answers with the document that the creation returned; and a retry of the
    same request, at any later time, is not answered from the duplicate
    check: when it is answered at all, it is answered with status 201 and has
    written a second booking. *)
Theorem payment_reference_is_not_stored env body st resp st' paymentId :
  BookingController.createBooking env body st = (Ok resp, st') ->
  BookingController.Response.status resp = 201 ->
  BookingController.CreateBookingDTO.paymentId body = Some paymentId ->
  JsString.truthy paymentId = true ->
  exists b,
    Store.bookings st' = Store.bookings st ++ [b]
    /\ Booking.paymentId b = None
    /\ BookingController.getBookingByPaymentId paymentId st'
       = (Ok (BookingController.Response.mk 404 false None
                "No booking found with this payment ID"), st')
    /\ BookingController.getBookingById (Booking._id b) st'
       = (Ok (BookingController.Response.mk 200 true
                (BookingController.Response.data resp) ""), st')
    /\ forall env' resp' st'',
         BookingController.createBooking env' body st' = (Ok resp', st'') ->
         BookingController.Response.status resp' = 201
         /\ exists b', Store.bookings st'' = Store.bookings st' ++ [b'].
Proof.
  intros H Hst Hp Ht.
  (* the duplicate check that the first call passed *)
  assert (Pay : BookingController.findBookingByPaymentId (Store.bookings st) paymentId
                = None).
  { pose proof H as H0. unfold BookingController.createBooking in H0.
    destruct (BookingController.CreateBookingDTO.bookingDate body) as [d0|];
      [|discriminate].
    destruct (negb (JsString.truthy (BookingController.CreateBookingDTO.courtId body))
              || _ || _ || _ || _); [discriminate|].
    unfold bindM at 1 in H0. unfold getM at 1 in H0.
    rewrite Hp in H0.
    cbn [BookingService.optTruthy from_option Datatypes.id] in H0.
    rewrite Ht in H0.
    destruct (BookingController.findBookingByPaymentId (Store.bookings st) paymentId)
      as [existing|]; [|reflexivity].
    injection H0 as <- <-. discriminate Hst. }
  destruct (createBooking_appends _ _ _ _ _ H Hst) as (b & B4 & Pb & Hr).
  assert (Fp : BookingController.findBookingByPaymentId (Store.bookings st') paymentId
               = None).
  { rewrite B4. apply find_last_none; [exact Pay|].
    apply bool_decide_eq_false. rewrite Pb. discriminate. }
  exists b. split; [exact B4|]. split; [exact Pb|]. split; [|split].
  - unfold BookingController.getBookingByPaymentId, bindM, getM. cbv beta iota.
    rewrite Fp. reflexivity.
  - unfold BookingController.getBookingById, bindM, getM. cbv beta iota.
    rewrite Hr.
    destruct (BookingController.findBookingById (Store.bookings st') (Booking._id b))
      as [x|] eqn:Fx; [reflexivity|].
    exfalso. unfold BookingController.findBookingById in Fx.
    apply find_none with (x := b) in Fx.
    + apply bool_decide_eq_false in Fx. now apply Fx.
    + rewrite B4. apply in_or_app. right. now left.
  - intros env' resp' st'' H'.
    destruct (createBooking_outcome_gen env' body st' _ eq_refl)
      as [(e' & E)|[(x & Pay' & E)|[(e' & n & E & _)|(d & pr & ps & Hc)]]];
      try (rewrite E in H'; discriminate).
    { rewrite Hp in Pay'.
      cbn [BookingService.optTruthy from_option Datatypes.id] in Pay'.
      rewrite Ht, Fp in Pay'. discriminate. }
    assert (Hst' : BookingController.Response.status resp' = 201).
    { cbv zeta in Hc. destruct Hc as (_ & _ & _ & _ & E).
      rewrite E in H'. injection H' as <- _. reflexivity. }
    split; [exact Hst'|].
    destruct (createBooking_appends _ _ _ _ _ H' Hst') as (b' & B' & _).
    now exists b'.
Qed.

Lemma payment_reference_is_not_stored_witness :
  exists b,
    Store.bookings (snd (BookingController.createBooking Examples.riyadh
                           Venue.request Venue.store))
    = Store.bookings Venue.store ++ [b]
    /\ Booking.paymentId b = None
    /\ BookingController.getBookingByPaymentId "pay_1"
         (snd (BookingController.createBooking Examples.riyadh Venue.request Venue.store))
       = (Ok (BookingController.Response.mk 404 false None
                "No booking found with this payment ID"),
          snd (BookingController.createBooking Examples.riyadh Venue.request Venue.store)).
Proof.
  destruct (BookingController.createBooking Examples.riyadh Venue.request Venue.store)
    as [r st'] eqn:E.
  destruct r as [resp|e|];
    [|vm_compute in E; discriminate|vm_compute in E; discriminate].
  assert (Hst : BookingController.Response.status resp = 201).
  { vm_compute in E. injection E as <- _. reflexivity. }
  destruct (payment_reference_is_not_stored Examples.riyadh Venue.request Venue.store
              resp st' "pay_1" E Hst eq_refl eq_refl)
    as (b & Hb & Hp & Hg & _).
  exists b. cbn [snd]. split; [exact Hb|]. split; [exact Hp|exact Hg].
Defined.

(** The retry of the venue's request on the server of the examples: the
    first booking does not block it (it is stored under midnight UTC), the
    duplicate check does not see the payment reference, and a second booking
    of the same court and time is written. *)
Lemma retried_request_books_twice :
  let st' := snd (BookingController.createBooking Examples.riyadh Venue.request
                    Venue.store) in
  let st'' := snd (BookingController.createBooking Examples.riyadh Venue.request st') in
  length (Store.bookings st') = 1%nat
  /\ length (Store.bookings st'') = 2%nat
  /\ map Booking.court (Store.bookings st'') = ["court1"; "court1"]
  /\ map Booking.startTime (Store.bookings st'') = ["18:00"; "18:00"].
Proof. vm_compute. repeat split. Qed.

(** ** Status updates and lookups *)

(** X28.  An admin status update of a booking that is neither cancelled
    nor completed, has a customer and satisfies the schema succeeds for every
    status of the schema's enum and rewrites that one document only: the
    customers, the courts, the pricing rules and above all the promo codes
    stay as they were.  So a booking moved to cancelled this way keeps its
    promo code consumed, and since [cancelBooking] refuses a cancelled
    booking, the usage can no longer be released through the cancel
    endpoint. *)
Theorem status_update_keeps_promo_usage
    st id status status' notes b customerId :
  BookingController.findBookingById (Store.bookings st) id = Some b ->
  Booking.status b <> Cancelled ->
  Booking.status b <> Completed ->
  Booking.customer b = Some customerId ->
  BookingController.schemaValid b = true ->
  BookingController.parseBookingStatus status = Some status' ->
  let b' := BookingController.withStatusNotes b status'
              (if BookingService.optTruthy notes then notes else Booking.notes b) in
  let st' := Store.withBookings st (savedBookings b' (Store.bookings st)) in
  BookingController.updateBookingStatus id (Some status) notes st
  = (Ok (BookingController.Response.mk 200 true (Some b')
           "Booking status updated successfully"), st')
  /\ Store.promoCodes st' = Store.promoCodes st
  /\ (status' = Cancelled ->
      forall reason,
        BookingController.cancelBooking id reason st'
        = (Throw (BadRequestError "Booking is already cancelled"), st')).
Proof.
  intros F S1 S2 C SV P b' st'.
  destruct (findBookingById_id _ _ _ F) as [Hid _].
  assert (Hid' : Booking._id b' = id) by exact Hid.
  assert (Fs : BookingController.findBookingById (Store.bookings st') id = Some b').
  { rewrite <- Hid'. apply (findBookingById_saved _ b). now rewrite Hid'. }
  split; [|split; [reflexivity|]].
  - unfold BookingController.updateBookingStatus.
    assert (T : BookingService.optTruthy (Some status) = true).
    { unfold BookingController.parseBookingStatus in P.
      destruct status; [discriminate|reflexivity]. }
    rewrite T. cbn [negb]. unfold bindM at 1, getM at 1. rewrite F.
    rewrite (bool_decide_eq_false_2 _ S1), (bool_decide_eq_false_2 _ S2).
    cbn [from_option Datatypes.id]. rewrite P. fold b'.
    change (BookingController.schemaValid b') with (BookingController.schemaValid b).
    rewrite SV. cbn [negb].
    unfold bindM at 1. unfold BookingController.saveBooking, bindM at 1, liftM.
    rewrite (preSave_customer b' customerId) by exact C.
    unfold bindM, getM, putM, retM. fold (savedBookings b' (Store.bookings st)).
    fold st'. rewrite Hid', Fs. reflexivity.
  - intros -> reason.
    destruct (cancelBooking_outcome id reason st') as [[F0 _]|(b0 & F0 & H)];
      rewrite Fs in F0; [discriminate|]. injection F0 as <-.
    destruct H as [[_ H]|[[H _]|[(H & _)|(cid & H & _)]]];
      [exact H|discriminate H|now contradiction H|now contradiction H].
Qed.

Lemma status_update_keeps_promo_usage_witness :
  BookingController.cancelBooking "b1" None Stores.oneCancelled
  = (Throw (BadRequestError "Booking is already cancelled"), Stores.oneCancelled).
Proof.
  refine (proj2 (proj2 (status_update_keeps_promo_usage Stores.one "b1" "cancelled"
                          Cancelled None Stores.paid "c1" _ _ _ _ _ _))
            eq_refl None).
  - reflexivity.
  - intros H; discriminate H.
  - intros H; discriminate H.
  - reflexivity.
  - reflexivity.
  - reflexivity.
Defined.

(** ** The availability endpoints *)

(** The entries of a batch result for listed courts. *)
Lemma batch_lookup env bookings bookingDate timeSlots courtIds result :
  BookingService.checkBatchAvailability env bookings
    (BookingService.BatchAvailabilityDTO.mk bookingDate timeSlots (Some courtIds))
  = Ok result ->
  (forall courtId, is_Some (result !! courtId) <-> In courtId courtIds)
  /\ (forall courtId inner,
        result !! courtId = Some inner ->
        forall k, is_Some (inner !! k)
                  <-> exists slot, In slot timeSlots
                                   /\ BookingService.timeSlotKey slot = k).
Proof.
  intros H. unfold BookingService.checkBatchAvailability in H.
  cbn [BookingService.BatchAvailabilityDTO.bookingDate
       BookingService.BatchAvailabilityDTO.timeSlots
       BookingService.BatchAvailabilityDTO.courtIds] in H.
  destruct (foldl _ (Ok tt) timeSlots) as [[]| |] eqn:V; try discriminate.
  cbn [mbind Result_bind] in H. injection H as <-. split.
  - intros courtId. rewrite result_fold_lookup, lookup_empty.
    destruct (bool_decide (courtId ∈ courtIds)) eqn:E.
    + apply bool_decide_eq_true in E. apply list_elem_of_In in E.
      split; [intros _; exact E|intros _; eauto].
    + apply bool_decide_eq_false in E. split.
      * intros [x Hx]. discriminate.
      * intros Hin. exfalso. apply E. now apply list_elem_of_In.
  - intros courtId inner. rewrite result_fold_lookup, lookup_empty.
    destruct (bool_decide (courtId ∈ courtIds)); [|discriminate].
    intros [= <-] k. apply inner_fold_keys.
Qed.

Lemma isActiveCourt_spec court :
  BookingController.isActiveCourt court = true <-> Court.status court = CourtActive.
Proof.
  unfold BookingController.isActiveCourt. destruct (Court.status court); split;
    congruence.
Qed.

(** X29.  Through the endpoint, a batch check without court ids (none
    sent, or an empty list) answers for every active court of the venue, and
    for no other court, with an entry for every requested slot; a court
    without any booking is listed too.  The call writes nothing. *)
Theorem batch_endpoint_lists_every_active_court
    env st bookingDate timeSlots courtIds result st' :
  courtIds = None \/ courtIds = Some [] ->
  BookingController.checkBatchAvailability env (Some bookingDate) (Some timeSlots)
    courtIds st = (Ok result, st') ->
  st' = st
  /\ (forall courtId,
        is_Some (result !! courtId)
        <-> exists court, In court (Store.courts st)
                          /\ Court._id court = courtId
                          /\ Court.status court = CourtActive)
  /\ (forall courtId inner,
        result !! courtId = Some inner ->
        forall slot, In slot timeSlots ->
                     is_Some (inner !! BookingService.timeSlotKey slot)).
Proof.
  intros Hc H. unfold BookingController.checkBatchAvailability in H.
  destruct timeSlots as [|slot slots]; [discriminate|].
  destruct (existsb _ (slot :: slots)); [discriminate|].
  unfold bindM, getM, liftM in H.
  assert (H' : (BookingService.checkBatchAvailability env (Store.bookings st)
                  (BookingService.BatchAvailabilityDTO.mk bookingDate (slot :: slots)
                     (Some (map Court._id
                              (List.filter BookingController.isActiveCourt
                                 (Store.courts st))))), st)
               = (Ok result, st')).
  { destruct Hc as [-> | ->]; exact H. }
  clear H. injection H' as H <-. split; [reflexivity|].
  destruct (batch_lookup _ _ _ _ _ _ H) as [K1 K2]. split.
  - intros courtId. rewrite K1, in_map_iff. split.
    + intros (court & Hid & Hin). apply filter_In in Hin as [Hin Ha].
      apply isActiveCourt_spec in Ha. eauto.
    + intros (court & Hin & Hid & Ha). exists court. split; [exact Hid|].
      apply filter_In. split; [exact Hin|]. now apply isActiveCourt_spec.
  - intros courtId inner Hl s Hs. apply (K2 courtId inner Hl). eauto.
Qed.

Lemma batch_endpoint_lists_every_active_court_witness :
  is_Some
    (({[ "court1" :=
           {[ "19:00-21:00" :=
                BookingService.SlotAvailability.mk true "19:00" "21:00" ]} ]}
      : gmap string (gmap string BookingService.SlotAvailability.t))
     !! "court1").
Proof.
  apply (batch_endpoint_lists_every_active_court Examples.riyadh Venue.store
           Examples.feb12 [BookingService.TimeSlotDTO.mk "19:00" "21:00"] None
           _ Venue.store).
  - now left.
  - vm_compute. reflexivity.
  - exists Stores.court1. split; [now left|]. split; reflexivity.
Defined.

Lemma NoDup_map_filter {A B} (f : A -> B) (P : A -> bool) (l : list A) :
  List.NoDup (map f l) -> List.NoDup (map f (List.filter P l)).
Proof.
  induction l as [|a l IH]; cbn [map List.filter]; [auto|].
  intros Hnd. apply NoDup_cons_iff in Hnd as [Ha Hnd].
  destruct (P a); cbn [map]; [|auto].
  constructor; [|auto]. intros Hin. apply Ha.
  apply in_map_iff in Hin as (x & Hx & Hin). apply filter_In in Hin as [Hin _].
  rewrite <- Hx. now apply in_map.
Qed.

(** The courts that the endpoint fetches for a list of ids are as many as
    the ids exactly when the ids are distinct ids of active courts. *)
Lemma fetched_courts_count (courts : list Court.t) (courtIds : list string) :
  List.NoDup (map Court._id courts) ->
  length (List.filter (fun court => bool_decide (Court._id court ∈ courtIds)
                                    && BookingController.isActiveCourt court) courts)
  = length courtIds
  <-> List.NoDup courtIds
      /\ forall courtId, In courtId courtIds ->
                         exists court, In court courts
                                       /\ Court._id court = courtId
                                       /\ Court.status court = CourtActive.
Proof.
  intros Hnd.
  set (L := List.filter _ courts).
  assert (HL : List.NoDup (map Court._id L)) by now apply NoDup_map_filter.
  assert (Hin : forall x, In x (map Court._id L)
                          <-> In x courtIds
                              /\ exists court, In court courts
                                               /\ Court._id court = x
                                               /\ Court.status court = CourtActive).
  { intros x. rewrite in_map_iff. split.
    - intros (court & <- & Hc). apply filter_In in Hc as [Hc Hp].
      apply andb_true_iff in Hp as [Hp Ha]. apply bool_decide_eq_true in Hp.
      apply list_elem_of_In in Hp. apply isActiveCourt_spec in Ha.
      split; [exact Hp|]. eauto.
    - intros (Hx & court & Hc & <- & Ha). exists court. split; [reflexivity|].
      apply filter_In. split; [exact Hc|]. apply andb_true_iff. split.
      + apply bool_decide_eq_true. now apply list_elem_of_In.
      + now apply isActiveCourt_spec. }
  rewrite <- (length_map Court._id L). split.
  - intros Hlen.
    assert (P : Permutation (map Court._id L) courtIds).
    { apply Stdlib.Sorting.Permutation.NoDup_Permutation_bis; [exact HL|lia|].
      intros x Hx. now apply Hin in Hx as [Hx _]. }
    split; [exact (Stdlib.Sorting.Permutation.Permutation_NoDup P HL)|].
    intros c Hc. apply (Permutation_in _ (Permutation_sym P)) in Hc.
    now apply Hin in Hc as [_ Hc].
  - intros [Hids Hact]. apply Permutation_length.
    apply Stdlib.Sorting.Permutation.NoDup_Permutation; [exact HL|exact Hids|].
    intros x. rewrite Hin. split; [tauto|]. intros Hx. split; [exact Hx|auto].
Qed.

(** X30.  Through the endpoint, a batch check with a non-empty list of
    court ids, each a string of 24 hexadecimal digits, is refused with "One
    or more courts not found or inactive" exactly when the ids, read as the
    database reads them (the letters in lower case), are not pairwise
    distinct ids of active courts: an unknown id, the id of a court that is
    not active, or an id listed twice, be it in two spellings, each make the
    request fail (court ids are unique in the store). *)
Theorem batch_endpoint_wants_distinct_active_courts
    env st bookingDate timeSlots courtIds :
  List.NoDup (map Court._id (Store.courts st)) ->
  timeSlots <> [] ->
  courtIds <> [] ->
  (forall slot, In slot timeSlots ->
                JsString.truthy (BookingService.TimeSlotDTO.startTime slot) = true
                /\ JsString.truthy (BookingService.TimeSlotDTO.endTime slot) = true) ->
  (forall courtId, In courtId courtIds ->
                   JsString.isObjectIdString courtId = true) ->
  BookingController.checkBatchAvailability env (Some bookingDate) (Some timeSlots)
    (Some courtIds) st
  = (Throw (BadRequestError "One or more courts not found or inactive"), st)
  <-> ~ (List.NoDup (map BookingController.toLowerCase courtIds)
         /\ forall courtId, In courtId courtIds ->
                            exists court,
                              In court (Store.courts st)
                              /\ Court._id court = BookingController.toLowerCase courtId
                              /\ Court.status court = CourtActive).
Proof.
  intros Hnd Hts Hcs Hslots Hids.
  unfold BookingController.checkBatchAvailability.
  destruct timeSlots as [|slot slots]; [contradiction|].
  replace (existsb _ (slot :: slots)) with false.
  2:{ symmetry. apply not_true_is_false. intros E.
      apply existsb_exists in E as (s & Hs & E).
      destruct (Hslots s Hs) as [H1 H2]. rewrite H1, H2 in E. discriminate. }
  destruct courtIds as [|c cs]; [contradiction|].
  unfold bindM, getM, liftM.
  replace (forallb JsString.isObjectIdString (c :: cs)) with true
    by (symmetry; apply forallb_forall; exact Hids).
  cbn [negb].
  pose proof (fetched_courts_count (Store.courts st)
                (map BookingController.toLowerCase (c :: cs)) Hnd) as Hcount.
  rewrite length_map in Hcount.
  assert (Hgood :
    (List.NoDup (map BookingController.toLowerCase (c :: cs))
     /\ forall courtId, In courtId (map BookingController.toLowerCase (c :: cs)) ->
                        exists court, In court (Store.courts st)
                                      /\ Court._id court = courtId
                                      /\ Court.status court = CourtActive)
    <-> (List.NoDup (map BookingController.toLowerCase (c :: cs))
         /\ forall courtId, In courtId (c :: cs) ->
                            exists court,
                              In court (Store.courts st)
                              /\ Court._id court = BookingController.toLowerCase courtId
                              /\ Court.status court = CourtActive)).
  { split; intros [G1 G2]; (split; [exact G1|]).
    - intros courtId Hin. apply G2. now apply in_map.
    - intros x Hx. apply in_map_iff in Hx as (courtId & <- & Hin). now apply G2. }
  rewrite Hgood in Hcount. clear Hgood.
  destruct (length _ =? length (c :: cs))%nat eqn:E; cbn [negb].
  - apply Nat.eqb_eq in E. apply Hcount in E. split; [|contradiction].
    intros H. exfalso.
    destruct (BookingService.checkBatchAvailability _ _ _) as [r|e|] eqn:B;
      try discriminate.
    injection H as H.
    unfold BookingService.checkBatchAvailability in B.
    cbn [BookingService.BatchAvailabilityDTO.timeSlots] in B.
    destruct (foldl _ (Ok tt) (slot :: slots)) as [[]|e'|] eqn:V;
      cbn [mbind Result_bind] in B; try discriminate.
    injection B as ->.
    assert (V' : exists t, e = mkApiError 400
                               ("Invalid time format: " +:+ t +:+ ". Expected HH:MM")).
    { clear - V. revert V. generalize (slot :: slots). intros l.
      assert (G : forall acc, foldl (fun acc slot =>
                    _ ← acc;
                    _ ← BookingService.validateTimeFormat
                          (BookingService.TimeSlotDTO.startTime slot);
                    BookingService.validateTimeFormat
                      (BookingService.TimeSlotDTO.endTime slot)) acc l = Throw e ->
                  acc = Throw e
                  \/ exists t, e = mkApiError 400
                                     ("Invalid time format: " +:+ t +:+ ". Expected HH:MM")).
      { induction l as [|s l IH]; intros acc; cbn [foldl]; [auto|].
        intros H. apply IH in H as [H|H]; [|now right].
        destruct acc as [[]|e0|]; cbn [mbind Result_bind] in H;
          [|now left|discriminate].
        rewrite !validateTimeFormat_cases in H.
        destruct (BookingService.timeRegex (BookingService.TimeSlotDTO.startTime s));
          cbn [mbind Result_bind] in H; [|injection H as <-; right; eauto].
        destruct (BookingService.timeRegex (BookingService.TimeSlotDTO.endTime s));
          [discriminate|injection H as <-; right; eauto]. }
      intros V. apply G in V as [V|V]; [discriminate|exact V]. }
    destruct V' as [t Ht]. rewrite Ht in H.
    apply (f_equal message) in H. cbn [message BadRequestError] in H.
    revert H. string_app. discriminate.
  - apply Nat.eqb_neq in E. split; [|reflexivity].
    intros _ Hgood. apply E. now apply Hcount.
Qed.

(** One court asked for in two spellings of its id. *)
Lemma batch_endpoint_wants_distinct_active_courts_witness :
  BookingController.checkBatchAvailability Examples.riyadh (Some Examples.feb12)
    (Some [BookingService.TimeSlotDTO.mk "19:00" "21:00"])
    (Some ["65A1B2C3D4E5F60718293A4B"; Examples.courtA]) Venue.storeA
  = (Throw (BadRequestError "One or more courts not found or inactive"), Venue.storeA).
Proof.
  apply (batch_endpoint_wants_distinct_active_courts Examples.riyadh Venue.storeA
           Examples.feb12 [BookingService.TimeSlotDTO.mk "19:00" "21:00"]
           ["65A1B2C3D4E5F60718293A4B"; Examples.courtA]).
  - cbn. constructor; [intros []|constructor].
  - discriminate.
  - discriminate.
  - intros slot [<-|[]]. split; reflexivity.
  - intros courtId [<-|[<-|[]]]; reflexivity.
  - intros [Hnd _]. apply NoDup_cons_iff in Hnd as [Hn _]. apply Hn. now left.
Defined.

(** An id in upper case passes the check of the courts, and the batch
    result then lists it as sent: the bookings of the court are grouped
    under its id in lower case, so the slot that is taken is reported
    available. *)
Lemma batch_endpoint_misses_bookings_of_upper_case_ids :
  let taken := Store.withBookings Venue.storeA
                 [Examples.booking Examples.bookingA Examples.courtA
                    (JsDate.localMidnight 10800000 2026 2 12) "18:00" "20:00"
                    Confirmed] in
  exists result inner sa,
    BookingController.checkBatchAvailability Examples.riyadh (Some Examples.feb12)
      (Some [BookingService.TimeSlotDTO.mk "19:00" "21:00"])
      (Some ["65A1B2C3D4E5F60718293A4B"]) taken
    = (Ok result, taken)
    /\ result !! "65A1B2C3D4E5F60718293A4B" = Some inner
    /\ inner !! "19:00-21:00" = Some sa
    /\ BookingService.SlotAvailability.available sa = true.
Proof.
  cbv zeta. eexists _, _, _.
  split; [vm_compute; reflexivity|].
  split; [vm_compute; reflexivity|]. split; vm_compute; reflexivity.
Qed.

